(** * fnerd-falconpy: RTR session-and-transfer engine and collection state machines

    A shallow embedding of the Python sources under [fnerd_falconpy/] and the
    properties of its specification that they satisfy (or break).

    Conventions of the embedding.
    - Python [str] values are [string]s of 8-bit characters; digits, letters
      and blanks are those of ASCII, other characters are opaque symbols.
    - Wall-clock readings ([time.time()]) and durations are rationals [Q].
    - Every interaction with the outside world (the RTR control plane, object
      storage, the clock) is answered by an environment [Env] indexed by the
      number of interactions made so far, and is recorded in a trace.
    - Unbounded [while] loops take a fuel argument; a run that exhausts it
      ends in [OutOfFuel], which is never read as a result of the program. *)

From Stdlib Require Import QArith Qminmax.
From stdpp Require Import gmap strings list fin_maps.
From Stdlib Require Import Ascii String DecimalString.

Local Open Scope string_scope.
Local Open Scope Z_scope.

(* Let [simpl] compute string concatenation on constructors. *)
Local Arguments String.append !s1 s2 : simpl nomatch.

(** ** Python string operations *)

Module Py.

(** [c.isspace()] on ASCII: the blank, [\t\n\v\f\r] and the four
    separators [\x1c] to [\x1f]. *)
Definition is_space (c : ascii) : bool :=
    let n := nat_of_ascii c in
    Nat.eqb n 32 || (Nat.leb 9 n && Nat.leb n 13) || (Nat.leb 28 n && Nat.leb n 31).

Definition is_digit (c : ascii) : bool :=
    let n := nat_of_ascii c in Nat.leb 48 n && Nat.leb n 57.

Definition is_upper (c : ascii) : bool :=
    let n := nat_of_ascii c in Nat.leb 65 n && Nat.leb n 90.

Definition is_lower (c : ascii) : bool :=
    let n := nat_of_ascii c in Nat.leb 97 n && Nat.leb n 122.

Definition is_alnum (c : ascii) : bool := is_digit c || is_upper c || is_lower c.

  (** [\w] of the [re] module, on 8-bit text. *)
Definition is_word (c : ascii) : bool := is_alnum c || Ascii.eqb c "_"%char.

Fixpoint all_chars (p : ascii -> bool) (s : string) : bool :=
    match s with
    | EmptyString => true
    | String c r => p c && all_chars p r
    end.

  (** [bool(s)]: a string is truthy when it is not empty. *)
Definition truthy (s : string) : bool :=
    match s with EmptyString => false | _ => true end.

Fixpoint startswith (p s : string) : bool :=
    match p, s with
    | EmptyString, _ => true
    | String a p', String b s' => Ascii.eqb a b && startswith p' s'
    | String _ _, EmptyString => false
    end.

  (** [needle in hay]. *)
Fixpoint contains (needle hay : string) : bool :=
    startswith needle hay ||
    match hay with
    | EmptyString => false
    | String _ r => contains needle r
    end.

Fixpoint rev_acc (s acc : string) : string :=
    match s with
    | EmptyString => acc
    | String c r => rev_acc r (String c acc)
    end.

Definition rev (s : string) : string := rev_acc s EmptyString.

Definition endswith (suffix s : string) : bool :=
    startswith (rev suffix) (rev s).

Fixpoint lstrip (s : string) : string :=
    match s with
    | String c r => if is_space c then lstrip r else s
    | EmptyString => EmptyString
    end.

Definition strip (s : string) : string := rev (lstrip (rev (lstrip s))).

  (** [s.isdigit()] on 8-bit text: non-empty and decimal digits only. *)
Definition isdigit (s : string) : bool := truthy s && all_chars is_digit s.

Definition digit_val (c : ascii) : Z := Z.of_nat (nat_of_ascii c) - 48.

Fixpoint int_acc (s : string) (acc : Z) : Z :=
    match s with
    | EmptyString => acc
    | String c r => int_acc r (10 * acc + digit_val c)
    end.

  (** [int(s)] for an [s] that passed [isdigit]. *)
Definition int (s : string) : Z := int_acc s 0.

(** The digits of a decimal literal, with single underscores allowed
    between digits. *)
Fixpoint int_digits (s : string) (after_digit : bool) (acc : Z) : option Z :=
    match s with
    | EmptyString => if after_digit then Some acc else None
    | String c r =>
        if is_digit c then int_digits r true (10 * acc + digit_val c)
        else if Ascii.eqb c "_"%char && after_digit then int_digits r false acc
        else None
    end.

(** [int(s)] on any text: blanks around, an optional sign, then the
    digits; [None] is its [ValueError]. *)
Definition int_opt (s : string) : option Z :=
    match strip s with
    | String "-"%char r => option_map Z.opp (int_digits r false 0)
    | String "+"%char r => int_digits r false 0
    | t => int_digits t false 0
    end.

(** The double-quote character, as a string. *)
Definition dquote : string := String (ascii_of_nat 34) EmptyString.

(** [str(n)] of an integer. *)
Definition str_int (n : Z) : string := NilZero.string_of_int (Z.to_int n).

Definition lower_char (c : ascii) : ascii :=
    if is_upper c then ascii_of_nat (nat_of_ascii c + 32) else c.

Fixpoint lower (s : string) : string :=
    match s with
    | EmptyString => EmptyString
    | String c r => String (lower_char c) (lower r)
    end.

  (** [s.split(sep)] for a one-character separator. *)
Fixpoint split_on (sep : ascii) (s : string) : list string :=
    match s with
    | EmptyString => [EmptyString]
    | String c r =>
        if Ascii.eqb c sep then EmptyString :: split_on sep r
        else match split_on sep r with
             | h :: t => String c h :: t
             | [] => [String c EmptyString]
             end
    end.

Definition newline : ascii := ascii_of_nat 10.

  (** [s.split()]: the maximal runs of non-whitespace characters. *)
Fixpoint split_ws_aux (s : string) (cur : string) : list string :=
    match s with
    | EmptyString => if truthy cur then [rev cur] else []
    | String c r =>
        if is_space c
        then (if truthy cur then rev cur :: split_ws_aux r EmptyString
              else split_ws_aux r EmptyString)
        else split_ws_aux r (String c cur)
    end.

Definition split_ws (s : string) : list string := split_ws_aux s EmptyString.

Fixpoint join (sep : string) (l : list string) : string :=
    match l with
    | [] => EmptyString
    | [x] => x
    | x :: r => x ++ sep ++ join sep r
    end.

Fixpoint drop (n : nat) (s : string) : string :=
    match n, s with
    | O, _ => s
    | S n', String _ r => drop n' r
    | S _, EmptyString => EmptyString
    end.

  (** [s.replace(old, new)] for a non-empty [old]: occurrences are replaced
      from the left and do not overlap.  [skip] counts the characters of an
      occurrence that are still to be passed over. *)
Fixpoint replace_from (old new : string) (skip : nat) (s : string) : string :=
    match s with
    | EmptyString => EmptyString
    | String c r =>
        match skip with
        | S k => replace_from old new k r
        | O =>
            if startswith old s
            then new ++ replace_from old new (String.length old - 1) r
            else String c (replace_from old new O r)
        end
    end.

Definition replace (old new s : string) : string := replace_from old new O s.

End Py.

(** ** Data model ([core/base.py]) *)

Record HostInfo := mkHost {
  hostname : string;
  aid : string;
  cid : string;
  os_name : string;
  os_version : string;
  cpu_name : string;
  platform : string
}.

Inductive Platform := WINDOWS | MAC | LINUX.

(** [Platform(value)]: the enum lookup raises [ValueError] on any other
    value, rendered here as [None]. *)
Definition Platform_of (value : string) : option Platform :=
  if String.eqb value "windows" then Some WINDOWS
  else if String.eqb value "mac" then Some MAC
  else if String.eqb value "linux" then Some LINUX
  else None.

Record RTRSession := mkSession {
  session_id : string;
  device_id : string;
  status_code : Z
}.

Record CommandResult := mkResult {
  stdout : string;
  stderr : string;
  return_code : Z;
  cloud_request_id : string;
  complete : bool
}.

(** A command handed to the RTR channel. *)
Record Cmd := mkCmd {
  base_command : string;
  command_string : string;
  is_admin : bool
}.

(** *** Responses of the vendor REST surface, as the code inspects them *)

(** Answer to a command submission: [status_code] and, when present,
    [body.resources[0].cloud_request_id]. *)
Record SubmitResponse := mkSubmit {
  submit_status : Z;
  submit_request_id : option string
}.

(** [body.resources[0]] of a status answer; a missing key is [None]. *)
Record StatusResource := mkStatus {
  res_complete : option bool;
  res_stdout : option string;
  res_stderr : option string
}.

(** One entry of [list_files_v2]. *)
Record SessionFile := mkFile {
  file_request_id : option string;
  file_sha256 : option string
}.

Record FilesResponse := mkFiles {
  files_status : Z;
  files_resources : option (list SessionFile)
}.

(** What [get_extracted_file_contents] hands back: the bytes, an error
    dictionary (with the message of its first error, when it has one), or
    anything else. *)
Inductive Extracted :=
| ExBytes (content : string)
| ExError (message : option string)
| ExOther.

(** [head_object]: the object's [ContentLength], a [ClientError] with its
    code, or any other exception. *)
Inductive HeadResponse :=
| HeadOk (content_length : Z)
| HeadClientError (code : string)
| HeadException.

(** [body.resources[0]] of a host-details answer; a missing key is [None]. *)
Record HostResource := mkHostResource {
  r_hostname : option string;
  r_aid : option string;
  r_device_id : option string;
  r_cid : option string;
  r_platform_name : option string;
  r_os_version : option string;
  r_cpu_processor_name : option string
}.

(** A host-details answer: nothing (or an empty dictionary), a dictionary
    without [body], or a body with its [resources] (when it has the key). *)
Inductive HostData :=
| NoHostData
| NoBody
| HostBody (resources : option (list HostResource)).

(** One entry of [get_put_files_v2]; a missing key is [None]. *)
Record PutFile := mkPutFile {
  pf_name : option string;
  pf_id : option string
}.

(** What [body.meta] of a write answer holds under [writes]: no such
    entry (or no [meta], or no [body]), an entry without
    [resources_affected], or the counter. *)
Inductive Writes :=
| NoWrites
| WritesEmpty
| Affected (n : Z).

(** Answer to a write on the put-file repository: does the body list
    errors, and what it reports under [writes]. *)
Record WriteResponse := mkWrite {
  wr_errors : bool;
  wr_writes : Writes
}.

(** [body.meta.writes.resources_affected] when it is there. *)
Definition wr_affected (r : WriteResponse) : option Z :=
  match wr_writes r with
  | Affected n => Some n
  | _ => None
  end.

(** A file on the operator's disk: absent, unreadable, or its content. *)
Inductive LocalFile :=
| FileMissing
| FileUnreadable
| FileContent (content : string).

(** What [re.search(pattern, text)] comes to: [re.error] for a pattern
    that does not compile, no match, or the text of group 1 of the leftmost
    match. *)
Inductive ReSearch :=
| ReError
| ReNoMatch
| ReMatch (group1 : string).

(** ** The outside world *)

Record Env := mkEnv {
  clock : nat -> Q;
  (* SessionManager, seen from the collectors *)
  start_resp : nat -> option RTRSession;
  end_resp : nat -> bool;
  pulse_resp : nat -> bool;
  exec_resp : nat -> option CommandResult;
  (* RTR client, seen from the managers *)
  submit_resp : nat -> option SubmitResponse;
  status_resp : nat -> option (option StatusResource);
  files_resp : nat -> option FilesResponse;
  extracted_resp : nat -> Extracted;
  write_resp : nat -> option Z;
  (* object storage *)
  head_resp : nat -> HeadResponse;
  url_resp : nat -> option (string * string);
  (* put-file repository, local files and post-run cleanup *)
  put_ids_resp : nat -> option (list string);
  put_files_resp : nat -> option (list PutFile);
  put_write_resp : nat -> option WriteResponse;
  local_file_resp : nat -> LocalFile;
  package_resp : nat -> option string;
  cleanup_resp : nat -> bool;
  (* device inventory *)
  query_resp : nat -> list string;
  details_resp : nat -> HostData;
  (* [re.search] on a pattern with operators from a host name, by pattern and text *)
  re_search : string -> string -> ReSearch
}.

Inductive Event :=
| EvTime (t : Q)
| EvSleep (secs : Q)
| EvStartSession (device : string) (r : option RTRSession)
| EvEndSession (s : RTRSession) (ok : bool)
| EvPulse (s : RTRSession) (ok : bool)
| EvExec (s : RTRSession) (c : Cmd) (r : option CommandResult)
| EvSubmit (c : Cmd) (r : option SubmitResponse)
| EvGet (c : Cmd) (device session : string) (r : option SubmitResponse)
| EvGetStatus (request_id : string) (r : option (option StatusResource))
| EvStatus (admin : bool) (request_id : string) (r : option (option StatusResource))
| EvListFiles (r : option FilesResponse)
| EvExtracted (sha name : string) (r : Extracted)
| EvWriteFile (path : string) (content : string) (size_on_disk : option Z)
| EvHead (bucket key : string) (r : HeadResponse)
| EvPresign (bucket key : string) (r : option (string * string))
| EvListPutFiles (r : option (list string))
| EvGetPutFiles (ids : list string) (r : option (list PutFile))
| EvDeletePutFile (id : string) (r : option WriteResponse)
| EvCreatePutFile (name content comments description : string) (r : option WriteResponse)
| EvReadLocal (path : string) (r : LocalFile)
| EvPackage (what : string) (r : option string)
| EvCleanup (what : string) (ok : bool)
| EvQueryHosts (filter : string) (r : list string)
| EvHostDetails (ids : list string) (r : HostData).

(** [ticks] counts the interactions made; [trace] lists them, latest first. *)
Record World := mkWorld {
  ticks : nat;
  trace : list Event
}.

Definition world0 : World := mkWorld 0 [].

(** ** Computations: state, exceptions and loop fuel *)

Inductive Outcome (A : Type) : Type :=
| Ret (a : A)
| Raise
| OutOfFuel.
Arguments Ret {A} a.
Arguments Raise {A}.
Arguments OutOfFuel {A}.

Definition M (A : Type) : Type := World -> Outcome A * World.

Definition ret {A} (a : A) : M A := fun w => (Ret a, w).

Definition raise {A} : M A := fun w => (Raise, w).

Definition out_of_fuel {A} : M A := fun w => (OutOfFuel, w).

Definition bind {A B} (m : M A) (k : A -> M B) : M B :=
  fun w =>
    match m w with
    | (Ret a, w') => k a w'
    | (Raise, w') => (Raise, w')
    | (OutOfFuel, w') => (OutOfFuel, w')
    end.

Notation "'let*' x := m 'in' k" := (bind m (fun x => k))
  (at level 10, x pattern, m at level 100, k at level 200).

(** [try: body except Exception: handler]. *)
Definition try_except {A} (body handler : M A) : M A :=
  fun w =>
    match body w with
    | (Raise, w') => handler w'
    | r => r
    end.

(** [try: body finally: fin]; the value (or exception) of [body] survives a
    [fin] that completes. *)
Definition try_finally {A} (body : M A) (fin : M unit) : M A :=
  fun w =>
    match body w with
    | (OutOfFuel, w') => (OutOfFuel, w')
    | (o, w') =>
        match fin w' with
        | (Ret _, w'') => (o, w'')
        | (Raise, w'') => (Raise, w'')
        | (OutOfFuel, w'') => (OutOfFuel, w'')
        end
    end.

(** One interaction: the answer is read at the current tick and the event
    is recorded. *)
Definition interact {A} (answer : nat -> A) (ev : A -> Event) : M A :=
  fun w =>
    let a := answer (ticks w) in
    (Ret a, mkWorld (S (ticks w)) (ev a :: trace w)).

Definition result {A} (m : M A) : Outcome A := fst (m world0).

Definition events {A} (m : M A) : list Event := rev (trace (snd (m world0))).

(** What a loop body asks for: another iteration, leaving the loop, or
    returning from the enclosing function. *)
Inductive Step (S R : Type) : Type :=
| Continue (s : S)
| Break (s : S)
| Return (r : R).
Arguments Continue {S R} s.
Arguments Break {S R} s.
Arguments Return {S R} r.

Fixpoint loop {S R} (fuel : nat) (body : S -> M (Step S R)) (s : S)
  : M (S + R) :=
  match fuel with
  | O => out_of_fuel
  | Datatypes.S fuel' =>
      let* st := body s in
      match st with
      | Continue s' => loop fuel' body s'
      | Break s' => ret (inl s')
      | Return r => ret (inr r)
      end
  end.

(** [iterates body n s w s' w']: starting the loop in state [s] and world
    [w], [n] iterations ask to continue and lead to state [s'] in world
    [w']. *)
Inductive iterates {S R} (body : S -> M (Step S R))
  : nat -> S -> World -> S -> World -> Prop :=
| iterates_here s w : iterates body 0 s w s w
| iterates_next n s w s1 w1 s' w' :
    body s w = (Ret (Continue s1), w1) ->
    iterates body n s1 w1 s' w' ->
    iterates body (Datatypes.S n) s w s' w'.

(** [emits P m]: whatever [m] does, it only adds events that satisfy [P]
    to the trace. *)
Definition emits {A} (P : Event -> Prop) (m : M A) : Prop :=
  forall w, exists new,
    trace (snd (m w)) = (new ++ trace w)%list /\ Forall P new.

Section Primitives.
Context (env : Env).

Definition time_time : M Q := interact (clock env) EvTime.

Definition time_sleep (secs : Q) : M unit :=
    fun w => (Ret tt, mkWorld (ticks w) (EvSleep secs :: trace w)).

  (** [SessionManager.start_session], [end_session], [pulse_session] and
      [execute_command] as the collectors see them: none of them lets an
      exception escape. *)
Definition start_session (device : string) : M (option RTRSession) :=
    interact (start_resp env) (EvStartSession device).

Definition end_session (s : RTRSession) : M bool :=
    interact (end_resp env) (EvEndSession s).

Definition pulse_session (s : RTRSession) : M bool :=
    interact (pulse_resp env) (EvPulse s).

Definition exec (s : RTRSession) (base command : string) (admin : bool)
    : M (option CommandResult) :=
    interact (exec_resp env) (EvExec s (mkCmd base command admin)).

End Primitives.

(** ** Session manager ([managers/managers.py]) *)

Module SessionManager.
Section WithEnv.
Context (env : Env).

  (** [Configuration.TIMEOUTS]. *)
Definition command_execution : Z := 600.
Definition command_status_check : Z := 2.

  (** [rtr_client.execute_admin_command] / [execute_command]. *)
Definition submit (c : Cmd) : M (option SubmitResponse) :=
    interact (submit_resp env) (EvSubmit c).

  (** [rtr_client.check_admin_command_status] / [check_command_status]. *)
Definition check_status (admin : bool) (request_id : string)
    : M (option (option StatusResource)) :=
    interact (status_resp env) (EvStatus admin request_id).

Definition get_default {A} (o : option A) (d : A) : A :=
    match o with Some a => a | None => d end.

  (** The polling loop [while retry_count < max_retries]; [remaining] is
      [max_retries - retry_count]. *)
Fixpoint poll_status (remaining : nat) (admin : bool) (request_id : string)
    : M (option CommandResult) :=
    match remaining with
    | O => ret None
    | S remaining' =>
        let* result_response := check_status admin request_id in
        match result_response with
        | None => ret None
        | Some None =>
            (* KeyError / IndexError while reading body.resources[0] *)
            let* _ := time_sleep (inject_Z command_status_check) in
            poll_status remaining' admin request_id
        | Some (Some resource) =>
            if get_default (res_complete resource) false then
              let stdout := get_default (res_stdout resource) "" in
              let stderr := get_default (res_stderr resource) "" in
              ret (Some (mkResult stdout stderr
                           (if negb (Py.truthy stderr) then 0 else 1)
                           request_id true))
            else
              let* _ := time_sleep (inject_Z command_status_check) in
              poll_status remaining' admin request_id
        end
    end.

Definition execute_command (session : option RTRSession)
      (base_command command : string) (is_admin : bool)
    : M (option CommandResult) :=
    match session with
    | None => ret None
    | Some session =>
        if negb (Py.truthy base_command) || negb (Py.truthy command) then ret None
        else if negb (status_code session =? 201) then ret None
        else
          let* command_response := submit (mkCmd base_command command is_admin) in
          match command_response with
          | None => ret None
          | Some command_response =>
              if negb (submit_status command_response =? 201) then ret None
              else
                match submit_request_id command_response with
                | None => ret None
                | Some cloud_request_id =>
                    let* _ := time_sleep 2 in
                    let max_retries :=
                      Z.to_nat (command_execution / command_status_check) in
                    poll_status max_retries is_admin cloud_request_id
                end
          end
    end.

End WithEnv.
End SessionManager.

(** ** Object storage ([utils/cloud_storage.py]) *)

Module CloudStorage.
Section WithEnv.
Context (env : Env).

Definition head_object (bucket key : string) : M HeadResponse :=
    interact (head_resp env) (EvHead bucket key).

  (** [generate_upload_url]: the presigned URL and the object key; boto
      errors are re-raised. *)
Definition generate_upload_url (bucket filename : string) : M (string * string) :=
    if negb (Py.truthy bucket) then raise
    else
      let* r := interact (url_resp env) (EvPresign bucket filename) in
      match r with
      | Some (url, key) => ret (url, key)
      | None => raise
      end.

Definition verify_s3_upload (bucket object_key : string)
      (expected_size : option Z) : M bool :=
    let* response := head_object bucket object_key in
    match response with
    | HeadOk actual_size =>
        match expected_size with
        | Some expected_size =>
            if actual_size =? expected_size then ret true else ret false
        | None => ret true
        end
    | HeadClientError _ => ret false
    | HeadException => ret false
    end.

  (** [get_s3_object_info]: the object's size, or [None]. *)
Definition get_s3_object_info (bucket object_key : string) : M (option Z) :=
    let* response := head_object bucket object_key in
    match response with
    | HeadOk size => ret (Some size)
    | _ => ret None
    end.

End WithEnv.

  (** The size comparison the specification words ask of the upload check:
      equal within max(1 KiB, 1 %) of the expected size. *)
Definition spec_size_within_tolerance (expected actual : Z) : Prop :=
    (100 * Z.abs (actual - expected) <= Z.max (100 * 1024) expected)%Z.

End CloudStorage.

(** ** Environments for examples *)

(** Nothing answers: no session, no command result, no object. *)
Definition quiet_env : Env :=
  mkEnv (fun _ => 0%Q) (fun _ => None) (fun _ => true) (fun _ => true)
        (fun _ => None) (fun _ => None) (fun _ => None) (fun _ => None)
        (fun _ => ExOther) (fun _ => None) (fun _ => HeadException)
        (fun _ => None) (fun _ => None) (fun _ => None) (fun _ => None)
        (fun _ => FileMissing) (fun _ => None) (fun _ => true) (fun _ => [])
        (fun _ => NoHostData) (fun _ _ => ReNoMatch).

Definition with_clock (f0 : nat -> Q) (e : Env) : Env :=
  mkEnv f0 (start_resp e) (end_resp e) (pulse_resp e) (exec_resp e)
        (submit_resp e) (status_resp e) (files_resp e) (extracted_resp e)
        (write_resp e) (head_resp e) (url_resp e) (put_ids_resp e)
        (put_files_resp e) (put_write_resp e) (local_file_resp e)
        (package_resp e) (cleanup_resp e) (query_resp e) (details_resp e)
        (re_search e).

Definition with_start (f0 : nat -> option RTRSession) (e : Env) : Env :=
  mkEnv (clock e) f0 (end_resp e) (pulse_resp e) (exec_resp e) (submit_resp e)
        (status_resp e) (files_resp e) (extracted_resp e) (write_resp e)
        (head_resp e) (url_resp e) (put_ids_resp e) (put_files_resp e)
        (put_write_resp e) (local_file_resp e) (package_resp e)
        (cleanup_resp e) (query_resp e) (details_resp e) (re_search e).

Definition with_end (f0 : nat -> bool) (e : Env) : Env :=
  mkEnv (clock e) (start_resp e) f0 (pulse_resp e) (exec_resp e)
        (submit_resp e) (status_resp e) (files_resp e) (extracted_resp e)
        (write_resp e) (head_resp e) (url_resp e) (put_ids_resp e)
        (put_files_resp e) (put_write_resp e) (local_file_resp e)
        (package_resp e) (cleanup_resp e) (query_resp e) (details_resp e)
        (re_search e).

Definition with_pulse (f0 : nat -> bool) (e : Env) : Env :=
  mkEnv (clock e) (start_resp e) (end_resp e) f0 (exec_resp e) (submit_resp e)
        (status_resp e) (files_resp e) (extracted_resp e) (write_resp e)
        (head_resp e) (url_resp e) (put_ids_resp e) (put_files_resp e)
        (put_write_resp e) (local_file_resp e) (package_resp e)
        (cleanup_resp e) (query_resp e) (details_resp e) (re_search e).

Definition with_exec (f0 : nat -> option CommandResult) (e : Env) : Env :=
  mkEnv (clock e) (start_resp e) (end_resp e) (pulse_resp e) f0
        (submit_resp e) (status_resp e) (files_resp e) (extracted_resp e)
        (write_resp e) (head_resp e) (url_resp e) (put_ids_resp e)
        (put_files_resp e) (put_write_resp e) (local_file_resp e)
        (package_resp e) (cleanup_resp e) (query_resp e) (details_resp e)
        (re_search e).

Definition with_rtr (f0 : nat -> option SubmitResponse) (f1 : nat -> option (option StatusResource)) (e : Env) : Env :=
  mkEnv (clock e) (start_resp e) (end_resp e) (pulse_resp e) (exec_resp e) f0
        f1 (files_resp e) (extracted_resp e) (write_resp e) (head_resp e)
        (url_resp e) (put_ids_resp e) (put_files_resp e) (put_write_resp e)
        (local_file_resp e) (package_resp e) (cleanup_resp e) (query_resp e)
        (details_resp e) (re_search e).

Definition with_files (f0 : nat -> option FilesResponse) (e : Env) : Env :=
  mkEnv (clock e) (start_resp e) (end_resp e) (pulse_resp e) (exec_resp e)
        (submit_resp e) (status_resp e) f0 (extracted_resp e) (write_resp e)
        (head_resp e) (url_resp e) (put_ids_resp e) (put_files_resp e)
        (put_write_resp e) (local_file_resp e) (package_resp e)
        (cleanup_resp e) (query_resp e) (details_resp e) (re_search e).

Definition with_extracted (f0 : nat -> Extracted) (f1 : nat -> option Z) (e : Env) : Env :=
  mkEnv (clock e) (start_resp e) (end_resp e) (pulse_resp e) (exec_resp e)
        (submit_resp e) (status_resp e) (files_resp e) f0 f1 (head_resp e)
        (url_resp e) (put_ids_resp e) (put_files_resp e) (put_write_resp e)
        (local_file_resp e) (package_resp e) (cleanup_resp e) (query_resp e)
        (details_resp e) (re_search e).

Definition with_head (f0 : nat -> HeadResponse) (e : Env) : Env :=
  mkEnv (clock e) (start_resp e) (end_resp e) (pulse_resp e) (exec_resp e)
        (submit_resp e) (status_resp e) (files_resp e) (extracted_resp e)
        (write_resp e) f0 (url_resp e) (put_ids_resp e) (put_files_resp e)
        (put_write_resp e) (local_file_resp e) (package_resp e)
        (cleanup_resp e) (query_resp e) (details_resp e) (re_search e).

Definition with_url (f0 : nat -> option (string * string)) (e : Env) : Env :=
  mkEnv (clock e) (start_resp e) (end_resp e) (pulse_resp e) (exec_resp e)
        (submit_resp e) (status_resp e) (files_resp e) (extracted_resp e)
        (write_resp e) (head_resp e) f0 (put_ids_resp e) (put_files_resp e)
        (put_write_resp e) (local_file_resp e) (package_resp e)
        (cleanup_resp e) (query_resp e) (details_resp e) (re_search e).

Definition with_put_files (f0 : nat -> option (list string)) (f1 : nat -> option (list PutFile)) (f2 : nat -> option WriteResponse) (e : Env) : Env :=
  mkEnv (clock e) (start_resp e) (end_resp e) (pulse_resp e) (exec_resp e)
        (submit_resp e) (status_resp e) (files_resp e) (extracted_resp e)
        (write_resp e) (head_resp e) (url_resp e) f0 f1 f2 (local_file_resp e)
        (package_resp e) (cleanup_resp e) (query_resp e) (details_resp e)
        (re_search e).

Definition with_local (f0 : nat -> LocalFile) (f1 : nat -> option string) (e : Env) : Env :=
  mkEnv (clock e) (start_resp e) (end_resp e) (pulse_resp e) (exec_resp e)
        (submit_resp e) (status_resp e) (files_resp e) (extracted_resp e)
        (write_resp e) (head_resp e) (url_resp e) (put_ids_resp e)
        (put_files_resp e) (put_write_resp e) f0 f1 (cleanup_resp e)
        (query_resp e) (details_resp e) (re_search e).

Definition with_cleanup (f0 : nat -> bool) (e : Env) : Env :=
  mkEnv (clock e) (start_resp e) (end_resp e) (pulse_resp e) (exec_resp e)
        (submit_resp e) (status_resp e) (files_resp e) (extracted_resp e)
        (write_resp e) (head_resp e) (url_resp e) (put_ids_resp e)
        (put_files_resp e) (put_write_resp e) (local_file_resp e)
        (package_resp e) f0 (query_resp e) (details_resp e) (re_search e).

Definition with_hosts (f0 : nat -> list string) (f1 : nat -> HostData) (e : Env) : Env :=
  mkEnv (clock e) (start_resp e) (end_resp e) (pulse_resp e) (exec_resp e)
        (submit_resp e) (status_resp e) (files_resp e) (extracted_resp e)
        (write_resp e) (head_resp e) (url_resp e) (put_ids_resp e)
        (put_files_resp e) (put_write_resp e) (local_file_resp e)
        (package_resp e) (cleanup_resp e) f0 f1 (re_search e).

Definition with_re (f0 : string -> string -> ReSearch) (e : Env) : Env :=
  mkEnv (clock e) (start_resp e) (end_resp e) (pulse_resp e) (exec_resp e)
        (submit_resp e) (status_resp e) (files_resp e) (extracted_resp e)
        (write_resp e) (head_resp e) (url_resp e) (put_ids_resp e)
        (put_files_resp e) (put_write_resp e) (local_file_resp e)
        (package_resp e) (cleanup_resp e) (query_resp e) (details_resp e) f0.

(** ** [pathlib] on POSIX paths *)

Module PosixPath.

  (** A parsed path: the root (["/"], ["//"] or empty) and the components
      below it; empty components and ["."] are dropped on parsing. *)
Record t := mk { root : string; parts : list string }.

Definition slash : ascii := "/"%char.

Definition keep_part (p : string) : bool :=
    Py.truthy p && negb (String.eqb p ".").

Definition parse_root (s : string) : string :=
    if Py.startswith "///" s then "/"
    else if Py.startswith "//" s then "//"
    else if Py.startswith "/" s then "/"
    else "".

Definition parse (s : string) : t :=
    mk (parse_root s) (List.filter keep_part (Py.split_on slash s)).

  (** [str(path)]. *)
Definition str (p : t) : string :=
    match root p, parts p with
    | EmptyString, [] => "."
    | r, ps => r ++ Py.join "/" ps
    end.

  (** [path.name]: the last component, or the empty string. *)
Definition name (p : t) : string := List.last (parts p) "".

  (** The split of a name at its last dot: what is before it, and the rest
      with the dot. *)
Fixpoint split_last_dot (s : string) : option (string * string) :=
    match s with
    | EmptyString => None
    | String c r =>
        match split_last_dot r with
        | Some (a, b) => Some (String c a, b)
        | None => if Ascii.eqb c "."%char then Some (EmptyString, s) else None
        end
    end.

  (** [path.suffix] (Python up to 3.13): from the last dot of the name,
      unless that dot is its first or its last character. *)
Definition suffix_of_name (n : string) : string :=
    match split_last_dot n with
    | Some (String _ _, String d (String c r)) => String d (String c r)
    | _ => ""
    end.

Definition suffix (p : t) : string := suffix_of_name (name p).

Definition stem_of_name (n : string) : string :=
    match split_last_dot n with
    | Some (String a b, String _ (String _ _)) => String a b
    | _ => n
    end.

  (** [path.with_suffix(suffix)] for a suffix that starts with a dot;
      [None] stands for the [ValueError] raised on an empty name. *)
Definition with_suffix (p : t) (new_suffix : string) : option t :=
    match name p with
    | EmptyString => None
    | n => Some (mk (root p) (List.removelast (parts p) ++ [stem_of_name n ++ new_suffix]))
    end.

End PosixPath.

(** ** File manager ([managers/managers.py]) *)

Module FileManager.

Definition Qgt_bool (a b : Q) : bool := negb (Qle_bool a b).
Definition Qge_bool (a b : Q) : bool := Qle_bool b a.

Definition opt_truthy (o : option string) : bool :=
    match o with Some s => Py.truthy s | None => false end.

Definition opt_eqb (o : option string) (s : string) : bool :=
    match o with Some x => String.eqb x s | None => false end.

  (** The local destination: kept when its suffix already is [.7z],
      otherwise the suffix is replaced or [.7z] is appended.  [None] is
      the [ValueError] of [with_suffix]. *)
Definition local_path_7z (local_path : string) : option string :=
    let local_path_obj := PosixPath.parse local_path in
    let suffix := PosixPath.suffix local_path_obj in
    if String.eqb suffix ".7z" then Some local_path
    else if existsb (String.eqb suffix) [".zip"; ".tar"; ".gz"; ".tar.gz"; ".vhdx"]
    then option_map PosixPath.str (PosixPath.with_suffix local_path_obj ".7z")
    else Some (PosixPath.str local_path_obj ++ ".7z").

  (** Phase A deadline of the [get] command. *)
Definition estimated_timeout (file_size : Z) : Q :=
    if (file_size >? 0)%Z
    then Qmax 600 (inject_Z file_size / inject_Z (30 * 1024))
    else 18000.

Definition sha_timeout : Q := 2000.
Definition sha_pulse_interval : Q := 300.
Definition content_timeout : Z := 18000.
Definition pulse_interval : Q := 300.

  (** The first entry of the file list made by our [get], if any, gives
      the SHA ([None] when that entry carries none). *)
Fixpoint find_sha (files_list : list SessionFile) (cloud_request_id : string)
    : option string :=
    match files_list with
    | [] => None
    | file_info :: rest =>
        if opt_eqb (file_request_id file_info) cloud_request_id
        then file_sha256 file_info
        else find_sha rest cloud_request_id
    end.

Section WithEnv.
Context (env : Env).

Definition execute_active_responder_command (c : Cmd) (device session : string)
    : M (option SubmitResponse) :=
    interact (submit_resp env) (EvGet c device session).

Definition check_active_responder_command_status (request_id : string)
    : M (option (option StatusResource)) :=
    interact (status_resp env) (EvGetStatus request_id).

Definition list_files_v2 : M (option FilesResponse) :=
    interact (files_resp env) EvListFiles.

Definition get_extracted_file_contents (sha name : string) : M Extracted :=
    interact (extracted_resp env) (EvExtracted sha name).

  (** [open(path, "wb").write(content)] followed by [stat]: the size found
      on disk, or [None] for an [IOError]. *)
Definition write_file (path content : string) : M (option Z) :=
    interact (write_resp env) (EvWriteFile path content).

  (** Phase A: poll the status of the [get] command. *)
Definition phase_a_body (cloud_request_id : string) (poll_start timeout : Q)
      (_ : unit) : M (Step unit bool) :=
    let* now := time_time env in
    let elapsed := (now - poll_start)%Q in
    if Qgt_bool elapsed timeout then ret (Return false)
    else
      let* status_resp := check_active_responder_command_status cloud_request_id in
      match status_resp with
      | Some (Some result) =>
          if SessionManager.get_default (res_complete result) false then
            if opt_truthy (res_stderr result) then ret (Return false)
            else ret (Break tt)
          else
            let* _ := time_sleep 2 in ret (Continue tt)
      | _ =>
          let* _ := time_sleep 2 in ret (Continue tt)
      end.

  (** Phase B: wait for the SHA of the retrieved file, [while not file_sha].
      The loop state is [(last_sha_pulse_time, file_sha)]; the loop is left
      once [file_sha] is truthy. *)
Definition phase_b_body (session : RTRSession) (cloud_request_id : string)
      (sha_wait_start : Q) (st : Q * option string)
    : M (Step (Q * option string) bool) :=
    let '(last_sha_pulse_time, _) := st in
    let* now := time_time env in
    let elapsed_time := (now - sha_wait_start)%Q in
    if Qgt_bool elapsed_time sha_timeout then ret (Return false)
    else
      let* now2 := time_time env in
      let time_since_last_pulse := (now2 - last_sha_pulse_time)%Q in
      let* pulsed :=
        if Qge_bool time_since_last_pulse sha_pulse_interval then
          let* ok := pulse_session env session in
          if ok then
            let* t := time_time env in ret (Some t)
          else ret None
        else ret (Some last_sha_pulse_time) in
      match pulsed with
      | None => ret (Return false)
      | Some last_sha_pulse_time =>
          let* files_resp := list_files_v2 in
          let file_sha :=
            match files_resp with
            | Some resp =>
                if (files_status resp =? 200)%Z then
                  match files_resources resp with
                  | Some files_list => find_sha files_list cloud_request_id
                  | None => None
                  end
                else None
            | None => None
            end in
          if opt_truthy file_sha then ret (Break (last_sha_pulse_time, file_sha))
          else
            let* _ := time_sleep 4 in
            ret (Continue (last_sha_pulse_time, file_sha))
      end.

  (** Phase C: poll for the content; [remaining] is
      [max_retries - retry_count]. *)
Fixpoint phase_c (remaining : nat) (session : RTRSession)
      (file_sha file_name local_path_7z : string)
      (content_wait_start last_pulse_time : Q) : M bool :=
    match remaining with
    | O => ret false
    | S remaining' =>
        let* now := time_time env in
        if Qgt_bool (now - content_wait_start)%Q (inject_Z content_timeout)
        then ret false
        else
          let* now2 := time_time env in
          let time_since_last_pulse := (now2 - last_pulse_time)%Q in
          let* last_pulse_time :=
            if Qge_bool time_since_last_pulse pulse_interval then
              let* ok := pulse_session env session in
              if ok then time_time env else ret last_pulse_time
            else ret last_pulse_time in
          let* file_contents := get_extracted_file_contents file_sha file_name in
          match file_contents with
          | ExBytes content =>
              let* saved := write_file local_path_7z content in
              match saved with
              | Some saved_size =>
                  if negb (saved_size =? Z.of_nat (String.length content))%Z
                  then ret false else ret true
              | None => ret false
              end
          | _ =>
              let* _ := time_sleep 5 in
              phase_c remaining' session file_sha file_name local_path_7z
                      content_wait_start last_pulse_time
          end
    end.

  (** The local path, the [get] command and phase A.  [inl] carries the
      adjusted local path and the cloud request id when the command has
      completed; [inr r] stands for [return r]. *)
Definition get_phase (fuel : nat) (session : RTRSession)
      (device_id remote_path local_path : string) (file_size : Z)
    : M ((string * string) + bool) :=
    match local_path_7z local_path with
    | None => raise
    | Some local_path_7z =>
        let* cmd_response :=
          execute_active_responder_command
            (mkCmd "get" ("get " ++ remote_path) false)
            device_id (session_id session) in
        match cmd_response with
        | None => ret (inr false)
        | Some cmd_response =>
            if negb (submit_status cmd_response =? 201)%Z then ret (inr false)
            else
              match submit_request_id cmd_response with
              | None => ret (inr false)
              | Some cloud_request_id =>
                  let timeout := estimated_timeout file_size in
                  let* poll_start := time_time env in
                  let* a := loop fuel (phase_a_body cloud_request_id poll_start timeout) tt in
                  match a with
                  | inr r => ret (inr r)
                  | inl _ => ret (inl (local_path_7z, cloud_request_id))
                  end
              end
        end
    end.

  (** Phase B from its first clock reading. *)
Definition sha_phase (fuel : nat) (session : RTRSession) (cloud_request_id : string)
    : M ((Q * option string) + bool) :=
    let* sha_wait_start := time_time env in
    let* last_sha_pulse_time := time_time env in
    loop fuel (phase_b_body session cloud_request_id sha_wait_start)
         (last_sha_pulse_time, None).

  (** Phase C from the file name on. *)
Definition content_phase (session : RTRSession)
      (remote_path local_path_7z file_sha : string) : M bool :=
    let file_name :=
      let n := PosixPath.name (PosixPath.parse remote_path) in
      if Py.truthy n then n else "unknown_file" in
    let* _ := time_sleep 5 in
    let* content_wait_start := time_time env in
    let max_retries := Z.to_nat (content_timeout / 5) in
    let* last_pulse_time := time_time env in
    phase_c max_retries session file_sha file_name local_path_7z
            content_wait_start last_pulse_time.

Definition download_file (fuel : nat) (session : RTRSession)
      (device_id remote_path local_path : string) (file_size : Z) : M bool :=
    try_except
      (let* g := get_phase fuel session device_id remote_path local_path file_size in
       match g with
       | inr r => ret r
       | inl (local_path_7z, cloud_request_id) =>
           let* b := sha_phase fuel session cloud_request_id in
           match b with
           | inr r => ret r
           | inl (_, file_sha) =>
               content_phase session remote_path local_path_7z
                             (SessionManager.get_default file_sha "")
           end
       end)
      (ret false).

End WithEnv.

  (** The world in which the phase B loop starts, given the world [w] in
which phase A ended: two clock readings later. *)
Definition sha_loop_world (env : Env) (w : World) : World :=
  snd (time_time env (snd (time_time env w))).

(** A write event whose path names a file ending in [.7z]; other events
      are not constrained. *)
Definition writes_7z (e : Event) : Prop :=
    match e with
    | EvWriteFile path _ _ =>
        Py.endswith ".7z" (PosixPath.name (PosixPath.parse path)) = true
    | _ => True
    end.

  (** Events other than the submission of a [get] command. *)
Definition not_get (e : Event) : Prop :=
    match e with
    | EvGet _ _ _ _ => False
    | _ => True
    end.

Definition is_get (e : Event) : bool :=
    match e with
    | EvGet _ _ _ _ => true
    | _ => false
    end.

End FileManager.

(** ** Host manager ([managers/managers.py]) *)

Module HostManager.

(** [resource.get(key, '')]. *)
Definition field (o : option string) : string := SessionManager.get_default o "".

(** [extract_host_info]. *)
Definition extract_host_info (host_data : HostData) : option HostInfo :=
  match host_data with
  | NoHostData => None
  | NoBody => None
  | HostBody None => None
  | HostBody (Some []) => None
  | HostBody (Some (resource :: _)) =>
      let hostname := field (r_hostname resource) in
      let aid :=
        if Py.truthy (field (r_aid resource)) then field (r_aid resource)
        else field (r_device_id resource) in
      let cid := field (r_cid resource) in
      let platform_name := field (r_platform_name resource) in
      let os_version := field (r_os_version resource) in
      let cpu_name := field (r_cpu_processor_name resource) in
      if negb (Py.truthy aid) then None
      else if negb (Py.truthy cid) then None
      else Some (mkHost hostname aid cid platform_name os_version cpu_name
                        (Py.lower platform_name))
  end.

Section WithEnv.
Context (env : Env).

Definition query_hosts (filter : string) : M (list string) :=
  interact (query_resp env) (EvQueryHosts filter).

Definition get_host_details (ids : list string) : M HostData :=
  interact (details_resp env) (EvHostDetails ids).

Definition get_host_by_hostname (hostname : string) : M (option HostInfo) :=
  if negb (Py.truthy hostname) then ret None
  else
    let filter_str := "hostname:*'*" ++ hostname ++ "*'" in
    let* host_ids := query_hosts filter_str in
    match host_ids with
    | [] => ret None
    | _ =>
        let* host_data := get_host_details host_ids in
        match host_data with
        | NoHostData => ret None
        | _ => ret (extract_host_info host_data)
        end
    end.

End WithEnv.
End HostManager.

(** ** Batch orchestrator ([orchestrator_optimized.py]) *)

Module Orchestrator.

(** One resolved target: hostname, target or profile, host record. *)
Definition HostEntry : Type := string * string * HostInfo.

(** [hosts_by_cid[cid].append(entry)] on a dictionary that keeps its keys
    in insertion order. *)
Fixpoint add_host (cid : string) (e : HostEntry)
    (hosts_by_cid : list (string * list HostEntry)) : list (string * list HostEntry) :=
  match hosts_by_cid with
  | [] => [(cid, [e])]
  | (c, l) :: rest =>
      if String.eqb c cid then (c, (l ++ [e])%list) :: rest
      else (c, l) :: add_host cid e rest
  end.

(** [results[hostname] = False] for every host of a group. *)
Definition mark_failed (hosts : list HostEntry) (results : gmap string bool)
  : gmap string bool :=
  fold_left (fun acc (e : HostEntry) => <[fst (fst e) := false]> acc) hosts results.

(** [results.update(cid_results)]. *)
Definition update (results cid_results : gmap string bool) : gmap string bool :=
  cid_results ∪ results.

Section WithEnv.
Context (env : Env).
Context (enable_caching : bool) (max_concurrent_hosts : Z).

(** The per-customer workers, [_process_kape_batch_for_cid] and
    [_process_uac_batch_for_cid]: each answers with results for hosts of its
    group, or raises. *)
Context (process_kape_batch_for_cid process_uac_batch_for_cid :
           string -> list HostEntry -> bool -> M (gmap string bool)).

(** [_get_host_details_batch]: one lookup per name, later answers for the
    same name replacing earlier ones. *)
Fixpoint get_host_details_batch (hostnames : list string)
    (result : gmap string HostInfo) : M (gmap string HostInfo) :=
  match hostnames with
  | [] => ret result
  | hostname :: rest =>
      let* host_info := HostManager.get_host_by_hostname env hostname in
      match host_info with
      | Some h => get_host_details_batch rest (<[hostname := h]> result)
      | None => get_host_details_batch rest result
      end
  end.

(** Grouping for KAPE, with the details fetched beforehand. *)
Fixpoint group_kape_cached (host_details : gmap string HostInfo)
    (targets : list (string * string)) (hosts_by_cid : list (string * list HostEntry))
  : list (string * list HostEntry) :=
  match targets with
  | [] => hosts_by_cid
  | (hostname, kape_target) :: rest =>
      match host_details !! hostname with
      | Some host_info =>
          group_kape_cached host_details rest
            (add_host (cid host_info) (hostname, kape_target, host_info) hosts_by_cid)
      | None => group_kape_cached host_details rest hosts_by_cid
      end
  end.

(** Grouping for KAPE with one lookup per target. *)
Fixpoint group_kape_lookup (targets : list (string * string))
    (hosts_by_cid : list (string * list HostEntry))
  : M (list (string * list HostEntry)) :=
  match targets with
  | [] => ret hosts_by_cid
  | (hostname, kape_target) :: rest =>
      let* host_info := HostManager.get_host_by_hostname env hostname in
      match host_info with
      | Some host_info =>
          group_kape_lookup rest
            (add_host (cid host_info) (hostname, kape_target, host_info) hosts_by_cid)
      | None => group_kape_lookup rest hosts_by_cid
      end
  end.

(** The groups are handed to the pool and their results merged as they
    complete; here they complete in submission order.  A worker that raises
    marks all hosts of its group as failed. *)
Fixpoint collect_kape (groups : list (string * list HostEntry)) (upload_to_s3 : bool)
    (results : gmap string bool) : M (gmap string bool) :=
  match groups with
  | [] => ret results
  | (c, cid_hosts) :: rest =>
      let* results :=
        try_except
          (let* cid_results := process_kape_batch_for_cid c cid_hosts upload_to_s3 in
           ret (update results cid_results))
          (ret (mark_failed cid_hosts results)) in
      collect_kape rest upload_to_s3 results
  end.

(** [ThreadPoolExecutor(max_workers=n)] raises [ValueError] unless
    [n > 0]. *)
Definition thread_pool (max_workers : Z) : M unit :=
  if (max_workers <=? 0)%Z then raise else ret tt.

Definition run_kape_batch (targets : list (string * string)) (upload_to_s3 : bool)
  : M (gmap string bool) :=
  let* _ := time_time env in
  let* hosts_by_cid :=
    if enable_caching then
      let* host_details := get_host_details_batch (map fst targets) ∅ in
      ret (group_kape_cached host_details targets [])
    else group_kape_lookup targets [] in
  let* _ := thread_pool (Z.min (Z.of_nat (List.length hosts_by_cid)) 5) in
  let* results := collect_kape hosts_by_cid upload_to_s3 ∅ in
  let* _ := time_time env in
  ret results.

(** Grouping for UAC: Windows hosts are skipped, an unknown platform
    raises. *)
Fixpoint group_uac_cached (host_details : gmap string HostInfo)
    (targets : list (string * string)) (hosts_by_cid : list (string * list HostEntry))
  : M (list (string * list HostEntry)) :=
  match targets with
  | [] => ret hosts_by_cid
  | (hostname, uac_profile) :: rest =>
      match host_details !! hostname with
      | Some host_info =>
          match Platform_of (Py.lower (platform host_info)) with
          | None => raise
          | Some WINDOWS => group_uac_cached host_details rest hosts_by_cid
          | Some _ =>
              group_uac_cached host_details rest
                (add_host (cid host_info) (hostname, uac_profile, host_info) hosts_by_cid)
          end
      | None => group_uac_cached host_details rest hosts_by_cid
      end
  end.

Fixpoint group_uac_lookup (targets : list (string * string))
    (hosts_by_cid : list (string * list HostEntry))
  : M (list (string * list HostEntry)) :=
  match targets with
  | [] => ret hosts_by_cid
  | (hostname, uac_profile) :: rest =>
      let* host_info := HostManager.get_host_by_hostname env hostname in
      match host_info with
      | Some host_info =>
          match Platform_of (Py.lower (platform host_info)) with
          | None => raise
          | Some WINDOWS => group_uac_lookup rest hosts_by_cid
          | Some _ =>
              group_uac_lookup rest
                (add_host (cid host_info) (hostname, uac_profile, host_info) hosts_by_cid)
          end
      | None => group_uac_lookup rest hosts_by_cid
      end
  end.

(** For UAC a worker that raises is only logged. *)
Fixpoint collect_uac (groups : list (string * list HostEntry)) (upload_to_s3 : bool)
    (results : gmap string bool) : M (gmap string bool) :=
  match groups with
  | [] => ret results
  | (c, hosts) :: rest =>
      let* results :=
        try_except
          (let* cid_results := process_uac_batch_for_cid c hosts upload_to_s3 in
           ret (update results cid_results))
          (ret results) in
      collect_uac rest upload_to_s3 results
  end.

(** "Add failed hosts that weren't processed". *)
Definition add_unprocessed (targets : list (string * string))
    (results : gmap string bool) : gmap string bool :=
  fold_left (fun acc (t : string * string) =>
               match acc !! fst t with
               | Some _ => acc
               | None => <[fst t := false]> acc
               end) targets results.

Definition run_uac_batch (targets : list (string * string)) (upload_to_s3 : bool)
  : M (gmap string bool) :=
  let* _ := time_time env in
  let* hosts_by_cid :=
    if enable_caching then
      let* host_details := get_host_details_batch (map fst targets) ∅ in
      group_uac_cached host_details targets []
    else group_uac_lookup targets [] in
  let* _ := thread_pool max_concurrent_hosts in
  let* results := collect_uac hosts_by_cid upload_to_s3 ∅ in
  let results := add_unprocessed targets results in
  let* _ := time_time env in
  ret results.

(** [run_kape] / [run_kape_collection] and [run_uac_collection]: the
    single-host entry points read their host's entry, defaulting to
    [False]; the latter two also turn an exception into [False]. *)
Definition run_kape (hostname collection_type : string) (upload_to_s3 : bool) : M bool :=
  let* results := run_kape_batch [(hostname, collection_type)] upload_to_s3 in
  ret (SessionManager.get_default (results !! hostname) false).

Definition run_kape_collection (hostname target : string) (upload : bool) : M bool :=
  try_except
    (let* results := run_kape_batch [(hostname, target)] upload in
     ret (SessionManager.get_default (results !! hostname) false))
    (ret false).

Definition run_uac_collection (hostname profile : string) (upload : bool) : M bool :=
  try_except
    (let* results := run_uac_batch [(hostname, profile)] upload in
     ret (SessionManager.get_default (results !! hostname) false))
    (ret false).

End WithEnv.
End Orchestrator.

(** ** Configuration values read by the collectors ([core/configuration.py]) *)

(** One entry of [host_entries]; a missing key is [None]. *)
Record HostsEntry := mkHostsEntry {
  entry_ip : option string;
  entry_hostname : option string;
  entry_comment : option string
}.

Record Config := mkConfig {
  kape_base_path : string;
  uac_base_path : string;
  uac_evidence_path : string;
  uac_profile_timeouts : option (list (string * Z));
  uac_timeout : option Z;
  uac_monitoring_interval : option Z;
  s3_bucket : string;
  proxy_host : string;
  proxy_enabled : bool;
  host_entries : list HostsEntry;
  upload_rate : Z
}.

Definition default_config : Config :=
  mkConfig "C:\0x4n6nerd" "/opt/0x4n6nerd" "/opt/0x4n6nerd/evidence"
           (Some [("ir_triage", 7200); ("full", 21600)]) (Some 18000) (Some 30)
           "your-s3-bucket-name" "" false [] 5000000.

Module Configuration.

(** The text of one hosts-file line, when the entry has both an address
    and a name. *)
Definition hosts_line (sep : string) (entry : HostsEntry) : option string :=
  match entry_ip entry, entry_hostname entry with
  | Some ip, Some hostname =>
      if Py.truthy ip && Py.truthy hostname then
        let line := ip ++ sep ++ hostname in
        match entry_comment entry with
        | Some comment =>
            if Py.truthy comment then Some (line ++ sep ++ "#" ++ comment)
            else Some line
        | None => Some line
        end
      else None
  | _, _ => None
  end.

Fixpoint hosts_commands (sep before after : string) (entries : list HostsEntry)
  : list string :=
  match entries with
  | [] => []
  | entry :: rest =>
      match hosts_line sep entry with
      | Some line => (before ++ line ++ after) :: hosts_commands sep before after rest
      | None => hosts_commands sep before after rest
      end
  end.

(** [generate_hosts_command]. *)
Definition generate_hosts_command (config : Config) (platform : string) : string :=
  match host_entries config with
  | [] => ""
  | entries =>
      let commands :=
        if String.eqb (Py.lower platform) "windows" then
          hosts_commands "`t"
            "Add-Content -Path 'C:\Windows\System32\drivers\etc\hosts' -Value '" "'"
            entries
        else
          hosts_commands " " "echo '" "' >> /etc/hosts" entries in
      match commands with
      | [] => ""
      | _ => "runscript -Raw=```" ++ Py.join "; " commands ++ "```"
      end
  end.

End Configuration.

(** ** The two archive-name patterns of the [re] module *)

Module Re.

(** Characters that stand for themselves in a pattern. *)
Definition is_literal (c : ascii) : bool :=
  Py.is_alnum c || Ascii.eqb c "-"%char || Ascii.eqb c "_"%char.

(** A host name that, spliced into a pattern, matches itself and nothing
    else. *)
Definition hostname_plain (h : string) : bool := Py.all_chars is_literal h.

(** [strip_prefix p s]: what follows [p] in [s]. *)
Fixpoint strip_prefix (p s : string) : option string :=
  match p, s with
  | EmptyString, _ => Some s
  | String a p', String b s' => if Ascii.eqb a b then strip_prefix p' s' else None
  | String _ _, EmptyString => None
  end.

(** The longest prefix of characters in a class, and the rest. *)
Fixpoint span (p : ascii -> bool) (s : string) : string * string :=
  match s with
  | EmptyString => (EmptyString, EmptyString)
  | String c r =>
      if p c then let '(a, b) := span p r in (String c a, b)
      else (EmptyString, s)
  end.

(** Exactly [n] characters of a class. *)
Fixpoint take_class (p : ascii -> bool) (n : nat) (s : string) : option (string * string) :=
  match n with
  | O => Some (EmptyString, s)
  | S n' =>
      match s with
      | String c r =>
          if p c then
            match take_class p n' r with
            | Some (a, b) => Some (String c a, b)
            | None => None
            end
          else None
      | EmptyString => None
      end
  end.

(** A match of [uac-<hostname>-\w+-\d{14}\.tar\.gz] at the start of [s]
    when the host name stands for itself in the pattern: the matched text. *)
Definition match_literal_archive_at (hostname s : string) : option string :=
  match strip_prefix ("uac-" ++ hostname ++ "-") s with
  | None => None
  | Some s1 =>
      let '(os, s2) := span Py.is_word s1 in
      if negb (Py.truthy os) then None
      else
        match strip_prefix "-" s2 with
        | None => None
        | Some s3 =>
            match take_class Py.is_digit 14 s3 with
            | None => None
            | Some (stamp, s4) =>
                if Py.startswith ".tar.gz" s4
                then Some ("uac-" ++ hostname ++ "-" ++ os ++ "-" ++ stamp ++ ".tar.gz")
                else None
            end
        end
  end.

(** The leftmost such match. *)
Fixpoint search_literal_archive (hostname text : string) : option string :=
  match match_literal_archive_at hostname text with
  | Some m => Some m
  | None =>
      match text with
      | EmptyString => None
      | String _ r => search_literal_archive hostname r
      end
  end.

(** The pattern [rf"(uac-{hostname}-\w+-\d{{14}}\.tar\.gz)"]: the host name
    is spliced in as it is, not escaped. *)
Definition uac_archive_pattern (hostname : string) : string :=
  "(uac-" ++ hostname ++ "-\w+-\d{14}\.tar\.gz)".

(** [re.search(pattern, text)] with that pattern, up to [group(1)].  A
    host name of letters, digits, [-] and [_] stands for itself and the
    search is worked out here.  Any other host name puts operators of its
    own into the pattern ([web.01], [a+b], [host(1]): what the search then
    gives -- a match of some other text, none, or [re.error] -- is left to
    the environment. *)
Definition search_uac_archive (env : Env) (hostname text : string) : ReSearch :=
  if hostname_plain hostname then
    match search_literal_archive hostname text with
    | Some m => ReMatch m
    | None => ReNoMatch
    end
  else re_search env (uac_archive_pattern hostname) text.

(** The host-name class [[a-zA-Z0-9\-]]. *)
Definition is_host_char (c : ascii) : bool := Py.is_alnum c || Ascii.eqb c "-"%char.

(** The longest [k <= n] such that the first [k] characters of [s] are
    followed by [-triage]; [k] counts from [n] down to 1. *)
Fixpoint longest_before_triage (n : nat) (s : string) : option (string * string) :=
  match n with
  | O => None
  | S n' =>
      let head := String.substring 0 n s in
      let rest := Py.drop n s in
      if Py.startswith "-triage" rest then Some (head, Py.drop 7 rest)
      else longest_before_triage n' s
  end.

(** A match of
    [(\d{4}-\d{2}-\d{2}T\d+)(_)([a-zA-Z0-9\-]+)(-triage)(?:\.(vhdx|zip|7z))?]
    at the start of [s]: its first four groups joined. *)
Definition match_triage_at (s : string) : option string :=
  match take_class Py.is_digit 4 s with
  | None => None
  | Some (y, s1) =>
  match strip_prefix "-" s1 with
  | None => None
  | Some s2 =>
  match take_class Py.is_digit 2 s2 with
  | None => None
  | Some (m, s3) =>
  match strip_prefix "-" s3 with
  | None => None
  | Some s4 =>
  match take_class Py.is_digit 2 s4 with
  | None => None
  | Some (d, s5) =>
  match strip_prefix "T" s5 with
  | None => None
  | Some s6 =>
      let '(t, s7) := span Py.is_digit s6 in
      if negb (Py.truthy t) then None
      else
        match strip_prefix "_" s7 with
        | None => None
        | Some s8 =>
            let '(run, _) := span is_host_char s8 in
            match longest_before_triage (String.length run) s8 with
            | None => None
            | Some (host, _) =>
                Some (y ++ "-" ++ m ++ "-" ++ d ++ "T" ++ t ++ "_" ++ host ++ "-triage")
            end
        end
  end end end end end end.

(** [''.join(re.findall(pattern, text)[0][:4])], when there is a match. *)
Fixpoint search_triage (text : string) : option string :=
  match match_triage_at text with
  | Some m => Some m
  | None =>
      match text with
      | EmptyString => None
      | String _ r => search_triage r
      end
  end.

End Re.

(** ** Helpers shared by the collectors *)

Definition Qlt_bool (a b : Q) : bool := negb (Qle_bool b a).

(** [int(x)] of a float: truncation toward zero. *)
Definition Qtrunc (q : Q) : Z := Z.quot (Qnum q) (Zpos (Qden q)).

(** [result and result.stdout.strip().isdigit()]: the number printed by a
    command, if it printed one. *)
Definition stdout_number (r : option CommandResult) : option Z :=
  match r with
  | Some r =>
      if Py.isdigit (Py.strip (stdout r)) then Some (Py.int (Py.strip (stdout r)))
      else None
  | None => None
  end.

(** [result and result.stdout.strip() == text]. *)
Definition stdout_is (r : option CommandResult) (text : string) : bool :=
  match r with
  | Some r => String.eqb (Py.strip (stdout r)) text
  | None => false
  end.

(** [result and needle in result.stdout]. *)
Definition stdout_contains (r : option CommandResult) (needle : string) : bool :=
  match r with
  | Some r => Py.contains needle (stdout r)
  | None => false
  end.

Definition is_some {A} (o : option A) : bool :=
  match o with Some _ => true | None => false end.

(** ** Put-file repository ([managers/managers.py], [FileManager]) *)

Module PutFiles.
Section WithEnv.
Context (env : Env).

Definition list_put_files : M (option (list string)) :=
  interact (put_ids_resp env) EvListPutFiles.

Definition get_put_files_v2 (ids : list string) : M (option (list PutFile)) :=
  interact (put_files_resp env) (EvGetPutFiles ids).

Definition delete_put_files (id : string) : M (option WriteResponse) :=
  interact (put_write_resp env) (EvDeletePutFile id).

Definition create_put_files (name content comments description : string)
  : M (option WriteResponse) :=
  interact (put_write_resp env) (EvCreatePutFile name content comments description).

Definition read_local (path : string) : M LocalFile :=
  interact (local_file_resp env) (EvReadLocal path).

(** [resources_affected == 1], with no error listed. *)
Definition one_affected (r : WriteResponse) : bool :=
  match wr_affected r with
  | Some n => (n =? 1)%Z
  | None => false
  end.

Fixpoint names_of (files : list PutFile) : list string :=
  match files with
  | [] => []
  | f :: rest =>
      match pf_name f with
      | Some n => n :: names_of rest
      | None => names_of rest
      end
  end.

Definition list_cloud_files (cid : string) : M (list string) :=
  if negb (Py.truthy cid) then ret []
  else
    let* response := list_put_files in
    match response with
    | None => ret []
    | Some [] => ret []
    | Some ids_list =>
        let* file_ids := get_put_files_v2 ids_list in
        match file_ids with
        | None => ret []
        | Some files => ret (names_of files)
        end
    end.

(** The loop of [delete_from_cloud] over the listed files.  A file of
    another name is passed over; so is one without [id], whose [KeyError]
    is caught inside the loop.  The answer to a deletion ends the loop,
    unless it has [writes] without [resources_affected]: that [KeyError] is
    caught too and the loop goes on to the next file. *)
Fixpoint delete_matching (files : list PutFile) (filename : string) : M bool :=
  match files with
  | [] => ret false
  | file :: rest =>
      if FileManager.opt_eqb (pf_name file) filename then
        match pf_id file with
        | None => delete_matching rest filename
        | Some resource_id =>
            let* delete_response := delete_put_files resource_id in
            match delete_response with
            | None => ret false
            | Some r =>
                match wr_writes r with
                | NoWrites => ret false
                | WritesEmpty => delete_matching rest filename
                | Affected n => ret (n =? 1)%Z
                end
            end
        end
      else delete_matching rest filename
  end.

Definition delete_from_cloud (cid filename : string) : M bool :=
  if negb (Py.truthy cid) then ret false
  else if negb (Py.truthy filename) then ret false
  else
    let* response := list_put_files in
    match response with
    | None => ret false
    | Some [] => ret false
    | Some ids_list =>
        let* file_ids := get_put_files_v2 ids_list in
        match file_ids with
        | None => ret false
        | Some files => delete_matching files filename
        end
    end.

Definition upload_to_cloud (cid file_path comments description : string) : M bool :=
  if negb (Py.truthy cid) then ret false
  else if negb (Py.truthy file_path) then ret false
  else
    let* file := read_local file_path in
    match file with
    | FileMissing => ret false
    | FileUnreadable => ret false
    | FileContent file_content =>
        let filename := PosixPath.name (PosixPath.parse file_path) in
        let* upload_response :=
          create_put_files filename file_content comments description in
        match upload_response with
        | None => ret false
        | Some r => if wr_errors r then ret false else ret (one_affected r)
        end
    end.

End WithEnv.
End PutFiles.

(** ** Pre-execution cleanup ([utils/pre_execution_cleanup.py]) *)

Module PreCleanup.

Record Proc := mkProc {
  pid : string;
  name : string;
  command : string
}.

(** [x or default] on a string. *)
Definition or_string (s d : string) : string := if Py.truthy s then s else d.

Definition workspace_path (config : Config) (p : Platform) : string :=
  match p with
  | WINDOWS => or_string (kape_base_path config) "C:\0x4n6nerd"
  | _ => or_string (uac_base_path config) "/opt/0x4n6nerd"
  end.

Definition process_patterns (config : Config) (p : Platform) : list string :=
  match p with
  | WINDOWS => ["kape.exe"; "KAPE.exe"; "powershell.*KAPE"]
  | _ =>
      [workspace_path config LINUX ++ "/uac-main/uac"; "\./uac\s"; "\buac\s.*--";
       "curl.*s3.*amazonaws.*uac-"]
  end.

(** [_is_current_fnerd_falconpy_process]. *)
Definition is_current_fnerd_falconpy_process (command : string) : bool :=
  Py.contains "falcon-client" command
  || (Py.contains "python" (Py.lower command)
      && (Py.contains "falcon-client" command
          || Py.contains "fnerd-falconpy" command
          || Py.contains "fnerd_falconpy" command)).

(** One line of process output, if it yields a process to terminate. *)
Definition parse_process_line (p : Platform) (line : string) : option Proc :=
  if negb (Py.truthy (Py.strip line)) || Py.contains "grep" line then None
  else
    match p with
    | WINDOWS =>
        if Py.contains "ProcessId" line || Py.contains "--------" line then None
        else
          match Py.split_ws line with
          | pid :: name :: rest =>
              let command :=
                match rest with
                | [] => name
                | _ => Py.join " " rest
                end in
              if is_current_fnerd_falconpy_process command then None
              else Some (mkProc pid name command)
          | _ => None
          end
    | _ =>
        let parts := Py.split_ws line in
        if (11 <=? List.length parts)%nat then
          let pid := nth 1 parts "" in
          let exe := nth 10 parts "" in
          let command := Py.join " " (skipn 10 parts) in
          let name :=
            if Py.contains "/" exe then List.last (Py.split_on "/"%char exe) "" else exe in
          if is_current_fnerd_falconpy_process command then None
          else Some (mkProc pid name command)
        else None
    end.

Fixpoint parse_lines (p : Platform) (lines : list string) : list Proc :=
  match lines with
  | [] => []
  | line :: rest =>
      match parse_process_line p line with
      | Some proc => proc :: parse_lines p rest
      | None => parse_lines p rest
      end
  end.

(** [_parse_process_output]. *)
Definition parse_process_output (output : string) (p : Platform) : list Proc :=
  parse_lines p (Py.split_on Py.newline (Py.strip output)).

(** "Remove duplicates based on PID". *)
Fixpoint unique_by_pid (procs : list Proc) (seen_pids : list string) : list Proc :=
  match procs with
  | [] => []
  | proc :: rest =>
      if existsb (String.eqb (pid proc)) seen_pids then unique_by_pid rest seen_pids
      else proc :: unique_by_pid rest (pid proc :: seen_pids)
  end.

Section WithEnv.
Context (env : Env) (config : Config).

Definition find_processes_by_pattern (session : RTRSession) (p : Platform)
    (pattern : string) : M (list Proc) :=
  let ps_cmd :=
    match p with
    | WINDOWS =>
        "runscript -Raw=```Get-WmiObject Win32_Process | Where-Object { $_.Name -like '*"
        ++ pattern ++ "*' -or $_.CommandLine -like '*" ++ pattern
        ++ "*' } | Select-Object ProcessId,Name,CommandLine | Format-Table -AutoSize```"
    | _ => "runscript -Raw=```ps aux | grep -E '" ++ pattern ++ "' | grep -v grep```"
    end in
  let* result := exec env session "runscript" ps_cmd true in
  match result with
  | Some r =>
      if negb (Py.truthy (Py.strip (stdout r))) then ret []
      else ret (parse_process_output (stdout r) p)
  | None => ret []
  end.

Fixpoint find_all (session : RTRSession) (p : Platform) (patterns : list string)
  : M (list Proc) :=
  match patterns with
  | [] => ret []
  | pattern :: rest =>
      let* processes := find_processes_by_pattern session p pattern in
      let* more := find_all session p rest in
      ret (processes ++ more)%list
  end.

Definition check_running_processes (session : RTRSession) (p : Platform)
  : M (list Proc) :=
  let* running_processes := find_all session p (process_patterns config p) in
  ret (unique_by_pid running_processes []).

Fixpoint terminate_existing_processes (session : RTRSession) (p : Platform)
    (processes : list Proc) (success : bool) : M bool :=
  match processes with
  | [] => ret success
  | proc :: rest =>
      let kill_cmd :=
        match p with
        | WINDOWS => "runscript -Raw=```taskkill /F /PID " ++ pid proc ++ "```"
        | _ => "runscript -Raw=```kill -9 " ++ pid proc ++ "```"
        end in
      let* result := exec env session "runscript" kill_cmd true in
      let ok :=
        match result with
        | Some r => (return_code r =? 0)%Z
        | None => false
        end in
      let* _ := time_sleep 1 in
      terminate_existing_processes session p rest (success && ok)
  end.

Definition wait_body (session : RTRSession) (p : Platform) (start_time : Q)
    (_ : unit) : M (Step unit bool) :=
  let* now := time_time env in
  if negb (Qlt_bool (now - start_time) 30) then ret (Return false)
  else
    let* remaining_processes := check_running_processes session p in
    match remaining_processes with
    | [] => ret (Return true)
    | _ =>
        let* _ := time_sleep 2 in
        ret (Continue tt)
    end.

(** [_wait_for_process_termination], with its 30 s budget. *)
Definition wait_for_process_termination (fuel : nat) (session : RTRSession)
    (p : Platform) : M bool :=
  let* start_time := time_time env in
  let* r := loop fuel (wait_body session p start_time) tt in
  match r with
  | inr b => ret b
  | inl _ => ret false
  end.

Definition workspace_exists (session : RTRSession) (path : string) (p : Platform)
  : M bool :=
  let check_cmd :=
    match p with
    | WINDOWS => "runscript -Raw=```Test-Path '" ++ path ++ "'```"
    | _ => "runscript -Raw=```test -d " ++ path
           ++ " && echo 'EXISTS' || echo 'NOT_FOUND'```"
    end in
  let* result := exec env session "runscript" check_cmd true in
  match result with
  | Some r =>
      if Py.truthy (stdout r) then
        match p with
        | WINDOWS => ret (Py.contains "True" (stdout r))
        | _ => ret (Py.contains "EXISTS" (stdout r))
        end
      else ret false
  | None => ret false
  end.

Definition windows_cleanup_commands (path : string) : list string :=
  ["runscript -Raw=```Get-Process -Name 'kape' -ErrorAction SilentlyContinue | Stop-Process -Force -ErrorAction SilentlyContinue```";
   "runscript -Raw=```Get-Process | Where-Object {$_.Path -like '" ++ path
     ++ "*'} | Stop-Process -Force -ErrorAction SilentlyContinue```";
   "runscript -Raw=```Start-Sleep -Seconds 2```";
   "runscript -Raw=```if (Test-Path '" ++ path ++ "') { Remove-Item -Path '" ++ path
     ++ "' -Recurse -Force -ErrorAction Stop }```"].

Fixpoint run_cleanup_commands (session : RTRSession) (cmds : list string)
    (all_success : bool) : M bool :=
  match cmds with
  | [] => ret all_success
  | cmd :: rest =>
      let* result := exec env session "runscript" cmd true in
      let failed := negb (is_some result) && Py.contains "Remove-Item" cmd in
      let* _ := time_sleep 1 in
      run_cleanup_commands session rest (all_success && negb failed)
  end.

Definition clean_workspace_directory (session : RTRSession) (path : string)
    (p : Platform) : M bool :=
  let* removed :=
    match p with
    | WINDOWS => run_cleanup_commands session (windows_cleanup_commands path) true
    | _ =>
        let* result :=
          exec env session "runscript"
            ("runscript -Raw=```rm -rf " ++ path ++ "/* 2>/dev/null || true; rm -rf "
             ++ path ++ " 2>/dev/null || true; sync; sleep 3```") true in
        ret (is_some result)
    end in
  if negb removed then ret false
  else
    let* _ := time_sleep 8 in
    let* still := workspace_exists session path p in
    if negb still then ret true
    else
      let fallback_cmd :=
        match p with
        | WINDOWS => "runscript -Raw=```cmd.exe /c 'rmdir /s /q " ++ path ++ " 2>nul'```"
        | _ => "runscript -Raw=```rm -rf " ++ path
               ++ " 2>/dev/null || true; sync; sleep 1```"
        end in
      let* _ := exec env session "runscript" fallback_cmd true in
      let* _ := time_sleep 2 in
      let* still := workspace_exists session path p in
      ret (negb still)
    .

Definition create_fresh_workspace (session : RTRSession) (path : string)
    (p : Platform) : M bool :=
  let* _ := time_sleep 10 in
  let create_cmd :=
    match p with
    | WINDOWS => "runscript -Raw=```New-Item -ItemType Directory -Path '" ++ path
                 ++ "' -Force```"
    | _ => "runscript -Raw=```mkdir -p " ++ path ++ " && sync && sleep 1```"
    end in
  let* result := exec env session "runscript" create_cmd true in
  match result with
  | None => ret false
  | Some _ =>
      let* _ := time_sleep 3 in
      let* created := workspace_exists session path p in
      if created then ret true
      else
        let* _ := time_sleep 3 in
        let fallback_cmd :=
          match p with
          | WINDOWS =>
              "runscript -Raw=```New-Item -ItemType Directory -Path '" ++ path
              ++ "' -Force; if (Test-Path '" ++ path
              ++ "') { Write-Output 'SUCCESS' } else { Write-Output 'FAILED' }```"
          | _ =>
              "runscript -Raw=```mkdir -p " ++ path ++ " && sync && sleep 1; ls -ld "
              ++ path ++ " 2>/dev/null || echo 'FAILED'```"
          end in
        let* fallback_result := exec env session "runscript" fallback_cmd true in
        match fallback_result with
        | Some r =>
            if Py.truthy (stdout r) then
              match p with
              | WINDOWS => ret (Py.contains "SUCCESS" (stdout r))
              | _ => ret (negb (Py.contains "FAILED" (stdout r)))
              end
            else ret false
        | None => ret false
        end
  end.

Definition workspace_is_empty (session : RTRSession) (path : string) (p : Platform)
  : M bool :=
  let check_cmd :=
    match p with
    | WINDOWS => "runscript -Raw=```(Get-ChildItem '" ++ path
                 ++ "' -Force | Measure-Object).Count```"
    | _ => "runscript -Raw=```ls -la " ++ path ++ " | wc -l```"
    end in
  let* result := exec env session "runscript" check_cmd true in
  match stdout_number result with
  | Some count =>
      match p with
      | WINDOWS => ret (count =? 0)%Z
      | _ => ret (count <=? 3)%Z
      end
  | None => ret false
  end.

Definition verify_clean_environment (session : RTRSession) (p : Platform) : M bool :=
  let* remaining_processes := check_running_processes session p in
  match remaining_processes with
  | _ :: _ => ret false
  | [] =>
      let path := workspace_path config p in
      if Py.truthy path then
        let* there := workspace_exists session path p in
        if negb there then ret false
        else
          let* empty := workspace_is_empty session path p in
          if negb empty then ret false else ret true
      else ret true
  end.

(** Steps 1 to 5 of [ensure_clean_environment]: stale processes are
    terminated and the workspace is removed and created afresh.  [false]
    stands for [return False]. *)
Definition prepare_environment (fuel : nat) (session : RTRSession) (p : Platform)
  : M bool :=
  let* running_processes := check_running_processes session p in
  let* terminated :=
    match running_processes with
    | [] => ret true
    | _ =>
        let* ok := terminate_existing_processes session p running_processes true in
        if negb ok then ret false
        else
          let* _ := wait_for_process_termination fuel session p in
          ret true
    end in
  if negb terminated then ret false
  else
    let path := workspace_path config p in
    if Py.truthy path then
      let* there := workspace_exists session path p in
      let* cleaned :=
        if there then clean_workspace_directory session path p else ret true in
      if negb cleaned then ret false
      else create_fresh_workspace session path p
    else ret true.

(** [ensure_clean_environment]: the preparation, then step 6, the final
    verification, which decides. *)
Definition ensure_clean_environment (fuel : nat) (session : RTRSession)
    (host_info : HostInfo) : M bool :=
  match Platform_of (Py.lower (platform host_info)) with
  | None => ret false
  | Some p =>
      let* prepared := prepare_environment fuel session p in
      if negb prepared then ret false
      else verify_clean_environment session p
  end.

End WithEnv.
End PreCleanup.

(** ** Post-run workspace cleanup ([utils/workspace_cleanup.py]) *)

Module WorkspaceCleanup.
Section WithEnv.
Context (env : Env) (config : Config).

(** Run the commands in order, pausing after each when a pause is given;
    the results are not looked at. *)
Fixpoint run_all (session : RTRSession) (cmds : list string) (pause : option Q)
  : M unit :=
  match cmds with
  | [] => ret tt
  | cmd :: rest =>
      let* _ := exec env session "runscript" cmd true in
      let* _ :=
        match pause with
        | Some secs => time_sleep secs
        | None => ret tt
        end in
      run_all session rest pause
  end.

(** Run the commands in order and count those that gave a result. *)
Fixpoint run_counting (session : RTRSession) (cmds : list string) (success_count : Z)
  : M Z :=
  match cmds with
  | [] => ret success_count
  | cmd :: rest =>
      let* result := exec env session "runscript" cmd true in
      let* _ := time_sleep 1 in
      run_counting session rest
        (if is_some result then success_count + 1 else success_count)
  end.

(** Run the commands in order up to the first one without a result. *)
Fixpoint run_until_failure (session : RTRSession) (cmds : list string) : M bool :=
  match cmds with
  | [] => ret true
  | cmd :: rest =>
      let* result := exec env session "runscript" cmd true in
      match result with
      | None => ret false
      | Some _ => run_until_failure session rest
      end
  end.

Definition windows_cleanup_commands (path : string) (preserve_evidence : bool)
  : list string :=
  if preserve_evidence then
    ["runscript -Raw=```if (Test-Path '" ++ path ++ "\kape.zip') { Remove-Item '" ++ path
       ++ "\kape.zip' -Force -ErrorAction SilentlyContinue }```";
     "runscript -Raw=```if (Test-Path '" ++ path ++ "\kape') { Remove-Item '" ++ path
       ++ "\kape' -Recurse -Force -ErrorAction SilentlyContinue }```";
     "runscript -Raw=```if (Test-Path '" ++ path ++ "\*.log') { Remove-Item '" ++ path
       ++ "\*.log' -Force -ErrorAction SilentlyContinue }```"]
  else
    ["runscript -Raw=```if (Test-Path '" ++ path ++ "') { Get-ChildItem '" ++ path
       ++ "' -Recurse -Force -ErrorAction SilentlyContinue | Remove-Item -Recurse -Force -ErrorAction SilentlyContinue }```";
     "runscript -Raw=```if (Test-Path '" ++ path ++ "') { Remove-Item '" ++ path
       ++ "' -Recurse -Force -ErrorAction SilentlyContinue }```";
     "runscript -Raw=```cmd.exe /c 'rmdir /s /q " ++ path ++ " 2>nul'```"].

(** [_windows_cleanup]: fine as soon as one command gave a result. *)
Definition windows_cleanup (session : RTRSession) (path : string)
    (preserve_evidence : bool) : M bool :=
  let* success_count :=
    run_counting session (windows_cleanup_commands path preserve_evidence) 0 in
  ret (success_count >? 0).

Definition unix_cleanup_commands (path : string) (preserve_evidence : bool)
  : list string :=
  if preserve_evidence then
    ["runscript -Raw=```rm -f " ++ path ++ "/uac.zip 2>/dev/null || true```";
     "runscript -Raw=```rm -rf " ++ path ++ "/uac-main 2>/dev/null || true```";
     "runscript -Raw=```rm -f " ++ path ++ "/*.log " ++ path ++ "/*.pid " ++ path
       ++ "/uac_* 2>/dev/null || true```"]
  else
    ["runscript -Raw=```rm -rf " ++ path ++ " 2>/dev/null || true```"].

(** [_unix_cleanup]: every command must give a result. *)
Definition unix_cleanup (session : RTRSession) (path : string)
    (preserve_evidence : bool) : M bool :=
  run_until_failure session (unix_cleanup_commands path preserve_evidence).

Definition execute_cleanup_commands (session : RTRSession) (path : string)
    (p : Platform) (preserve_evidence : bool) : M bool :=
  match p with
  | WINDOWS => windows_cleanup session path preserve_evidence
  | _ => unix_cleanup session path preserve_evidence
  end.

(** [_verify_cleanup]: a check that gives no answer counts as success. *)
Definition verify_cleanup (session : RTRSession) (path : string) (p : Platform)
  : M bool :=
  let* _ := time_sleep 2 in
  let verify_cmd :=
    match p with
    | WINDOWS => "runscript -Raw=```Test-Path '" ++ path ++ "'```"
    | _ => "runscript -Raw=```test -d " ++ path
           ++ " && echo 'EXISTS' || echo 'NOT_FOUND'```"
    end in
  let* result := exec env session "runscript" verify_cmd true in
  match result with
  | Some r =>
      if Py.truthy (stdout r) then
        match p with
        | WINDOWS => ret (Py.contains "False" (stdout r))
        | _ => ret (Py.contains "NOT_FOUND" (stdout r))
        end
      else ret true
  | None => ret true
  end.

Definition aggressive_commands (path : string) (p : Platform) : list string :=
  match p with
  | WINDOWS =>
      ["runscript -Raw=```Get-Process | Where-Object {$_.Path -like '" ++ path
         ++ "*'} | Stop-Process -Force -ErrorAction SilentlyContinue```";
       "runscript -Raw=```cmd.exe /c 'takeown /f " ++ path ++ " /r /d y 2>nul'```";
       "runscript -Raw=```cmd.exe /c 'icacls " ++ path ++ " /reset /t /q 2>nul'```";
       "runscript -Raw=```cmd.exe /c 'rd /s /q " ++ path ++ " 2>nul'```";
       "runscript -Raw=```Remove-Item '" ++ path
         ++ "' -Recurse -Force -ErrorAction SilentlyContinue```"]
  | _ =>
      ["runscript -Raw=```lsof +D " ++ path
         ++ " 2>/dev/null | awk 'NR>1 {print $2}' | xargs -r kill -9 2>/dev/null || true```";
       "runscript -Raw=```umount -f " ++ path ++ " 2>/dev/null || true```";
       "runscript -Raw=```chmod -R 777 " ++ path ++ " 2>/dev/null || true```";
       "runscript -Raw=```rm -rf " ++ path ++ " 2>/dev/null || true```";
       "runscript -Raw=```find " ++ path
         ++ " -type f -exec rm -f {} \; 2>/dev/null || true```";
       "runscript -Raw=```find " ++ path
         ++ " -type d -depth -exec rmdir {} \; 2>/dev/null || true```"]
  end.

Definition aggressive_cleanup (session : RTRSession) (path : string) (p : Platform)
  : M bool :=
  let* _ := run_all session (aggressive_commands path p) (Some 1%Q) in
  let* _ := time_sleep 2 in
  verify_cleanup session path p.

(** [cleanup_workspace]; an unknown platform is the [ValueError] that the
    function turns into [False]. *)
Definition cleanup_workspace (session : RTRSession) (platform : string)
    (preserve_evidence : bool) : M bool :=
  match Platform_of (Py.lower platform) with
  | None => ret false
  | Some p =>
      let workspace_path := PreCleanup.workspace_path config p in
      if negb (Py.truthy workspace_path) then ret true
      else
        let* cleanup_success :=
          execute_cleanup_commands session workspace_path p preserve_evidence in
        if cleanup_success then
          let* verification_result := verify_cleanup session workspace_path p in
          if verification_result then ret true
          else aggressive_cleanup session workspace_path p
        else ret false
  end.

Definition emergency_termination_commands (path : string) (p : Platform)
  : list string :=
  match p with
  | WINDOWS =>
      ["runscript -Raw=```try { taskkill /F /IM kape.exe 2>$null } catch { }```";
       "runscript -Raw=```try { Get-Process -Name powershell -ErrorAction SilentlyContinue | Where-Object { $_.MainWindowTitle -like '*KAPE*' } | Stop-Process -Force } catch { }```";
       "runscript -Raw=```try { Get-WmiObject Win32_Process | Where-Object { $_.CommandLine -like '*0x4n6nerd*' } | ForEach-Object { Stop-Process -Id $_.ProcessId -Force } } catch { }```"]
  | _ =>
      ["runscript -Raw=```killall -9 uac 2>/dev/null```";
       "runscript -Raw=```killall -9 curl 2>/dev/null```";
       "runscript -Raw=```pkill -9 -f '" ++ path ++ "' 2>/dev/null```"]
  end.

Definition emergency_commands (path : string) (p : Platform) : list string :=
  match p with
  | WINDOWS =>
      ["runscript -Raw=```try { taskkill /F /IM kape.exe 2>$null } catch { Write-Output 'No KAPE processes' }```";
       "runscript -Raw=```try { Get-Process -Name powershell -ErrorAction SilentlyContinue | Where-Object { $_.MainWindowTitle -like '*KAPE*' } | Stop-Process -Force } catch { Write-Output 'No KAPE PowerShell' }```";
       "runscript -Raw=```if (Test-Path '" ++ path ++ "') { Get-ChildItem '" ++ path
         ++ "' -Recurse -Force | Remove-Item -Recurse -Force -ErrorAction SilentlyContinue } ```";
       "runscript -Raw=```if (Test-Path '" ++ path ++ "') { Remove-Item '" ++ path
         ++ "' -Recurse -Force -ErrorAction SilentlyContinue }```";
       "runscript -Raw=```if (Test-Path '" ++ path ++ "') { cmd /c 'rmdir /s /q \"
         ++ Py.dquote ++ path ++ "\" ++ Py.dquote ++ " 2>nul' }```"]
  | _ =>
      ["runscript -Raw=```pkill -f 'uac' 2>/dev/null || true```";
       "runscript -Raw=```pkill -f '" ++ path ++ "' 2>/dev/null || true```";
       "runscript -Raw=```rm -rf " ++ path ++ "/* 2>/dev/null || true; rm -rf " ++ path
         ++ " 2>/dev/null || true; sync; sleep 1```";
       "runscript -Raw=```find /opt /tmp -name '0x4n6nerd' -type d -exec rm -rf {} \\; 2>/dev/null || true```"]
  end.

(** [emergency_cleanup]: with no session at hand it opens one, and closes
    the one it opened. *)
Definition emergency_cleanup (session : option RTRSession) (platform aid : string)
  : M bool :=
  match Platform_of (Py.lower platform) with
  | None => ret false
  | Some p =>
      let workspace_path := PreCleanup.workspace_path config p in
      if negb (Py.truthy workspace_path) then ret true
      else
        let* acquired :=
          match session with
          | Some s => ret (Some (s, false))
          | None =>
              let* s := start_session env aid in
              match s with
              | Some s => ret (Some (s, true))
              | None => ret None
              end
          end in
        match acquired with
        | None => ret false
        | Some (session, session_created) =>
            let* _ :=
              run_all session (emergency_termination_commands workspace_path p) None in
            let* _ :=
              run_all session (emergency_commands workspace_path p) (Some (1 # 2)) in
            let* _ :=
              if session_created then
                let* _ := end_session env session in ret tt
              else ret tt in
            ret true
        end
  end.

End WithEnv.
End WorkspaceCleanup.

(** ** Windows collector ([collectors/collectors.py], [ForensicCollector]) *)

Module ForensicCollector.

(** The seconds to wait for the upload, from the file size:
    [min(max(300, int((file_size / 2**20) * 1.5)), 1800)]. *)
Definition actual_wait_time (file_size : Z) : Z :=
  Z.min (Z.max 300 (Qtrunc ((inject_Z file_size / inject_Z (1 * 1024 * 1024)) * (3 # 2))))
        1800.

Section WithEnv.
Context (env : Env) (config : Config).

(** [prepare_kape_package]: the path of the zipped package, as text; the
    function re-raises whatever goes wrong. *)
Definition prepare_kape_package (target : string) : M string :=
  let* r := interact (package_resp env) (EvPackage ("kape:" ++ target)) in
  match r with
  | Some kape_zip => ret kape_zip
  | None => raise
  end.

(** The deploy script among the package resources, when it exists. *)
Definition find_deploy_script : M (option string) :=
  interact (package_resp env) (EvPackage "deploy_kape.ps1").

Definition in_list (x : string) (l : list string) : bool :=
  existsb (String.eqb x) l.

(** The session of [monitor_kape_execution] and its pulse. *)
Definition monitor_kape_body (session : RTRSession) (timeout start_time : Q)
    (last_pulse_time : Q) : M (Step Q bool) :=
  let* now := time_time env in
  let elapsed_seconds := (now - start_time)%Q in
  if FileManager.Qgt_bool elapsed_seconds timeout then ret (Return false)
  else
    let* now2 := time_time env in
    let* last_pulse_time :=
      if FileManager.Qge_bool (now2 - last_pulse_time) 300 then
        let* ok := pulse_session env session in
        if ok then time_time env else ret last_pulse_time
      else ret last_pulse_time in
    let* ps_result := exec env session "ps" "ps" true in
    match ps_result with
    | None => ret (Return false)
    | Some r =>
        if negb (Py.contains "kape.exe" (stdout r)) then ret (Return true)
        else
          let* _ := time_sleep 60 in
          ret (Continue last_pulse_time)
    end.

Definition monitor_kape_execution (fuel : nat) (session : RTRSession) (timeout : Z)
  : M bool :=
  try_except
    (let* start_time := time_time env in
     let* last_pulse_time := time_time env in
     let* r := loop fuel (monitor_kape_body session (inject_Z timeout) start_time)
                    last_pulse_time in
     match r with
     | inr b => ret b
     | inl _ => ret false
     end)
    (ret false).

Definition ls_temp : string := "ls " ++ kape_base_path config ++ "\temp\".

(** Everything of [run_kape_collection] up to the start of the session:
    the package, the two uploads to the put-file repository and
    [start_session].  [None] stands for [return None]. *)
Definition stage_kape (host_info : HostInfo) (target : string)
  : M (option RTRSession) :=
  let* kape_zip := prepare_kape_package target in
  let* cloud_files := PutFiles.list_cloud_files env (cid host_info) in
  let* _ :=
    if in_list "kape.zip" cloud_files then
      let* _ := PutFiles.delete_from_cloud env (cid host_info) "kape.zip" in ret tt
    else ret tt in
  let* uploaded :=
    PutFiles.upload_to_cloud env (cid host_info) kape_zip
      "Kape Triage Tool Upload" "4n6 Triage Tool" in
  if negb uploaded then ret None
  else
    let* _ :=
      if in_list "deploy_kape.ps1" cloud_files then
        let* _ := PutFiles.delete_from_cloud env (cid host_info) "deploy_kape.ps1" in
        ret tt
      else ret tt in
    let* deploy_script := find_deploy_script in
    match deploy_script with
    | None => ret None
    | Some deploy_script =>
        let* uploaded :=
          PutFiles.upload_to_cloud env (cid host_info) deploy_script
            "Kape Triage Execution Script" "Kape Launcher Script" in
        if negb uploaded then ret None
        else start_session env (aid host_info)
    end.

(** "Execute KAPE deployment" and what follows it, on a workspace that
    passed the pre-execution check. *)
Definition deploy_kape (fuel : nat) (session : RTRSession) : M (option string) :=
  let workspace_path := kape_base_path config in
  let* _ := exec env session "cd" ("cd " ++ workspace_path) true in
  let* temp_result := exec env session "mkdir" "mkdir temp" true in
  let* _ :=
    match temp_result with
    | Some _ =>
        let* _ := exec env session "runscript"
                    ("runscript -Raw=```Test-Path '" ++ workspace_path ++ "\temp'```")
                    true in
        ret tt
    | None => ret tt
    end in
  let* _ := exec env session "put" "put kape.zip" true in
  let* _ := exec env session "put" "put deploy_kape.ps1" true in
  let* _ :=
    exec env session "runscript"
      ("runscript -Raw=```powershell.exe -noprofile -executionpolicy bypass -file "
       ++ workspace_path ++ "\deploy_kape.ps1```") true in
  let* _ := time_sleep 3 in
  let* ps_result := exec env session "ps" "ps" true in
  if negb (stdout_contains ps_result "kape.exe") then
    let* _ := exec env session "runscript"
                ("runscript -Raw=```Get-ChildItem '" ++ workspace_path
                 ++ "\' | Select-Object Name```") true in
    let* _ := exec env session "runscript"
                ("runscript -Raw=```Get-Content '" ++ workspace_path
                 ++ "\_kape.cli' -ErrorAction SilentlyContinue```") true in
    ret None
  else
    let* monitored := monitor_kape_execution fuel session 7200 in
    if negb monitored then ret None
    else
      let* ls_result := exec env session "runscript" ls_temp false in
      match ls_result with
      | None => ret None
      | Some r => ret (Re.search_triage (stdout r))
      end.

(** The part of [run_kape_collection] that runs on the open session. *)
Definition collect_kape (fuel : nat) (session : RTRSession) (host_info : HostInfo)
  : M (option string) :=
  let* clean := PreCleanup.ensure_clean_environment env config fuel session host_info in
  if negb clean then ret None
  else deploy_kape fuel session.

Definition close_session (session : RTRSession) : M unit :=
  let* _ := end_session env session in ret tt.

Definition run_kape_collection (fuel : nat) (host_info : HostInfo) (target : string)
  : M (option string) :=
  let* staged := try_except (stage_kape host_info target) (ret None) in
  match staged with
  | None => ret None
  | Some session =>
      try_finally
        (try_except (collect_kape fuel session host_info) (ret None))
        (close_session session)
  end.

(** *** [upload_kape_results] *)

Definition sleep_and (st : Z * Z) : M (Step (Z * Z) bool) :=
  let* _ := time_sleep 10 in
  ret (Continue st).

(** One round of [_wait_for_file_stability]; the loop state is
    [(last_size, stable_count)]. *)
Definition stability_body (session : RTRSession) (file_path : string)
    (start_time max_wait : Q) (st : Z * Z) : M (Step (Z * Z) bool) :=
  let '(last_size, stable_count) := st in
  let* now := time_time env in
  if negb (Qlt_bool (now - start_time) max_wait) then ret (Break st)
  else
    let* _ := time_time env in
    let* size_result :=
      exec env session "runscript"
        ("runscript -Raw=```if (Test-Path '" ++ file_path ++ "') { (Get-Item '"
         ++ file_path ++ "').Length } else { Write-Output '' }```") true in
    match size_result with
    | None => sleep_and st
    | Some r =>
        if negb (Py.truthy (Py.strip (stdout r))) then sleep_and st
        else
          match Py.int_opt (Py.strip (stdout r)) with
          | None => sleep_and st
          | Some current_size =>
              if (current_size =? last_size) && (current_size >? 0) then
                let stable_count := stable_count + 1 in
                if stable_count >=? 3 then
                  let* lock_check :=
                    exec env session "runscript"
                      ("runscript -Raw=```try { [System.IO.File]::OpenWrite('"
                       ++ file_path
                       ++ "').Close(); Write-Output 'UNLOCKED' } catch { Write-Output 'LOCKED' }```")
                      true in
                  if stdout_contains lock_check "UNLOCKED" then ret (Return true)
                  else sleep_and (last_size, 0)
                else sleep_and (last_size, stable_count)
              else if negb (current_size =? last_size) then sleep_and (current_size, 0)
              else sleep_and st
          end
    end.

Definition wait_for_file_stability (fuel : nat) (session : RTRSession)
    (file_path : string) (max_wait : Z) : M bool :=
  let* start_time := time_time env in
  let* r := loop fuel (stability_body session file_path start_time (inject_Z max_wait))
                 (-1, 0) in
  match r with
  | inr b => ret b
  | inl _ => ret false
  end.

(** [_verify_s3_upload_success] with the expected size: the second look at
    the object only feeds the log. *)
Definition verify_s3_upload_success (bucket_name object_key : string)
    (expected_size : Z) : M bool :=
  let* verification_result :=
    CloudStorage.verify_s3_upload env bucket_name object_key (Some expected_size) in
  if verification_result then ret true
  else
    let* _ := CloudStorage.get_s3_object_info env bucket_name object_key in
    ret false.

Definition ps_upload_check : string :=
  "runscript -Raw=```Get-WmiObject Win32_Process -Filter " ++ Py.dquote
  ++ "Name='powershell.exe'" ++ Py.dquote
  ++ " | Where-Object { $_.CommandLine -like '*Invoke-WebRequest*' -and $_.CommandLine -like '*PUT*' } | Measure-Object | Select-Object -ExpandProperty Count```".

(** One round of the upload watch; the loop state is [last_pulse_time]. *)
Definition upload_watch_body (session : RTRSession) (start_time : Q) (wait : Z)
    (last_pulse_time : Q) : M (Step Q unit) :=
  let* now := time_time env in
  let elapsed := (now - start_time)%Q in
  let* now2 := time_time env in
  let* last_pulse_time :=
    if FileManager.Qge_bool (now2 - last_pulse_time) 300 then
      let* ok := pulse_session env session in
      if ok then time_time env else ret last_pulse_time
    else ret last_pulse_time in
  let* ps_check := exec env session "runscript" ps_upload_check true in
  let finished :=
    match stdout_number ps_check with
    | Some ps_count => ps_count =? 0
    | None => false
    end in
  if finished then
    let* _ := time_sleep 30 in
    ret (Break last_pulse_time)
  else if FileManager.Qgt_bool elapsed (inject_Z wait) then ret (Break last_pulse_time)
  else
    let* _ := time_sleep 10 in
    ret (Continue last_pulse_time).

(** What is known when the final verification starts. *)
Record UploadContext := mkUploadContext {
  ctx_session : RTRSession;
  ctx_bucket : string;
  ctx_key : string;
  ctx_file_size : Z
}.

(** [upload_kape_results] up to the final S3 verification.  [inr] carries
    the session of an early [return False], when there is one. *)
Definition upload_until_verification (fuel : nat) (host_info : HostInfo)
  : M (UploadContext + option RTRSession) :=
  let* session := start_session env (aid host_info) in
  match session with
  | None => ret (inr None)
  | Some session =>
      let workspace_path := kape_base_path config in
      let* ls_result := exec env session "runscript" ls_temp false in
      match ls_result with
      | None => ret (inr (Some session))
      | Some ls =>
          match Re.search_triage (stdout ls) with
          | None => ret (inr (Some session))
          | Some found =>
              let triage_name := Py.strip found in
              let bucket_name := s3_bucket config in
              let s3_filename := triage_name ++ ".7z" in
              let* presigned :=
                try_except
                  (let* u := CloudStorage.generate_upload_url env bucket_name s3_filename in
                   ret (Some u))
                  (ret None) in
              match presigned with
              | None => ret (inr (Some session))
              | Some (url, key) =>
                  if negb (Py.truthy url) then ret (inr (Some session))
                  else
                    let proxied_url :=
                      if proxy_enabled config
                      then Py.replace (bucket_name ++ ".s3.amazonaws.com")
                                      (proxy_host config) url
                      else url in
                    let hosts_cmd :=
                      Configuration.generate_hosts_command config "windows" in
                    let* _ :=
                      if Py.truthy hosts_cmd then
                        let* _ := exec env session "runscript" hosts_cmd true in ret tt
                      else ret tt in
                    let file_path := workspace_path ++ "\temp\" ++ triage_name ++ ".zip" in
                    let* zip_ready := wait_for_file_stability fuel session file_path 600 in
                    if negb zip_ready then ret (inr (Some session))
                    else
                      let* stat_result :=
                        exec env session "runscript"
                          ("runscript -Raw=```(Get-Item '" ++ file_path ++ "').Length```")
                          true in
                      let file_size :=
                        match stdout_number stat_result with
                        | Some n => n
                        | None => 5 * 1024 * 1024 * 1024
                        end in
                      let* _ :=
                        exec env session "runscript"
                          ("runscript -Raw=```Set-ItemProperty -Path 'HKLM:\SOFTWARE\Microsoft\Internet Explorer\Main' -Name 'DisableFirstRunCustomize' -Value 2; Start-Process powershell -WindowStyle hidden -ArgumentList "
                           ++ Py.dquote ++ "Invoke-WebRequest -Method PUT -Infile '"
                           ++ workspace_path ++ "\temp\" ++ triage_name ++ ".zip' -Uri '"
                           ++ proxied_url ++ "'" ++ Py.dquote ++ "```") true in
                      let* start_time := time_time env in
                      let* last_pulse_time := time_time env in
                      let* r := loop fuel
                                  (upload_watch_body session start_time
                                     (actual_wait_time file_size))
                                  last_pulse_time in
                      match r with
                      | inr _ => ret (inr (Some session))
                      | inl _ =>
                          ret (inl (mkUploadContext session bucket_name s3_filename
                                      file_size))
                      end
              end
          end
      end
  end.

(** The [finally] clause: the workspace is cleaned, by the emergency
    procedure if need be, and the session is closed. *)
Definition post_upload_cleanup (session : option RTRSession) : M unit :=
  match session with
  | None => ret tt
  | Some session =>
      let* cleanup_success :=
        WorkspaceCleanup.cleanup_workspace env config session "windows" false in
      let* _ :=
        if cleanup_success then ret tt
        else
          let* _ := WorkspaceCleanup.emergency_cleanup env config (Some session)
                      "windows" "" in
          ret tt in
      close_session session
  end.

Definition upload_kape_results (fuel : nat) (host_info : HostInfo)
    (collection_file : string) : M bool :=
  let* reached := upload_until_verification fuel host_info in
  match reached with
  | inr session =>
      let* _ := post_upload_cleanup session in
      ret false
  | inl ctx =>
      let* upload_success :=
        verify_s3_upload_success (ctx_bucket ctx) (ctx_key ctx) (ctx_file_size ctx) in
      let* _ := post_upload_cleanup (Some (ctx_session ctx)) in
      ret upload_success
  end.

End WithEnv.
End ForensicCollector.

(** ** Unix collector ([collectors/uac_collector.py]) *)

Module UACCollector.

(** The loop state of [monitor_uac_execution]. *)
Record MonitorState := mkMonitor {
  timeout : Q;
  last_pulse_time : Q;
  last_file_count : Z;
  last_progress_time : Q
}.

(** The directory entries counted when the artifact count is not
    available. *)
Definition count_listing (listing : string) : Z :=
  Z.of_nat (List.length
    (List.filter
       (fun line => Py.truthy (Py.strip line)
                    && negb (Py.startswith "total" line)
                    && negb (Py.endswith "." line)
                    && negb (Py.endswith ".." line))
       (Py.split_on Py.newline listing))).

Fixpoint lookup_timeout (profile : string) (l : list (string * Z)) : option Z :=
  match l with
  | [] => None
  | (k, v) :: r => if String.eqb k profile then Some v else lookup_timeout profile r
  end.

(** [x or default] on an optional integer. *)
Definition or_default (o : option Z) (d : Z) : Z :=
  match o with
  | Some v => if (v =? 0)%Z then d else v
  | None => d
  end.

Section WithEnv.
Context (env : Env) (config : Config).

(** [_execute_with_retry]: up to [max_retries + 1] attempts, sleeping
    [backoff_base ** attempt] between them. *)
Fixpoint execute_with_retry_from (attempts_left : nat) (attempt : nat)
    (session : RTRSession) (base_command command : string) (is_admin : bool)
    (backoff_base : Q) : M (option CommandResult) :=
  match attempts_left with
  | O => ret None
  | S more =>
      let* result := exec env session base_command command is_admin in
      match result with
      | Some r => ret (Some r)
      | None =>
          let* _ :=
            match more with
            | O => ret tt
            | S _ => time_sleep (Qpower backoff_base (Z.of_nat attempt))
            end in
          execute_with_retry_from more (S attempt) session base_command command
                                  is_admin backoff_base
      end
  end.

Definition execute_with_retry (session : RTRSession) (base_command command : string)
    (is_admin : bool) (max_retries : nat) (backoff_base : Q)
  : M (option CommandResult) :=
  execute_with_retry_from (S max_retries) 0 session base_command command
                          is_admin backoff_base.

(** The file-size stability check on a found archive; the loop state is
    [(last_size, stable_count)].  Either way the base name is returned. *)
Definition stability_body (session : RTRSession) (evidence_path collection_file : string)
    (stability_start : Q) (st : option Z * Z) : M (Step (option Z * Z) unit) :=
  let '(last_size, stable_count) := st in
  let* now := time_time env in
  if negb (Qlt_bool (now - stability_start) 300) then ret (Break st)
  else
    let* size_check :=
      exec env session "runscript"
        ("runscript -Raw=```if [ -f " ++ evidence_path ++ "/" ++ collection_file
         ++ " ]; then ls -la " ++ evidence_path ++ "/" ++ collection_file
         ++ " | awk '{print $5}'; else echo ''; fi```") true in
    match stdout_number size_check with
    | Some current_size =>
        let same :=
          match last_size with
          | Some s => (s =? current_size)%Z
          | None => false
          end in
        if same then
          let stable_count := (stable_count + 1)%Z in
          if (stable_count >=? 2)%Z then ret (Return tt)
          else
            let* _ := time_sleep 10 in
            ret (Continue (Some current_size, stable_count))
        else
          let* _ := time_sleep 10 in
          ret (Continue (Some current_size, 0%Z))
    | None =>
        let* _ := time_sleep 10 in
        ret (Continue (None, 0%Z))
    end.

Definition ls_evidence (evidence_path : string) : string :=
  "runscript -Raw=```ls -la " ++ evidence_path ++ "```".

(** The wait for the archive after UAC has exited with code 0:
    [while time.time() - archive_wait_start < archive_timeout]. *)
Definition archive_timeout : Q := 900.

Definition archive_wait_body (session : RTRSession) (evidence_path hostname : string)
    (archive_wait_start : Q) (_ : unit) : M (Step unit (option string)) :=
  let* now := time_time env in
  if negb (Qlt_bool (now - archive_wait_start) archive_timeout) then ret (Break tt)
  else
    let* ls_result := exec env session "runscript" (ls_evidence evidence_path) true in
    let found :=
      match ls_result with
      | Some r => Re.search_uac_archive env hostname (stdout r)
      | None => ReNoMatch
      end in
    match found with
    | ReError => raise
    | ReMatch collection_file =>
        ret (Return (Some (Py.replace ".tar.gz" "" collection_file)))
    | ReNoMatch =>
        let* _ := time_time env in
        let* _ := time_sleep 10 in
        ret (Continue tt)
    end.

Definition exit_code_command (deploy_path : string) : string :=
  "runscript -Raw=```test -f " ++ deploy_path ++ "/uac_exit_code && cat "
  ++ deploy_path ++ "/uac_exit_code```".


(** "Archive not found yet, check if UAC process has finished": [Some r]
    when the monitor returns [r] here, [None] when UAC is still running. *)
Definition check_finished (fuel : nat) (session : RTRSession)
    (evidence_path hostname deploy_path : string) : M (option (option string)) :=
  let* exit_code_check :=
    exec env session "runscript" (exit_code_command deploy_path) true in
  match stdout_number exit_code_check with
  | Some exit_code =>
      if (exit_code =? 0)%Z then
        let* archive_wait_start := time_time env in
        let* r := loop fuel
                    (archive_wait_body session evidence_path hostname archive_wait_start)
                    tt in
        match r with
        | inr found => ret (Some found)
        | inl _ => ret (Some None)
        end
      else
        let* _ :=
          exec env session "runscript"
            ("runscript -Raw=```tail -n 50 " ++ deploy_path
             ++ "/uac_output.log 2>/dev/null | grep -E '__EOF__.*artifact not found'```")
            true in
        ret (Some None)
  | None => ret None
  end.

Definition pid_check_command (deploy_path : string) : string :=
  "runscript -Raw=```test -f " ++ deploy_path ++ "/uac.pid && cat "
  ++ deploy_path ++ "/uac.pid```".

Definition proc_check_command (pid : string) : string :=
  "runscript -Raw=```ps -p " ++ pid ++ " | grep -v PID | wc -l```".

(** An iteration of the monitoring loop up to the listing of the evidence
    directory: either the iteration is decided before that ([inl]), or the
    listing is there, with the time of the last pulse ([inr]). *)
Definition monitor_poll (session : RTRSession)
    (evidence_path deploy_path : string) (start_time : Q)
    (st : MonitorState)
  : M (Step MonitorState (option string) + Q * CommandResult) :=
  let* now := time_time env in
  let elapsed_seconds := (now - start_time)%Q in
  let* now2 := time_time env in
  let* last_pulse :=
    if FileManager.Qge_bool (now2 - last_pulse_time st) 300 then
      let* ok := pulse_session env session in
      let* _ := if ok then (let* _ := time_time env in ret tt) else ret tt in
      time_time env
    else ret (last_pulse_time st) in
  let* log_check :=
    execute_with_retry session "runscript"
      ("runscript -Raw=```test -f " ++ deploy_path
       ++ "/uac_output.log && echo 1 || echo 0```") true 1 2 in
  let* _ :=
    if (Qtrunc elapsed_seconds mod 300 =? 0)%Z then
      let* _ := execute_with_retry session "runscript"
                  ("runscript -Raw=```test -f " ++ deploy_path
                   ++ "/uac_output.log && tail -n 10 " ++ deploy_path
                   ++ "/uac_output.log || echo 'Log file not found'```") true 1 2 in
      ret tt
    else ret tt in
  let* log_result :=
    if stdout_is log_check "1" then
      execute_with_retry session "runscript"
        ("runscript -Raw=```tail -n 5 " ++ deploy_path
         ++ "/uac_output.log 2>/dev/null```") true 1 2
    else ret None in
  if FileManager.Qgt_bool elapsed_seconds (timeout st) then
    let* pid_check := exec env session "runscript" (pid_check_command deploy_path) true in
    let* alive :=
      match pid_check with
      | Some r =>
          if Py.isdigit (Py.strip (stdout r)) then
            let* proc_check :=
              exec env session "runscript" (proc_check_command (Py.strip (stdout r)))
                   true in
            ret (stdout_is proc_check "1")
          else ret false
      | None => ret false
      end in
    if alive then
      ret (inl (Continue (mkMonitor (timeout st + 1800) last_pulse (last_file_count st)
                                    (last_progress_time st))))
    else ret (inl (Return None))
  else
    let* ls_result :=
      execute_with_retry session "runscript" (ls_evidence evidence_path) true 3 2 in
    match ls_result with
    | None => ret (inl (Return None))
    | Some ls => ret (inr (last_pulse, ls))
    end.

(** The rest of the iteration, once the evidence directory is listed. *)
Definition after_listing (fuel : nat) (session : RTRSession)
    (evidence_path hostname deploy_path : string) (interval : Q)
    (st : MonitorState) (last_pulse : Q) (ls : CommandResult)
  : M (Step MonitorState (option string)) :=
  match Re.search_uac_archive env hostname (stdout ls) with
  | ReError => raise
  | ReMatch collection_file =>
      let base_name := Py.replace ".tar.gz" "" collection_file in
      let* stability_start := time_time env in
      let* _ := loop fuel
                  (stability_body session evidence_path collection_file
                                  stability_start)
                  (None, 0%Z) in
      ret (Return (Some base_name))
  | ReNoMatch =>
      let* finished :=
        check_finished fuel session evidence_path hostname deploy_path in
      match finished with
      | Some r => ret (Return r)
      | None =>
          let* uac_data_result :=
            exec env session "runscript"
              ("runscript -Raw=```find " ++ evidence_path
               ++ " -type f -name '*.yaml' 2>/dev/null | wc -l```") true in
          let file_count :=
            match stdout_number uac_data_result with
            | Some n => n
            | None =>
                if Py.truthy (stdout ls) then count_listing (stdout ls) else 0%Z
            end in
          let* progress :=
            if (file_count >? last_file_count st)%Z then
              let* t := time_time env in ret (file_count, t)
            else ret (last_file_count st, last_progress_time st) in
          let* _ := time_sleep interval in
          ret (Continue (mkMonitor (timeout st) last_pulse (fst progress)
                                   (snd progress)))
      end
  end.

(** One iteration of the monitoring loop. *)
Definition monitor_body (fuel : nat) (session : RTRSession)
    (evidence_path hostname deploy_path : string) (interval start_time : Q)
    (st : MonitorState) : M (Step MonitorState (option string)) :=
  let* polled := monitor_poll session evidence_path deploy_path start_time st in
  match polled with
  | inl step => ret step
  | inr (last_pulse, ls) =>
      after_listing fuel session evidence_path hostname deploy_path interval
                    st last_pulse ls
  end.

(** The monitoring budget: the explicit one, else the profile's, else the
    configured default (or 18000 s). *)
Definition monitor_timeout (timeout : option Z) (profile : string) : Z :=
  match timeout with
  | Some t => t
  | None =>
      let profile_timeouts :=
        SessionManager.get_default (uac_profile_timeouts config) [] in
      match lookup_timeout profile profile_timeouts with
      | Some t => t
      | None => or_default (uac_timeout config) 18000
      end
  end.

Definition monitor_interval : Z := or_default (uac_monitoring_interval config) 30.

Definition monitor_uac_execution (fuel : nat) (session : RTRSession)
    (evidence_path hostname deploy_path : string) (timeout : option Z)
    (profile : string) : M (option string) :=
  try_except
    (let timeout := monitor_timeout timeout profile in
     let interval := monitor_interval in
     let* start_time := time_time env in
     let* r := loop fuel
                 (monitor_body fuel session evidence_path hostname deploy_path
                               (inject_Z interval) start_time)
                 (mkMonitor (inject_Z timeout) start_time 0 start_time) in
     match r with
     | inr found => ret found
     | inl _ => ret None
     end)
    (ret None).

(** *** [run_uac_collection] *)

(** [result and result.return_code == 0]. *)
Definition succeeded (r : option CommandResult) : bool :=
  match r with
  | Some r => (return_code r =? 0)%Z
  | None => false
  end.

(** The UAC package among the package resources: its path, when the
    archive exists and can be read. *)
Definition find_uac_package : M (option string) :=
  interact (package_resp env) (EvPackage "uac.zip").

(** Everything of [run_uac_collection] up to the start of the session:
    the platform check, the fresh upload of [uac.zip] and [start_session].
    [None] stands for [return None]. *)
Definition stage_uac (host_info : HostInfo) : M (option RTRSession) :=
  match Platform_of (Py.lower (platform host_info)) with
  | None => ret None
  | Some WINDOWS => ret None
  | Some _ =>
      let uac_file := "uac.zip" in
      let* cloud_files := PutFiles.list_cloud_files env (cid host_info) in
      let* _ :=
        if ForensicCollector.in_list uac_file cloud_files then
          let* _ := PutFiles.delete_from_cloud env (cid host_info) uac_file in
          time_sleep 5
        else ret tt in
      let* uac_package := find_uac_package in
      match uac_package with
      | None => ret None
      | Some uac_package =>
          let* uploaded :=
            PutFiles.upload_to_cloud env (cid host_info) uac_package
              "UAC Unix Artifacts Collector Upload" "4n6 UAC Tool" in
          if negb uploaded then ret None
          else
            let* _ := time_sleep 30 in
            let* _ := PutFiles.list_cloud_files env (cid host_info) in
            let* cloud_files := PutFiles.list_cloud_files env (cid host_info) in
            if negb (ForensicCollector.in_list uac_file cloud_files) then ret None
            else start_session env (aid host_info)
      end
  end.

(** "Deploy and execute UAC" and what follows it, on a workspace that
    passed the pre-execution check. *)
Definition deploy_uac (fuel : nat) (session : RTRSession) (host_info : HostInfo)
    (profile : string) : M (option string) :=
  let uac_file := "uac.zip" in
  let deploy_path := uac_base_path config in
  let evidence_path := deploy_path ++ "/evidence" in
  let* cd_result := exec env session "cd" ("cd " ++ deploy_path) true in
  if negb (succeeded cd_result) then ret None
  else
    let* _ := exec env session "runscript" "runscript -Raw=```pwd```" true in
    let* put_result := exec env session "put" ("put " ++ uac_file) true in
    let* proceed :=
      if succeeded put_result then ret true
      else
        let* cloud_files := PutFiles.list_cloud_files env (cid host_info) in
        if negb (ForensicCollector.in_list uac_file cloud_files) then ret false
        else
          let* check_existing :=
            exec env session "runscript"
              ("runscript -Raw=```test -f " ++ deploy_path ++ "/" ++ uac_file
               ++ " && echo 'EXISTS' || echo 'NOT_FOUND'```") true in
          ret (stdout_contains check_existing "EXISTS") in
    if negb proceed then ret None
    else
      let* extract_result :=
        exec env session "runscript"
          ("runscript -Raw=```cd " ++ deploy_path ++ " && unzip -o " ++ uac_file
           ++ " 2>&1```") true in
      if negb (succeeded extract_result) then ret None
      else
        let* _ := exec env session "runscript"
                    ("runscript -Raw=```ls -la " ++ deploy_path ++ "```") true in
        let* ls_result :=
          exec env session "runscript"
            ("runscript -Raw=```find " ++ deploy_path
             ++ " -maxdepth 1 -type d -name 'uac*' | head -1```") true in
        let uac_path :=
          match ls_result with
          | Some r => Py.strip (stdout r)
          | None => ""
          end in
        if negb (Py.truthy uac_path) then
          let* _ := exec env session "runscript"
                      ("runscript -Raw=```ls -la " ++ deploy_path ++ "```") true in
          ret None
        else
          let* _ := exec env session "runscript"
                      ("runscript -Raw=```chmod +x " ++ uac_path ++ "/uac```") true in
          let* _ := exec env session "runscript"
                      ("runscript -Raw=```cd " ++ uac_path ++ " && ./uac --version 2>&1```")
                      true in
          let* test_result :=
            exec env session "runscript"
              ("runscript -Raw=```cd " ++ uac_path ++ " && ./uac -p " ++ profile
               ++ " --validate-only 2>&1 || echo 'Profile validation result: '$?```")
              true in
          let* _ :=
            if stdout_contains test_result "profile not found" then
              let* _ := exec env session "runscript"
                          ("runscript -Raw=```cd " ++ uac_path
                           ++ " && ./uac --profile list | grep -i " ++ profile ++ "```")
                          true in
              ret tt
            else ret tt in
          let* _ := exec env session "runscript"
                      ("runscript -Raw=```ls -la " ++ uac_path ++ "/profiles/```") true in
          let* _ := exec env session "runscript"
                      ("runscript -Raw=```mkdir -p " ++ evidence_path ++ "```") true in
          let* uac_result :=
            exec env session "runscript"
              ("runscript -Raw=```(cd " ++ uac_path ++ " && ./uac -p " ++ profile
               ++ " --output-format tar " ++ evidence_path ++ " < /dev/null > "
               ++ deploy_path ++ "/uac_output.log 2>&1; echo $? > " ++ deploy_path
               ++ "/uac_exit_code) & echo $! > " ++ deploy_path
               ++ "/uac.pid && echo 'UAC started in background'```") true in
          let* _ := time_sleep 3 in
          let* pid_result :=
            exec env session "runscript" (pid_check_command deploy_path) true in
          let* _ :=
            match pid_result with
            | Some r =>
                if Py.isdigit (Py.strip (stdout r)) then
                  let* _ := exec env session "runscript"
                              (proc_check_command (Py.strip (stdout r))) true in
                  ret tt
                else ret tt
            | None => ret tt
            end in
          match uac_result with
          | None => ret None
          | Some _ =>
              let* collection_file :=
                monitor_uac_execution fuel session evidence_path (hostname host_info)
                                      deploy_path None profile in
              match collection_file with
              | Some f => if Py.truthy f then ret (Some f) else ret None
              | None => ret None
              end
          end.

(** The part of [run_uac_collection] that runs on the open session. *)
Definition collect_uac (fuel : nat) (session : RTRSession) (host_info : HostInfo)
    (profile : string) : M (option string) :=
  let* clean := PreCleanup.ensure_clean_environment env config fuel session host_info in
  if negb clean then ret None
  else deploy_uac fuel session host_info profile.

Definition run_uac_collection (fuel : nat) (host_info : HostInfo) (profile : string)
  : M (option string) :=
  let* staged := try_except (stage_uac host_info) (ret None) in
  match staged with
  | None => ret None
  | Some session =>
      try_finally
        (try_except (collect_uac fuel session host_info profile) (ret None))
        (ForensicCollector.close_session env session)
  end.

(** *** [upload_uac_results] *)

(** [_verify_s3_upload_success]: existence of the object is enough; a
    failed check is followed by a second look. *)
Definition verify_s3_upload_success (bucket_name object_key : string) : M bool :=
  let* verification_result :=
    CloudStorage.verify_s3_upload env bucket_name object_key None in
  if verification_result then ret true
  else
    let* object_info := CloudStorage.get_s3_object_info env bucket_name object_key in
    match object_info with
    | Some _ => ret true
    | None => ret false
    end.

(** [_cleanup_workspace_after_operation]; it keeps its exceptions to
    itself, an unknown platform included. *)
Definition cleanup_workspace_after_operation (session : RTRSession)
    (host_info : HostInfo) : M unit :=
  match Platform_of (Py.lower (platform host_info)) with
  | None => ret tt
  | Some p =>
      let* cleanup_cmd :=
        match p with
        | WINDOWS =>
            let* _ := exec env session "cd" "cd C:\" true in
            ret ("runscript -Raw=```if (Test-Path '" ++ kape_base_path config
                 ++ "') { Remove-Item -Path '" ++ kape_base_path config
                 ++ "' -Recurse -Force -ErrorAction Stop }```")
        | _ =>
            let* _ := exec env session "cd" "cd /" true in
            ret ("runscript -Raw=```rm -rf " ++ uac_base_path config
                 ++ " 2>/dev/null || true```")
        end in
      let* _ := time_sleep 2 in
      let* _ := exec env session "runscript" cleanup_cmd true in
      ret tt
  end.

(** The upload budget in seconds, from the file size. *)
Definition estimated_upload_time (file_size : Z) : Z :=
  let rate := or_default (Some (upload_rate config)) 2000000 in
  let base_upload_time := (inject_Z file_size / inject_Z rate)%Q in
  if (file_size <? 1000000000)%Z then (Qtrunc (base_upload_time * (3 # 2)) + 300)%Z
  else if (file_size <? 5000000000)%Z then (Qtrunc (base_upload_time * 2) + 600)%Z
  else (Qtrunc (base_upload_time * (5 # 2)) + 1200)%Z.

(** The session to work with: the caller's when it still answers, a new
    one otherwise.  [None] stands for [return False]; the flag says whether
    the session was created here. *)
Definition acquire_session (host_info : HostInfo) (existing_session : option RTRSession)
  : M (option (RTRSession * bool)) :=
  match existing_session with
  | Some existing =>
      let* test_result :=
        execute_with_retry existing "runscript"
          "runscript -Raw=```echo 'session_test'```" true 2 (3 # 2) in
      if stdout_contains test_result "session_test" then ret (Some (existing, false))
      else
        let* session := start_session env (aid host_info) in
        match session with
        | Some s => ret (Some (s, true))
        | None => ret None
        end
  | None =>
      let* session := start_session env (aid host_info) in
      match session with
      | Some s => ret (Some (s, true))
      | None => ret None
      end
  end.

(** The variables of [upload_uac_results] that its monitoring loop and its
    [finally] clause read and write. *)
Record UploadState := mkUpload {
  session : RTRSession;
  session_created : bool;
  upload_last_pulse_time : Q;
  session_recreation_attempts : Z;
  elapsed : Q
}.

Fixpoint rstrip_percent_rev (s : string) : string :=
  match s with
  | String c r => if Ascii.eqb c "%"%char then rstrip_percent_rev r else s
  | EmptyString => EmptyString
  end.

(** [s.rstrip('%')]. *)
Definition rstrip_percent (s : string) : string :=
  Py.rev (rstrip_percent_rev (Py.rev s)).

Definition upload_exit_code_command (evidence_path : string) : string :=
  "runscript -Raw=```test -f " ++ evidence_path ++ "/upload_exit_code && cat "
  ++ evidence_path ++ "/upload_exit_code```".

Definition upload_log_tail (n evidence_path : string) : string :=
  "runscript -Raw=```tail -" ++ n ++ " " ++ evidence_path ++ "/upload.log```".

(** [float(text)] of Python; [None] is its [ValueError]. *)
Context (py_float : string -> option Q).

(** One iteration of the upload monitoring loop. *)
Definition upload_monitor_body (host_info : HostInfo)
    (evidence_path bucket_name s3_filename : string)
    (start_time : Q) (estimated : Z) (st : UploadState)
  : M (Step UploadState unit) :=
  let* now := time_time env in
  let elapsed := (now - start_time)%Q in
  let st := mkUpload (session st) (session_created st) (upload_last_pulse_time st)
                     (session_recreation_attempts st) elapsed in
  let* now2 := time_time env in
  let* last_pulse :=
    if FileManager.Qge_bool (now2 - upload_last_pulse_time st) 120 then
      let* ok := pulse_session env (session st) in
      if ok then time_time env else ret (upload_last_pulse_time st)
    else ret (upload_last_pulse_time st) in
  let st := mkUpload (session st) (session_created st) last_pulse
                     (session_recreation_attempts st) elapsed in
  let* progress_result :=
    exec env (session st) "runscript"
      ("runscript -Raw=```test -f " ++ evidence_path ++ "/upload.log && tail -1 "
       ++ evidence_path ++ "/upload.log | grep -o '[0-9]\+\.[0-9]%' | tail -1```")
      true in
  match progress_result with
  | None =>
      if (session_recreation_attempts st <? 3)%Z then
        let attempts := (session_recreation_attempts st + 1)%Z in
        let* _ := end_session env (session st) in
        let* new_session := start_session env (aid host_info) in
        match new_session with
        | Some s =>
            let* t := time_time env in
            ret (Continue (mkUpload s true t attempts elapsed))
        | None =>
            ret (Break (mkUpload (session st) (session_created st) last_pulse
                                 attempts elapsed))
        end
      else ret (Break st)
  | Some progress =>
      let progress_str := Py.strip (stdout progress) in
      let complete :=
        if Py.truthy progress_str then
          match py_float (rstrip_percent progress_str) with
          | Some progress_pct => FileManager.Qge_bool progress_pct 100
          | None => false
          end
        else false in
      if complete then
        let* _ := time_sleep 30 in
        let* _ := verify_s3_upload_success bucket_name s3_filename in
        ret (Break st)
      else
        let* exit_code_result :=
          exec env (session st) "runscript" (upload_exit_code_command evidence_path)
               true in
        match stdout_number exit_code_result with
        | Some exit_code =>
            if (exit_code =? 0)%Z then
              let* _ := verify_s3_upload_success bucket_name s3_filename in
              ret (Break st)
            else
              let* _ := exec env (session st) "runscript"
                             (upload_log_tail "20" evidence_path) true in
              ret (Break st)
        | None =>
            let* pid_result :=
              exec env (session st) "runscript"
                ("runscript -Raw=```test -f " ++ evidence_path ++ "/upload.pid && cat "
                 ++ evidence_path ++ "/upload.pid```") true in
            let pid :=
              match pid_result with
              | Some r =>
                  if Py.isdigit (Py.strip (stdout r)) then Some (Py.strip (stdout r))
                  else None
              | None => None
              end in
            let* died :=
              match pid with
              | Some pid =>
                  let* proc_check :=
                    exec env (session st) "runscript" (proc_check_command pid) true in
                  if stdout_is proc_check "0" then
                    let* _ := time_sleep 2 in
                    let* exit_code_result :=
                      exec env (session st) "runscript"
                           (upload_exit_code_command evidence_path) true in
                    match stdout_number exit_code_result with
                    | Some exit_code =>
                        if (exit_code =? 0)%Z then ret true
                        else
                          let* _ := exec env (session st) "runscript"
                                         (upload_log_tail "20" evidence_path) true in
                          ret true
                    | None =>
                        let* _ := exec env (session st) "runscript"
                                       (upload_log_tail "10" evidence_path) true in
                        ret true
                    end
                  else ret false
              | None => ret false
              end in
            if died then ret (Break st)
            else if FileManager.Qgt_bool elapsed (inject_Z (estimated + 60)) then
              let* _ :=
                match pid with
                | Some pid =>
                    let* _ := exec env (session st) "runscript"
                                   ("runscript -Raw=```kill " ++ pid ++ "```") true in
                    ret tt
                | None => ret tt
                end in
              ret (Break st)
            else
              let* _ := time_sleep 10 in
              ret (Continue st)
        end
  end.

(** What is known when the final verification starts. *)
Record UploadContext := mkUploadContext {
  ctx_state : UploadState;
  ctx_bucket : string;
  ctx_key : string
}.

(** [upload_uac_results] up to the final S3 verification.  [inr] carries
    the state of an early [return False]; a missing session is
    [inr None]. *)
Definition upload_until_verification (fuel : nat) (host_info : HostInfo)
    (collection_file : string) (evidence_path : option string)
    (existing_session : option RTRSession)
  : M (UploadContext + option UploadState) :=
  let evidence_path := SessionManager.get_default evidence_path (uac_evidence_path config) in
  let* acquired := acquire_session host_info existing_session in
  match acquired with
  | None => ret (inr None)
  | Some (session, session_created) =>
      let st0 := mkUpload session session_created 0 0 0 in
      let actual_file := collection_file ++ ".tar.gz" in
      let full_path := evidence_path ++ "/" ++ actual_file in
      let* size_result :=
        exec env session "runscript"
          ("runscript -Raw=```if [ -f " ++ full_path ++ " ]; then ls -la " ++ full_path
           ++ " | awk '{print $5}'; else echo '0'; fi```") true in
      let file_size :=
        match stdout_number size_result with
        | Some n => n
        | None => (350 * 1024 * 1024)%Z
        end in
      let bucket_name := s3_bucket config in
      let s3_filename := collection_file ++ ".7z" in
      let* presigned :=
        try_except
          (let* u := CloudStorage.generate_upload_url env bucket_name s3_filename in
           ret (Some u))
          (ret None) in
      match presigned with
      | None => ret (inr (Some st0))
      | Some (url, key) =>
          if negb (Py.truthy url) then ret (inr (Some st0))
          else
            let proxied_url :=
              if proxy_enabled config
              then Py.replace (bucket_name ++ ".s3.amazonaws.com") (proxy_host config) url
              else url in
            let estimated := estimated_upload_time file_size in
            match Platform_of (Py.lower (platform host_info)) with
            | None => ret (inr (Some st0))
            | Some _ =>
                let hosts_cmd := Configuration.generate_hosts_command config "unix" in
                let* _ :=
                  if Py.truthy hosts_cmd then
                    let* _ := exec env session "runscript" hosts_cmd true in ret tt
                  else ret tt in
                let* upload_start :=
                  exec env session "runscript"
                    ("runscript -Raw=```(curl -X PUT -T '" ++ full_path
                     ++ "' -H 'Content-Type:' --max-time "
                     ++ Py.str_int estimated
                     ++ " --connect-timeout 30 --retry 3 --retry-delay 5 --progress-bar"
                     ++ " --fail '" ++ proxied_url ++ "' > " ++ evidence_path
                     ++ "/upload.log 2>&1; echo $? > " ++ evidence_path
                     ++ "/upload_exit_code) & echo $! > " ++ evidence_path
                     ++ "/upload.pid && echo 'Upload started in background'```") true in
                match upload_start with
                | None => ret (inr (Some st0))
                | Some _ =>
                    let* start_time := time_time env in
                    let* last_pulse_time := time_time env in
                    let* r := loop fuel
                                (upload_monitor_body host_info evidence_path bucket_name
                                   s3_filename start_time estimated)
                                (mkUpload session session_created last_pulse_time 0 0) in
                    match r with
                    | inr _ => ret (inr (Some st0))
                    | inl st =>
                        let* _ :=
                          if FileManager.Qgt_bool (elapsed st) (inject_Z (estimated + 60))
                             || (session_recreation_attempts st >? 0)%Z
                          then time_sleep 60 else ret tt in
                        ret (inl (mkUploadContext st bucket_name s3_filename))
                    end
                end
            end
      end
  end.

(** The [finally] clause: a session is closed only if it was created
    here. *)
Definition close_created (st : option UploadState) : M unit :=
  match st with
  | Some st =>
      if session_created st then
        let* _ := end_session env (session st) in ret tt
      else ret tt
  | None => ret tt
  end.

Definition upload_uac_results (fuel : nat) (host_info : HostInfo)
    (collection_file : string) (evidence_path : option string)
    (existing_session : option RTRSession) : M bool :=
  let* reached :=
    upload_until_verification fuel host_info collection_file evidence_path
                              existing_session in
  match reached with
  | inr st =>
      let* _ := close_created st in
      ret false
  | inl ctx =>
      let* upload_success := verify_s3_upload_success (ctx_bucket ctx) (ctx_key ctx) in
      let* _ :=
        if upload_success
        then cleanup_workspace_after_operation (session (ctx_state ctx)) host_info
        else ret tt in
      let* _ := close_created (Some (ctx_state ctx)) in
      ret upload_success
  end.

End WithEnv.
End UACCollector.

(** ** Example environments and statement-side predicates *)

Definition stderr_env : Env :=
  with_rtr (fun _ => Some (mkSubmit 201 (Some "req-1")))
           (fun n => if Nat.eqb n 1 then Some (Some (mkStatus (Some false) None None))
                     else Some (Some (mkStatus (Some true) (Some "out") (Some "warning: x"))))
           quiet_env.

Definition stderr_result : CommandResult :=
  mkResult "out" "warning: x" 1 "req-1" true.

(** C2 as the specification states it, for a call with an expected size. *)
Definition spec_verify_claim (env : Env) (bucket key : string) (expected : Z) : Prop :=
  result (CloudStorage.verify_s3_upload env bucket key (Some expected)) = Ret true <->
  exists actual, head_resp env 0%nat = HeadOk actual /\
                 CloudStorage.spec_size_within_tolerance expected actual.

(** A status answer that does not end phase A: no answer, no resource, or a
    resource that is not complete. *)
Definition get_pending (r : option (option StatusResource)) : Prop :=
  match r with
  | Some (Some res) => SessionManager.get_default (res_complete res) false = false
  | _ => True
  end.

(** A 30 720 000-byte file has a 1000 s deadline: a poll at 700 s finds the
    command pending, the next one at 1001 s gives up. *)
Definition slow_get_env : Env :=
  with_clock (fun n => if Nat.eqb n 2 then 700%Q else if Nat.eqb n 4 then 1001%Q else 0%Q)
    (with_rtr (fun _ => Some (mkSubmit 201 (Some "req-get")))
              (fun _ => Some (Some (mkStatus (Some false) None None)))
              quiet_env).

(** A download whose every step succeeds at once. *)
Definition happy_download_env : Env :=
  with_rtr (fun _ => Some (mkSubmit 201 (Some "req-get")))
           (fun _ => Some (Some (mkStatus (Some true) None None)))
    (with_files (fun _ => Some (mkFiles 200 (Some [mkFile (Some "other") (Some "ff");
                                                   mkFile (Some "req-get") (Some "abc123")])))
       (with_extracted (fun _ => ExBytes "7z-bytes") (fun _ => Some 8) quiet_env)).

(** The [get] completes at once, but no SHA shows up and the first poll of
    phase B starts 2001 s after the phase began. *)
Definition sha_timeout_env : Env :=
  with_clock (fun n => if Nat.leb 6 n then 2001%Q else 0%Q)
    (with_rtr (fun _ => Some (mkSubmit 201 (Some "req-get")))
              (fun _ => Some (Some (mkStatus (Some true) None None)))
       (with_files (fun _ => Some (mkFiles 200 (Some []))) quiet_env)).

(** Two targets: [web01] resolves, [ghost] does not. *)
Definition one_ghost_env : Env :=
  with_hosts (fun n => if Nat.eqb n 1 then ["aid-web01"] else [])
             (fun _ => HostBody (Some [mkHostResource (Some "web01") (Some "aid-web01")
                                         None (Some "cid-1") (Some "Linux")
                                         (Some "5.15") None]))
             quiet_env.

(** A worker that reports success for every host it is given. *)
Definition all_ok_worker (c : string) (hosts : list Orchestrator.HostEntry)
    (upload_to_s3 : bool) : M (gmap string bool) :=
  ret (fold_left (fun acc (e : Orchestrator.HostEntry) => <[fst (fst e) := true]> acc)
                 hosts ∅).

Definition not_dot (c : ascii) : bool := negb (Ascii.eqb c "."%char).

(** UAC has exited with code 0 and no archive ever shows up; the second
    poll of the wait starts 1000 s after the exit code was seen. *)
Definition no_archive_env : Env :=
  with_clock (fun n => if Nat.leb 11 n then 1000%Q else 0%Q)
    (with_exec (fun n => Some (mkResult (if Nat.eqb n 6 then "0" else "") "" 0 "req" true))
       quiet_env).

(** ** Observations on traces *)

(** The sessions that [start_session] handed out, in order. *)
Fixpoint sessions_started (evs : list Event) : list RTRSession :=
  match evs with
  | [] => []
  | EvStartSession _ (Some s) :: rest => s :: sessions_started rest
  | _ :: rest => sessions_started rest
  end.

(** The sessions that [end_session] was called on, in order. *)
Fixpoint sessions_ended (evs : list Event) : list RTRSession :=
  match evs with
  | [] => []
  | EvEndSession s _ :: rest => s :: sessions_ended rest
  | _ :: rest => sessions_ended rest
  end.

(** The upload has been started, the first progress check gets no answer
    and no new session can be had. *)
Definition lost_session_env : Env :=
  with_start (fun n => if Nat.eqb n 0 then Some (mkSession "s1" "aid1" 201) else None)
    (with_exec (fun n => if Nat.eqb n 3
                         then Some (mkResult "Upload started in background" "" 0 "req" true)
                         else None)
       (with_url (fun _ => Some ("https://your-s3-bucket-name.s3.amazonaws.com/k?sig", "k"))
          quiet_env)).

(** Did [head_object] find the object? *)
Definition head_found (r : HeadResponse) : bool :=
  match r with
  | HeadOk _ => true
  | _ => false
  end.

(** [returns m]: from any world, [m] comes back with a value; it neither
    raises nor runs out of fuel. *)
Definition returns {A} (m : M A) : Prop :=
  forall w, exists a w', m w = (Ret a, w').

(** ** The two collection runs, side by side *)

(** A step of the deployment on the host: a command other than a
    [runscript] probe -- the [cd], [mkdir], [put] and [ps] that both
    collectors issue once the pre-execution check has passed. *)
Definition deploy_step (e : Event) : bool :=
  match e with
  | EvExec _ c _ => negb (String.eqb (base_command c) "runscript")
  | _ => false
  end.

Definition no_deploy (e : Event) : Prop := deploy_step e = false.

Definition deploys (evs : list Event) : Prop :=
  Exists (fun e => deploy_step e = true) evs.

(** Which collection is run, with its argument. *)
Inductive Collection :=
| Kape (target : string)
| Uac (profile : string).

Definition stage_collection (env : Env) (host_info : HostInfo) (c : Collection)
  : M (option RTRSession) :=
  match c with
  | Kape target => try_except (ForensicCollector.stage_kape env host_info target) (ret None)
  | Uac _ => try_except (UACCollector.stage_uac env host_info) (ret None)
  end.

Definition deploy_collection (env : Env) (config : Config) (fuel : nat)
    (session : RTRSession) (host_info : HostInfo) (c : Collection)
  : M (option string) :=
  match c with
  | Kape _ => ForensicCollector.deploy_kape env config fuel session
  | Uac profile => UACCollector.deploy_uac env config fuel session host_info profile
  end.

Definition run_collection (env : Env) (config : Config) (fuel : nat)
    (host_info : HostInfo) (c : Collection) : M (option string) :=
  match c with
  | Kape target => ForensicCollector.run_kape_collection env config fuel host_info target
  | Uac profile => UACCollector.run_uac_collection env config fuel host_info profile
  end.

(** What the final verification of the pre-execution check saw when it
    answered [True] between the worlds [wv] and [wc]: the process sweep found
    nothing, the workspace directory was there, and it was empty. *)
Definition observed_clean (env : Env) (config : Config) (session : RTRSession)
    (p : Platform) (wv wc : World) : Prop :=
  exists w1 w2,
    PreCleanup.check_running_processes env config session p wv = (Ret [], w1) /\
    PreCleanup.workspace_exists env session (PreCleanup.workspace_path config p) p w1
      = (Ret true, w2) /\
    PreCleanup.workspace_is_empty env session (PreCleanup.workspace_path config p) p w2
      = (Ret true, wc).

(** A Windows host with nothing left over: the sweeps find no process,
    the workspace is absent (probe 11), is there once created (probes 13 and
    17) and holds nothing (probe 18); KAPE does not start afterwards. *)
Definition fresh_windows_env : Env :=
  with_start (fun _ => Some (mkSession "s1" "aid1" 201))
    (with_exec (fun n => Some (mkResult
                                 (if Nat.eqb n 13 || Nat.eqb n 17 then "True"
                                  else if Nat.eqb n 18 then "0" else "")
                                 "" 0 "req" true))
       (with_put_files (fun _ => Some []) (fun _ => Some [])
                       (fun _ => Some (mkWrite false (Affected 1)))
          (with_local (fun _ => FileContent "PK") (fun _ => Some "/pkg/resources/kape.zip")
             quiet_env))).

Definition windows_host : HostInfo :=
  mkHost "win01" "aid1" "cid1" "Windows" "10" "x86_64" "Windows".

(** The same host, except that the fresh workspace is found to hold five
    entries (probe 18). *)
Definition dirty_windows_env : Env :=
  with_exec (fun n => Some (mkResult
                              (if Nat.eqb n 13 || Nat.eqb n 17 then "True"
                               else if Nat.eqb n 18 then "5" else "")
                              "" 0 "req" true))
    fresh_windows_env.

(** A Unix host on which every command runs and prints nothing; [uac.zip]
    is in the put-file repository. *)
Definition silent_unix_env : Env :=
  with_start (fun _ => Some (mkSession "s1" "aid1" 201))
    (with_exec (fun _ => Some (mkResult "" "" 0 "req" true))
       (with_put_files (fun _ => Some ["id1"])
                       (fun _ => Some [mkPutFile (Some "uac.zip") (Some "id1")])
                       (fun _ => Some (mkWrite false (Affected 1)))
          (with_local (fun _ => FileContent "PK") (fun _ => Some "/pkg/resources/uac/uac.zip")
             quiet_env))).

(** ** Sessions in a trace *)

(** Events that neither start nor end a session. *)
Definition keeps_sessions (e : Event) : Prop :=
  match e with
  | EvStartSession _ _ | EvEndSession _ _ => False
  | _ => True
  end.


(** [noraise m]: no exception escapes from [m]. *)
Definition noraise {A} (m : M A) : Prop := forall w, fst (m w) <> Raise.

(** [carries s m]: [m] leaves the sessions alone, lets no exception
    escape, and what it returns names the session [s]. *)
Definition carries (s : RTRSession)
    (m : M (ForensicCollector.UploadContext + option RTRSession)) : Prop :=
  forall w, exists new,
    trace (snd (m w)) = (new ++ trace w)%list /\
    Forall keeps_sessions new /\
    match fst (m w) with
    | Ret (inl ctx) => ForensicCollector.ctx_session ctx = s
    | Ret (inr o) => o = Some s
    | Raise => False
    | OutOfFuel => True
    end.

(** A Windows host on which the triage archive is there, keeps its 100
    bytes over four probes (6, 9, 12, 15), is not locked (probe 16), and the
    upload process is gone at the first look (probe 23); the object store
    holds 100 bytes. *)
Definition kape_upload_env : Env :=
  with_start (fun _ => Some (mkSession "s1" "aid1" 201))
    (with_exec (fun n => Some (mkResult
                                 (if Nat.eqb n 1 then "2025-01-01T120000_win01-triage.zip"
                                  else if Nat.eqb n 16 then "UNLOCKED"
                                  else if Nat.eqb n 23 then "0"
                                  else if existsb (Nat.eqb n) [6; 9; 12; 15; 17]%nat then "100"
                                  else "")
                                 "" 0 "req" true))
       (with_url (fun _ => Some ("https://your-s3-bucket-name.s3.amazonaws.com/k?sig", "k"))
          (with_head (fun _ => HeadOk 100) quiet_env))).

(** Every name resolves to the same device, a phone. *)
Definition android_env : Env :=
  with_hosts (fun _ => ["aid-phone"])
             (fun _ => HostBody (Some [mkHostResource (Some "phone01") (Some "aid-phone")
                                         None (Some "cid-1") (Some "Android")
                                         (Some "14") None]))
             quiet_env.

(** A Unix host on which every probe lists the same collector process. *)
Definition busy_unix_env : Env :=
  with_exec (fun _ => Some (mkResult
                              "root 4242 0.0 0.1 1000 200 ? S 10:00 0:00 /opt/0x4n6nerd/uac-main/uac -p ir_triage --debug"
                              "" 0 "req" true))
    quiet_env.

(** The pauses in a list of events, in order. *)
Fixpoint sleeps (evs : list Event) : list Q :=
  match evs with
  | [] => []
  | EvSleep secs :: rest => secs :: sleeps rest
  | _ :: rest => sleeps rest
  end.

(** ** Readings of the file-stability wait *)

(** The size probe and the lock probe of [_wait_for_file_stability]. *)
Definition stability_size_command (file_path : string) : string :=
  "runscript -Raw=```if (Test-Path '" ++ file_path ++ "') { (Get-Item '"
  ++ file_path ++ "').Length } else { Write-Output '' }```".

Definition stability_lock_command (file_path : string) : string :=
  "runscript -Raw=```try { [System.IO.File]::OpenWrite('" ++ file_path
  ++ "').Close(); Write-Output 'UNLOCKED' } catch { Write-Output 'LOCKED' }```".

(** The sizes read by the size probes among the events, latest first: a
    probe counts when it was answered with text that [int] accepts. *)
Fixpoint size_readings (file_path : string) (evs : list Event) : list Z :=
  match evs with
  | [] => []
  | EvExec _ c (Some r) :: rest =>
      if String.eqb (command_string c) (stability_size_command file_path)
         && Py.truthy (Py.strip (stdout r)) then
        match Py.int_opt (Py.strip (stdout r)) with
        | Some n => n :: size_readings file_path rest
        | None => size_readings file_path rest
        end
      else size_readings file_path rest
  | _ :: rest => size_readings file_path rest
  end.

(** What holds of the state [(last_size, stable_count)] of the
    file-stability wait between rounds; [new] lists the events since the
    start [w0], latest first. *)
Definition stable_so_far (file_path : string) (w0 : World) (st : Z * Z) (w : World)
  : Prop :=
  exists new,
    trace w = (new ++ trace w0)%list /\
    0 <= snd st /\
    (0 < fst st ->
     firstn (S (Z.to_nat (snd st))) (size_readings file_path new)
     = repeat (fst st) (S (Z.to_nat (snd st)))).

(** A triage archive that reads 100 bytes at every size probe and is not
    locked at the lock probe (probe 13). *)
Definition stable_file_env : Env :=
  with_exec (fun n => Some (mkResult (if Nat.eqb n 13 then "UNLOCKED" else "100")
                              "" 0 "req" true))
    quiet_env.

(** Events of a procedure that works through the session [s] alone:
    commands on [s], and pauses. *)
Definition through_session (s : RTRSession) (e : Event) : Prop :=
  match e with
  | EvExec s' _ _ => s' = s
  | EvSleep _ => True
  | _ => False
  end.
(** ** The registry of active sessions ([SessionManager._active_sessions]) *)

Module ActiveSessions.

(** Answer of [init_session]: its [status_code] and, when it is there,
    [body.resources[0].session_id]. *)
Record InitResponse := mkInit {
  init_status : Z;
  init_session_id : option string
}.

Definition Registry := gmap string RTRSession.

(** [start_session], with the registry it leaves behind. *)
Definition start_session (active : Registry) (device_id : string)
    (session_response : option InitResponse) : option RTRSession * Registry :=
  if negb (Py.truthy device_id) then (None, active)
  else
    match session_response with
    | None => (None, active)
    | Some response =>
        if init_status response =? 201 then
          match init_session_id response with
          | Some session_id =>
              let rtr_session := mkSession session_id device_id (init_status response) in
              (Some rtr_session, <[session_id := rtr_session]> active)
          | None => (None, active)
          end
        else (None, active)
    end.

(** [end_session]; [delete_response] is the [status_code] of the answer
    to [delete_session]. *)
Definition end_session (active : Registry) (session : RTRSession)
    (delete_response : option Z) : bool * Registry :=
  match delete_response with
  | None => (false, active)
  | Some status =>
      if status =? 204 then (true, delete (session_id session) active)
      else (false, active)
  end.

(** A call on the session manager, with the answer of the RTR service. *)
Inductive Call :=
| Start (device_id : string) (session_response : option InitResponse)
| End (session : RTRSession) (delete_response : option Z).

Definition call (active : Registry) (c : Call) : Registry :=
  match c with
  | Start device_id r => snd (start_session active device_id r)
  | End session r => snd (end_session active session r)
  end.

Definition calls (cs : list Call) (active : Registry) : Registry :=
  fold_left call cs active.

(** What every entry of the registry satisfies. *)
Definition registered (key : string) (s : RTRSession) : Prop :=
  session_id s = key /\ status_code s = 201 /\ device_id s <> "".

End ActiveSessions.

(** ** Downloads of the results ([download_kape_results], [download_uac_results]) *)

Module Downloads.

(** [PurePosixPath.__truediv__]: an absolute right-hand side replaces the
    path, any other is appended to it. *)
Definition joinpath (p : PosixPath.t) (s : string) : PosixPath.t :=
  if Py.startswith "/" s then PosixPath.parse s
  else PosixPath.mk (PosixPath.root p) (PosixPath.parts p ++ PosixPath.parts (PosixPath.parse s)).

(** The size column of the [ls -la] output: the fifth field of the first
    line that names the file and has five fields; a field that [int]
    rejects ends the search with 0. *)
Fixpoint ls_size_lines (actual_file : string) (ls_lines : list string) : Z :=
  match ls_lines with
  | [] => 0
  | line :: rest =>
      if Py.contains actual_file line then
        let parts := Py.split_ws line in
        if (5 <=? List.length parts)%nat then
          match Py.int_opt (nth 4 parts "") with
          | Some n => n
          | None => 0
          end
        else ls_size_lines actual_file rest
      else ls_size_lines actual_file rest
  end.

Definition ls_size (actual_file stdout : string) : Z :=
  ls_size_lines actual_file (Py.split_on Py.newline (Py.strip stdout)).

(** The name looked for on the host: [.zip] is added when missing. *)
Definition kape_collection_file (collection_file : string) : string :=
  if negb (Py.endswith ".zip" collection_file) then collection_file ++ ".zip"
  else collection_file.

(** The local destination, [Path(os.getcwd()) / local_filename]. *)
Definition kape_local_path (current_dir collection_file : string) : PosixPath.t :=
  joinpath (PosixPath.parse current_dir)
           (Py.replace ".zip" ".7z" (kape_collection_file collection_file)).

Definition uac_actual_file (collection_file : string) : string :=
  if negb (Py.endswith ".tar.gz" collection_file) then collection_file ++ ".tar.gz"
  else collection_file.

Definition uac_local_path (current_dir collection_file : string) : PosixPath.t :=
  joinpath (PosixPath.parse current_dir)
           (Py.replace ".tar.gz" ".7z" (uac_actual_file collection_file)).

Section WithEnv.
Context (env : Env) (config : Config).

(** The operator's disk, as the two functions use it: [Path.exists],
    [Path.stat().st_size] and [Path.unlink]. *)
Context (path_exists : string -> M bool) (st_size : string -> M Z)
        (unlink : string -> M unit).

(** The floating-point product [expected_file_size * 0.01]. *)
Context (one_percent : Z -> Q).

(** [size_diff > size_threshold], looked at only for a known size. *)
Definition size_mismatch (expected_file_size actual_file_size : Z) : bool :=
  (expected_file_size >? 0)
  && FileManager.Qgt_bool (inject_Z (Z.abs (actual_file_size - expected_file_size)))
                          (Qmax 1024 (one_percent expected_file_size)).

(** What both functions do once [download_file] has answered [True]. *)
Definition check_local_copy (local_file_path : string) (expected_file_size : Z)
    (cleanup : M unit) : M bool :=
  let* there := path_exists local_file_path in
  if there then
    let* actual_file_size := st_size local_file_path in
    if size_mismatch expected_file_size actual_file_size then ret false
    else
      let* _ := cleanup in
      ret true
  else ret false.

(** [_cleanup_workspace_after_download]; it keeps its exceptions to
    itself. *)
Definition cleanup_workspace_after_download (session : RTRSession)
    (host_info : HostInfo) : M unit :=
  match Platform_of (Py.lower (platform host_info)) with
  | None => ret tt
  | Some p =>
      let* cleanup_cmd :=
        match p with
        | WINDOWS =>
            let workspace_path := kape_base_path config in
            let* _ := exec env session "cd" "cd C:\" true in
            ret ("runscript -Raw=```if (Test-Path '" ++ workspace_path
                 ++ "') { Remove-Item -Path '" ++ workspace_path
                 ++ "' -Recurse -Force -ErrorAction Stop }```")
        | _ =>
            let workspace_path := uac_base_path config in
            let* _ := exec env session "cd" "cd /" true in
            ret ("runscript -Raw=```rm -rf " ++ workspace_path ++ " 2>/dev/null || true```")
        end in
      let* _ := time_sleep 2 in
      let* _ := exec env session "runscript" cleanup_cmd true in
      ret tt
  end.

(** The body of [download_kape_results] under its session. *)
Definition fetch_kape (fuel : nat) (current_dir : string) (session : RTRSession)
    (host_info : HostInfo) (collection_file : string) : M bool :=
  let workspace_path := kape_base_path config in
  let* _ := exec env session "cd" ("cd " ++ workspace_path ++ "\temp") true in
  let remote_file := kape_collection_file collection_file in
  let* file_size_result :=
    exec env session "runscript"
      ("runscript -Raw=```(Get-Item '" ++ remote_file ++ "').Length```") true in
  let expected_file_size :=
    match stdout_number file_size_result with
    | Some n => n
    | None => 0
    end in
  let local_file_path := PosixPath.str (kape_local_path current_dir collection_file) in
  let* download_success :=
    FileManager.download_file env fuel session (aid host_info)
      (workspace_path ++ "\temp\" ++ remote_file) local_file_path expected_file_size in
  if download_success then
    check_local_copy local_file_path expected_file_size
      (cleanup_workspace_after_download session host_info)
  else ret false.

Definition download_kape_results (fuel : nat) (current_dir : string)
    (host_info : HostInfo) (collection_file : string) : M bool :=
  let* session := start_session env (aid host_info) in
  match session with
  | None => ret false
  | Some session =>
      try_finally
        (try_except (fetch_kape fuel current_dir session host_info collection_file)
                    (ret false))
        (ForensicCollector.close_session env session)
  end.

(** The body of [download_uac_results] under its session. *)
Definition fetch_uac (fuel : nat) (current_dir : string) (session : RTRSession)
    (host_info : HostInfo) (collection_file evidence_path : string) : M bool :=
  let actual_file := uac_actual_file collection_file in
  let* ls_result :=
    exec env session "runscript"
      ("runscript -Raw=```ls -la " ++ evidence_path ++ "/" ++ actual_file
       ++ " 2>/dev/null || echo 'FILE_NOT_FOUND'```") true in
  match ls_result with
  | None => ret false
  | Some r =>
      if Py.contains "FILE_NOT_FOUND" (stdout r) then ret false
      else
        let expected_file_size := ls_size actual_file (stdout r) in
        let local_file_path := PosixPath.str (uac_local_path current_dir collection_file) in
        let* there := path_exists local_file_path in
        let* _ := if there then unlink local_file_path else ret tt in
        let* download_success :=
          FileManager.download_file env fuel session (aid host_info)
            (evidence_path ++ "/" ++ actual_file) local_file_path expected_file_size in
        if download_success then
          check_local_copy local_file_path expected_file_size
            (UACCollector.cleanup_workspace_after_operation env config session host_info)
        else ret false
  end.

Definition download_uac_results (fuel : nat) (current_dir : string)
    (host_info : HostInfo) (collection_file : string) (evidence_path : option string)
    (existing_session : option RTRSession) : M bool :=
  let evidence_path := SessionManager.get_default evidence_path (uac_evidence_path config) in
  let* acquired :=
    match existing_session with
    | Some session => ret (Some (session, false))
    | None =>
        let* session := start_session env (aid host_info) in
        match session with
        | Some session => ret (Some (session, true))
        | None => ret None
        end
    end in
  match acquired with
  | None => ret false
  | Some (session, session_created) =>
      try_finally
        (try_except
           (fetch_uac fuel current_dir session host_info collection_file evidence_path)
           (ret false))
        (if session_created then ForensicCollector.close_session env session else ret tt)
  end.

End WithEnv.
End Downloads.

(** Events other than a write to the operator's disk. *)
Definition no_write (e : Event) : Prop :=
  match e with
  | EvWriteFile _ _ _ => False
  | _ => True
  end.

(** A disk on which the file is there, with 100 bytes. *)
Definition disk_exists (_ : string) : M bool := ret true.
Definition disk_size (_ : string) : M Z := ret 100.
Definition disk_unlink (_ : string) : M unit := ret tt.

(** The events of a run that are writes go to [target]. *)
Definition writes_to (target : string) (e : Event) : Prop :=
  match e with
  | EvWriteFile path _ _ => path = target
  | _ => True
  end.

Definition slash_free (s : string) : bool :=
  Py.all_chars (fun c => negb (Ascii.eqb c PosixPath.slash)) s.

(** A Windows host that gives the archive's size as 4 bytes (probe 2) and
    hands the archive over at once. *)
Definition kape_download_env : Env :=
  with_start (fun _ => Some (mkSession "s1" "aid1" 201))
    (with_exec (fun n => Some (mkResult (if Nat.eqb n 2 then "4" else "") "" 0 "req" true))
       happy_download_env).

(** A Unix host that lists the archive with its 8 bytes and hands it over
    at once. *)
Definition uac_download_env : Env :=
  with_start (fun _ => Some (mkSession "s1" "aid1" 201))
    (with_exec (fun _ => Some (mkResult
                                 "-rw-r--r-- 1 root root 8 Jan  1 12:00 /opt/0x4n6nerd/evidence/uac-h-linux-20250101120000.tar.gz"
                                 "" 0 "req" true))
       happy_download_env).

Definition linux_host : HostInfo :=
  mkHost "h" "aid1" "cid1" "Linux" "6.1" "x86_64" "linux".

(** ** Grouping of a batch, for statements *)

(** The targets whose host is known, in the order given. *)
Definition resolved_entries (host_details : gmap string HostInfo)
    (targets : list (string * string)) : list Orchestrator.HostEntry :=
  omap (fun t => option_map (fun h => (fst t, snd t, h)) (host_details !! fst t)) targets.

(** The entries of one customer. *)
Definition of_customer (c : string) (entries : list Orchestrator.HostEntry)
  : list Orchestrator.HostEntry :=
  List.filter (fun e => String.eqb (cid (snd e)) c) entries.

(** [groups] holds one non-empty group per customer of [entries], each
    with that customer's entries in their order. *)
Definition grouped (groups : list (string * list Orchestrator.HostEntry))
    (entries : list Orchestrator.HostEntry) : Prop :=
  NoDup (map fst groups) /\
  (forall c l, In (c, l) groups -> l <> [] /\ l = of_customer c entries) /\
  (forall e, In e entries -> In (cid (snd e)) (map fst groups)).

(** ** Verification of a cleanup, for statements *)

(** The probe of [_verify_cleanup]. *)
Definition cleanup_verify_command (path : string) (p : Platform) : string :=
  match p with
  | WINDOWS => "runscript -Raw=```Test-Path '" ++ path ++ "'```"
  | _ => "runscript -Raw=```test -d " ++ path ++ " && echo 'EXISTS' || echo 'NOT_FOUND'```"
  end.

(** What [_verify_cleanup] takes for a workspace that is gone: no answer,
    no output, or output with the absence marker. *)
Definition reads_as_gone (p : Platform) (o : option CommandResult) : bool :=
  match o with
  | Some r =>
      if Py.truthy (stdout r) then
        match p with
        | WINDOWS => Py.contains "False" (stdout r)
        | _ => Py.contains "NOT_FOUND" (stdout r)
        end
      else true
  | None => true
  end.

(** A Windows host with nothing left over, on which KAPE is seen running
    once (probe 25), is gone at the next look, and has left its archive
    (probe 31). *)
Definition kape_run_env : Env :=
  with_start (fun _ => Some (mkSession "s1" "aid1" 201))
    (with_exec (fun n => Some (mkResult
                                 (if Nat.eqb n 13 || Nat.eqb n 17 then "True"
                                  else if Nat.eqb n 18 then "0"
                                  else if Nat.eqb n 25 then "kape.exe"
                                  else if Nat.eqb n 31
                                       then "2025-01-01T120000_win01-triage.zip"
                                  else "")
                                 "" 0 "req" true))
       (with_put_files (fun _ => Some []) (fun _ => Some [])
                       (fun _ => Some (mkWrite false (Affected 1)))
          (with_local (fun _ => FileContent "PK") (fun _ => Some "/pkg/resources/kape.zip")
             quiet_env))).
(** The command [_terminate_existing_processes] sends for one PID. *)
Definition kill_command (p : Platform) (pid : string) : string :=
  match p with
  | WINDOWS => "runscript -Raw=```taskkill /F /PID " ++ pid ++ "```"
  | _ => "runscript -Raw=```kill -9 " ++ pid ++ "```"
  end.

(** The interactions of a kill round over [processes] that begins at tick
    [t], in the order they happen: for each process the admin [runscript]
    with the kill command of its PID, then the one-second pause. *)
Fixpoint kill_round (env : Env) (session : RTRSession) (p : Platform)
    (processes : list PreCleanup.Proc) (t : nat) : list Event :=
  match processes with
  | [] => []
  | proc :: rest =>
      EvExec session (mkCmd "runscript" (kill_command p (PreCleanup.pid proc)) true)
             (exec_resp env t)
      :: EvSleep 1
      :: kill_round env session p rest (S t)
  end.

(** A host on which [kape.exe] is still listed and the clock, read as 0
    up to the first listing, then reads 8000. *)
Definition slow_kape_env : Env :=
  with_clock (fun n => if Nat.leb n 3 then 0%Q else 8000%Q)
    (with_exec (fun _ => Some (mkResult "kape.exe" "" 0 "req" true)) quiet_env).

(** ** Deletions from the put-file repository *)


(** The deletions of a trace, as pairs of the id and the answer. *)
Fixpoint deleted (evs : list Event) : list (string * option WriteResponse) :=
  match evs with
  | [] => []
  | EvDeletePutFile id r :: rest => (id, r) :: deleted rest
  | _ :: rest => deleted rest
  end.




(** A repository that lists the package twice and answers the first
    deletion with [writes] but no counter. *)
Definition twice_listed_env : Env :=
  with_put_files (fun _ => Some ["id1"; "id2"])
                 (fun _ => Some [mkPutFile (Some "uac.zip") (Some "id1");
                                 mkPutFile (Some "uac.zip") (Some "id2")])
                 (fun n => if Nat.eqb n 2 then Some (mkWrite false WritesEmpty)
                           else Some (mkWrite false (Affected 1)))
    quiet_env.

(** ** Polls of a pull download *)

(** The interactions of [n] polls of phase A that find the [get] command
    pending, the first of them beginning at tick [t], in the order they
    happen: the clock reading, the status request, the pause of 2 s. *)
Fixpoint pending_polls (env : Env) (request_id : string) (n t : nat) : list Event :=
  match n with
  | O => []
  | S n' =>
      EvTime (clock env t)
      :: EvGetStatus request_id (status_resp env (S t))
      :: EvSleep 2
      :: pending_polls env request_id n' (S (S t))
  end.

(** No constraint on an event: [emits any_event m] says that [m] only
    adds to the trace. *)
Definition any_event (e : Event) : Prop := True.

(** The clock reading from which the 300 s to the next pulse of phase B
    count, read off the trace of the phase (latest event first): the reading
    made right after the latest successful pulse, or [start] when the phase
    has not pulsed yet. *)
Fixpoint last_pulse_reading (start : Q) (tr : list Event) : Q :=
  match tr with
  | [] => start
  | EvTime t :: rest =>
      match rest with
      | EvPulse _ true :: _ => t
      | _ => last_pulse_reading start rest
      end
  | _ :: rest => last_pulse_reading start rest
  end.

(** The SHA that a poll of the session file list gives: that of the first
    entry made by our [get], in an answer with status 200. *)
Definition listed_sha (files_resp : option FilesResponse) (cloud_request_id : string)
  : option string :=
  match files_resp with
  | Some resp =>
      if (files_status resp =? 200)%Z then
        match files_resources resp with
        | Some files_list => FileManager.find_sha files_list cloud_request_id
        | None => None
        end
      else None
  | None => None
  end.

(** ** The verification before a deployment, as the specification reads it *)

(** The fresh Windows host, except that the three process probes of the
    final verification (probes 14 to 16) get no answer. *)
Definition unanswered_sweep_env : Env :=
  with_exec (fun n => if Nat.leb 14 n && Nat.leb n 16 then None
                      else exec_resp fresh_windows_env n)
    fresh_windows_env.

(** The verification has confirmed that no collector process remains:
    every probe of its process sweep, one per pattern from the world [wv]
    on, was answered. *)
Definition sweep_answered (env : Env) (config : Config) (p : Platform) (wv : World)
  : Prop :=
  forall i, (i < List.length (PreCleanup.process_patterns config p))%nat ->
            exec_resp env (ticks wv + i) <> None.

(** C3 as the specification states it: a deploy step comes only after a
    verification that found the workspace there and empty and has confirmed
    that no collector process remains. *)
Definition spec_clean_claim (env : Env) (config : Config) (fuel : nat)
    (host_info : HostInfo) (c : Collection) : Prop :=
  let run := run_collection env config fuel host_info c in
  deploys (events run) ->
  exists session p wv wc post,
    Platform_of (Py.lower (platform host_info)) = Some p /\
    observed_clean env config session p wv wc /\
    sweep_answered env config p wv /\
    events run = (rev (trace wc) ++ post)%list /\
    ~ deploys (rev (trace wc)).

(** * Properties *)

(** ** Python string operations on examples *)

Example strip_ex : Py.strip "  42 " = "42".
Proof. reflexivity. Qed.

Example replace_ex : Py.replace ".tar.gz" ".7z" "uac-h-linux-20250101120000.tar.gz"
                     = "uac-h-linux-20250101120000.7z".
Proof. reflexivity. Qed.

Example split_ws_ex : Py.split_ws " root  12 /bin/sh " = ["root"; "12"; "/bin/sh"].
Proof. reflexivity. Qed.

(** ** Reasoning about computations *)

Section Emits.
Context (P : Event -> Prop).

Lemma emits_ret {A} (a : A) : emits P (ret a).
Proof. intros w. exists []. split; [reflexivity|constructor]. Qed.

Lemma emits_raise {A} : emits P (@raise A).
Proof. intros w. exists []. split; [reflexivity|constructor]. Qed.

Lemma emits_out_of_fuel {A} : emits P (@out_of_fuel A).
Proof. intros w. exists []. split; [reflexivity|constructor]. Qed.

Lemma emits_bind {A B} (m : M A) (k : A -> M B) :
    emits P m -> (forall a, emits P (k a)) -> emits P (bind m k).
Proof.
    intros Hm Hk w. unfold bind.
    destruct (Hm w) as (n1 & E1 & F1).
    destruct (m w) as [[a| |] w1]; simpl in *.
    - destruct (Hk a w1) as (n2 & E2 & F2).
      exists (n2 ++ n1)%list. split.
      + rewrite E2, E1. apply app_assoc.
      + apply Forall_app. split; assumption.
    - exists n1. split; assumption.
    - exists n1. split; assumption.
Qed.

Lemma emits_interact {A} (answer : nat -> A) (ev : A -> Event) :
    (forall a, P (ev a)) -> emits P (interact answer ev).
Proof.
    intros H w. exists [ev (answer (ticks w))]. split; [reflexivity|].
    constructor; [apply H|constructor].
Qed.

Lemma emits_sleep secs : P (EvSleep secs) -> emits P (time_sleep secs).
Proof.
    intros H w. exists [EvSleep secs]. split; [reflexivity|].
    constructor; [exact H|constructor].
Qed.

Lemma emits_loop {S R} (body : S -> M (Step S R)) :
    (forall s, emits P (body s)) -> forall fuel s, emits P (loop fuel body s).
Proof.
    intros Hb fuel. induction fuel as [|fuel IH]; intros s; simpl.
    - apply emits_out_of_fuel.
    - apply emits_bind; [apply Hb|].
      intros [s'|s'|r]; [apply IH|apply emits_ret|apply emits_ret].
Qed.

Lemma emits_try_except {A} (body handler : M A) :
    emits P body -> emits P handler -> emits P (try_except body handler).
Proof.
    intros Hb Hh w. unfold try_except.
    destruct (Hb w) as (n1 & E1 & F1).
    destruct (body w) as [[a| |] w1]; simpl in *.
    - exists n1. split; assumption.
    - destruct (Hh w1) as (n2 & E2 & F2).
      exists (n2 ++ n1)%list. split.
      + rewrite E2, E1. apply app_assoc.
      + apply Forall_app. split; assumption.
    - exists n1. split; assumption.
Qed.

Lemma emits_try_finally {A} (body : M A) (fin : M unit) :
    emits P body -> emits P fin -> emits P (try_finally body fin).
Proof.
    intros Hb Hf w. unfold try_finally.
    destruct (Hb w) as (n1 & E1 & F1).
    destruct (body w) as [[a| |] w1]; simpl in *.
    - destruct (Hf w1) as (n2 & E2 & F2).
      exists (n2 ++ n1)%list. split.
      + destruct (fin w1) as [[[]| |] w2]; simpl in *; rewrite E2, E1; apply app_assoc.
      + apply Forall_app. split; assumption.
    - destruct (Hf w1) as (n2 & E2 & F2).
      exists (n2 ++ n1)%list. split.
      + destruct (fin w1) as [[[]| |] w2]; simpl in *; rewrite E2, E1; apply app_assoc.
      + apply Forall_app. split; assumption.
    - exists n1. split; assumption.
Qed.

End Emits.

Lemma emits_weaken {A} (P Q : Event -> Prop) (m : M A) :
  (forall e, P e -> Q e) -> emits P m -> emits Q m.
Proof.
  intros H Hm w. destruct (Hm w) as (new & E & F).
  exists new. split; [exact E|]. eapply Forall_impl; eauto.
Qed.

(** Structural steps of an [emits] proof. *)
Ltac emits_step :=
  first
    [ apply emits_ret | apply emits_raise | apply emits_out_of_fuel
    | apply emits_bind; [|intros ?]
    | apply emits_interact; intros ?
    | apply emits_sleep
    | apply emits_loop; intros ?
    | apply emits_try_except
    | apply emits_try_finally
    | match goal with
      | |- emits _ (match ?x with _ => _ end) => destruct x
      | |- emits _ (let '(_, _) := ?x in _) => destruct x
      end ].

Section Iterates.
Context {S R : Type} (body : S -> M (Step S R)).

Lemma loop_iterates_return n s w s' w' r w'' fuel :
    iterates body n s w s' w' ->
    body s' w' = (Ret (Return r), w'') ->
    (n < fuel)%nat ->
    loop fuel body s w = (Ret (inr r), w'').
Proof.
    intros Hit. revert fuel. induction Hit as [s w|n s w s1 w1 s' w' Hb Hit IH];
      intros fuel Hr Hf; (destruct fuel as [|fuel]; [lia|]); simpl; unfold bind.
    - rewrite Hr. reflexivity.
    - rewrite Hb. apply IH; [exact Hr|lia].
Qed.



End Iterates.

(** ** Command execution (C10) *)

Section ExecuteCommand.
Context (env : Env).

Lemma poll_status_return_code remaining admin request_id w r w' :
    SessionManager.poll_status env remaining admin request_id w = (Ret (Some r), w') ->
    return_code r = (if Py.truthy (stderr r) then 1 else 0) /\ complete r = true.
Proof.
    revert w. induction remaining as [|k IH]; intros w H; simpl in H.
    - discriminate.
    - unfold bind, SessionManager.check_status, interact in H. simpl in H.
      destruct (status_resp env (ticks w)) as [[resource|]|]; simpl in H.
      + destruct (SessionManager.get_default (res_complete resource) false).
        * inversion H; subst; simpl.
          destruct (Py.truthy _); auto.
        * apply IH in H. exact H.
      + apply IH in H. exact H.
      + discriminate.
Qed.

  (** The polling loop is bounded by its retry budget: it always returns. *)
Lemma poll_status_total remaining admin request_id w :
    exists o w', SessionManager.poll_status env remaining admin request_id w = (Ret o, w').
Proof.
    revert w. induction remaining as [|k IH]; intros w; simpl.
    - eexists _, _. reflexivity.
    - unfold bind, SessionManager.check_status, interact. simpl.
      destruct (status_resp env (ticks w)) as [[resource|]|]; simpl.
      + destruct (SessionManager.get_default (res_complete resource) false).
        * eexists _, _. reflexivity.
        * apply IH.
      + apply IH.
      + eexists _, _. reflexivity.
Qed.

End ExecuteCommand.

Lemma truthy_empty s : Py.truthy s = false <-> s = "".
Proof. destruct s; simpl; split; intros H; congruence. Qed.

(** C10. Every [CommandResult] that [SessionManager.execute_command] returns
    is complete and carries return code 0 exactly when its stderr is empty,
    and 1 otherwise: the code is derived from stderr alone. *)
Theorem execute_command_return_code env session base_command command is_admin w r w' :
  SessionManager.execute_command env session base_command command is_admin w
    = (Ret (Some r), w') ->
  complete r = true /\
  (return_code r = 0 <-> stderr r = "") /\
  (return_code r = 1 <-> stderr r <> "").
Proof.
  unfold SessionManager.execute_command. intros H.
  destruct session as [session|]; [|discriminate].
  destruct (negb (Py.truthy base_command) || negb (Py.truthy command)); [discriminate|].
  destruct (negb (status_code session =? 201)); [discriminate|].
  unfold bind, SessionManager.submit, interact in H. cbv beta iota zeta in H.
  destruct (submit_resp env (ticks w)) as [resp|]; [|discriminate].
  destruct (negb (submit_status resp =? 201)); [discriminate|].
  destruct (submit_request_id resp) as [rid|]; [|discriminate].
  unfold time_sleep in H. cbv beta iota zeta in H.
  apply poll_status_return_code in H. destruct H as [Hc Hd].
  split; [exact Hd|].
  rewrite Hc. destruct (Py.truthy (stderr r)) eqn:Ht.
  - assert (stderr r <> "") by (intros E; apply truthy_empty in E; congruence).
    split; split; intros; try easy.
  - apply truthy_empty in Ht. split; split; intros; try easy.
Qed.

Lemma execute_command_return_code_witness :
  return_code stderr_result = 1 /\ stderr stderr_result <> "".
Proof.
  destruct (execute_command_return_code stderr_env
              (Some (mkSession "s1" "aid1" 201)) "runscript" "ls" true world0
              stderr_result
              (snd (SessionManager.execute_command stderr_env
                      (Some (mkSession "s1" "aid1" 201)) "runscript" "ls" true world0)))
    as (_ & _ & H1).
  - vm_compute. reflexivity.
  - split; [reflexivity|]. apply H1. reflexivity.
Defined.

(** A command whose status turns complete within the retry budget does
    come back, with the outputs of that status answer. *)
Example execute_command_completes :
  result (SessionManager.execute_command stderr_env
            (Some (mkSession "s1" "aid1" 201)) "runscript" "ls" true)
  = Ret (Some stderr_result).
Proof. vm_compute. reflexivity. Qed.

(** ** Upload verification (C2) *)

(** An object 500 bytes larger than the expected 1 000 000 is within the
    1 % of the specification and is rejected by the code. *)
Lemma verify_s3_upload_has_no_tolerance :
  ~ spec_verify_claim (with_head (fun _ => HeadOk 1000500) quiet_env) "bucket" "key" 1000000.
Proof.
  unfold spec_verify_claim. intros [_ H].
  assert (E : result (CloudStorage.verify_s3_upload
                        (with_head (fun _ => HeadOk 1000500) quiet_env)
                        "bucket" "key" (Some 1000000)) = Ret true).
  { apply H. exists 1000500. split; [reflexivity|].
    unfold CloudStorage.spec_size_within_tolerance. lia. }
  vm_compute in E. discriminate.
Qed.

(** C2, amended. With an expected size supplied, [verify_s3_upload] answers
    [True] exactly when [head_object] finds the object and its
    [ContentLength] equals the expected size; it always answers. *)
Theorem verify_s3_upload_exact env bucket key expected w :
  (exists b, fst (CloudStorage.verify_s3_upload env bucket key (Some expected) w) = Ret b) /\
  (fst (CloudStorage.verify_s3_upload env bucket key (Some expected) w) = Ret true <->
   head_resp env (ticks w) = HeadOk expected).
Proof.
  unfold CloudStorage.verify_s3_upload, CloudStorage.head_object, bind, interact.
  simpl. destruct (head_resp env (ticks w)) as [actual| |]; simpl.
  - destruct (Z.eqb_spec actual expected) as [->|Hne]; simpl.
    + split; [eauto|]. split; auto.
    + split; [eauto|]. split; intros H; [discriminate|].
      inversion H. contradiction.
  - split; [eauto|]. split; intros H; discriminate.
  - split; [eauto|]. split; intros H; discriminate.
Qed.

(** ** Pull download: comparisons of clock readings *)

Lemma Qgt_bool_true a b : FileManager.Qgt_bool a b = true <-> (b < a)%Q.
Proof.
  unfold FileManager.Qgt_bool. rewrite negb_true_iff.
  split; intros H.
  - apply Qnot_le_lt. intros Hle. apply Qle_bool_iff in Hle. congruence.
  - destruct (Qle_bool a b) eqn:E; [|reflexivity].
    apply Qle_bool_iff in E. exfalso. exact (Qlt_not_le _ _ H E).
Qed.

Lemma Qgt_bool_false a b : FileManager.Qgt_bool a b = false <-> (a <= b)%Q.
Proof.
  unfold FileManager.Qgt_bool. rewrite negb_false_iff. apply Qle_bool_iff.
Qed.

Lemma local_path_7z_defined local_path :
  exists p, FileManager.local_path_7z local_path = Some p.
Proof.
  unfold FileManager.local_path_7z.
  destruct (String.eqb _ ".7z"); [eauto|].
  destruct (existsb _ _) eqn:E; [|eauto].
  unfold PosixPath.with_suffix, PosixPath.suffix in *.
  destruct (PosixPath.name (PosixPath.parse local_path)); [|simpl; eauto].
  vm_compute in E. discriminate.
Qed.

(** ** Local file names of a pull download (C7) *)

Lemma string_app_assoc (a b c : string) : (a ++ b) ++ c = a ++ (b ++ c).
Proof. induction a as [|x a IH]; simpl; [reflexivity|]. now rewrite IH. Qed.

Lemma string_app_empty_r (a : string) : a ++ "" = a.
Proof. induction a as [|x a IH]; simpl; [reflexivity|]. now rewrite IH. Qed.

Lemma rev_acc_app s acc : Py.rev_acc s acc = Py.rev s ++ acc.
Proof.
  unfold Py.rev. revert acc. induction s as [|c s IH]; intros acc; simpl.
  - reflexivity.
  - rewrite IH. rewrite (IH (String c "")). rewrite string_app_assoc. reflexivity.
Qed.

Lemma rev_app a b : Py.rev (a ++ b) = Py.rev b ++ Py.rev a.
Proof.
  induction a as [|c a IH]; simpl.
  - now rewrite string_app_empty_r.
  - unfold Py.rev in *. simpl. rewrite !(rev_acc_app _ (String c "")).
    unfold Py.rev. rewrite IH. apply string_app_assoc.
Qed.

Lemma startswith_app p y : Py.startswith p (p ++ y) = true.
Proof.
  induction p as [|c p IH]; simpl; [reflexivity|].
  rewrite Ascii.eqb_refl. exact IH.
Qed.

Lemma endswith_app suffix x : Py.endswith suffix (x ++ suffix) = true.
Proof. unfold Py.endswith. rewrite rev_app. apply startswith_app. Qed.

Lemma split_last_dot_app n a b :
  PosixPath.split_last_dot n = Some (a, b) -> n = a ++ b.
Proof.
  revert a b. induction n as [|c n IH]; intros a b H; simpl in H; [discriminate|].
  destruct (PosixPath.split_last_dot n) as [[a' b']|].
  - inversion H; subst. simpl. f_equal. apply IH. reflexivity.
  - destruct (Ascii.eqb c "."); inversion H; subst. reflexivity.
Qed.

Lemma suffix_of_name_app n :
  PosixPath.suffix_of_name n <> "" ->
  exists stem, n = stem ++ PosixPath.suffix_of_name n.
Proof.
  unfold PosixPath.suffix_of_name.
  destruct (PosixPath.split_last_dot n) as [[a b]|] eqn:E; [|congruence].
  destruct a as [|x a]; [congruence|].
  destruct b as [|d [|c r]]; try congruence.
  intros _. exists (String x a). apply split_last_dot_app. exact E.
Qed.

Lemma split_on_nonempty sep s : Py.split_on sep s <> [].
Proof.
  destruct s as [|c s]; simpl; [discriminate|].
  destruct (Ascii.eqb c sep); [discriminate|].
  destruct (Py.split_on sep s); discriminate.
Qed.

(** Appending text without separators only extends the last piece. *)
Lemma split_on_app_last sep s t :
  Py.all_chars (fun c => negb (Ascii.eqb c sep)) t = true ->
  exists init x,
    Py.split_on sep s = (init ++ [x])%list /\
    Py.split_on sep (s ++ t) = (init ++ [(x ++ t)%string])%list.
Proof.
  intros Ht. induction s as [|c s IH]; simpl.
  - exists [], "". split; [reflexivity|]. simpl.
    induction t as [|d t IHt]; simpl; [reflexivity|].
    simpl in Ht. apply andb_true_iff in Ht. destruct Ht as [Hd Ht].
    apply negb_true_iff in Hd. rewrite Hd. rewrite (IHt Ht). reflexivity.
  - destruct IH as (init & x & E1 & E2). rewrite E1, E2.
    destruct (Ascii.eqb c sep).
    + exists (EmptyString :: init), x. split; reflexivity.
    + destruct init as [|h init]; simpl.
      * exists [], (String c x). split; reflexivity.
      * exists (String c h :: init), x. split; reflexivity.
Qed.

Lemma last_filter_snoc {A} (keep : A -> bool) (l : list A) (x d : A) :
  keep x = true -> List.last (List.filter keep (l ++ [x])) d = x.
Proof.
  intros H. rewrite List.filter_app. simpl. rewrite H. apply List.last_last.
Qed.

Lemma keep_part_7z x : PosixPath.keep_part (x ++ ".7z") = true.
Proof.
  unfold PosixPath.keep_part.
  destruct x as [|a x]; [reflexivity|].
  simpl. destruct (Ascii.eqb a "."); [|reflexivity].
  destruct x; reflexivity.
Qed.

(** A path string that ends in [.7z] names a file that ends in [.7z]. *)
Lemma name_of_7z_string s :
  exists stem, PosixPath.name (PosixPath.parse (s ++ ".7z")) = stem ++ ".7z".
Proof.
  destruct (split_on_app_last PosixPath.slash s ".7z" eq_refl) as (init & x & _ & E).
  exists x. unfold PosixPath.name, PosixPath.parse. simpl PosixPath.parts.
  rewrite E. apply last_filter_snoc. apply keep_part_7z.
Qed.

Lemma join_snoc sep (l : list string) x :
  exists pre, Py.join sep (l ++ [x]) = pre ++ x.
Proof.
  induction l as [|a l IH]; simpl.
  - exists "". reflexivity.
  - destruct IH as (pre & E). rewrite E.
    destruct (l ++ [x])%list eqn:El.
    + destruct l; discriminate.
    + exists (a ++ sep ++ pre). rewrite !string_app_assoc. reflexivity.
Qed.

Lemma str_parts r (ps : list string) :
  ps <> [] -> PosixPath.str (PosixPath.mk r ps) = r ++ Py.join "/" ps.
Proof.
  intros H. unfold PosixPath.str. simpl.
  destruct r; [|reflexivity]. destruct ps; [congruence|reflexivity].
Qed.

Lemma str_with_suffix p new_suffix q :
  PosixPath.with_suffix p new_suffix = Some q ->
  exists pre, PosixPath.str q = pre ++ new_suffix.
Proof.
  unfold PosixPath.with_suffix.
  destruct (PosixPath.name p) as [|c n]; [discriminate|].
  intros H. inversion H; subst; clear H.
  destruct (join_snoc "/" (removelast (PosixPath.parts p))
              (PosixPath.stem_of_name (String c n) ++ new_suffix)) as (pre & E).
  rewrite str_parts.
  - rewrite E.
    exists (PosixPath.root p ++ pre ++ PosixPath.stem_of_name (String c n)).
    rewrite !string_app_assoc. reflexivity.
  - destruct (removelast (PosixPath.parts p)); discriminate.
Qed.

(** Whatever local path is supplied, the path the download writes to
    names a file whose name ends in [.7z]. *)
Lemma local_path_7z_name local_path p :
  FileManager.local_path_7z local_path = Some p ->
  Py.endswith ".7z" (PosixPath.name (PosixPath.parse p)) = true.
Proof.
  unfold FileManager.local_path_7z.
  destruct (String.eqb_spec (PosixPath.suffix (PosixPath.parse local_path)) ".7z")
    as [E7|N7].
  - intros H. inversion H; subst p. unfold PosixPath.suffix in E7.
    destruct (suffix_of_name_app (PosixPath.name (PosixPath.parse local_path)))
      as (stem & E).
    + rewrite E7. discriminate.
    + rewrite E, E7. apply endswith_app.
  - destruct (existsb _ _).
    + destruct (PosixPath.with_suffix _ _) as [q|] eqn:W; simpl; [|discriminate].
      intros H. inversion H; subst p.
      destruct (str_with_suffix _ _ _ W) as (pre & ->).
      destruct (name_of_7z_string pre) as (stem & ->). apply endswith_app.
    + intros H. inversion H; subst p.
      destruct (name_of_7z_string (PosixPath.str (PosixPath.parse local_path)))
        as (stem & ->).
      apply endswith_app.
Qed.

Ltac emits_auto :=
  repeat (first [ emits_step | exact I | progress simpl ]).

Section DownloadEvents.
Context (env : Env).

Lemma phase_a_body_emits P request_id poll_start timeout st :
    (forall e, match e with EvTime _ | EvGetStatus _ _ | EvSleep _ => P e | _ => True end) ->
    emits P (FileManager.phase_a_body env request_id poll_start timeout st).
Proof.
    intros HP. unfold FileManager.phase_a_body, time_time,
      FileManager.check_active_responder_command_status.
    repeat (first [ emits_step
                  | apply (HP (EvTime _)) | apply (HP (EvGetStatus _ _))
                  | apply (HP (EvSleep _)) ]).
Qed.

Lemma phase_b_body_emits P session request_id start st :
    (forall e, match e with
               | EvTime _ | EvPulse _ _ | EvListFiles _ | EvSleep _ => P e
               | _ => True end) ->
    emits P (FileManager.phase_b_body env session request_id start st).
Proof.
    intros HP. unfold FileManager.phase_b_body, time_time, pulse_session,
      FileManager.list_files_v2.
    destruct st as [lp sha].
    repeat (first [ emits_step
                  | apply (HP (EvTime _)) | apply (HP (EvPulse _ _))
                  | apply (HP (EvListFiles _)) | apply (HP (EvSleep _)) ]).
Qed.

Lemma phase_c_emits P remaining session sha name path start last :
    (forall e, match e with
               | EvTime _ | EvPulse _ _ | EvExtracted _ _ _ | EvSleep _ => P e
               | _ => True end) ->
    (forall content r, P (EvWriteFile path content r)) ->
    emits P (FileManager.phase_c env remaining session sha name path start last).
Proof.
    intros HP HW. revert last.
    induction remaining as [|k IH]; intros last; simpl.
    - apply emits_ret.
    - unfold time_time, pulse_session, FileManager.get_extracted_file_contents,
        FileManager.write_file.
      repeat (first [ apply IH | emits_step
                    | apply (HP (EvTime _)) | apply (HP (EvPulse _ _))
                    | apply (HP (EvExtracted _ _ _)) | apply (HP (EvSleep _))
                    | apply HW ]).
Qed.

Lemma get_phase_emits P fuel session device_id remote_path local_path file_size :
    (forall e, match e with
               | EvTime _ | EvGetStatus _ _ | EvSleep _ | EvGet _ _ _ _ => P e
               | _ => True end) ->
    emits P (FileManager.get_phase env fuel session device_id remote_path
               local_path file_size).
Proof.
    intros HP. unfold FileManager.get_phase, time_time,
      FileManager.execute_active_responder_command.
    repeat (first [ apply phase_a_body_emits; intros []; try exact I
                  | emits_step
                  | apply (HP (EvTime _)) | apply (HP (EvGetStatus _ _))
                  | apply (HP (EvSleep _)) | apply (HP (EvGet _ _ _ _)) ]).
Qed.

Lemma sha_phase_emits P fuel session request_id :
    (forall e, match e with
               | EvTime _ | EvPulse _ _ | EvListFiles _ | EvSleep _ => P e
               | _ => True end) ->
    emits P (FileManager.sha_phase env fuel session request_id).
Proof.
    intros HP. unfold FileManager.sha_phase, time_time.
    repeat (first [ apply phase_b_body_emits; exact HP
                  | emits_step | apply (HP (EvTime _)) ]).
Qed.

Lemma content_phase_emits P session remote_path path sha :
    (forall e, match e with
               | EvTime _ | EvPulse _ _ | EvExtracted _ _ _ | EvSleep _ => P e
               | _ => True end) ->
    (forall content r, P (EvWriteFile path content r)) ->
    emits P (FileManager.content_phase env session remote_path path sha).
Proof.
    intros HP HW. unfold FileManager.content_phase, time_time.
    repeat (first [ apply phase_c_emits; assumption
                  | emits_step | apply (HP (EvTime _)) | apply (HP (EvSleep _)) ]).
Qed.

End DownloadEvents.

Lemma emits_bind_val {A B} (P : Event -> Prop) (V : A -> Prop) (m : M A) (k : A -> M B) :
  emits P m ->
  (forall w a w', m w = (Ret a, w') -> V a) ->
  (forall a, V a -> emits P (k a)) ->
  emits P (bind m k).
Proof.
  intros Hm HV Hk w. unfold bind.
  destruct (Hm w) as (n1 & E1 & F1).
  destruct (m w) as [[a| |] w1] eqn:Em; simpl in *.
  - destruct (Hk a (HV _ _ _ Em) w1) as (n2 & E2 & F2).
    exists (n2 ++ n1)%list. split.
    + rewrite E2, E1. apply app_assoc.
    + apply Forall_app. split; assumption.
  - exists n1. split; assumption.
  - exists n1. split; assumption.
Qed.

Lemma get_phase_path env fuel session device_id remote_path local_path file_size
    w p request_id w' :
  FileManager.get_phase env fuel session device_id remote_path local_path file_size w
    = (Ret (inl (p, request_id)), w') ->
  FileManager.local_path_7z local_path = Some p.
Proof.
  unfold FileManager.get_phase.
  destruct (FileManager.local_path_7z local_path) as [q|]; [|discriminate].
  unfold bind.
  destruct (FileManager.execute_active_responder_command _ _ _ _ w) as [[[r|]| |] w1];
    try discriminate.
  destruct (negb _); [discriminate|].
  destruct (submit_request_id r); [|discriminate].
  destruct (time_time env w1) as [[t| |] w2]; try discriminate.
  destruct (loop _ _ _ w2) as [[[?|?]| |] w3]; try discriminate.
  intros H. inversion H. reflexivity.
Qed.

Lemma download_file_emits_writes_7z env fuel session device_id remote_path local_path file_size :
  emits FileManager.writes_7z
    (FileManager.download_file env fuel session device_id remote_path local_path file_size).
Proof.
  unfold FileManager.download_file.
  apply emits_try_except; [|apply emits_ret].
  apply (emits_bind_val _
           (fun g => match g with
                     | inl (p, _) => FileManager.local_path_7z local_path = Some p
                     | inr _ => True
                     end)).
  - apply get_phase_emits. intros []; exact I.
  - intros w [[p rid]|r] w' H; [|exact I]. eapply get_phase_path. exact H.
  - intros [[p rid]|r] Hp; [|apply emits_ret].
    apply emits_bind; [apply sha_phase_emits; intros []; exact I|].
    intros [[lp sha]|r]; [|apply emits_ret].
    apply content_phase_emits; [intros []; exact I|].
    intros content r. simpl. eapply local_path_7z_name. exact Hp.
Qed.

(** C7. Every file that [download_file] writes to the operator's disk has a
    name ending in [.7z], whatever local path (and extension) was supplied. *)
Theorem download_file_writes_7z
    env fuel session device_id remote_path local_path file_size path content size :
  In (EvWriteFile path content size)
     (events (FileManager.download_file env fuel session device_id remote_path
                local_path file_size)) ->
  Py.endswith ".7z" (PosixPath.name (PosixPath.parse path)) = true.
Proof.
  unfold events. intros H. apply in_rev in H.
  destruct (download_file_emits_writes_7z env fuel session device_id remote_path
              local_path file_size world0) as (new & E & F).
  rewrite E in H. simpl in H. rewrite app_nil_r in H.
  rewrite Forall_forall in F. apply list_elem_of_In in H.
  exact (F (EvWriteFile path content size) H).
Qed.

Lemma download_file_writes_7z_witness :
  Py.endswith ".7z" (PosixPath.name (PosixPath.parse "/home/op/triage.7z")) = true.
Proof.
  apply (download_file_writes_7z happy_download_env 3 (mkSession "s1" "aid1" 201)
           "aid1" "C:\0x4n6nerd\temp\triage.zip" "/home/op/triage.zip" 1000
           "/home/op/triage.7z" "7z-bytes" (Some 8)).
  vm_compute. repeat (first [left; reflexivity | right]).
Defined.

Example download_file_happy :
  result (FileManager.download_file happy_download_env 3 (mkSession "s1" "aid1" 201)
            "aid1" "C:\0x4n6nerd\temp\triage.zip" "/home/op/triage.zip" 1000)
  = Ret true.
Proof. vm_compute. reflexivity. Qed.

(** ** Pull download, phase A: the size-aware deadline (C5) *)

Lemma try_except_bind_from {A B} (m m' : M A) (k : A -> M B) (h : M B) w w' :
  m w = m' w' ->
  try_except (bind m k) h w = try_except (bind m' k) h w'.
Proof. intros E. unfold try_except, bind. rewrite E. reflexivity. Qed.

Lemma bind_assoc_at {A B C} (m : M A) (k1 : A -> M B) (k2 : B -> M C) w :
  bind (bind m k1) k2 w = bind m (fun a => bind (k1 a) k2) w.
Proof. unfold bind. destruct (m w) as [[a| |] w1]; reflexivity. Qed.

Lemma try_except_bind_assoc {A B C} (m : M A) (k1 : A -> M B) (k2 : B -> M C) h w :
  try_except (bind (bind m k1) k2) h w
  = try_except (bind m (fun a => bind (k1 a) k2)) h w.
Proof. unfold try_except. rewrite bind_assoc_at. reflexivity. Qed.

Lemma loop_step_continue {S R} (body : S -> M (Step S R)) fuel s w s1 w1 :
  body s w = (Ret (Continue s1), w1) ->
  loop (Datatypes.S fuel) body s w = loop fuel body s1 w1.
Proof. intros E. cbn [loop]. unfold bind. rewrite E. reflexivity. Qed.

Lemma loop_step_from {S R} (body : S -> M (Step S R)) fuel s w
    (m : M (Step S R)) w' :
  body s w = m w' ->
  loop (Datatypes.S fuel) body s w
  = bind m (fun st => match st with
                      | Continue s' => loop fuel body s'
                      | Break s' => ret (inl s')
                      | Return r => ret (inr r)
                      end) w'.
Proof. intros E. cbn [loop]. unfold bind. rewrite E. reflexivity. Qed.

Section PhaseAPolls.
Context (env : Env) (request_id : string) (poll_start timeout : Q).

Let body := FileManager.phase_a_body env request_id poll_start timeout.

(** A poll within the deadline asks for the status of the command. *)
Lemma phase_a_body_asks w :
  (clock env (ticks w) - poll_start <= timeout)%Q ->
  exists m : M (Step unit bool),
    emits any_event m /\
    body tt w = m (mkWorld (2 + ticks w)
                     (EvGetStatus request_id (status_resp env (S (ticks w)))
                      :: EvTime (clock env (ticks w)) :: trace w)).
Proof.
  intros H. apply Qgt_bool_false in H.
  exists (match status_resp env (S (ticks w)) with
          | Some (Some result) =>
              if SessionManager.get_default (res_complete result) false then
                if FileManager.opt_truthy (res_stderr result) then ret (Return false)
                else ret (Break tt)
              else bind (time_sleep 2) (fun _ => ret (Continue tt))
          | _ => bind (time_sleep 2) (fun _ => ret (Continue tt))
          end).
  split.
  - repeat (first [emits_step | exact I]).
  - unfold body, FileManager.phase_a_body.
    unfold bind at 1. unfold time_time at 1. unfold interact at 1.
    cbv beta iota zeta. cbn [ticks trace]. rewrite H.
    unfold bind at 1. unfold FileManager.check_active_responder_command_status at 1.
    unfold interact at 1. cbv beta iota zeta. cbn [ticks trace].
    reflexivity.
Qed.

Lemma phase_a_body_pending_trace w :
  (clock env (ticks w) - poll_start <= timeout)%Q ->
  get_pending (status_resp env (S (ticks w))) ->
  body tt w = (Ret (Continue tt),
               mkWorld (2 + ticks w)
                 (EvSleep 2 :: EvGetStatus request_id (status_resp env (S (ticks w)))
                  :: EvTime (clock env (ticks w)) :: trace w)).
Proof.
  intros H Hp. apply Qgt_bool_false in H.
  unfold body, FileManager.phase_a_body, bind, time_time,
    FileManager.check_active_responder_command_status, interact, time_sleep, ret.
  cbv beta iota zeta. cbn [ticks trace]. rewrite H.
  cbv beta iota zeta. cbn [ticks trace].
  unfold get_pending in Hp.
  destruct (status_resp env (S (ticks w))) as [[res|]|]; cbn [ticks trace].
  - rewrite Hp. reflexivity.
  - reflexivity.
  - reflexivity.
Qed.

(** After [n] polls that found the command pending the loop stands at
    its next poll, with those polls on the trace. *)
Lemma phase_a_loop_polls n : forall fuel w,
  (n <= fuel)%nat ->
  (forall i, (i < n)%nat ->
     (clock env (ticks w + 2 * i) - poll_start <= timeout)%Q /\
     get_pending (status_resp env (ticks w + 2 * i + 1))) ->
  exists wn,
    loop fuel body tt w = loop (fuel - n) body tt wn /\
    ticks wn = (ticks w + 2 * n)%nat /\
    trace wn = (rev (pending_polls env request_id n (ticks w)) ++ trace w)%list.
Proof.
  induction n as [|n IH]; intros fuel w Hf Hpend.
  - exists w. rewrite Nat.sub_0_r, Nat.add_0_r. repeat split.
  - destruct fuel as [|fuel]; [lia|].
    destruct (Hpend 0%nat ltac:(lia)) as [H0 P0].
    replace (ticks w + 2 * 0)%nat with (ticks w) in H0 by lia.
    replace (ticks w + 2 * 0 + 1)%nat with (S (ticks w)) in P0 by lia.
    pose proof (phase_a_body_pending_trace w H0 P0) as Eb.
    rewrite (loop_step_continue _ _ _ _ _ _ Eb).
    match type of Eb with _ = (_, ?w1) =>
      destruct (IH fuel w1) as (wn & El & Et & Etr) end.
    + lia.
    + cbn [ticks]. intros i Hi. destruct (Hpend (S i) ltac:(lia)) as [A B].
      replace (2 + ticks w + 2 * i)%nat with (ticks w + 2 * S i)%nat by lia.
      split; assumption.
    + exists wn. cbn [ticks trace] in Et, Etr.
      split; [exact El|]. split; [lia|].
      rewrite Etr. cbn [pending_polls rev]. rewrite <- !app_assoc. reflexivity.
Qed.

End PhaseAPolls.

(** C5. For a download whose remote size is known and positive, phase A
    polls the [get] command against the deadline
    max(600 s, file_size / 30 KiB/s), measured from the start of polling.
    After any number of polls that found the command still pending:
    - a poll that starts later than the deadline ends the download:
      [download_file] returns [False] and does nothing after that reading
      of the clock;
    - a poll that starts at the deadline or before it is made: the status of
      the command is requested next. *)
Theorem download_file_get_deadline
    env fuel session device_id remote_path local_path file_size resp request_id n :
  (0 < file_size)%Z ->
  submit_resp env 0%nat = Some resp ->
  submit_status resp = 201 ->
  submit_request_id resp = Some request_id ->
  let deadline := Qmax 600 (inject_Z file_size / inject_Z (30 * 1024)) in
  let poll_start := clock env 1%nat in
  let run := FileManager.download_file env fuel session device_id remote_path
               local_path file_size in
  let polled :=
    EvGet (mkCmd "get" ("get " ++ remote_path) false) device_id (session_id session)
          (Some resp)
    :: EvTime poll_start :: pending_polls env request_id n 2 in
  let now := clock env (2 + 2 * n) in
  (n < fuel)%nat ->
  (forall i, (i < n)%nat ->
     (clock env (2 + 2 * i) - poll_start <= deadline)%Q /\
     get_pending (status_resp env (2 + 2 * i + 1))) ->
  ((deadline < now - poll_start)%Q ->
   result run = Ret false /\ events run = (polled ++ [EvTime now])%list) /\
  ((now - poll_start <= deadline)%Q ->
   exists later,
     events run
     = (polled ++ EvTime now :: EvGetStatus request_id (status_resp env (3 + 2 * n))
               :: later)%list).
Proof.
  intros Hsize Hsub Hst Hid deadline poll_start run polled now Hfuel Hpend.
  assert (Ht : FileManager.estimated_timeout file_size = deadline).
  { unfold FileManager.estimated_timeout.
    destruct (Z.gtb_spec file_size 0); [reflexivity|lia]. }
  destruct (local_path_7z_defined local_path) as [p Hp].
  pose (w2 := mkWorld 2 [EvTime poll_start;
                         EvGet (mkCmd "get" ("get " ++ remote_path) false) device_id
                               (session_id session) (Some resp)]).
  pose (body := FileManager.phase_a_body env request_id poll_start deadline).
  pose (after_a := fun a : unit + bool =>
                     match a with
                     | inr r => ret (inr r)
                     | inl _ => ret (inl (p, request_id))
                     end : M (string * string + bool)).
  pose (after_get := fun g : string * string + bool =>
          match g with
          | inr r => ret r
          | inl (local_path_7z, cloud_request_id) =>
              let* b := FileManager.sha_phase env fuel session cloud_request_id in
              match b with
              | inr r => ret r
              | inl (_, file_sha) =>
                  FileManager.content_phase env session remote_path local_path_7z
                    (SessionManager.get_default file_sha "")
              end
          end).
  assert (Erun : run world0
                 = try_except (bind (loop fuel body tt)
                                 (fun a => bind (after_a a) after_get))
                     (ret false) w2).
  { rewrite <- try_except_bind_assoc.
    unfold run, FileManager.download_file. fold after_get.
    apply try_except_bind_from.
    unfold FileManager.get_phase. rewrite Hp.
    unfold bind at 1. unfold FileManager.execute_active_responder_command at 1.
    unfold interact at 1. cbv beta iota zeta. cbn [ticks trace world0].
    rewrite Hsub, Hst, Hid. cbn [Z.eqb Pos.eqb negb].
    unfold bind at 1. unfold time_time at 1. unfold interact at 1.
    cbv beta iota zeta. cbn [ticks trace]. rewrite Ht. reflexivity. }
  destruct (phase_a_loop_polls env request_id poll_start deadline n fuel w2
              ltac:(lia) Hpend) as (wn & El & Etk & Etr).
  cbn [ticks trace w2] in Etk, Etr. fold body in El.
  assert (Hfn : exists f, (fuel - n = S f)%nat) by (exists (fuel - n - 1)%nat; lia).
  destruct Hfn as (f & Hfn). rewrite Hfn in El.
  assert (Epolled : rev (trace wn) = polled).
  { rewrite Etr, rev_app_distr, rev_involutive. reflexivity. }
  split.
  - intros Hlate.
    assert (Eb : body tt wn = (Ret (Return false),
                               mkWorld (S (ticks wn)) (EvTime now :: trace wn))).
    { apply Qgt_bool_true in Hlate.
      unfold body, FileManager.phase_a_body.
      unfold bind at 1. unfold time_time at 1. unfold interact at 1.
      cbv beta iota zeta. cbn [ticks trace].
      rewrite Etk. fold now. rewrite Hlate. reflexivity. }
    assert (Efin : run world0
                   = (Ret false, mkWorld (S (ticks wn)) (EvTime now :: trace wn))).
    { rewrite Erun. unfold try_except, bind. rewrite El.
      cbn [loop]. unfold bind. rewrite Eb. reflexivity. }
    unfold result, events. rewrite Efin. cbn [fst snd trace rev].
    rewrite Epolled. split; reflexivity.
  - intros Hin.
    destruct (phase_a_body_asks env request_id poll_start deadline wn) as (m & Hm & Eb).
    { rewrite Etk. exact Hin. }
    fold body in Eb. rewrite Etk in Eb. fold now in Eb.
    pose proof (loop_step_from body f tt wn m _ Eb) as Els.
    rewrite <- El in Els.
    rewrite (try_except_bind_from _ _ _ _ _ _ Els) in Erun.
    match type of Erun with _ = try_except ?b ?h ?wq =>
      assert (Hem : emits any_event (try_except b h)) end.
    { apply emits_try_except; [|apply emits_ret].
      apply emits_bind.
      - apply emits_bind; [exact Hm|].
        intros [[]|[]|r]; [|apply emits_ret|apply emits_ret].
        apply emits_loop. intros ?. apply phase_a_body_emits. intros []; exact I.
      - intros a. apply emits_bind.
        + destruct a; apply emits_ret.
        + intros [[lp rid]|r]; [|apply emits_ret].
          apply emits_bind; [apply sha_phase_emits; intros []; exact I|].
          intros [[t sha]|r]; [|apply emits_ret].
          apply content_phase_emits; [intros []; exact I|]. intros; exact I. }
    match type of Erun with _ = try_except ?b ?h ?wq =>
      destruct (Hem wq) as (later & E & _) end.
    rewrite <- Erun in E. cbn [trace] in E.
    exists (rev later). unfold events. rewrite E, rev_app_distr.
    cbn [rev]. rewrite Epolled, <- !app_assoc. cbn [app].
    replace (3 + 2 * n)%nat with (S (2 + 2 * n)) by lia. reflexivity.
Qed.

Lemma download_file_get_deadline_witness :
  result (FileManager.download_file slow_get_env 5 (mkSession "s1" "aid1" 201)
            "aid1" "/opt/0x4n6nerd/evidence/a.tar.gz" "/tmp/a.7z" 30720000)
  = Ret false.
Proof.
  apply (proj1 (download_file_get_deadline slow_get_env 5 (mkSession "s1" "aid1" 201)
           "aid1" "/opt/0x4n6nerd/evidence/a.tar.gz" "/tmp/a.7z" 30720000
           (mkSubmit 201 (Some "req-get")) "req-get" 1
           ltac:(lia) eq_refl eq_refl eq_refl ltac:(lia)
           ltac:(intros i Hi; assert (i = 0)%nat as -> by lia;
                 split; [vm_compute; discriminate|reflexivity]))).
  vm_compute. reflexivity.
Defined.

(** The same download, one poll earlier: 700 s is within the 1000 s of a
    30 720 000-byte file, and the status is requested. *)
Example download_file_polls_within_deadline :
  firstn 4 (events (FileManager.download_file slow_get_env 5 (mkSession "s1" "aid1" 201)
                      "aid1" "/opt/0x4n6nerd/evidence/a.tar.gz" "/tmp/a.7z" 30720000))
  = [EvGet (mkCmd "get" "get /opt/0x4n6nerd/evidence/a.tar.gz" false) "aid1" "s1"
       (Some (mkSubmit 201 (Some "req-get")));
     EvTime 0; EvTime 700;
     EvGetStatus "req-get" (Some (Some (mkStatus (Some false) None None)))].
Proof. vm_compute. reflexivity. Qed.

(** Before the deadline a completed [get] ends phase A normally: for a
    file of that size, completion observed at 700 s is not a timeout. *)
Example phase_a_completes_before_deadline :
  fst (loop 3 (FileManager.phase_a_body
                 (with_clock (fun _ => 700%Q)
                    (with_rtr (fun _ => None)
                       (fun _ => Some (Some (mkStatus (Some true) None None)))
                       quiet_env))
                 "req-get" 0 (FileManager.estimated_timeout 30720000)) tt world0)
  = Ret (inl tt).
Proof. vm_compute. reflexivity. Qed.

(** ** Pull download, phase B: SHA retrieval (C6) *)

Lemma Qge_bool_true a b : FileManager.Qge_bool a b = true <-> (b <= a)%Q.
Proof. unfold FileManager.Qge_bool. apply Qle_bool_iff. Qed.

Lemma Qge_bool_false a b : FileManager.Qge_bool a b = false <-> (a < b)%Q.
Proof.
  unfold FileManager.Qge_bool. split; intros H.
  - apply Qnot_le_lt. intros Hle. apply Qle_bool_iff in Hle. congruence.
  - destruct (Qle_bool b a) eqn:E; [|reflexivity].
    apply Qle_bool_iff in E. exfalso. exact (Qlt_not_le _ _ H E).
Qed.

(** [find_sha] answers with the SHA of the first entry made by our [get]. *)
Lemma find_sha_first files_list request_id sha :
  FileManager.find_sha files_list request_id = Some sha ->
  exists before entry after,
    files_list = (before ++ entry :: after)%list /\
    file_request_id entry = Some request_id /\
    file_sha256 entry = Some sha /\
    Forall (fun f => file_request_id f <> Some request_id) before.
Proof.
  induction files_list as [|f l IH]; simpl; [discriminate|].
  destruct (file_request_id f) as [r|] eqn:Er; simpl.
  - destruct (String.eqb_spec r request_id) as [->|Hne].
    + intros H. exists [], f, l. repeat split; auto.
    + intros H. destruct (IH H) as (b & e & a & -> & H1 & H2 & H3).
      exists (f :: b), e, a. repeat split; auto.
      constructor; [|exact H3]. rewrite Er. congruence.
  - intros H. destruct (IH H) as (b & e & a & -> & H1 & H2 & H3).
    exists (f :: b), e, a. repeat split; auto.
    constructor; [|exact H3]. rewrite Er. discriminate.
Qed.

Lemma try_except_bind_interact {A B C} (answer : nat -> A) (ev : A -> Event)
    (k1 : A -> M B) (k2 : B -> M C) (h : M C) w :
  try_except (bind (bind (interact answer ev) k1) k2) h w
  = try_except (bind (k1 (answer (ticks w))) k2) h
      (mkWorld (S (ticks w)) (ev (answer (ticks w)) :: trace w)).
Proof. reflexivity. Qed.

(** In every run of [download_file] the [get] command is submitted once,
    first, and never again. *)
Lemma download_file_one_get env fuel session device_id remote_path local_path file_size w :
  exists later r,
    trace (snd (FileManager.download_file env fuel session device_id remote_path
                  local_path file_size w))
    = (later ++ EvGet (mkCmd "get" ("get " ++ remote_path) false) device_id
                  (session_id session) r :: trace w)%list /\
    Forall FileManager.not_get later.
Proof.
  unfold FileManager.download_file, FileManager.get_phase.
  destruct (local_path_7z_defined local_path) as [p ->].
  unfold FileManager.execute_active_responder_command.
  rewrite try_except_bind_interact.
  match goal with |- context [try_except ?b ?h ?w0] =>
    assert (Hem : emits FileManager.not_get (try_except b h)) end.
  { apply emits_try_except; [|apply emits_ret].
    apply emits_bind.
    - unfold time_time.
      repeat (first [ apply phase_a_body_emits; intros []; exact I
                    | emits_step | exact I ]).
    - intros [[lp rid]|r]; [|apply emits_ret].
      apply emits_bind; [apply sha_phase_emits; intros []; exact I|].
      intros [[t sha]|r]; [|apply emits_ret].
      apply content_phase_emits; [intros []; exact I|]. intros; exact I. }
  match goal with |- context [try_except ?b ?h ?w0] =>
    destruct (Hem w0) as (later & E & F) end.
  exists later, (submit_resp env (ticks w)). split; [exact E|exact F].
Qed.

Section IteratesMore.
Context {S R : Type} (body : S -> M (Step S R)).

Lemma loop_iterates_from n s w s' w' fuel :
  iterates body n s w s' w' ->
  (n <= fuel)%nat ->
  loop fuel body s w = loop (fuel - n) body s' w'.
Proof.
  intros Hit. revert fuel.
  induction Hit as [s w|n s w s1 w1 s' w' Hb Hit IH]; intros fuel Hf.
  - rewrite Nat.sub_0_r. reflexivity.
  - destruct fuel as [|fuel]; [lia|].
    rewrite (loop_step_continue _ _ _ _ _ _ Hb). apply IH. lia.
Qed.

Lemma iterates_snoc n s w s' w' s'' w'' :
  iterates body n s w s' w' ->
  body s' w' = (Ret (Continue s''), w'') ->
  iterates body (Datatypes.S n) s w s'' w''.
Proof.
  intros Hit Hb.
  induction Hit as [s w|n s w s1 w1 s' w' Hb1 Hit IH].
  - eapply iterates_next; [exact Hb|apply iterates_here].
  - eapply iterates_next; [exact Hb1|apply IH; exact Hb].
Qed.

Lemma iterates_inv (I : S -> World -> Prop) n s w s' w' :
  (forall s w s1 w1, I s w -> body s w = (Ret (Continue s1), w1) -> I s1 w1) ->
  iterates body n s w s' w' ->
  I s w -> I s' w'.
Proof.
  intros Hstep Hit.
  induction Hit as [s w|n s w s1 w1 s' w' Hb Hit IH]; intros Hi; [exact Hi|].
  apply IH. exact (Hstep _ _ _ _ Hi Hb).
Qed.

End IteratesMore.

Section PhaseBPolls.
Context (env : Env) (session : RTRSession) (request_id : string) (start : Q).

Let body := FileManager.phase_b_body env session request_id start.

Lemma phase_b_body_late st w :
  (FileManager.sha_timeout < clock env (ticks w) - start)%Q ->
  body st w = (Ret (Return false),
               mkWorld (S (ticks w)) (EvTime (clock env (ticks w)) :: trace w)).
Proof.
  intros H. apply Qgt_bool_true in H. destruct st as [lp sha].
  unfold body, FileManager.phase_b_body, bind, time_time, interact.
  cbv beta iota zeta. cbn [ticks trace]. rewrite H. reflexivity.
Qed.

Lemma phase_b_body_pulse_failed st w :
  (clock env (ticks w) - start <= FileManager.sha_timeout)%Q ->
  (FileManager.sha_pulse_interval <= clock env (S (ticks w)) - fst st)%Q ->
  pulse_resp env (2 + ticks w) = false ->
  body st w = (Ret (Return false),
               mkWorld (3 + ticks w)
                 (EvPulse session false :: EvTime (clock env (S (ticks w)))
                  :: EvTime (clock env (ticks w)) :: trace w)).
Proof.
  intros H1 H2 Hp. apply Qgt_bool_false in H1. apply Qge_bool_true in H2.
  destruct st as [lp sha]. cbn [fst] in H2. cbn in Hp.
  unfold body, FileManager.phase_b_body, bind, time_time, pulse_session, interact, ret.
  cbv beta iota zeta. cbn [ticks trace]. rewrite H1.
  cbv beta iota zeta. cbn [ticks trace]. rewrite H2.
  cbv beta iota zeta. cbn [ticks trace]. rewrite Hp. reflexivity.
Qed.

Lemma phase_b_body_pulsed st w :
  (clock env (ticks w) - start <= FileManager.sha_timeout)%Q ->
  (FileManager.sha_pulse_interval <= clock env (S (ticks w)) - fst st)%Q ->
  pulse_resp env (2 + ticks w) = true ->
  let listing := files_resp env (4 + ticks w) in
  let lp := clock env (3 + ticks w) in
  let tr := EvListFiles listing :: EvTime lp :: EvPulse session true
            :: EvTime (clock env (S (ticks w))) :: EvTime (clock env (ticks w))
            :: trace w in
  body st w
  = if FileManager.opt_truthy (listed_sha listing request_id)
    then (Ret (Break (lp, listed_sha listing request_id)), mkWorld (5 + ticks w) tr)
    else (Ret (Continue (lp, listed_sha listing request_id)),
          mkWorld (5 + ticks w) (EvSleep 4 :: tr)).
Proof.
  intros H1 H2 Hp listing lp tr. apply Qgt_bool_false in H1. apply Qge_bool_true in H2.
  destruct st as [lp0 sha]. cbn [fst] in H2. cbn in Hp.
  unfold body, FileManager.phase_b_body, bind, time_time, pulse_session,
    FileManager.list_files_v2, interact, ret, time_sleep.
  cbv beta iota zeta. cbn [ticks trace]. rewrite H1.
  cbv beta iota zeta. cbn [ticks trace]. rewrite H2.
  cbv beta iota zeta. cbn [ticks trace]. rewrite Hp.
  cbv beta iota zeta. cbn [ticks trace].
  subst listing lp tr. unfold listed_sha. cbn [Nat.add].
  destruct (FileManager.opt_truthy _); reflexivity.
Qed.

Lemma phase_b_body_not_due st w :
  (clock env (ticks w) - start <= FileManager.sha_timeout)%Q ->
  (clock env (S (ticks w)) - fst st < FileManager.sha_pulse_interval)%Q ->
  let listing := files_resp env (2 + ticks w) in
  let tr := EvListFiles listing
            :: EvTime (clock env (S (ticks w))) :: EvTime (clock env (ticks w))
            :: trace w in
  body st w
  = if FileManager.opt_truthy (listed_sha listing request_id)
    then (Ret (Break (fst st, listed_sha listing request_id)), mkWorld (3 + ticks w) tr)
    else (Ret (Continue (fst st, listed_sha listing request_id)),
          mkWorld (3 + ticks w) (EvSleep 4 :: tr)).
Proof.
  intros H1 H2 listing tr. apply Qgt_bool_false in H1. apply Qge_bool_false in H2.
  destruct st as [lp0 sha]. cbn [fst] in *.
  unfold body, FileManager.phase_b_body, bind, time_time, pulse_session,
    FileManager.list_files_v2, interact, ret, time_sleep.
  cbv beta iota zeta. cbn [ticks trace]. rewrite H1.
  cbv beta iota zeta. cbn [ticks trace]. rewrite H2.
  cbv beta iota zeta. cbn [ticks trace].
  subst listing tr. unfold listed_sha. cbn [Nat.add].
  destruct (FileManager.opt_truthy _); reflexivity.
Qed.

(** The loop state carries the reading that the trace shows as the last
    restart of the pulse clock. *)
Lemma phase_b_pulse_clock lp0 w0 n st w since :
  iterates body n (lp0, None) w0 st w ->
  trace w = (since ++ trace w0)%list ->
  fst st = last_pulse_reading lp0 since.
Proof.
  intros Hit Hsince.
  pose (I := fun (s : Q * option string) (w : World) =>
               exists since,
                 trace w = (since ++ trace w0)%list /\
                 fst s = last_pulse_reading lp0 since /\
                 match since with
                 | [] => True
                 | e :: _ => e = EvSleep 4
                 end).
  assert (Hi : I st w).
  { assert (Hi0 : I (lp0, None) w0) by (exists []; repeat split).
    revert Hit Hi0. apply iterates_inv.
    clear. intros s w s1 w1 (since & Et & Es & Hh) Hb.
    destruct (Qle_bool (clock env (ticks w) - start) FileManager.sha_timeout) eqn:E1.
    2:{ assert (Hl : (FileManager.sha_timeout < clock env (ticks w) - start)%Q).
        { apply Qnot_le_lt. intros Hle. apply Qle_bool_iff in Hle. congruence. }
        rewrite (phase_b_body_late s w Hl) in Hb. discriminate. }
    apply Qle_bool_iff in E1.
    destruct (Qle_bool FileManager.sha_pulse_interval (clock env (S (ticks w)) - fst s))
      eqn:E2.
    - apply Qle_bool_iff in E2.
      destruct (pulse_resp env (2 + ticks w)) eqn:Ep.
      + rewrite (phase_b_body_pulsed s w E1 E2 Ep) in Hb. cbv zeta in Hb.
        destruct (FileManager.opt_truthy _); [discriminate|].
        injection Hb as <- <-.
        eexists (_ :: _ :: _ :: _ :: _ :: _ :: since). cbn [trace app].
        rewrite Et. split; [reflexivity|]. split; reflexivity.
      + rewrite (phase_b_body_pulse_failed s w E1 E2 Ep) in Hb. discriminate.
    - assert (Hl : (clock env (S (ticks w)) - fst s < FileManager.sha_pulse_interval)%Q).
      { apply Qnot_le_lt. intros Hle. apply Qle_bool_iff in Hle. congruence. }
      rewrite (phase_b_body_not_due s w E1 Hl) in Hb. cbv zeta in Hb.
      destruct (FileManager.opt_truthy _); [discriminate|].
      injection Hb as <- <-.
      eexists (_ :: _ :: _ :: _ :: since). cbn [trace app].
      rewrite Et. split; [reflexivity|]. split; [|reflexivity].
      cbn [fst last_pulse_reading]. rewrite Es.
      destruct since as [|e since']; [reflexivity|]. subst e. reflexivity. }
  destruct Hi as (since' & Et & Es & _).
  rewrite Hsince in Et. apply app_inv_tail in Et. subst since'. exact Es.
Qed.

End PhaseBPolls.

Section ShaPhaseRun.
Context (env : Env) (fuel : nat) (session : RTRSession).
Context (device_id remote_path local_path : string) (file_size : Z).

Let download := FileManager.download_file env fuel session device_id remote_path
                  local_path file_size.

(** What is left of the download once phase B has come to an end. *)
Let after_b (p : string) (b : Q * option string + bool) : M bool :=
  match b with
  | inr r => ret r
  | inl (_, file_sha) =>
      FileManager.content_phase env session remote_path p
        (SessionManager.get_default file_sha "")
  end.

Lemma after_b_emits p b : emits any_event (after_b p b).
Proof.
  destruct b as [[t sha]|r]; [|apply emits_ret].
  apply content_phase_emits; [intros []; exact I|]. intros; exact I.
Qed.

(** After a completed [get], the download is the loop of phase B and what
    follows it. *)
Lemma download_file_from_sha_loop w p request_id w1 :
  FileManager.get_phase env fuel session device_id remote_path local_path file_size w
    = (Ret (inl (p, request_id)), w1) ->
  download w
  = try_except
      (bind (loop fuel (FileManager.phase_b_body env session request_id
                          (clock env (ticks w1)))
                  (clock env (S (ticks w1)), None))
            (after_b p))
      (ret false) (FileManager.sha_loop_world env w1).
Proof.
  intros Hg.
  unfold download, FileManager.download_file.
  transitivity
    (try_except
       (bind (FileManager.sha_phase env fuel session request_id) (after_b p))
       (ret false) w1).
  - unfold try_except. unfold bind at 1. rewrite Hg. reflexivity.
  - apply try_except_bind_from.
    unfold FileManager.sha_phase.
    unfold bind at 1. unfold time_time at 1. unfold interact at 1.
    cbv beta iota zeta. cbn [ticks trace].
    unfold bind at 1. unfold time_time at 1. unfold interact at 1.
    cbv beta iota zeta. cbn [ticks trace]. reflexivity.
Qed.

(** At a poll of phase B that the loop reaches, the download is what that
    poll and the rest of the loop make of it. *)
Lemma download_file_at_poll w p request_id w1 n st wi :
  FileManager.get_phase env fuel session device_id remote_path local_path file_size w
    = (Ret (inl (p, request_id)), w1) ->
  let body := FileManager.phase_b_body env session request_id (clock env (ticks w1)) in
  iterates body n (clock env (S (ticks w1)), None)
           (FileManager.sha_loop_world env w1) st wi ->
  (n < fuel)%nat ->
  exists f,
    download w
    = try_except
        (bind (bind (body st)
                 (fun s => match s with
                           | Continue s' => loop f body s'
                           | Break s' => ret (inl s')
                           | Return r => ret (inr r)
                           end))
              (after_b p))
        (ret false) wi /\
    forall s, emits any_event
                (try_except (bind (loop f body s) (after_b p)) (ret false)).
Proof.
  intros Hg body Hit Hf.
  assert (Hfn : exists f, (fuel - n = S f)%nat) by (exists (fuel - n - 1)%nat; lia).
  destruct Hfn as (f & Hfn).
  exists f. split.
  - rewrite (download_file_from_sha_loop w p request_id w1 Hg).
    apply try_except_bind_from. fold body.
    rewrite (loop_iterates_from body n _ _ _ _ fuel Hit ltac:(lia)), Hfn.
    reflexivity.
  - intros s. apply emits_try_except; [|apply emits_ret].
    apply emits_bind; [|apply after_b_emits].
    apply emits_loop. intros ?. apply phase_b_body_emits. intros []; exact I.
Qed.

(** The three things that a poll of the file list, made in the world
    before [wl], comes to. *)
Lemma download_file_polled w p request_id w1 n st wi f lp listing wl :
  let body := FileManager.phase_b_body env session request_id (clock env (ticks w1)) in
  iterates body n (clock env (S (ticks w1)), None)
           (FileManager.sha_loop_world env w1) st wi ->
  download w
  = try_except
      (bind (bind (body st)
               (fun s => match s with
                         | Continue s' => loop f body s'
                         | Break s' => ret (inl s')
                         | Return r => ret (inr r)
                         end))
            (after_b p))
      (ret false) wi ->
  (forall s, emits any_event
               (try_except (bind (loop f body s) (after_b p)) (ret false))) ->
  body st wi
  = (if FileManager.opt_truthy (listed_sha listing request_id)
     then (Ret (Break (lp, listed_sha listing request_id)), wl)
     else (Ret (Continue (lp, listed_sha listing request_id)),
           mkWorld (ticks wl) (EvSleep 4 :: trace wl))) ->
  (exists later, trace (snd (download w)) = (later ++ trace wl)%list) /\
  (forall sha,
     listed_sha listing request_id = Some sha -> sha <> "" ->
     download w
     = try_except (FileManager.content_phase env session remote_path p sha)
         (ret false) wl) /\
  (FileManager.opt_truthy (listed_sha listing request_id) = false ->
   iterates body (S n) (clock env (S (ticks w1)), None)
     (FileManager.sha_loop_world env w1)
     (lp, listed_sha listing request_id)
     (mkWorld (ticks wl) (EvSleep 4 :: trace wl))).
Proof.
  intros body Hit Edl Hem Eb.
  assert (Efound : FileManager.opt_truthy (listed_sha listing request_id) = true ->
                   download w
                   = try_except (after_b p (inl (lp, listed_sha listing request_id)))
                       (ret false) wl).
  { intros Ht. rewrite Ht in Eb. rewrite Edl.
    unfold try_except, bind. rewrite Eb. reflexivity. }
  assert (Eagain : FileManager.opt_truthy (listed_sha listing request_id) = false ->
                   download w
                   = try_except
                       (bind (loop f body (lp, listed_sha listing request_id))
                          (after_b p))
                       (ret false) (mkWorld (ticks wl) (EvSleep 4 :: trace wl))).
  { intros Ht. rewrite Ht in Eb. rewrite Edl.
    unfold try_except, bind. rewrite Eb. reflexivity. }
  split; [|split].
  - destruct (FileManager.opt_truthy (listed_sha listing request_id)) eqn:Ht.
    + rewrite (Efound eq_refl).
      assert (Hc : emits any_event
                     (try_except (after_b p (inl (lp, listed_sha listing request_id)))
                        (ret false)))
        by (apply emits_try_except; [apply after_b_emits|apply emits_ret]).
      destruct (Hc wl) as (later & E & _). exists later. exact E.
    + rewrite (Eagain eq_refl).
      destruct (Hem (lp, listed_sha listing request_id)
                  (mkWorld (ticks wl) (EvSleep 4 :: trace wl))) as (later & E & _).
      exists (later ++ [EvSleep 4])%list. rewrite E. cbn [trace].
      rewrite <- app_assoc. reflexivity.
  - intros sha Hs Hne.
    assert (Ht : FileManager.opt_truthy (listed_sha listing request_id) = true).
    { rewrite Hs. destruct sha; [congruence|reflexivity]. }
    rewrite (Efound Ht), Hs. reflexivity.
  - intros Ht. rewrite Ht in Eb. exact (iterates_snoc body _ _ _ _ _ _ _ Hit Eb).
Qed.

End ShaPhaseRun.

(** The SHA that a poll gives is that of the first listed entry whose
    [cloud_request_id] is that of the [get]. *)
Lemma listed_sha_first resp request_id sha :
  listed_sha (Some resp) request_id = Some sha ->
  files_status resp = 200 /\
  exists before entry after,
    files_resources resp = Some (before ++ entry :: after)%list /\
    file_request_id entry = Some request_id /\
    file_sha256 entry = Some sha /\
    Forall (fun f => file_request_id f <> Some request_id) before.
Proof.
  unfold listed_sha.
  destruct (Z.eqb_spec (files_status resp) 200) as [E|]; [|discriminate].
  destruct (files_resources resp) as [l|]; [|discriminate].
  intros H. split; [exact E|].
  destruct (find_sha_first _ _ _ H) as (b & e & a & -> & H1 & H2 & H3).
  exists b, e, a. repeat split; assumption.
Qed.

(** C6. Phase B of a pull download, started after the [get] command
    completed, at any poll that its loop reaches (a poll begins with two
    readings of the clock, [now] and [now2]):
    - a poll that begins more than 2000 s after the start of the phase ends
      the download: [download_file] returns [False] and does nothing after
      that reading of the clock;
    - otherwise, once 300 s have passed since the pulse clock was last
      restarted, the session is pulsed: a failed pulse is the last thing
      done and [download_file] returns [False]; a successful one is followed
      by the clock reading that restarts the 300 s, and then by the poll of
      the session file list;
    - otherwise, with less than 300 s on the pulse clock, the session file
      list is polled without a pulse;
    - a poll of the file list that shows an entry with the request id of the
      [get] and a SHA that is not empty ends the phase: from there on the
      download is the retrieval of the content under that SHA; a poll that
      shows none is followed by a pause of 4 s and the next poll;
    and in the whole run the [get] command is submitted exactly once.  The
    pulse clock is read off the trace: it is the reading made after the last
    successful pulse of the phase, or the second reading of the phase. *)
Theorem download_file_sha_phase
    env fuel session device_id remote_path local_path file_size
    w p request_id w1 n st wi since :
  FileManager.get_phase env fuel session device_id remote_path local_path file_size w
    = (Ret (inl (p, request_id)), w1) ->
  let sha_wait_start := clock env (ticks w1) in
  let body := FileManager.phase_b_body env session request_id sha_wait_start in
  let download := FileManager.download_file env fuel session device_id remote_path
                    local_path file_size in
  let first_poll := (clock env (S (ticks w1)), None) in
  iterates body n first_poll (FileManager.sha_loop_world env w1) st wi ->
  (n < fuel)%nat ->
  trace wi = (since ++ trace (FileManager.sha_loop_world env w1))%list ->
  let now := clock env (ticks wi) in
  let now2 := clock env (S (ticks wi)) in
  let pulse_clock := last_pulse_reading (clock env (S (ticks w1))) since in
  let polled := fun (restart : Q) (wl : World) (listing : option FilesResponse) =>
    (exists later, trace (snd (download w)) = (later ++ trace wl)%list) /\
    (forall sha,
       listed_sha listing request_id = Some sha -> sha <> "" ->
       download w
       = try_except (FileManager.content_phase env session remote_path p sha)
           (ret false) wl) /\
    (FileManager.opt_truthy (listed_sha listing request_id) = false ->
     iterates body (S n) first_poll (FileManager.sha_loop_world env w1)
       (restart, listed_sha listing request_id)
       (mkWorld (ticks wl) (EvSleep 4 :: trace wl))) in
  ((2000 < now - sha_wait_start)%Q ->
   download w = (Ret false, mkWorld (S (ticks wi)) (EvTime now :: trace wi))) /\
  ((now - sha_wait_start <= 2000)%Q ->
   ((300 <= now2 - pulse_clock)%Q ->
    (pulse_resp env (2 + ticks wi) = false ->
     download w
     = (Ret false,
        mkWorld (3 + ticks wi)
          (EvPulse session false :: EvTime now2 :: EvTime now :: trace wi))) /\
    (pulse_resp env (2 + ticks wi) = true ->
     let restart := clock env (3 + ticks wi) in
     let listing := files_resp env (4 + ticks wi) in
     polled restart
       (mkWorld (5 + ticks wi)
          (EvListFiles listing :: EvTime restart :: EvPulse session true
           :: EvTime now2 :: EvTime now :: trace wi))
       listing)) /\
   ((now2 - pulse_clock < 300)%Q ->
    let listing := files_resp env (2 + ticks wi) in
    polled pulse_clock
      (mkWorld (3 + ticks wi)
         (EvListFiles listing :: EvTime now2 :: EvTime now :: trace wi))
      listing)) /\
  (exists later r,
     trace (snd (download w))
     = (later ++ EvGet (mkCmd "get" ("get " ++ remote_path) false) device_id
                   (session_id session) r :: trace w)%list /\
     Forall FileManager.not_get later).
Proof.
  intros Hg sha_wait_start body download first_poll Hit Hf Hsince now now2 pulse_clock
    polled.
  pose proof (phase_b_pulse_clock env session request_id sha_wait_start _ _ _ _ _ _
                Hit Hsince) as Hclock.
  fold pulse_clock in Hclock.
  destruct (download_file_at_poll env fuel session device_id remote_path local_path
              file_size w p request_id w1 n st wi Hg Hit Hf) as (f & Edl & Hem).
  fold sha_wait_start body download in Edl, Hem.
  split; [|split].
  - intros Hlate.
    pose proof (phase_b_body_late env session request_id sha_wait_start st wi Hlate)
      as Eb.
    fold body in Eb. rewrite Edl.
    unfold try_except, bind. rewrite Eb. reflexivity.
  - intros Hin. split.
    + intros Hdue. rewrite <- Hclock in Hdue. split.
      * intros Hp.
        pose proof (phase_b_body_pulse_failed env session request_id sha_wait_start
                      st wi Hin Hdue Hp) as Eb.
        fold body in Eb. rewrite Edl.
        unfold try_except, bind. rewrite Eb. reflexivity.
      * intros Hp restart listing.
        pose proof (phase_b_body_pulsed env session request_id sha_wait_start
                      st wi Hin Hdue Hp) as Eb.
        fold body in Eb. cbv zeta in Eb.
        exact (download_file_polled env fuel session device_id remote_path local_path
                 file_size w p request_id w1 n st wi f restart listing
                 (mkWorld (5 + ticks wi)
                    (EvListFiles listing :: EvTime restart :: EvPulse session true
                     :: EvTime now2 :: EvTime now :: trace wi))
                 Hit Edl Hem Eb).
    + intros Hnot listing. rewrite <- Hclock in Hnot.
      pose proof (phase_b_body_not_due env session request_id sha_wait_start
                    st wi Hin Hnot) as Eb.
      fold body in Eb. cbv zeta in Eb. rewrite Hclock in Eb.
      exact (download_file_polled env fuel session device_id remote_path local_path
               file_size w p request_id w1 n st wi f pulse_clock listing
               (mkWorld (3 + ticks wi)
                  (EvListFiles listing :: EvTime now2 :: EvTime now :: trace wi))
               Hit Edl Hem Eb).
  - apply download_file_one_get.
Qed.

Lemma download_file_sha_phase_witness :
  result (FileManager.download_file happy_download_env 3 (mkSession "s1" "aid1" 201)
            "aid1" "/opt/0x4n6nerd/evidence/a.tar.gz" "/tmp/a.7z" 1000)
  = Ret true.
Proof.
  pose (s := mkSession "s1" "aid1" 201).
  pose (w1 := snd (FileManager.get_phase happy_download_env 3 s "aid1"
                     "/opt/0x4n6nerd/evidence/a.tar.gz" "/tmp/a.7z" 1000 world0)).
  destruct (download_file_sha_phase happy_download_env 3 s "aid1"
              "/opt/0x4n6nerd/evidence/a.tar.gz" "/tmp/a.7z" 1000
              world0 "/tmp/a.7z" "req-get" w1 0
              (clock happy_download_env (S (ticks w1)), None)
              (FileManager.sha_loop_world happy_download_env w1) [])
    as (_ & Hwithin & _).
  - vm_compute. reflexivity.
  - apply iterates_here.
  - lia.
  - reflexivity.
  - destruct (Hwithin ltac:(vm_compute; discriminate)) as (_ & Hnot_due).
    destruct (Hnot_due ltac:(vm_compute; reflexivity)) as (_ & Hfound & _).
    unfold result. fold s.
    rewrite (Hfound "abc123" ltac:(vm_compute; reflexivity) ltac:(discriminate)).
    vm_compute. reflexivity.
Defined.

(** Phase B begins 2001 s late: the first poll gives up. *)
Example download_file_sha_timeout :
  result (FileManager.download_file sha_timeout_env 3 (mkSession "s1" "aid1" 201)
            "aid1" "/opt/0x4n6nerd/evidence/a.tar.gz" "/tmp/a.7z" 1000)
  = Ret false.
Proof. vm_compute. reflexivity. Qed.

(** A poll 300 s after the start of the phase pulses the session, reads
    the clock again and then polls the file list. *)
Example download_file_sha_pulse :
  firstn 5 (skipn 6
    (events (FileManager.download_file
               (with_clock (fun n => if Nat.leb 7 n then 300%Q else 0%Q)
                  happy_download_env)
               3 (mkSession "s1" "aid1" 201)
               "aid1" "/opt/0x4n6nerd/evidence/a.tar.gz" "/tmp/a.7z" 1000)))
  = [EvTime 0; EvTime 300; EvPulse (mkSession "s1" "aid1" 201) true; EvTime 300;
     EvListFiles (Some (mkFiles 200 (Some [mkFile (Some "other") (Some "ff");
                                           mkFile (Some "req-get") (Some "abc123")])))].
Proof. vm_compute. reflexivity. Qed.

(** ** Batch runs and unresolved hostnames (C8) *)

(** C8, the KAPE batch at the failing input: the unresolved [ghost] has no
    entry at all in the returned map, while [web01] is processed. *)
Lemma run_kape_batch_drops_unresolved :
  match result (Orchestrator.run_kape_batch one_ghost_env true all_ok_worker
                  [("web01", "!SANS_Triage"); ("ghost", "!SANS_Triage")] true) with
  | Ret results => results !! "web01" = Some true /\ results !! "ghost" = None
  | _ => False
  end.
Proof. vm_compute. split; reflexivity. Qed.

(** The UAC batch on the same input records the unresolved host as failed. *)
Example run_uac_batch_records_unresolved :
  match result (Orchestrator.run_uac_batch one_ghost_env true 20 all_ok_worker
                  [("web01", "ir_triage"); ("ghost", "ir_triage")] true) with
  | Ret results => results !! "web01" = Some true /\ results !! "ghost" = Some false
  | _ => False
  end.
Proof. vm_compute. split; reflexivity. Qed.

(** ** UAC monitoring: the wait for the archive (C9) *)

Lemma all_chars_impl (p q : ascii -> bool) s :
  (forall c, p c = true -> q c = true) ->
  Py.all_chars p s = true -> Py.all_chars q s = true.
Proof.
  intros H. induction s as [|c s IH]; simpl; [reflexivity|].
  intros Hs. apply andb_true_iff in Hs. destruct Hs as [Hc Hs].
  rewrite (H _ Hc), (IH Hs). reflexivity.
Qed.

Lemma all_chars_app p a b :
  Py.all_chars p (a ++ b) = Py.all_chars p a && Py.all_chars p b.
Proof.
  induction a as [|c a IH]; simpl; [reflexivity|].
  rewrite IH. apply andb_assoc.
Qed.



Lemma literal_not_dot c : Re.is_literal c = true -> not_dot c = true.
Proof.
  unfold not_dot. destruct (Ascii.eqb_spec c "."%char) as [->|]; [|reflexivity].
  vm_compute. discriminate.
Qed.

Lemma span_all p s a b : Re.span p s = (a, b) -> Py.all_chars p a = true.
Proof.
  revert a b. induction s as [|c s IH]; intros a b H; simpl in H.
  - inversion H. reflexivity.
  - destruct (p c) eqn:Hc.
    + destruct (Re.span p s) as [a' b']. inversion H; subst. simpl.
      rewrite Hc. simpl. eapply IH. reflexivity.
    + inversion H. reflexivity.
Qed.

Lemma take_class_all p n s a b :
  Re.take_class p n s = Some (a, b) -> Py.all_chars p a = true.
Proof.
  revert s a b. induction n as [|n IH]; intros s a b H; simpl in H.
  - inversion H. reflexivity.
  - destruct s as [|c s]; [discriminate|].
    destruct (p c) eqn:Hc; [|discriminate].
    destruct (Re.take_class p n s) as [[a' b']|] eqn:E; [|discriminate].
    inversion H; subst. simpl. rewrite Hc. simpl. eapply IH. exact E.
Qed.







Section ArchiveWait.
Context (env : Env) (session : RTRSession) (evidence_path hostname : string).
Context (archive_wait_start : Q).

Let body := UACCollector.archive_wait_body env session evidence_path hostname
              archive_wait_start.





End ArchiveWait.

Section MonitorFinished.
Context (env : Env) (config : Config) (fuel : nat) (session : RTRSession).
Context (evidence_path hostname deploy_path : string).







End MonitorFinished.



(** When the archive does show up during the wait, its base name comes
    back. *)
Example monitor_archive_appears :
  result (UACCollector.monitor_uac_execution
            (with_exec (fun n => Some (mkResult
                          (if Nat.eqb n 6 then "0"
                           else if Nat.leb 9 n
                                then "-rw-r--r-- 1 root root 52 uac-web01-linux-20250101120000.tar.gz"
                                else "") "" 0 "req" true))
               quiet_env)
            default_config 5 (mkSession "s1" "aid1" 201) "/opt/0x4n6nerd/evidence"
            "web01" "/opt/0x4n6nerd" None "ir_triage")
  = Ret (Some "uac-web01-linux-20250101120000").
Proof. vm_compute. reflexivity. Qed.

(** A host name that does not compile as a pattern: the first search
    raises and the monitor returns [None]. *)
Example monitor_pattern_error :
  let run := UACCollector.monitor_uac_execution
               (with_re (fun _ _ => ReError) no_archive_env)
               default_config 5 (mkSession "s1" "aid1" 201) "/opt/0x4n6nerd/evidence"
               "host(1" "/opt/0x4n6nerd" None "ir_triage" in
  result run = Ret None /\ List.length (events run) = 6%nat.
Proof. vm_compute. split; reflexivity. Qed.

Example uac_archive_pattern_ex :
  Re.uac_archive_pattern "web01" = "(uac-web01-\w+-\d{14}\.tar\.gz)".
Proof. reflexivity. Qed.

(** ** Computations that always come back *)

Lemma returns_ret {A} (a : A) : returns (ret a).
Proof. intros w. exists a, w. reflexivity. Qed.

Lemma returns_bind {A B} (m : M A) (k : A -> M B) :
  returns m -> (forall a, returns (k a)) -> returns (bind m k).
Proof.
  intros Hm Hk w. unfold bind.
  destruct (Hm w) as (a & w1 & E). rewrite E. apply Hk.
Qed.

Lemma returns_interact {A} (answer : nat -> A) (ev : A -> Event) :
  returns (interact answer ev).
Proof. intros w. eexists _, _. reflexivity. Qed.

Lemma returns_sleep secs : returns (time_sleep secs).
Proof. intros w. eexists _, _. reflexivity. Qed.

(** Structural steps of a [returns] proof. *)
Ltac returns_step :=
  first
    [ apply returns_ret
    | apply returns_bind; [|intros ?]
    | apply returns_interact
    | apply returns_sleep
    | match goal with
      | |- returns (match ?x with _ => _ end) => destruct x
      | |- returns (let '(_, _) := ?x in _) => destruct x
      end ].

Section CleanupReturns.
Context (env : Env) (config : Config).

Lemma run_all_returns session cmds pause :
  returns (WorkspaceCleanup.run_all env session cmds pause).
Proof.
  induction cmds as [|cmd rest IH]; simpl.
  - apply returns_ret.
  - unfold exec. repeat (first [apply IH | returns_step]).
Qed.

Lemma run_counting_returns session cmds n :
  returns (WorkspaceCleanup.run_counting env session cmds n).
Proof.
  revert n. induction cmds as [|cmd rest IH]; intros n; simpl.
  - apply returns_ret.
  - unfold exec. repeat (first [apply IH | returns_step]).
Qed.

Lemma run_until_failure_returns session cmds :
  returns (WorkspaceCleanup.run_until_failure env session cmds).
Proof.
  induction cmds as [|cmd rest IH]; simpl.
  - apply returns_ret.
  - unfold exec. repeat (first [apply IH | returns_step]).
Qed.

Lemma verify_cleanup_returns session path p :
  returns (WorkspaceCleanup.verify_cleanup env session path p).
Proof.
  unfold WorkspaceCleanup.verify_cleanup, exec. repeat returns_step.
Qed.

(** [cleanup_workspace] always answers, whatever the host does. *)
Lemma cleanup_workspace_returns session platform preserve_evidence :
  returns (WorkspaceCleanup.cleanup_workspace env config session platform
             preserve_evidence).
Proof.
  unfold WorkspaceCleanup.cleanup_workspace,
    WorkspaceCleanup.execute_cleanup_commands, WorkspaceCleanup.windows_cleanup,
    WorkspaceCleanup.unix_cleanup, WorkspaceCleanup.aggressive_cleanup.
  repeat (first [ apply run_all_returns | apply run_counting_returns
                | apply run_until_failure_returns | apply verify_cleanup_returns
                | returns_step ]).
Qed.

Lemma emergency_cleanup_returns session platform aid :
  returns (WorkspaceCleanup.emergency_cleanup env config session platform aid).
Proof.
  unfold WorkspaceCleanup.emergency_cleanup, start_session, end_session.
  repeat (first [ apply run_all_returns | returns_step ]).
Qed.

Lemma post_upload_cleanup_returns session :
  returns (ForensicCollector.post_upload_cleanup env config session).
Proof.
  unfold ForensicCollector.post_upload_cleanup, ForensicCollector.close_session,
    end_session.
  repeat (first [ apply cleanup_workspace_returns | apply emergency_cleanup_returns
                | returns_step ]).
Qed.

Lemma cleanup_workspace_after_operation_returns session host_info :
  returns (UACCollector.cleanup_workspace_after_operation env config session host_info).
Proof.
  unfold UACCollector.cleanup_workspace_after_operation, exec.
  repeat returns_step.
Qed.

Lemma close_created_returns st : returns (UACCollector.close_created env st).
Proof.
  unfold UACCollector.close_created, end_session. repeat returns_step.
Qed.

End CleanupReturns.

(** ** Upload evacuation: the final verification decides (C1) *)

Section FinalVerification.
Context (env : Env).

(** The Unix collector's check is up to two looks at the object; finding
    it once is enough. *)
Lemma uac_verify_s3_upload_success_spec bucket key w :
  exists w',
    UACCollector.verify_s3_upload_success env bucket key w
    = (Ret (head_found (head_resp env (ticks w))
            || head_found (head_resp env (S (ticks w)))), w').
Proof.
  unfold UACCollector.verify_s3_upload_success, CloudStorage.verify_s3_upload,
    CloudStorage.get_s3_object_info, CloudStorage.head_object, bind, interact.
  cbn [ticks trace].
  destruct (head_resp env (ticks w)); cbn.
  - eexists. reflexivity.
  - destruct (head_resp env (S (ticks w))); eexists; reflexivity.
  - destruct (head_resp env (S (ticks w))); eexists; reflexivity.
Qed.

(** The Windows collector's check is one look, with the size compared. *)
Lemma kape_verify_s3_upload_success_spec bucket key expected w :
  exists b w',
    ForensicCollector.verify_s3_upload_success env bucket key expected w = (Ret b, w') /\
    (b = true <-> head_resp env (ticks w) = HeadOk expected).
Proof.
  unfold ForensicCollector.verify_s3_upload_success, CloudStorage.verify_s3_upload,
    CloudStorage.get_s3_object_info, CloudStorage.head_object, bind, interact.
  cbn [ticks trace].
  destruct (head_resp env (ticks w)) as [actual|code|]; cbn.
  - destruct (Z.eqb_spec actual expected) as [->|Hne]; cbn.
    + eexists _, _. split; [reflexivity|]. split; reflexivity.
    + destruct (head_resp env (S (ticks w))); eexists _, _;
        (split; [reflexivity|]); (split; [discriminate|]);
        intros H; inversion H; contradiction.
  - destruct (head_resp env (S (ticks w))); eexists _, _;
      (split; [reflexivity|]); split; discriminate.
  - destruct (head_resp env (S (ticks w))); eexists _, _;
      (split; [reflexivity|]); split; discriminate.
Qed.

End FinalVerification.

(** C1. Both upload evacuations return [True] exactly when they reach
    their final S3 verification and that verification finds the object: for
    [upload_uac_results] one of its (at most two) HEAD requests succeeds, for
    [upload_kape_results] the HEAD request answers with the size measured on
    the host.  What was observed of the remote PUT process only decides when
    the verification starts. *)
Theorem upload_success_iff_final_head
    env config py_float fuel host_info collection_file evidence_path existing_session w :
  (fst (UACCollector.upload_uac_results env config py_float fuel host_info
          collection_file evidence_path existing_session w) = Ret true <->
   exists ctx w1,
     UACCollector.upload_until_verification env config py_float fuel host_info
       collection_file evidence_path existing_session w = (Ret (inl ctx), w1) /\
     (head_found (head_resp env (ticks w1)) = true \/
      head_found (head_resp env (S (ticks w1))) = true)) /\
  (fst (ForensicCollector.upload_kape_results env config fuel host_info
          collection_file w) = Ret true <->
   exists ctx w1,
     ForensicCollector.upload_until_verification env config fuel host_info w
       = (Ret (inl ctx), w1) /\
     head_resp env (ticks w1) = HeadOk (ForensicCollector.ctx_file_size ctx)).
Proof.
  split.
  - unfold UACCollector.upload_uac_results. unfold bind at 1.
    destruct (UACCollector.upload_until_verification _ _ _ _ _ _ _ _ w)
      as [[[ctx|st]| |] w1].
    + unfold bind at 1.
      destruct (uac_verify_s3_upload_success_spec env (UACCollector.ctx_bucket ctx)
                  (UACCollector.ctx_key ctx) w1) as (w2 & ->).
      set (ok := head_found _ || head_found _).
      unfold bind at 1.
      assert (Hc : returns (if ok
                            then UACCollector.cleanup_workspace_after_operation env config
                                   (UACCollector.session (UACCollector.ctx_state ctx))
                                   host_info
                            else ret tt)).
      { destruct ok; [apply cleanup_workspace_after_operation_returns|apply returns_ret]. }
      destruct (Hc w2) as ([] & w3 & ->).
      unfold bind at 1.
      destruct (close_created_returns env (Some (UACCollector.ctx_state ctx)) w3)
        as ([] & w4 & ->).
      cbn [fst ret]. split.
      * intros H. exists ctx, w1. split; [reflexivity|].
        assert (E : ok = true) by congruence.
        apply orb_true_iff in E. exact E.
      * intros (ctx' & w1' & E & Hh). inversion E; subst.
        f_equal. apply orb_true_iff. exact Hh.
    + unfold bind at 1.
      destruct (close_created_returns env st w1) as ([] & w2 & ->).
      cbn [fst ret]. split; [discriminate|].
      intros (ctx & w1' & E & _). discriminate.
    + cbn [fst]. split; [discriminate|]. intros (ctx & w1' & E & _). discriminate.
    + cbn [fst]. split; [discriminate|]. intros (ctx & w1' & E & _). discriminate.
  - unfold ForensicCollector.upload_kape_results. unfold bind at 1.
    destruct (ForensicCollector.upload_until_verification _ _ _ _ w)
      as [[[ctx|st]| |] w1].
    + unfold bind at 1.
      destruct (kape_verify_s3_upload_success_spec env
                  (ForensicCollector.ctx_bucket ctx) (ForensicCollector.ctx_key ctx)
                  (ForensicCollector.ctx_file_size ctx) w1) as (b & w2 & -> & Hb).
      unfold bind at 1.
      destruct (post_upload_cleanup_returns env config
                  (Some (ForensicCollector.ctx_session ctx)) w2) as ([] & w3 & ->).
      cbn [fst ret]. split.
      * intros H. exists ctx, w1. split; [reflexivity|].
        apply Hb. congruence.
      * intros (ctx' & w1' & E & Hh). inversion E; subst.
        f_equal. apply Hb. exact Hh.
    + unfold bind at 1.
      destruct (post_upload_cleanup_returns env config st w1) as ([] & w2 & ->).
      cbn [fst ret]. split; [discriminate|].
      intros (ctx & w1' & E & _). discriminate.
    + cbn [fst]. split; [discriminate|]. intros (ctx & w1' & E & _). discriminate.
    + cbn [fst]. split; [discriminate|]. intros (ctx & w1' & E & _). discriminate.
Qed.

(** ** Session closure in [upload_uac_results] (C4) *)

(** C4, at the failing input: the session that the upload opened is closed
    when the monitoring loop tries to replace it, and, no replacement being
    available, is closed a second time on the way out. *)
Lemma upload_uac_results_ends_session_twice :
  let run := UACCollector.upload_uac_results lost_session_env default_config
               (fun _ => None) 5
               (mkHost "web01" "aid1" "cid1" "Linux" "5.4" "x86" "Linux")
               "uac-web01-linux-20250101120000" None None in
  result run = Ret false /\
  sessions_started (events run) = [mkSession "s1" "aid1" 201] /\
  sessions_ended (events run) = [mkSession "s1" "aid1" 201; mkSession "s1" "aid1" 201].
Proof. vm_compute. repeat split; reflexivity. Qed.

(** ** Clean before run (C3) *)

(** Closes the side goals of an [emits] proof whose predicate computes. *)
Ltac emits_trivial := first [exact I | reflexivity].

Section PutFilesEvents.
Context (env : Env) (P : Event -> Prop).
Context (HP : forall e, match e with EvExec _ _ _ => True | _ => P e end).

Lemma list_cloud_files_emits cid : emits P (PutFiles.list_cloud_files env cid).
Proof.
  unfold PutFiles.list_cloud_files, PutFiles.list_put_files, PutFiles.get_put_files_v2.
  repeat (first [ emits_step | apply (HP (EvListPutFiles _))
                | apply (HP (EvGetPutFiles _ _)) ]).
Qed.

Lemma delete_matching_emits files filename :
  emits P (PutFiles.delete_matching env files filename).
Proof.
  induction files as [|f rest IH]; cbn [PutFiles.delete_matching]; [apply emits_ret|].
  unfold PutFiles.delete_put_files.
  repeat (first [ exact IH | emits_step | apply (HP (EvDeletePutFile _ _)) ]).
Qed.

Lemma delete_from_cloud_emits cid filename :
  emits P (PutFiles.delete_from_cloud env cid filename).
Proof.
  unfold PutFiles.delete_from_cloud, PutFiles.list_put_files, PutFiles.get_put_files_v2.
  repeat (first [ apply delete_matching_emits | emits_step
                | apply (HP (EvListPutFiles _)) | apply (HP (EvGetPutFiles _ _)) ]).
Qed.

Lemma upload_to_cloud_emits cid file_path comments description :
  emits P (PutFiles.upload_to_cloud env cid file_path comments description).
Proof.
  unfold PutFiles.upload_to_cloud, PutFiles.read_local, PutFiles.create_put_files.
  repeat (first [ emits_step | apply (HP (EvReadLocal _ _))
                | apply (HP (EvCreatePutFile _ _ _ _ _)) ]).
Qed.

End PutFilesEvents.

Section StageEvents.
Context (env : Env).

(** Nothing is run on the host before the session is open. *)
Lemma stage_collection_no_deploy host_info c :
  emits no_deploy (stage_collection env host_info c).
Proof.
  assert (HP : forall e, match e with EvExec _ _ _ => True | _ => no_deploy e end)
    by (intros []; emits_trivial).
  destruct c as [target|profile]; unfold stage_collection.
  - unfold ForensicCollector.stage_kape, ForensicCollector.prepare_kape_package,
      ForensicCollector.find_deploy_script, start_session.
    repeat (first [ apply list_cloud_files_emits; exact HP
                  | apply delete_from_cloud_emits; exact HP
                  | apply upload_to_cloud_emits; exact HP
                  | emits_step | emits_trivial ]).
  - unfold UACCollector.stage_uac, UACCollector.find_uac_package, start_session.
    repeat (first [ apply list_cloud_files_emits; exact HP
                  | apply delete_from_cloud_emits; exact HP
                  | apply upload_to_cloud_emits; exact HP
                  | emits_step | emits_trivial ]).
Qed.

End StageEvents.

Section PreCleanupEvents.
Context (env : Env) (config : Config) (P : Event -> Prop).
Context (HP : forall e, match e with
                        | EvExec _ c _ => base_command c = "runscript" -> P e
                        | EvSleep _ | EvTime _ => P e
                        | _ => True
                        end).

Lemma probe_emits session cmd :
  emits P (exec env session "runscript" cmd true).
Proof.
  unfold exec. apply emits_interact. intros r.
  apply (HP (EvExec _ _ _)). reflexivity.
Qed.

Lemma sleep_emits secs : emits P (time_sleep secs).
Proof. apply emits_sleep. apply (HP (EvSleep _)). Qed.

Lemma time_emits : emits P (time_time env).
Proof. unfold time_time. apply emits_interact. intros t. apply (HP (EvTime _)). Qed.

(** Steps of an [emits] proof over probes, pauses and clock readings. *)
Ltac probe_step :=
  first [ apply probe_emits | apply sleep_emits | apply time_emits | emits_step ].

Lemma find_processes_by_pattern_emits session p pattern :
  emits P (PreCleanup.find_processes_by_pattern env session p pattern).
Proof. unfold PreCleanup.find_processes_by_pattern. repeat probe_step. Qed.

Lemma find_all_emits session p patterns :
  emits P (PreCleanup.find_all env session p patterns).
Proof.
  induction patterns as [|pattern rest IH]; simpl.
  - apply emits_ret.
  - repeat (first [ apply find_processes_by_pattern_emits | apply IH | emits_step ]).
Qed.

Lemma check_running_processes_emits session p :
  emits P (PreCleanup.check_running_processes env config session p).
Proof.
  unfold PreCleanup.check_running_processes.
  repeat (first [ apply find_all_emits | emits_step ]).
Qed.

Lemma terminate_existing_processes_emits session p processes success :
  emits P (PreCleanup.terminate_existing_processes env session p processes success).
Proof.
  revert success. induction processes as [|proc rest IH]; intros success; simpl.
  - apply emits_ret.
  - repeat (first [ apply IH | probe_step ]).
Qed.

Lemma wait_for_process_termination_emits fuel session p :
  emits P (PreCleanup.wait_for_process_termination env config fuel session p).
Proof.
  unfold PreCleanup.wait_for_process_termination, PreCleanup.wait_body.
  repeat (first [ apply check_running_processes_emits | probe_step ]).
Qed.

Lemma workspace_exists_emits session path p :
  emits P (PreCleanup.workspace_exists env session path p).
Proof. unfold PreCleanup.workspace_exists. repeat probe_step. Qed.

Lemma run_cleanup_commands_emits session cmds all_success :
  emits P (PreCleanup.run_cleanup_commands env session cmds all_success).
Proof.
  revert all_success. induction cmds as [|cmd rest IH]; intros all_success; simpl.
  - apply emits_ret.
  - repeat (first [ apply IH | probe_step ]).
Qed.

Lemma clean_workspace_directory_emits session path p :
  emits P (PreCleanup.clean_workspace_directory env session path p).
Proof.
  unfold PreCleanup.clean_workspace_directory.
  repeat (first [ apply run_cleanup_commands_emits | apply workspace_exists_emits
                | probe_step ]).
Qed.

Lemma create_fresh_workspace_emits session path p :
  emits P (PreCleanup.create_fresh_workspace env session path p).
Proof.
  unfold PreCleanup.create_fresh_workspace.
  repeat (first [ apply workspace_exists_emits | probe_step ]).
Qed.

Lemma workspace_is_empty_emits session path p :
  emits P (PreCleanup.workspace_is_empty env session path p).
Proof. unfold PreCleanup.workspace_is_empty. repeat probe_step. Qed.

Lemma verify_clean_environment_emits session p :
  emits P (PreCleanup.verify_clean_environment env config session p).
Proof.
  unfold PreCleanup.verify_clean_environment.
  repeat (first [ apply check_running_processes_emits | apply workspace_exists_emits
                | apply workspace_is_empty_emits | emits_step ]).
Qed.

Lemma prepare_environment_emits fuel session p :
  emits P (PreCleanup.prepare_environment env config fuel session p).
Proof.
  unfold PreCleanup.prepare_environment.
  repeat (first [ apply check_running_processes_emits
                | apply terminate_existing_processes_emits
                | apply wait_for_process_termination_emits
                | apply workspace_exists_emits
                | apply clean_workspace_directory_emits
                | apply create_fresh_workspace_emits
                | emits_step ]).
Qed.

(** The pre-execution check talks to the host through [runscript] probes
    only. *)
Lemma ensure_clean_environment_emits fuel session host_info :
  emits P (PreCleanup.ensure_clean_environment env config fuel session host_info).
Proof.
  unfold PreCleanup.ensure_clean_environment.
  repeat (first [ apply prepare_environment_emits | apply verify_clean_environment_emits
                | emits_step ]).
Qed.

End PreCleanupEvents.

Section DeployEvents.
Context (env : Env) (config : Config).

Let any : Event -> Prop := fun _ => True.

(** Steps of a proof that a computation only appends to the trace. *)
Ltac any_step := first [emits_step | exact I].

Lemma execute_with_retry_from_appends attempts_left attempt session base command
    admin backoff :
  emits any (UACCollector.execute_with_retry_from env attempts_left attempt session
               base command admin backoff).
Proof.
  revert attempt. induction attempts_left as [|more IH]; intros attempt; simpl.
  - apply emits_ret.
  - unfold exec. repeat (first [apply IH | any_step]).
Qed.

Lemma execute_with_retry_appends session base command admin max_retries backoff :
  emits any (UACCollector.execute_with_retry env session base command admin
               max_retries backoff).
Proof. apply execute_with_retry_from_appends. Qed.

Lemma monitor_poll_appends session evidence_path deploy_path start_time st :
  emits any (UACCollector.monitor_poll env session evidence_path deploy_path
               start_time st).
Proof.
  unfold UACCollector.monitor_poll, time_time, pulse_session, exec.
  repeat (first [apply execute_with_retry_appends | any_step]).
Qed.

Lemma check_finished_appends fuel session evidence_path hostname deploy_path :
  emits any (UACCollector.check_finished env fuel session evidence_path hostname
               deploy_path).
Proof.
  unfold UACCollector.check_finished, UACCollector.archive_wait_body, time_time, exec.
  repeat any_step.
Qed.

Lemma after_listing_appends fuel session evidence_path hostname deploy_path interval
    st last_pulse ls :
  emits any (UACCollector.after_listing env fuel session evidence_path hostname
               deploy_path interval st last_pulse ls).
Proof.
  unfold UACCollector.after_listing, UACCollector.stability_body, time_time, exec.
  repeat (first [apply check_finished_appends | any_step]).
Qed.

Lemma monitor_uac_execution_appends fuel session evidence_path hostname deploy_path
    timeout profile :
  emits any (UACCollector.monitor_uac_execution env config fuel session evidence_path
               hostname deploy_path timeout profile).
Proof.
  unfold UACCollector.monitor_uac_execution, UACCollector.monitor_body, time_time.
  repeat (first [ apply monitor_poll_appends | apply after_listing_appends | any_step ]).
Qed.

Lemma monitor_kape_execution_appends fuel session timeout :
  emits any (ForensicCollector.monitor_kape_execution env fuel session timeout).
Proof.
  unfold ForensicCollector.monitor_kape_execution, ForensicCollector.monitor_kape_body,
    time_time, pulse_session, exec.
  repeat any_step.
Qed.

(** The deployment only adds to the trace. *)
Lemma deploy_collection_appends fuel session host_info c :
  emits any (deploy_collection env config fuel session host_info c).
Proof.
  assert (HP : forall e, match e with EvExec _ _ _ => True | _ => any e end)
    by (intros []; exact I).
  destruct c as [target|profile]; unfold deploy_collection.
  - unfold ForensicCollector.deploy_kape, exec.
    repeat (first [apply monitor_kape_execution_appends | any_step]).
  - unfold UACCollector.deploy_uac, exec.
    repeat (first [ apply monitor_uac_execution_appends
                  | apply list_cloud_files_emits; exact HP
                  | any_step ]).
Qed.

End DeployEvents.

Lemma bind_ret_inv {A B} (m : M A) (k : A -> M B) w b w' :
  bind m k w = (Ret b, w') ->
  exists a w1, m w = (Ret a, w1) /\ k a w1 = (Ret b, w').
Proof.
  unfold bind. destruct (m w) as [[a| |] w1]; try discriminate.
  intros H. exists a, w1. split; [reflexivity|exact H].
Qed.

Lemma workspace_path_truthy config p :
  Py.truthy (PreCleanup.workspace_path config p) = true.
Proof.
  assert (H : forall s d, Py.truthy d = true ->
                          Py.truthy (PreCleanup.or_string s d) = true).
  { intros s d Hd. unfold PreCleanup.or_string.
    destruct (Py.truthy s) eqn:E; [exact E|exact Hd]. }
  destruct p; apply H; reflexivity.
Qed.

Section CleanCheck.
Context (env : Env) (config : Config).

(** A check that answers [True] ends with a verification that answered
    [True]. *)
Lemma ensure_clean_environment_true fuel session host_info w w' :
  PreCleanup.ensure_clean_environment env config fuel session host_info w = (Ret true, w') ->
  exists p wv,
    Platform_of (Py.lower (platform host_info)) = Some p /\
    PreCleanup.verify_clean_environment env config session p wv = (Ret true, w').
Proof.
  unfold PreCleanup.ensure_clean_environment.
  destruct (Platform_of _) as [p|]; [|discriminate].
  intros H. apply bind_ret_inv in H. destruct H as (prepared & wv & _ & H).
  destruct prepared; [|discriminate].
  exists p, wv. split; [reflexivity|exact H].
Qed.

(** A verification that answers [True] has seen no process, the
    workspace directory, and nothing in it. *)
Lemma verify_clean_environment_true session p wv wc :
  PreCleanup.verify_clean_environment env config session p wv = (Ret true, wc) ->
  observed_clean env config session p wv wc.
Proof.
  unfold PreCleanup.verify_clean_environment. intros H.
  apply bind_ret_inv in H. destruct H as (remaining & w1 & Hc & H).
  destruct remaining as [|proc more]; [|discriminate].
  rewrite workspace_path_truthy in H.
  apply bind_ret_inv in H. destruct H as (there & w2 & He & H).
  destruct there; [|discriminate]. cbn [negb] in H.
  apply bind_ret_inv in H. destruct H as (empty & w3 & Hm & H).
  destruct empty; [|discriminate]. cbn [negb] in H.
  inversion H; subst w3.
  exists w1, w2. repeat split; assumption.
Qed.

End CleanCheck.

Lemma no_deploy_not_deploys l : Forall no_deploy l -> ~ deploys (rev l).
Proof.
  intros F H. unfold deploys in H.
  apply List.Exists_exists in H. destruct H as (e & Hin & He).
  apply in_rev in Hin.
  rewrite List.Forall_forall in F. specialize (F e Hin).
  unfold no_deploy in F. congruence.
Qed.

Lemma run_collection_eq env config fuel host_info c :
  run_collection env config fuel host_info c =
  bind (stage_collection env host_info c)
    (fun staged =>
       match staged with
       | None => ret None
       | Some session =>
           try_finally
             (try_except
                (bind (PreCleanup.ensure_clean_environment env config fuel session
                         host_info)
                   (fun clean =>
                      if negb clean then ret None
                      else deploy_collection env config fuel session host_info c))
                (ret None))
             (ForensicCollector.close_session env session)
       end).
Proof. destruct c; reflexivity. Qed.

Lemma close_session_emits env P session :
  (forall ok, P (EvEndSession session ok)) ->
  emits P (ForensicCollector.close_session env session).
Proof.
  intros HP. unfold ForensicCollector.close_session, end_session.
  repeat (first [emits_step | apply HP]).
Qed.

Lemma runscript_no_deploy e :
  match e with
  | EvExec _ c _ => base_command c = "runscript" -> no_deploy e
  | EvSleep _ | EvTime _ => no_deploy e
  | _ => True
  end.
Proof.
  destruct e; try exact I; try reflexivity.
  intros H. unfold no_deploy, deploy_step. rewrite H. reflexivity.
Qed.

Section SessionPart.
Context (env : Env) (config : Config) (fuel : nat) (host_info : HostInfo).
Context (c : Collection) (session : RTRSession).

Let part : M (option string) :=
  try_finally
    (try_except
       (bind (PreCleanup.ensure_clean_environment env config fuel session host_info)
          (fun clean =>
             if negb clean then ret None
             else deploy_collection env config fuel session host_info c))
       (ret None))
    (ForensicCollector.close_session env session).

(** The part of a run that holds the session, started in a world where
    nothing has been deployed: a failed check ends the run with [None] and
    without a deploy step, and nothing but a passed check lets one happen. *)
Lemma session_part_clean w1 :
  Forall no_deploy (trace w1) ->
  (fst (PreCleanup.ensure_clean_environment env config fuel session host_info w1)
     = Ret false ->
   fst (part w1) = Ret None /\ Forall no_deploy (trace (snd (part w1)))) /\
  (~ Forall no_deploy (trace (snd (part w1))) ->
   exists p wv wc post,
     Platform_of (Py.lower (platform host_info)) = Some p /\
     observed_clean env config session p wv wc /\
     trace (snd (part w1)) = (post ++ trace wc)%list /\
     Forall no_deploy (trace wc)).
Proof.
  intros F1.
  destruct (ensure_clean_environment_emits env config no_deploy runscript_no_deploy
              fuel session host_info w1) as (n2 & E2 & F2).
  assert (Fw2 : Forall no_deploy
                  (trace (snd (PreCleanup.ensure_clean_environment env config fuel
                                 session host_info w1)))).
  { rewrite E2. apply Forall_app. split; assumption. }
  assert (Hclose : forall ok, no_deploy (EvEndSession session ok)) by reflexivity.
  destruct (PreCleanup.ensure_clean_environment env config fuel session host_info w1)
    as [[[|]| |] w2] eqn:Ee; cbn [snd fst] in *.
  - (* the check passed *)
    assert (Er : part w1 =
                 try_finally
                   (try_except (deploy_collection env config fuel session host_info c)
                               (ret None))
                   (ForensicCollector.close_session env session) w2).
    { unfold part, try_finally, try_except, bind. rewrite Ee. reflexivity. }
    split; [discriminate|]. intros _.
    destruct (ensure_clean_environment_true env config _ _ _ _ _ Ee)
      as (p & wv & Hp & Hv).
    destruct (emits_try_finally (fun _ => True) _ _
                (emits_try_except (fun _ => True) _ _
                   (deploy_collection_appends env config fuel session host_info c)
                   (emits_ret (fun _ => True) None))
                (close_session_emits env (fun _ => True) session (fun _ => I)) w2)
      as (n3 & E3 & _).
    exists p, wv, w2, n3. rewrite Er.
    split; [exact Hp|]. split; [apply verify_clean_environment_true; exact Hv|].
    split; [exact E3|exact Fw2].
  - (* the check failed *)
    assert (Er : part w1 =
                 try_finally (try_except (ret None) (ret None))
                   (ForensicCollector.close_session env session) w2).
    { unfold part, try_finally, try_except, bind. rewrite Ee. reflexivity. }
    destruct (emits_try_finally no_deploy _ _
                (emits_try_except no_deploy _ _
                   (emits_ret no_deploy (@None string)) (emits_ret no_deploy None))
                (close_session_emits env no_deploy session Hclose) w2)
      as (n3 & E3 & F3).
    assert (Ff : Forall no_deploy (trace (snd (part w1)))).
    { rewrite Er, E3. apply Forall_app. split; assumption. }
    split.
    + intros _. split; [|exact Ff]. rewrite Er. reflexivity.
    + intros H. contradiction.
  - (* the check raised *)
    assert (Er : part w1 =
                 try_finally (ret None) (ForensicCollector.close_session env session) w2).
    { unfold part, try_finally, try_except, bind. rewrite Ee. reflexivity. }
    destruct (emits_try_finally no_deploy _ _ (emits_ret no_deploy (@None string))
                (close_session_emits env no_deploy session Hclose) w2)
      as (n3 & E3 & F3).
    split; [discriminate|]. intros H. exfalso. apply H.
    rewrite Er, E3. apply Forall_app. split; assumption.
  - (* the check ran out of fuel *)
    assert (Er : part w1 = (OutOfFuel, w2)).
    { unfold part, try_finally, try_except, bind. rewrite Ee. reflexivity. }
    split; [discriminate|]. intros H. exfalso. apply H. rewrite Er. exact Fw2.
Qed.

End SessionPart.

Lemma find_all_ticks env session p patterns w l w' :
  PreCleanup.find_all env session p patterns w = (Ret l, w') ->
  ticks w' = (ticks w + List.length patterns)%nat.
Proof.
  revert w l w'. induction patterns as [|pattern rest IH]; intros w l w' H.
  - inversion H. cbn. lia.
  - cbn [PreCleanup.find_all] in H.
    apply bind_ret_inv in H. destruct H as (found & w1 & Hf & H).
    apply bind_ret_inv in H. destruct H as (more & w2 & Hm & H).
    inversion H; subst w2. rewrite (IH _ _ _ Hm).
    unfold PreCleanup.find_processes_by_pattern in Hf.
    apply bind_ret_inv in Hf. destruct Hf as (r & w0 & He & Hf).
    unfold exec, interact in He. inversion He; subst r w0.
    assert (Ew : w1 = mkWorld (S (ticks w))
                        (EvExec session
                           (mkCmd "runscript"
                              match p with
                              | WINDOWS =>
                                  "runscript -Raw=```Get-WmiObject Win32_Process | Where-Object { $_.Name -like '*"
                                  ++ pattern ++ "*' -or $_.CommandLine -like '*" ++ pattern
                                  ++ "*' } | Select-Object ProcessId,Name,CommandLine | Format-Table -AutoSize```"
                              | _ => "runscript -Raw=```ps aux | grep -E '" ++ pattern
                                     ++ "' | grep -v grep```"
                              end true)
                           (exec_resp env (ticks w)) :: trace w)).
    { destruct (exec_resp env (ticks w)) as [r|]; [destruct (negb _)|];
        inversion Hf; reflexivity. }
    subst w1. cbn [ticks List.length]. lia.
Qed.

Lemma observed_clean_ticks env config session p wv wc :
  observed_clean env config session p wv wc ->
  stdout_number
    (exec_resp env (ticks wv + List.length (PreCleanup.process_patterns config p) + 1))
  <> None.
Proof.
  intros (w1 & w2 & Hc & He & Hm).
  unfold PreCleanup.check_running_processes in Hc.
  apply bind_ret_inv in Hc. destruct Hc as (running & w0 & Hf & Hc).
  inversion Hc; subst w0. apply find_all_ticks in Hf.
  unfold PreCleanup.workspace_exists in He.
  apply bind_ret_inv in He. destruct He as (r & w3 & Hx & He).
  unfold exec, interact in Hx. inversion Hx; subst r w3.
  assert (T2 : ticks w2 = S (ticks w1)).
  { destruct (exec_resp env (ticks w1)) as [r|]; [destruct (Py.truthy _); [destruct p|]|];
      inversion He; reflexivity. }
  unfold PreCleanup.workspace_is_empty in Hm.
  apply bind_ret_inv in Hm. destruct Hm as (r & w3 & Hx' & Hm).
  unfold exec, interact in Hx'. inversion Hx'; subst r w3.
  replace (ticks wv + List.length (PreCleanup.process_patterns config p) + 1)%nat
    with (ticks w2) by lia.
  destruct (stdout_number (exec_resp env (ticks w2))); [discriminate|].
  inversion Hm.
Qed.

(** The count of entries is printed at probe 18 only. *)
Lemma unanswered_sweep_count n :
  stdout_number (exec_resp unanswered_sweep_env n) <> None -> n = 18%nat.
Proof.
  do 19 (destruct n as [|n]; [vm_compute; congruence|]).
  vm_compute. congruence.
Qed.

(** On a host whose process probes get no answer in the final
    verification, the collection is deployed all the same: the
    specification's reading of C3 fails there. *)
Lemma deploys_after_unanswered_sweep :
  ~ spec_clean_claim unanswered_sweep_env default_config 5 windows_host
      (Kape "!SANS_Triage").
Proof.
  unfold spec_clean_claim. intros H.
  destruct H as (session & p & wv & wc & post & Hp & Ho & Ha & _).
  - vm_compute.
    repeat (first [apply Exists_cons_hd; reflexivity | apply Exists_cons_tl]).
  - vm_compute in Hp. injection Hp as <-.
    apply observed_clean_ticks in Ho. apply unanswered_sweep_count in Ho.
    cbn in Ho. apply (Ha 0%nat); [cbn; lia|].
    replace (ticks wv + 0)%nat with 14%nat by lia. reflexivity.
Qed.

(** What that run shows between the last step of the preparation and the
    first deploy step: three process probes without an answer, the
    workspace found, nothing counted in it, and then [cd] into it. *)
Example unanswered_sweep_then_deploy :
  map (fun e => match e with
                | EvExec _ c r =>
                    (base_command c, match r with Some x => Some (stdout x) | None => None end)
                | _ => ("", None)
                end)
      (firstn 6 (skipn 16 (events (run_collection unanswered_sweep_env default_config 5
                                     windows_host (Kape "!SANS_Triage")))))
  = [("runscript", None); ("runscript", None); ("runscript", None);
     ("runscript", Some "True"); ("runscript", Some "0"); ("cd", Some "")].
Proof. vm_compute. reflexivity. Qed.

(** C3, amended. In a run of [run_kape_collection] or
    [run_uac_collection]:
    - when [ensure_clean_environment] answers [False] on the session just
      opened, the run returns [None] and no deploy step was issued;
    - when a deploy step was issued, the final verification of the
      pre-execution check had answered [True] on that session -- its process
      sweep listed nothing, the workspace directory was there and it was
      empty -- the run continues from the very world in which it answered,
      and no deploy step precedes it.
    A sweep lists nothing also when its probes get no answer: the
    verification has then not confirmed that no collector process remains. *)
Theorem collection_deploys_after_clean_check env config fuel host_info c :
  let run := run_collection env config fuel host_info c in
  (forall session w1,
      stage_collection env host_info c world0 = (Ret (Some session), w1) ->
      fst (PreCleanup.ensure_clean_environment env config fuel session host_info w1)
        = Ret false ->
      result run = Ret None /\ ~ deploys (events run)) /\
  (deploys (events run) ->
   exists session p wv wc post,
     Platform_of (Py.lower (platform host_info)) = Some p /\
     observed_clean env config session p wv wc /\
     events run = (rev (trace wc) ++ post)%list /\
     ~ deploys (rev (trace wc))).
Proof.
  intros run.
  assert (Erun : run world0 =
                 match stage_collection env host_info c world0 with
                 | (Ret (Some s), w0) =>
                     try_finally
                       (try_except
                          (bind (PreCleanup.ensure_clean_environment env config fuel s
                                   host_info)
                             (fun clean =>
                                if negb clean then ret None
                                else deploy_collection env config fuel s host_info c))
                          (ret None))
                       (ForensicCollector.close_session env s) w0
                 | (Ret None, w0) => (Ret None, w0)
                 | (Raise, w0) => (Raise, w0)
                 | (OutOfFuel, w0) => (OutOfFuel, w0)
                 end).
  { unfold run. rewrite run_collection_eq. unfold bind at 1.
    destruct (stage_collection env host_info c world0) as [[[s|]| |] w0]; reflexivity. }
  unfold result, events. rewrite Erun. clear Erun.
  destruct (stage_collection_no_deploy env host_info c world0) as (n1 & E1 & F1).
  cbn [trace world0] in E1. rewrite app_nil_r in E1.
  destruct (stage_collection env host_info c world0) as [[[s|]| |] w0] eqn:Es;
    cbn [snd] in E1; subst n1.
  - destruct (session_part_clean env config fuel host_info c s w0 F1) as [Hfail Hpass].
    split.
    + intros session w1 Hs He. inversion Hs; subst session w1.
      destruct (Hfail He) as [Hr Hf]. split; [exact Hr|].
      apply no_deploy_not_deploys. exact Hf.
    + intros Hdep.
      destruct (Hpass (fun F => no_deploy_not_deploys _ F Hdep))
        as (p & wv & wc & post & Hp & Ho & Et & Fc).
      exists s, p, wv, wc, (rev post). split; [exact Hp|]. split; [exact Ho|].
      split; [rewrite Et; apply rev_app_distr|].
      apply no_deploy_not_deploys. exact Fc.
  - split; [intros session w1 Hs; discriminate|].
    intros Hdep. exfalso. exact (no_deploy_not_deploys _ F1 Hdep).
  - split; [intros session w1 Hs; discriminate|].
    intros Hdep. exfalso. exact (no_deploy_not_deploys _ F1 Hdep).
  - split; [intros session w1 Hs; discriminate|].
    intros Hdep. exfalso. exact (no_deploy_not_deploys _ F1 Hdep).
Qed.

Lemma collection_deploys_after_clean_check_witness :
  (result (run_collection dirty_windows_env default_config 5 windows_host
             (Kape "!SANS_Triage")) = Ret None /\
   ~ deploys (events (run_collection dirty_windows_env default_config 5 windows_host
                        (Kape "!SANS_Triage")))) /\
  (exists session p wv wc post,
     Platform_of (Py.lower (platform windows_host)) = Some p /\
     observed_clean fresh_windows_env default_config session p wv wc /\
     events (run_collection fresh_windows_env default_config 5 windows_host
               (Kape "!SANS_Triage")) = (rev (trace wc) ++ post)%list /\
     ~ deploys (rev (trace wc))).
Proof.
  split.
  - apply (proj1 (collection_deploys_after_clean_check dirty_windows_env default_config 5
                    windows_host (Kape "!SANS_Triage"))
                 (mkSession "s1" "aid1" 201)
                 (snd (stage_collection dirty_windows_env windows_host
                         (Kape "!SANS_Triage") world0))).
    + vm_compute. reflexivity.
    + vm_compute. reflexivity.
  - apply (proj2 (collection_deploys_after_clean_check fresh_windows_env default_config 5
                    windows_host (Kape "!SANS_Triage"))).
    vm_compute.
    repeat (first [apply Exists_cons_hd; reflexivity | apply Exists_cons_tl]).
Defined.

(** On a Unix host whose probes all come back empty, the creation of the
    workspace cannot be confirmed and the run stops before anything is put
    on the host. *)
Example run_uac_collection_aborts :
  let run := UACCollector.run_uac_collection silent_unix_env default_config 5
               (mkHost "web01" "aid1" "cid1" "Linux" "5.4" "x86" "Linux") "ir_triage" in
  result run = Ret None /\ existsb deploy_step (events run) = false.
Proof. vm_compute. split; reflexivity. Qed.

(** ** Sessions opened and closed by a collection run *)

Lemma sessions_started_app a b :
  sessions_started (a ++ b) = (sessions_started a ++ sessions_started b)%list.
Proof.
  induction a as [|e a IH]; [reflexivity|].
  destruct e; cbn [app sessions_started]; try exact IH.
  destruct r; cbn [app]; [f_equal|]; exact IH.
Qed.

Lemma sessions_ended_app a b :
  sessions_ended (a ++ b) = (sessions_ended a ++ sessions_ended b)%list.
Proof.
  induction a as [|e a IH]; [reflexivity|].
  destruct e; cbn [app sessions_ended]; try exact IH.
  f_equal. exact IH.
Qed.

Lemma sessions_started_rev l : sessions_started (rev l) = rev (sessions_started l).
Proof.
  induction l as [|e l IH]; [reflexivity|].
  cbn [rev]. rewrite sessions_started_app, IH.
  destruct e; cbn [sessions_started]; try apply app_nil_r.
  destruct r; cbn [sessions_started rev]; [reflexivity|apply app_nil_r].
Qed.

Lemma sessions_ended_rev l : sessions_ended (rev l) = rev (sessions_ended l).
Proof.
  induction l as [|e l IH]; [reflexivity|].
  cbn [rev]. rewrite sessions_ended_app, IH.
  destruct e; cbn [sessions_ended]; try apply app_nil_r.
  reflexivity.
Qed.

Lemma keeps_sessions_log l :
  Forall keeps_sessions l -> sessions_started l = [] /\ sessions_ended l = [].
Proof.
  induction 1 as [|e l He _ [IH1 IH2]]; [split; reflexivity|].
  destruct e; cbn [sessions_started sessions_ended]; try (split; assumption);
    destruct He.
Qed.





Section SessionEvents.
Context (env : Env) (config : Config).

(** Steps of a proof that a computation leaves the sessions alone. *)
Ltac keeps_step := first [emits_step | exact I].











(** A body that leaves the sessions alone, wrapped in the collectors'
    [except] and [finally] clauses, ends the session once unless it runs out
    of fuel. *)
Lemma guarded_body_closes {A} (body : M A) (fallback : A) session w :
  emits keeps_sessions body ->
  fst (try_finally (try_except body (ret fallback))
         (ForensicCollector.close_session env session) w) <> OutOfFuel ->
  exists new,
    trace (snd (try_finally (try_except body (ret fallback))
                  (ForensicCollector.close_session env session) w))
    = (new ++ trace w)%list /\
    sessions_started new = [] /\ sessions_ended new = [session].
Proof.
  intros Hb. unfold try_finally, try_except.
  destruct (Hb w) as (n1 & E1 & F1).
  destruct (keeps_sessions_log _ F1) as [S1 T1].
  destruct (body w) as [[a| |] w1]; cbn [snd fst ret] in *.
  - intros _. exists (EvEndSession session (end_resp env (ticks w1)) :: n1).
    split; [cbn; rewrite E1; reflexivity|].
    cbn [sessions_started sessions_ended]. rewrite S1, T1. split; reflexivity.
  - intros _. exists (EvEndSession session (end_resp env (ticks w1)) :: n1).
    split; [cbn; rewrite E1; reflexivity|].
    cbn [sessions_started sessions_ended]. rewrite S1, T1. split; reflexivity.
  - intros H. exfalso. apply H. reflexivity.
Qed.

End SessionEvents.



(** ** Exceptions that do not escape *)

Lemma noraise_ret {A} (a : A) : noraise (ret a).
Proof. intros w. discriminate. Qed.

Lemma noraise_out_of_fuel {A} : noraise (@out_of_fuel A).
Proof. intros w. discriminate. Qed.

Lemma noraise_interact {A} (answer : nat -> A) (ev : A -> Event) :
  noraise (interact answer ev).
Proof. intros w. discriminate. Qed.

Lemma noraise_sleep secs : noraise (time_sleep secs).
Proof. intros w. discriminate. Qed.

Lemma noraise_bind {A B} (m : M A) (k : A -> M B) :
  noraise m -> (forall a, noraise (k a)) -> noraise (bind m k).
Proof.
  intros Hm Hk w. unfold bind. specialize (Hm w).
  destruct (m w) as [[a| |] w1]; cbn [fst] in *.
  - apply Hk.
  - contradiction.
  - discriminate.
Qed.

Lemma noraise_loop {S R} (body : S -> M (Step S R)) :
  (forall s, noraise (body s)) -> forall fuel s, noraise (loop fuel body s).
Proof.
  intros Hb fuel. induction fuel as [|fuel IH]; intros s; simpl.
  - apply noraise_out_of_fuel.
  - apply noraise_bind; [apply Hb|].
    intros [s'|s'|r]; [apply IH|apply noraise_ret|apply noraise_ret].
Qed.

Lemma noraise_try_except {A} (body handler : M A) :
  noraise handler -> noraise (try_except body handler).
Proof.
  intros Hh w. unfold try_except.
  destruct (body w) as [[a| |] w1]; cbn [fst]; [discriminate|apply Hh|discriminate].
Qed.

Lemma noraise_try_finally {A} (body : M A) (fin : M unit) :
  noraise body -> noraise fin -> noraise (try_finally body fin).
Proof.
  intros Hb Hf w. unfold try_finally. specialize (Hb w).
  destruct (body w) as [[a| |] w1]; cbn [fst] in *.
  - specialize (Hf w1). destruct (fin w1) as [[[]| |] w2]; cbn [fst] in *;
      [discriminate|contradiction|discriminate].
  - contradiction.
  - discriminate.
Qed.

(** Structural steps of a [noraise] proof. *)
Ltac noraise_step :=
  first
    [ apply noraise_ret | apply noraise_out_of_fuel
    | apply noraise_bind; [|intros ?]
    | apply noraise_interact
    | apply noraise_sleep
    | apply noraise_loop; intros ?
    | apply noraise_try_except
    | match goal with
      | |- noraise (match ?x with _ => _ end) => destruct x
      | |- noraise (let '(_, _) := ?x in _) => destruct x
      end ].

(** [returns] is the stronger property. *)
Lemma returns_noraise {A} (m : M A) : returns m -> noraise m.
Proof. intros H w. destruct (H w) as (a & w' & ->). discriminate. Qed.

(** ** The session of [upload_kape_results] *)

Lemma carries_ret_inr s : carries s (ret (inr (Some s))).
Proof. intros w. exists []. repeat split. constructor. Qed.

Lemma carries_ret_inl s bucket key size :
  carries s (ret (inl (ForensicCollector.mkUploadContext s bucket key size))).
Proof. intros w. exists []. repeat split. constructor. Qed.

Lemma carries_bind {A} s (m : M A) k :
  emits keeps_sessions m -> noraise m -> (forall a, carries s (k a)) ->
  carries s (bind m k).
Proof.
  intros Hm Hn Hk w. unfold bind.
  destruct (Hm w) as (n1 & E1 & F1). specialize (Hn w).
  destruct (m w) as [[a| |] w1]; cbn [snd fst] in *.
  - destruct (Hk a w1) as (n2 & E2 & F2 & H2).
    exists (n2 ++ n1)%list. split; [rewrite E2, E1; apply app_assoc|].
    split; [apply Forall_app; split; assumption|exact H2].
  - contradiction.
  - exists n1. repeat split; assumption.
Qed.

Section KapeUploadSession.
Context (env : Env) (config : Config).

Ltac keeps_step := first [emits_step | exact I].

Lemma run_all_keeps session cmds pause :
  emits keeps_sessions (WorkspaceCleanup.run_all env session cmds pause).
Proof.
  induction cmds as [|cmd rest IH]; simpl.
  - apply emits_ret.
  - unfold exec. repeat (first [apply IH | keeps_step]).
Qed.

Lemma run_counting_keeps session cmds n :
  emits keeps_sessions (WorkspaceCleanup.run_counting env session cmds n).
Proof.
  revert n. induction cmds as [|cmd rest IH]; intros n; simpl.
  - apply emits_ret.
  - unfold exec. repeat (first [apply IH | keeps_step]).
Qed.

Lemma run_until_failure_keeps session cmds :
  emits keeps_sessions (WorkspaceCleanup.run_until_failure env session cmds).
Proof.
  induction cmds as [|cmd rest IH]; simpl.
  - apply emits_ret.
  - unfold exec. repeat (first [apply IH | keeps_step]).
Qed.

Lemma cleanup_workspace_keeps session platform preserve_evidence :
  emits keeps_sessions
    (WorkspaceCleanup.cleanup_workspace env config session platform preserve_evidence).
Proof.
  unfold WorkspaceCleanup.cleanup_workspace,
    WorkspaceCleanup.execute_cleanup_commands, WorkspaceCleanup.windows_cleanup,
    WorkspaceCleanup.unix_cleanup, WorkspaceCleanup.aggressive_cleanup,
    WorkspaceCleanup.verify_cleanup, exec.
  repeat (first [ apply run_all_keeps | apply run_counting_keeps
                | apply run_until_failure_keeps | keeps_step ]).
Qed.

Lemma emits_bind_ret {A B} P (a : A) (k : A -> M B) :
  emits P (k a) -> emits P (bind (ret a) k).
Proof. intros H w. exact (H w). Qed.

(** Given a session, the emergency procedure neither opens nor closes
    one. *)
Lemma emergency_cleanup_keeps session platform aid :
  emits keeps_sessions
    (WorkspaceCleanup.emergency_cleanup env config (Some session) platform aid).
Proof.
  unfold WorkspaceCleanup.emergency_cleanup.
  destruct (Platform_of (Py.lower platform)) as [p|]; [|apply emits_ret].
  destruct (negb _); [apply emits_ret|].
  apply emits_bind_ret.
  repeat (first [apply run_all_keeps | keeps_step]).
Qed.

(** The [finally] clause of the upload, given the session: it always
    completes, and the one thing it does to sessions is to end that one. *)
Lemma post_upload_cleanup_closes session w :
  exists new w',
    ForensicCollector.post_upload_cleanup env config (Some session) w = (Ret tt, w') /\
    trace w' = (new ++ trace w)%list /\
    sessions_started new = [] /\ sessions_ended new = [session].
Proof.
  unfold ForensicCollector.post_upload_cleanup. unfold bind at 1.
  destruct (cleanup_workspace_keeps session "windows" false w) as (n1 & E1 & F1).
  destruct (cleanup_workspace_returns env config session "windows" false w)
    as (ok & w1 & R1).
  rewrite R1 in *. cbn [snd] in E1.
  set (second := if ok then ret tt
                 else bind (WorkspaceCleanup.emergency_cleanup env config (Some session)
                              "windows" "")
                        (fun _ => ret tt)).
  assert (H2 : emits keeps_sessions second /\ returns second).
  { unfold second. destruct ok.
    - split; [apply emits_ret|apply returns_ret].
    - split.
      + apply emits_bind; [apply emergency_cleanup_keeps|intros ?; apply emits_ret].
      + apply returns_bind; [apply emergency_cleanup_returns|intros ?; apply returns_ret]. }
  destruct H2 as [K2 R2]. unfold bind at 1.
  destruct (K2 w1) as (n2 & E2 & F2). destruct (R2 w1) as ([] & w2 & Q2).
  rewrite Q2 in *. cbn [snd] in E2.
  destruct (keeps_sessions_log _ F1) as [S1 T1].
  destruct (keeps_sessions_log _ F2) as [S2 T2].
  exists (EvEndSession session (end_resp env (ticks w2)) :: n2 ++ n1)%list.
  eexists. split; [reflexivity|]. cbn [trace].
  split; [rewrite E2, E1; cbn [app]; rewrite app_assoc; reflexivity|].
  cbn [app sessions_started sessions_ended].
  rewrite sessions_started_app, sessions_ended_app, S1, S2, T1, T2.
  split; reflexivity.
Qed.

Lemma wait_for_file_stability_keeps fuel session file_path max_wait :
  emits keeps_sessions
    (ForensicCollector.wait_for_file_stability env fuel session file_path max_wait).
Proof.
  unfold ForensicCollector.wait_for_file_stability, ForensicCollector.stability_body,
    ForensicCollector.sleep_and, time_time, exec.
  repeat keeps_step.
Qed.

Lemma wait_for_file_stability_noraise fuel session file_path max_wait :
  noraise (ForensicCollector.wait_for_file_stability env fuel session file_path max_wait).
Proof.
  unfold ForensicCollector.wait_for_file_stability, ForensicCollector.stability_body,
    ForensicCollector.sleep_and, time_time, exec.
  repeat noraise_step.
Qed.

Lemma upload_watch_body_keeps session start_time wait last :
  emits keeps_sessions
    (ForensicCollector.upload_watch_body env session start_time wait last).
Proof.
  unfold ForensicCollector.upload_watch_body, time_time, pulse_session, exec.
  repeat keeps_step.
Qed.

Lemma upload_watch_body_noraise session start_time wait last :
  noraise (ForensicCollector.upload_watch_body env session start_time wait last).
Proof.
  unfold ForensicCollector.upload_watch_body, time_time, pulse_session, exec.
  repeat noraise_step.
Qed.

End KapeUploadSession.

Section KapeUploadRun.
Context (env : Env) (config : Config) (fuel : nat) (host_info : HostInfo).

Ltac keeps_solve :=
  repeat (first [ apply wait_for_file_stability_keeps | apply upload_watch_body_keeps
                | emits_step | exact I ]).

Ltac noraise_solve :=
  repeat (first [ apply wait_for_file_stability_noraise | apply upload_watch_body_noraise
                | noraise_step ]).

Ltac carries_step :=
  first
    [ apply carries_ret_inr | apply carries_ret_inl
    | apply carries_bind; [keeps_solve|noraise_solve|intros ?]
    | match goal with
      | |- carries _ (match ?x with _ => _ end) => destruct x
      | |- carries _ (let '(_, _) := ?x in _) => destruct x
      end ].

(** What [upload_until_verification] does to sessions: it ends none, and
    it has started one exactly when it hands one on. *)
Lemma upload_until_verification_sessions w :
  exists new,
    trace (snd (ForensicCollector.upload_until_verification env config fuel host_info w))
    = (new ++ trace w)%list /\
    sessions_ended new = [] /\
    match fst (ForensicCollector.upload_until_verification env config fuel host_info w)
    with
    | Ret (inl ctx) => sessions_started new = [ForensicCollector.ctx_session ctx]
    | Ret (inr (Some s)) => sessions_started new = [s]
    | Ret (inr None) => sessions_started new = []
    | Raise => False
    | OutOfFuel => True
    end.
Proof.
  remember (ForensicCollector.upload_until_verification env config fuel host_info w)
    as r eqn:Er.
  unfold ForensicCollector.upload_until_verification in Er. unfold bind at 1 in Er.
  unfold start_session at 1 in Er. unfold interact at 1 in Er.
  cbv beta iota zeta in Er. cbn [ticks trace] in Er.
  destruct (start_resp env (ticks w)) as [s|].
  - match type of Er with
    | r = ?m ?w1 =>
        assert (Hc : carries s m)
          by (unfold exec, time_time, CloudStorage.generate_upload_url;
              repeat carries_step);
        destruct (Hc w1) as (n1 & E1 & F1 & H1);
        rewrite <- Er in E1, H1; clear Er Hc
    end.
    destruct (keeps_sessions_log _ F1) as [S1 T1].
    exists (n1 ++ [EvStartSession (aid host_info) (Some s)])%list.
    split; [rewrite E1, <- app_assoc; reflexivity|].
    rewrite sessions_ended_app, sessions_started_app, S1, T1.
    split; [reflexivity|]. cbn [app sessions_started].
    destruct r as [[[ctx|o']| |] w2]; cbn [fst] in *.
    + rewrite H1. reflexivity.
    + subst o'. reflexivity.
    + exact H1.
    + exact I.
  - subst r. exists [EvStartSession (aid host_info) None]. repeat split.
Qed.

End KapeUploadRun.

(** The [finally] clause of the upload, step by step: the workspace
    cleanup runs first, what may follow it is the emergency cleanup, and the
    call of [end_session] is the last thing done. *)
Lemma post_upload_cleanup_order env config session w :
  exists ok w2 cleanup after w',
    WorkspaceCleanup.cleanup_workspace env config session "windows" false w = (Ret ok, w2) /\
    trace w2 = (cleanup ++ trace w)%list /\
    ForensicCollector.post_upload_cleanup env config (Some session) w = (Ret tt, w') /\
    trace w' = (EvEndSession session (end_resp env (Nat.pred (ticks w'))) :: after
                ++ trace w2)%list /\
    Forall keeps_sessions cleanup /\ Forall keeps_sessions after.
Proof.
  unfold ForensicCollector.post_upload_cleanup. unfold bind at 1.
  destruct (cleanup_workspace_keeps env config session "windows" false w) as (n1 & E1 & F1).
  destruct (cleanup_workspace_returns env config session "windows" false w)
    as (ok & w1 & R1).
  rewrite R1 in *. cbn [snd] in E1.
  set (second := if ok then ret tt
                 else bind (WorkspaceCleanup.emergency_cleanup env config (Some session)
                              "windows" "")
                        (fun _ => ret tt)).
  assert (H2 : emits keeps_sessions second /\ returns second).
  { unfold second. destruct ok.
    - split; [apply emits_ret|apply returns_ret].
    - split.
      + apply emits_bind; [apply emergency_cleanup_keeps|intros ?; apply emits_ret].
      + apply returns_bind; [apply emergency_cleanup_returns|intros ?; apply returns_ret]. }
  destruct H2 as [K2 R2]. unfold bind at 1.
  destruct (K2 w1) as (n2 & E2 & F2). destruct (R2 w1) as ([] & w2 & Q2).
  rewrite Q2 in *. cbn [snd] in E2.
  exists ok, w1, n1, n2. eexists.
  split; [reflexivity|]. split; [exact E1|]. split; [reflexivity|].
  cbn [trace ticks Nat.pred]. rewrite E2.
  split; [reflexivity|]. split; [exact F1|exact F2].
Qed.

(** [upload_kape_results], when it comes to an end, has let no exception
    escape, has opened at most one session and has closed exactly the
    session it opened, once.  The call of [end_session] is the last thing it
    does: it follows the post-upload [cleanup_workspace] on that session and
    what the emergency cleanup may add, neither of which opens or closes a
    session, and the session was opened, and not closed, before the cleanup
    began. *)
Theorem upload_kape_results_closes_its_session env config fuel host_info collection_file :
  let run := ForensicCollector.upload_kape_results env config fuel host_info
               collection_file in
  result run <> OutOfFuel ->
  result run <> Raise /\
  sessions_ended (events run) = sessions_started (events run) /\
  (List.length (sessions_started (events run)) <= 1)%nat /\
  (forall session, In session (sessions_started (events run)) ->
   exists w1 ok w2 cleanup after answer,
     sessions_started (rev (trace w1)) = [session] /\
     sessions_ended (rev (trace w1)) = [] /\
     WorkspaceCleanup.cleanup_workspace env config session "windows" false w1
     = (Ret ok, w2) /\
     trace w2 = (cleanup ++ trace w1)%list /\
     trace (snd (run world0)) = (EvEndSession session answer :: after ++ trace w2)%list /\
     Forall keeps_sessions cleanup /\ Forall keeps_sessions after).
Proof.
  intros run. unfold result, events.
  remember (run world0) as r eqn:Er.
  unfold run, ForensicCollector.upload_kape_results in Er. unfold bind at 1 in Er.
  destruct (upload_until_verification_sessions env config fuel host_info world0)
    as (n1 & E1 & T1 & S1).
  cbn [trace world0] in E1. rewrite app_nil_r in E1.
  destruct (ForensicCollector.upload_until_verification env config fuel host_info world0)
    as [[[ctx|[s|]]| |] w1]; cbn [snd fst] in *.
  - destruct (kape_verify_s3_upload_success_spec env
                (ForensicCollector.ctx_bucket ctx) (ForensicCollector.ctx_key ctx)
                (ForensicCollector.ctx_file_size ctx) w1) as (b & w2 & Ev & _).
    assert (Kv : emits keeps_sessions
                   (ForensicCollector.verify_s3_upload_success env
                      (ForensicCollector.ctx_bucket ctx) (ForensicCollector.ctx_key ctx)
                      (ForensicCollector.ctx_file_size ctx))).
    { unfold ForensicCollector.verify_s3_upload_success, CloudStorage.verify_s3_upload,
        CloudStorage.get_s3_object_info, CloudStorage.head_object.
      repeat (first [emits_step | exact I]). }
    destruct (Kv w1) as (nv & Etv & Fv). rewrite Ev in Etv. cbn [snd] in Etv.
    destruct (keeps_sessions_log _ Fv) as [Sv Tv].
    unfold bind at 1 in Er. rewrite Ev in Er. unfold bind in Er.
    destruct (post_upload_cleanup_order env config (ForensicCollector.ctx_session ctx) w2)
      as (ok & w3 & cleanup & after & w4 & Ec & Etc & Ep & Et4 & Fc & Fa).
    destruct (keeps_sessions_log _ Fc) as [Sc Tc].
    destruct (keeps_sessions_log _ Fa) as [Sa Ta].
    rewrite Ep in Er. unfold ret in Er. subst r. cbn [fst snd]. intros _.
    split; [discriminate|].
    assert (Hs : sessions_started (rev (trace w2)) = [ForensicCollector.ctx_session ctx]).
    { rewrite Etv, E1, sessions_started_rev, sessions_started_app, S1, Sv. reflexivity. }
    assert (He : sessions_ended (rev (trace w2)) = []).
    { rewrite Etv, E1, sessions_ended_rev, sessions_ended_app, T1, Tv. reflexivity. }
    assert (Hall : sessions_started (rev (trace w4)) = [ForensicCollector.ctx_session ctx]).
    { rewrite Et4, Etc, Etv, E1, sessions_started_rev.
      cbn [sessions_started].
      rewrite !sessions_started_app, S1, Sv, Sa, Sc. reflexivity. }
    rewrite Hall.
    split; [|split; [cbn; lia|]].
    + rewrite Et4, Etc, Etv, E1, sessions_ended_rev.
      cbn [sessions_ended].
      rewrite !sessions_ended_app, T1, Tv, Ta, Tc. reflexivity.
    + intros session [<-|[]].
      exists w2, ok, w3, cleanup, after, (end_resp env (Nat.pred (ticks w4))).
      repeat split; assumption.
  - unfold bind in Er.
    destruct (post_upload_cleanup_order env config s w1)
      as (ok & w3 & cleanup & after & w4 & Ec & Etc & Ep & Et4 & Fc & Fa).
    destruct (keeps_sessions_log _ Fc) as [Sc Tc].
    destruct (keeps_sessions_log _ Fa) as [Sa Ta].
    rewrite Ep in Er. unfold ret in Er. subst r. cbn [fst snd]. intros _.
    split; [discriminate|].
    assert (Hs : sessions_started (rev (trace w1)) = [s]).
    { rewrite E1, sessions_started_rev, S1. reflexivity. }
    assert (He : sessions_ended (rev (trace w1)) = []).
    { rewrite E1, sessions_ended_rev, T1. reflexivity. }
    assert (Hall : sessions_started (rev (trace w4)) = [s]).
    { rewrite Et4, Etc, E1, sessions_started_rev.
      cbn [sessions_started].
      rewrite !sessions_started_app, S1, Sa, Sc. reflexivity. }
    rewrite Hall.
    split; [|split; [cbn; lia|]].
    + rewrite Et4, Etc, E1, sessions_ended_rev.
      cbn [sessions_ended].
      rewrite !sessions_ended_app, T1, Ta, Tc. reflexivity.
    + intros session [<-|[]].
      exists w1, ok, w3, cleanup, after, (end_resp env (Nat.pred (ticks w4))).
      repeat split; assumption.
  - unfold ForensicCollector.post_upload_cleanup, bind, ret in Er. subst r.
    cbn [fst snd]. intros _. split; [discriminate|].
    rewrite E1, sessions_ended_rev, sessions_started_rev, S1, T1.
    split; [reflexivity|]. split; [cbn; lia|]. intros session [].
  - contradiction.
  - subst r. intros H. exfalso. apply H. reflexivity.
Qed.

Lemma upload_kape_results_closes_its_session_witness :
  sessions_ended (events (ForensicCollector.upload_kape_results kape_upload_env
                            default_config 5 windows_host "ignored"))
  = [mkSession "s1" "aid1" 201].
Proof.
  destruct (upload_kape_results_closes_its_session kape_upload_env default_config 5
              windows_host "ignored" ltac:(vm_compute; discriminate)) as (_ & E & _).
  rewrite E. vm_compute. reflexivity.
Defined.

(** The upload that finds its object in the store succeeds. *)
Example upload_kape_results_succeeds :
  result (ForensicCollector.upload_kape_results kape_upload_env default_config 5
            windows_host "ignored") = Ret true.
Proof. vm_compute. reflexivity. Qed.

(** ** Batch runs: who is in the result map *)

Lemma add_unprocessed_keeps targets results hostname :
  is_Some (results !! hostname) ->
  is_Some (Orchestrator.add_unprocessed targets results !! hostname).
Proof.
  unfold Orchestrator.add_unprocessed. revert results.
  induction targets as [|t rest IH]; intros results H; simpl; [exact H|].
  apply IH. destruct (results !! fst t) eqn:E; [exact H|].
  destruct (decide (fst t = hostname)) as [->|Hne].
  - rewrite lookup_insert_eq. eauto.
  - rewrite lookup_insert_ne by exact Hne. exact H.
Qed.

Lemma add_unprocessed_covers targets results t :
  In t targets ->
  is_Some (Orchestrator.add_unprocessed targets results !! fst t).
Proof.
  revert results. induction targets as [|t' rest IH]; intros results Hin; [destruct Hin|].
  destruct Hin as [->|Hin].
  - unfold Orchestrator.add_unprocessed. simpl.
    apply add_unprocessed_keeps.
    destruct (results !! fst t) eqn:E; [rewrite E; eauto|].
    rewrite lookup_insert_eq. eauto.
  - unfold Orchestrator.add_unprocessed. simpl. apply IH. exact Hin.
Qed.

(** Whatever the workers report, and whether a target resolved or not,
    the map that [run_uac_batch] returns has an entry for every requested
    hostname. *)
Theorem run_uac_batch_covers_targets
    env enable_caching max_concurrent_hosts worker targets upload_to_s3 w results w' :
  Orchestrator.run_uac_batch env enable_caching max_concurrent_hosts worker targets
    upload_to_s3 w = (Ret results, w') ->
  forall hostname profile,
    In (hostname, profile) targets -> is_Some (results !! hostname).
Proof.
  unfold Orchestrator.run_uac_batch. intros H hostname profile Hin.
  apply bind_ret_inv in H. destruct H as (t0 & w1 & _ & H).
  apply bind_ret_inv in H. destruct H as (groups & w2 & _ & H).
  apply bind_ret_inv in H. destruct H as ([] & w3 & _ & H).
  apply bind_ret_inv in H. destruct H as (collected & w4 & _ & H).
  apply bind_ret_inv in H. destruct H as (t1 & w5 & _ & H).
  inversion H; subst results.
  exact (add_unprocessed_covers targets collected (hostname, profile) Hin).
Qed.

Lemma run_uac_batch_covers_targets_witness :
  exists results,
    result (Orchestrator.run_uac_batch one_ghost_env true 20 all_ok_worker
              [("web01", "ir_triage"); ("ghost", "ir_triage")] true) = Ret results /\
    is_Some (results !! "ghost").
Proof.
  destruct (Orchestrator.run_uac_batch one_ghost_env true 20 all_ok_worker
              [("web01", "ir_triage"); ("ghost", "ir_triage")] true world0)
    as [o w'] eqn:E.
  destruct o as [results| |]; [|vm_compute in E; discriminate..].
  exists results. unfold result. rewrite E. split; [reflexivity|].
  apply (run_uac_batch_covers_targets _ _ _ _ _ _ _ _ _ E "ghost" "ir_triage").
  right. left. reflexivity.
Defined.

Section UnknownHost.
Context (env : Env) (enable_caching : bool).
Context (worker : string -> list Orchestrator.HostEntry -> bool -> M (gmap string bool)).

(** A batch of one host that does not resolve has no group, and the
    thread pool cannot be made for no worker. *)
Lemma run_kape_batch_unknown_host hostname target upload w :
  fst (HostManager.get_host_by_hostname env hostname (snd (time_time env w))) = Ret None ->
  fst (Orchestrator.run_kape_batch env enable_caching worker [(hostname, target)]
         upload w) = Raise.
Proof.
  intros H. unfold Orchestrator.run_kape_batch. unfold bind at 1.
  unfold time_time at 1. unfold interact at 1. cbv beta iota zeta.
  unfold time_time, interact in H. cbn [snd] in H.
  unfold bind at 1.
  destruct enable_caching.
  - unfold bind at 1. cbn [map fst Orchestrator.get_host_details_batch].
    unfold bind at 1.
    destruct (HostManager.get_host_by_hostname env hostname _) as [[[h|]| |] w1];
      cbn [fst] in H; try discriminate.
    reflexivity.
  - cbn [Orchestrator.group_kape_lookup]. unfold bind at 1.
    destruct (HostManager.get_host_by_hostname env hostname _) as [[[h|]| |] w1];
      cbn [fst] in H; try discriminate.
    reflexivity.
Qed.

End UnknownHost.

(** For a hostname that does not resolve, the single-host entry point
    [run_kape] lets the [ValueError] of the empty thread pool escape, while
    [run_kape_collection] turns it into [False]. *)
Theorem run_kape_unknown_host env enable_caching worker hostname target upload w :
  fst (HostManager.get_host_by_hostname env hostname (snd (time_time env w))) = Ret None ->
  fst (Orchestrator.run_kape env enable_caching worker hostname target upload w) = Raise /\
  fst (Orchestrator.run_kape_collection env enable_caching worker hostname target
         upload w) = Ret false.
Proof.
  intros H.
  pose proof (run_kape_batch_unknown_host env enable_caching worker hostname target
                upload w H) as Hb.
  unfold Orchestrator.run_kape, Orchestrator.run_kape_collection, try_except, bind.
  destruct (Orchestrator.run_kape_batch env enable_caching worker [(hostname, target)]
              upload w) as [[r| |] w1]; cbn [fst] in Hb; try discriminate.
  split; reflexivity.
Qed.

Lemma run_kape_unknown_host_witness :
  result (Orchestrator.run_kape quiet_env true all_ok_worker "ghost" "!SANS_Triage" true)
  = Raise.
Proof.
  apply (run_kape_unknown_host quiet_env true all_ok_worker "ghost" "!SANS_Triage" true
           world0).
  vm_compute. reflexivity.
Defined.

Lemma group_uac_cached_raises details targets acc w hostname profile h :
  In (hostname, profile) targets ->
  details !! hostname = Some h ->
  Platform_of (Py.lower (platform h)) = None ->
  Orchestrator.group_uac_cached details targets acc w = (Raise, w).
Proof.
  intros Hin Hd Hp. revert acc.
  induction targets as [|[hn pr] rest IH]; intros acc; [destruct Hin|].
  cbn [Orchestrator.group_uac_cached].
  destruct Hin as [E|Hin].
  - inversion E; subst hn pr. rewrite Hd, Hp. reflexivity.
  - destruct (details !! hn) as [h'|]; [|apply IH; exact Hin].
    destruct (Platform_of (Py.lower (platform h'))) as [[| |]|];
      [apply IH; exact Hin..|reflexivity].
Qed.

(** With cached lookups, one target that resolves to a host whose platform
    is none of windows, mac and linux makes [run_uac_batch] raise: the
    [ValueError] of the [Platform] lookup is not caught, and no host of the
    batch is processed. *)
Theorem run_uac_batch_unknown_platform
    env max_concurrent_hosts worker targets upload_to_s3 w details w2 hostname profile h :
  Orchestrator.get_host_details_batch env (map fst targets) ∅ (snd (time_time env w))
    = (Ret details, w2) ->
  In (hostname, profile) targets ->
  details !! hostname = Some h ->
  Platform_of (Py.lower (platform h)) = None ->
  Orchestrator.run_uac_batch env true max_concurrent_hosts worker targets upload_to_s3 w
    = (Raise, w2).
Proof.
  intros Hb Hin Hd Hp. unfold Orchestrator.run_uac_batch. unfold bind at 1.
  unfold time_time at 1. unfold interact at 1. cbv beta iota zeta.
  unfold time_time, interact in Hb. cbn [snd] in Hb.
  unfold bind at 1. unfold bind at 1. rewrite Hb.
  rewrite (group_uac_cached_raises details targets [] w2 hostname profile h Hin Hd Hp).
  reflexivity.
Qed.

Lemma run_uac_batch_unknown_platform_witness :
  result (Orchestrator.run_uac_batch android_env true 20 all_ok_worker
            [("web01", "ir_triage"); ("phone01", "ir_triage")] true) = Raise.
Proof.
  unfold result.
  erewrite (run_uac_batch_unknown_platform android_env 20 all_ok_worker
              [("web01", "ir_triage"); ("phone01", "ir_triage")] true world0
              _ _ "phone01" "ir_triage"
              (mkHost "phone01" "aid-phone" "cid-1" "Android" "14" "" "android")).
  - reflexivity.
  - vm_compute. reflexivity.
  - right. left. reflexivity.
  - vm_compute. reflexivity.
  - reflexivity.
Defined.

(** ** Pre-execution cleanup: which processes are terminated *)

Lemma parse_process_line_exempt p line proc :
  PreCleanup.parse_process_line p line = Some proc ->
  PreCleanup.is_current_fnerd_falconpy_process (PreCleanup.command proc) = false /\
  Py.contains "grep" line = false.
Proof.
  unfold PreCleanup.parse_process_line.
  destruct (negb (Py.truthy (Py.strip line))); [discriminate|].
  destruct (Py.contains "grep" line); [discriminate|]. cbn [orb].
  destruct p.
  - destruct (Py.contains "ProcessId" line || Py.contains "--------" line);
      [discriminate|].
    destruct (Py.split_ws line) as [|pid [|name rest]]; try discriminate.
    destruct (PreCleanup.is_current_fnerd_falconpy_process _) eqn:E; [discriminate|].
    intros H. inversion H; subst proc. cbn [PreCleanup.command]. split; [exact E|reflexivity].
  - destruct (11 <=? List.length (Py.split_ws line))%nat; [|discriminate].
    destruct (PreCleanup.is_current_fnerd_falconpy_process _) eqn:E; [discriminate|].
    intros H. inversion H; subst proc. cbn [PreCleanup.command]. split; [exact E|reflexivity].
  - destruct (11 <=? List.length (Py.split_ws line))%nat; [|discriminate].
    destruct (PreCleanup.is_current_fnerd_falconpy_process _) eqn:E; [discriminate|].
    intros H. inversion H; subst proc. cbn [PreCleanup.command]. split; [exact E|reflexivity].
Qed.

Lemma parse_lines_exempt p lines proc :
  In proc (PreCleanup.parse_lines p lines) ->
  PreCleanup.is_current_fnerd_falconpy_process (PreCleanup.command proc) = false.
Proof.
  induction lines as [|line rest IH]; simpl; [intros []|].
  destruct (PreCleanup.parse_process_line p line) as [q|] eqn:E; [|exact IH].
  intros [->|Hin]; [|exact (IH Hin)].
  exact (proj1 (parse_process_line_exempt _ _ _ E)).
Qed.

(** No process that [_parse_process_output] hands on for termination is a
    client of this tool: its command line does not contain [falcon-client],
    and if it contains [python] (in any case) it names neither
    [fnerd-falconpy] nor [fnerd_falconpy]. *)
Theorem parse_process_output_exempts_client output p proc :
  In proc (PreCleanup.parse_process_output output p) ->
  Py.contains "falcon-client" (PreCleanup.command proc) = false /\
  (Py.contains "python" (Py.lower (PreCleanup.command proc)) = true ->
   Py.contains "fnerd-falconpy" (PreCleanup.command proc) = false /\
   Py.contains "fnerd_falconpy" (PreCleanup.command proc) = false).
Proof.
  unfold PreCleanup.parse_process_output. intros Hin.
  apply parse_lines_exempt in Hin.
  unfold PreCleanup.is_current_fnerd_falconpy_process in Hin.
  apply orb_false_iff in Hin. destruct Hin as [Hc Hpy].
  split; [exact Hc|]. intros Hp. rewrite Hp, Hc in Hpy. cbn [andb orb] in Hpy.
  apply orb_false_iff in Hpy. exact Hpy.
Qed.

Lemma parse_process_output_exempts_client_witness :
  Py.contains "falcon-client"
    "/opt/0x4n6nerd/uac-main/uac -p ir_triage /opt/0x4n6nerd/evidence" = false.
Proof.
  refine (proj1 (parse_process_output_exempts_client
                   "root 4242 0.0 0.1 1000 200 ? S 10:00 0:00 /opt/0x4n6nerd/uac-main/uac -p ir_triage /opt/0x4n6nerd/evidence"
                   LINUX
                   (PreCleanup.mkProc "4242" "uac"
                      "/opt/0x4n6nerd/uac-main/uac -p ir_triage /opt/0x4n6nerd/evidence")
                   _)).
  vm_compute. left. reflexivity.
Defined.

(** A client's own process in the listing is left alone, the collector
    next to it is not. *)
Example parse_process_output_ex :
  map PreCleanup.pid
    (PreCleanup.parse_process_output
       ("root 4242 0.0 0.1 1000 200 ? S 10:00 0:00 /opt/0x4n6nerd/uac-main/uac -p ir_triage"
        ++ String Py.newline
             "root 4300 0.0 0.1 1000 200 ? S 10:00 0:00 python3 -m fnerd_falconpy uac")
       LINUX)
  = ["4242"].
Proof. vm_compute. reflexivity. Qed.

Lemma unique_by_pid_fresh procs seen proc :
  In proc (PreCleanup.unique_by_pid procs seen) -> ~ In (PreCleanup.pid proc) seen.
Proof.
  revert seen. induction procs as [|q rest IH]; intros seen; simpl; [intros []|].
  destruct (existsb (String.eqb (PreCleanup.pid q)) seen) eqn:E.
  - apply IH.
  - intros [->|Hin].
    + intros Hs. assert (existsb (String.eqb (PreCleanup.pid proc)) seen = true).
      { apply existsb_exists. exists (PreCleanup.pid proc). split; [exact Hs|].
        apply String.eqb_refl. }
      congruence.
    + intros Hs. apply (IH _ Hin). right. exact Hs.
Qed.

Lemma unique_by_pid_nodup procs seen :
  NoDup (map PreCleanup.pid (PreCleanup.unique_by_pid procs seen)).
Proof.
  revert seen. induction procs as [|q rest IH]; intros seen; simpl; [constructor|].
  destruct (existsb (String.eqb (PreCleanup.pid q)) seen); [apply IH|].
  cbn [map]. constructor; [|apply IH].
  rewrite list_elem_of_In. intros Hin. apply in_map_iff in Hin.
  destruct Hin as (proc & Hp & Hin).
  apply unique_by_pid_fresh in Hin. apply Hin. left. symmetry. exact Hp.
Qed.

(** The process sweep lists no PID twice, however often the patterns
    match the same process; so no PID is sent two kills. *)
Theorem check_running_processes_distinct env config session p w processes w' :
  PreCleanup.check_running_processes env config session p w = (Ret processes, w') ->
  NoDup (map PreCleanup.pid processes).
Proof.
  unfold PreCleanup.check_running_processes. intros H.
  apply bind_ret_inv in H. destruct H as (running & w1 & _ & H).
  inversion H. apply unique_by_pid_nodup.
Qed.

Lemma check_running_processes_distinct_witness : NoDup ["4242"].
Proof.
  apply (check_running_processes_distinct busy_unix_env default_config
           (mkSession "s1" "aid1" 201) LINUX world0
           [PreCleanup.mkProc "4242" "uac" "/opt/0x4n6nerd/uac-main/uac -p ir_triage --debug"]
           (snd (PreCleanup.check_running_processes busy_unix_env default_config
                   (mkSession "s1" "aid1" 201) LINUX world0))).
  vm_compute. reflexivity.
Defined.

(** [_terminate_existing_processes] sends one kill command per listed
    process, the [taskkill /F /PID] or [kill -9] of its PID as an admin
    [runscript], each followed by a pause of one second and in the order of
    the list; it goes on after a kill that failed, and reports success exactly
    when every kill came back with return code 0. *)
Theorem terminate_existing_processes_all env session p processes success w :
  exists w',
    PreCleanup.terminate_existing_processes env session p processes success w
    = (Ret (success &&
            forallb (fun t => UACCollector.succeeded (exec_resp env t))
                    (seq (ticks w) (List.length processes))), w') /\
    ticks w' = (ticks w + List.length processes)%nat /\
    trace w' = (rev (kill_round env session p processes (ticks w)) ++ trace w)%list.
Proof.
  revert success w. induction processes as [|proc rest IH]; intros success w.
  - exists w. cbn. rewrite andb_true_r, Nat.add_0_r. repeat split; reflexivity.
  - cbn [PreCleanup.terminate_existing_processes List.length seq forallb kill_round].
    unfold bind at 1. unfold exec at 1. unfold interact at 1.
    cbv beta iota zeta. cbn [ticks trace].
    unfold bind at 1. unfold time_sleep at 1. cbv beta iota zeta. cbn [ticks trace].
    match goal with
    | |- exists w', PreCleanup.terminate_existing_processes _ _ _ _ ?s ?w1 = _ /\ _ =>
        destruct (IH s w1) as (w' & E & T & R)
    end.
    exists w'. rewrite E. cbn [ticks trace] in T, R |- *. split; [|split].
    + f_equal. f_equal. unfold UACCollector.succeeded.
      rewrite andb_assoc. reflexivity.
    + rewrite T. lia.
    + rewrite R. cbn [rev]. rewrite <- !app_assoc. cbn [app].
      unfold kill_command. destruct p; reflexivity.
Qed.

Example kill_round_ex :
  kill_round quiet_env (mkSession "s1" "aid1" 201) WINDOWS
    [PreCleanup.mkProc "4242" "kape.exe" "kape.exe --tsource C:"] 7
  = [EvExec (mkSession "s1" "aid1" 201)
       (mkCmd "runscript" "runscript -Raw=```taskkill /F /PID 4242```" true)
       (exec_resp quiet_env 7);
     EvSleep 1].
Proof. reflexivity. Qed.

(** ** Retries with backoff *)

Lemma sleeps_app a b : sleeps (a ++ b) = (sleeps a ++ sleeps b)%list.
Proof.
  induction a as [|e a IH]; [reflexivity|].
  destruct e; cbn [app sleeps]; try exact IH. f_equal. exact IH.
Qed.

Section Retry.
Context (env : Env) (session : RTRSession) (base command : string) (admin : bool).
Context (backoff : Q).

Let answered (t : nat) : bool := is_some (exec_resp env t).
Let pause (attempt : nat) : Q := Qpower backoff (Z.of_nat attempt).

Lemma execute_with_retry_from_spec attempts_left attempt w :
  exists new,
    trace (snd (UACCollector.execute_with_retry_from env attempts_left attempt session
                  base command admin backoff w)) = (new ++ trace w)%list /\
    let r := UACCollector.execute_with_retry_from env attempts_left attempt session
               base command admin backoff w in
    match find answered (seq (ticks w) attempts_left) with
    | Some t =>
        fst r = Ret (exec_resp env t) /\ ticks (snd r) = S t /\
        sleeps (rev new) = map pause (seq attempt (t - ticks w))
    | None =>
        fst r = Ret None /\ ticks (snd r) = (ticks w + attempts_left)%nat /\
        sleeps (rev new) = map pause (seq attempt (attempts_left - 1))
    end.
Proof.
  revert attempt w. induction attempts_left as [|more IH]; intros attempt w.
  - exists []. cbn. rewrite Nat.add_0_r. repeat split.
  - cbn [UACCollector.execute_with_retry_from seq find].
    unfold bind, exec, interact, time_sleep. cbv beta iota zeta. cbn [ticks trace].
    unfold answered at 1. destruct (exec_resp env (ticks w)) as [r|] eqn:Er.
    + exists [EvExec session (mkCmd base command admin) (Some r)].
      cbn [is_some fst snd ret ticks trace]. rewrite Er, Nat.sub_diag.
      repeat split.
    + cbn [is_some].
      destruct more as [|more'].
      * exists [EvExec session (mkCmd base command admin) None].
        cbn. rewrite Nat.add_1_r. repeat split.
      * cbv beta iota zeta. cbn [ticks trace ret].
        match goal with
        | |- context [UACCollector.execute_with_retry_from env _ _ _ _ _ _ _ ?w1] =>
            destruct (IH (S attempt) w1) as (n & E & H)
        end.
        cbn [ticks trace] in E, H.
        exists (n ++ [EvSleep (Qpower backoff (Z.of_nat attempt));
                      EvExec session (mkCmd base command admin) None])%list.
        split; [rewrite E, <- app_assoc; reflexivity|].
        cbv zeta in H.
        rewrite rev_app_distr, sleeps_app. cbn [rev app sleeps].
        destruct (find answered (seq (S (ticks w)) (S more'))) as [t|] eqn:Ef.
        -- destruct H as (H1 & H2 & H3). split; [exact H1|]. split; [exact H2|].
           rewrite H3.
           apply find_some in Ef. destruct Ef as [Hin _].
           apply in_seq in Hin.
           replace (t - ticks w)%nat with (S (t - S (ticks w))) by lia.
           reflexivity.
        -- destruct H as (H1 & H2 & H3). split; [exact H1|]. split; [rewrite H2; lia|].
           rewrite H3. cbn [Nat.sub]. rewrite Nat.sub_0_r. reflexivity.
Qed.

End Retry.

(** [_execute_with_retry] makes at most [max_retries + 1] attempts and
    stops at the first that is answered, whose result it returns; with no
    answer it returns [None].  Before the attempt numbered [k] (from 1) it
    has paused [backoff ** 0], ..., [backoff ** (k - 1)] seconds, and it does
    not pause after the last attempt. *)
Theorem execute_with_retry_first_answer
    env session base command admin max_retries backoff w :
  let r := UACCollector.execute_with_retry env session base command admin
             max_retries backoff w in
  let pause := fun attempt : nat => Qpower backoff (Z.of_nat attempt) in
  exists new,
    trace (snd r) = (new ++ trace w)%list /\
    match find (fun t => is_some (exec_resp env t)) (seq (ticks w) (S max_retries)) with
    | Some t =>
        fst r = Ret (exec_resp env t) /\ ticks (snd r) = S t /\
        sleeps (rev new) = map pause (seq 0 (t - ticks w))
    | None =>
        fst r = Ret None /\ ticks (snd r) = (ticks w + S max_retries)%nat /\
        sleeps (rev new) = map pause (seq 0 max_retries)
    end.
Proof.
  intros r pause.
  destruct (execute_with_retry_from_spec env session base command admin backoff
              (S max_retries) 0 w) as (new & E & H).
  exists new. split; [exact E|]. cbv zeta in H.
  replace (S max_retries - 1)%nat with max_retries in H by lia.
  exact H.
Qed.

(** Two silent attempts, then an answer: pauses of 1 s and 2 s. *)
Example execute_with_retry_ex :
  let run := UACCollector.execute_with_retry
               (with_exec (fun n => if Nat.leb 2 n
                                    then Some (mkResult "ok" "" 0 "req" true) else None)
                  quiet_env)
               (mkSession "s1" "aid1" 201) "runscript" "ls" true 3 2 in
  result run = Ret (Some (mkResult "ok" "" 0 "req" true)) /\
  sleeps (events run) = [1%Q; 2%Q].
Proof. vm_compute. split; reflexivity. Qed.

(** ** What a watch has seen when it answers [True] *)

Lemma loop_inr_inv {St R} (I : St -> World -> Prop) fuel
    (body : St -> M (Step St R)) s w r w' :
  I s w ->
  (forall s w s1 w1, I s w -> body s w = (Ret (Continue s1), w1) -> I s1 w1) ->
  loop fuel body s w = (Ret (inr r), w') ->
  exists s0 w0, I s0 w0 /\ body s0 w0 = (Ret (Return r), w').
Proof.
  intros Hi Hstep. revert s w Hi.
  induction fuel as [|fuel IH]; intros s w Hi; [discriminate|].
  cbn [loop]. intros H. apply bind_ret_inv in H.
  destruct H as (st & w1 & Hb & H).
  destruct st as [s1|s1|r1].
  - apply (IH s1 w1); [exact (Hstep _ _ _ _ Hi Hb)|exact H].
  - discriminate.
  - inversion H; subst. exists s, w. split; [exact Hi|exact Hb].
Qed.

Lemma monitor_kape_body_true env session timeout start_time last w w' :
  ForensicCollector.monitor_kape_body env session timeout start_time last w
  = (Ret (Return true), w') ->
  exists r rest,
    trace w' = EvExec session (mkCmd "ps" "ps" true) (Some r) :: rest /\
    Py.contains "kape.exe" (stdout r) = false.
Proof.
  unfold ForensicCollector.monitor_kape_body. intros H.
  apply bind_ret_inv in H. destruct H as (now & w1 & _ & H).
  destruct (FileManager.Qgt_bool _ _); [discriminate|].
  apply bind_ret_inv in H. destruct H as (now2 & w2 & _ & H).
  apply bind_ret_inv in H. destruct H as (lp & w3 & _ & H).
  apply bind_ret_inv in H. destruct H as (ps & w4 & Hps & H).
  unfold exec, interact in Hps. inversion Hps; subst ps w4; clear Hps.
  destruct (exec_resp env (ticks w3)) as [r|]; [|discriminate].
  destruct (Py.contains "kape.exe" (stdout r)) eqn:E; cbn [negb] in H.
  - apply bind_ret_inv in H. destruct H as (? & ? & _ & H). discriminate.
  - inversion H; subst w'. exists r, (trace w3). split; [reflexivity|exact E].
Qed.

Ltac no_such_event H :=
  repeat (destruct H as [H|H]; [discriminate|]); exact H.

Ltac round_quiet :=
  cbn; repeat split; try discriminate; exfalso;
  match goal with H : _ \/ _ |- _ => no_such_event H end.

Ltac round_none :=
  cbn; repeat split; try discriminate;
  eexists; split; [reflexivity|];
  let H := fresh "H" in intros H; no_such_event H.

Lemma monitor_kape_body_round env session timeout start lp w :
  let e := EvExec session (mkCmd "ps" "ps" true) None in
  exists nb o w1,
    ForensicCollector.monitor_kape_body env session timeout start lp w = (o, w1) /\
    trace w1 = (nb ++ trace w)%list /\
    o <> Raise /\ o <> OutOfFuel /\
    (In e nb -> o = Ret (Return false) /\ exists rest, nb = e :: rest /\ ~ In e rest).
Proof.
  intros e. subst e.
  unfold ForensicCollector.monitor_kape_body.
  unfold bind at 1. unfold time_time at 1. unfold interact at 1.
  cbv beta iota zeta. cbn [ticks trace].
  destruct (FileManager.Qgt_bool (clock env (ticks w) - start) timeout).
  { eexists [_], _, _. split; [reflexivity|]. round_quiet. }
  unfold bind at 1. unfold time_time at 1. unfold interact at 1.
  cbv beta iota zeta. cbn [ticks trace].
  unfold bind at 1.
  destruct (FileManager.Qge_bool (clock env (S (ticks w)) - lp) 300).
  - unfold bind at 1. unfold pulse_session at 1. unfold interact at 1.
    cbv beta iota zeta. cbn [ticks trace].
    destruct (pulse_resp env _).
    + unfold time_time at 1. unfold interact at 1.
      cbv beta iota zeta. cbn [ticks trace].
      unfold bind at 1. unfold exec at 1. unfold interact at 1.
      cbv beta iota zeta. cbn [ticks trace].
      destruct (exec_resp env _) as [res|].
      * destruct (negb _).
        -- eexists [_; _; _; _; _], _, _. split; [reflexivity|]. round_quiet.
        -- eexists [_; _; _; _; _; _], _, _. split; [reflexivity|]. round_quiet.
      * eexists [_; _; _; _; _], _, _. split; [reflexivity|]. round_none.
    + unfold ret at 1. cbv beta iota zeta. cbn [ticks trace].
      unfold bind at 1. unfold exec at 1. unfold interact at 1.
      cbv beta iota zeta. cbn [ticks trace].
      destruct (exec_resp env _) as [res|].
      * destruct (negb _).
        -- eexists [_; _; _; _], _, _. split; [reflexivity|]. round_quiet.
        -- eexists [_; _; _; _; _], _, _. split; [reflexivity|]. round_quiet.
      * eexists [_; _; _; _], _, _. split; [reflexivity|]. round_none.
  - unfold ret at 1. cbv beta iota zeta. cbn [ticks trace].
    unfold bind at 1. unfold exec at 1. unfold interact at 1.
    cbv beta iota zeta. cbn [ticks trace].
    destruct (exec_resp env _) as [res|].
    * destruct (negb _).
      -- eexists [_; _; _], _, _. split; [reflexivity|]. round_quiet.
      -- eexists [_; _; _; _], _, _. split; [reflexivity|]. round_quiet.
    * eexists [_; _; _], _, _. split; [reflexivity|]. round_none.
Qed.

Lemma monitor_kape_loop_round env session timeout start fuel lp w :
  let e := EvExec session (mkCmd "ps" "ps" true) None in
  exists new o w',
    loop fuel (ForensicCollector.monitor_kape_body env session timeout start) lp w = (o, w') /\
    trace w' = (new ++ trace w)%list /\
    o <> Raise /\
    (In e new -> o = Ret (inr false) /\ exists rest, new = e :: rest /\ ~ In e rest).
Proof.
  cbv zeta. revert lp w. induction fuel as [|fuel IH]; intros lp w.
  - exists [], OutOfFuel, w. cbn. repeat split; try discriminate; contradiction.
  - cbn [loop]. unfold bind at 1.
    destruct (monitor_kape_body_round env session timeout start lp w)
      as (nb & o & w1 & E & Tb & Nr & Nf & Hb). cbv zeta in *.
    rewrite E. destruct o as [[s1|s1|b]| |]; cbn [fst snd] in *; try congruence.
    + destruct (IH s1 w1) as (new & o' & w' & El & T & Nr' & H).
      exists (new ++ nb)%list, o', w'. rewrite T, Tb, app_assoc.
      split; [exact El|]. split; [reflexivity|]. split; [exact Nr'|].
      intros Hin. apply in_app_or in Hin.
      assert (Hnb : ~ In (EvExec session (mkCmd "ps" "ps" true) None) nb).
      { intros Hi. destruct (Hb Hi) as [Hc _]. discriminate. }
      destruct Hin as [Hin|Hin]; [|contradiction].
      destruct (H Hin) as (Hr & rest & -> & Hn).
      split; [exact Hr|]. exists (rest ++ nb)%list. split; [reflexivity|].
      intros Hi. apply in_app_or in Hi. tauto.
    + exists nb, (Ret (inl s1)), w1. split; [reflexivity|]. split; [exact Tb|].
      split; [discriminate|].
      intros Hi. destruct (Hb Hi) as [Hc _]. discriminate.
    + exists nb, (Ret (inr b)), w1. split; [reflexivity|]. split; [exact Tb|].
      split; [discriminate|].
      intros Hi. destruct (Hb Hi) as (Hc & Hrest). inversion Hc.
      split; [reflexivity|exact Hrest].
Qed.

(** [monitor_kape_execution] answers [True] only right after a process
    listing that was answered and does not mention [kape.exe], and no
    exception leaves it.  A listing that is not answered is the last thing it
    does and gives [False]; so does a round that begins later than [timeout]
    seconds after the start, with nothing but that reading of the clock. *)
Theorem monitor_kape_execution_true env fuel session timeout w :
  let run := ForensicCollector.monitor_kape_execution env fuel session timeout w in
  let listing := EvExec session (mkCmd "ps" "ps" true) in
  let start_time := clock env (ticks w) in
  let last_pulse_time := clock env (S (ticks w)) in
  let body := ForensicCollector.monitor_kape_body env session (inject_Z timeout) start_time in
  (fst run = Ret true ->
   exists r rest,
     trace (snd run) = listing (Some r) :: rest /\
     Py.contains "kape.exe" (stdout r) = false) /\
  fst run <> Raise /\
  (exists new,
     trace (snd run) = (new ++ trace w)%list /\
     (In (listing None) new ->
      fst run = Ret false /\
      exists rest, new = listing None :: rest /\ ~ In (listing None) rest)) /\
  (forall n lp wn,
     iterates body n last_pulse_time
       (mkWorld (S (S (ticks w))) (EvTime last_pulse_time :: EvTime start_time :: trace w))
       lp wn ->
     (n < fuel)%nat ->
     (inject_Z timeout < clock env (ticks wn) - start_time)%Q ->
     run = (Ret false, mkWorld (S (ticks wn)) (EvTime (clock env (ticks wn)) :: trace wn))).
Proof.
  intros run listing start_time last_pulse_time body.
  assert (Erun : run =
    match loop fuel body last_pulse_time
            (mkWorld (S (S (ticks w))) (EvTime last_pulse_time :: EvTime start_time :: trace w))
    with
    | (Ret (inr b), w') => (Ret b, w')
    | (Ret (inl _), w') => (Ret false, w')
    | (Raise, w') => (Ret false, w')
    | (OutOfFuel, w') => (OutOfFuel, w')
    end).
  { subst run. unfold ForensicCollector.monitor_kape_execution, try_except.
    unfold bind at 1. unfold time_time at 1. unfold interact at 1.
    cbv beta iota zeta. cbn [ticks trace].
    unfold bind at 1. unfold time_time at 1. unfold interact at 1.
    cbv beta iota zeta. cbn [ticks trace].
    unfold bind at 1. fold start_time last_pulse_time body.
    destruct (loop fuel body last_pulse_time _) as [[[s|b]| |] w']; reflexivity. }
  destruct (monitor_kape_loop_round env session (inject_Z timeout) start_time fuel
              last_pulse_time
              (mkWorld (S (S (ticks w)))
                 (EvTime last_pulse_time :: EvTime start_time :: trace w)))
    as (new & o & w' & Hl & T & Nr & Hnone). cbv zeta in Hnone. fold body in Hl.
  cbn [trace] in T.
  split; [|split; [|split]].
  - rewrite Erun, Hl. intros H.
    destruct o as [[s|b]| |]; cbn [fst snd] in H |- *; try discriminate.
    injection H as ->.
    apply (loop_inr_inv (fun _ _ => True)) in Hl; [|exact I|auto].
    destruct Hl as (s0 & w0 & _ & Hb).
    exact (monitor_kape_body_true _ _ _ _ _ _ _ Hb).
  - rewrite Erun, Hl. destruct o as [[s|b]| |]; discriminate.
  - exists (new ++ [EvTime last_pulse_time; EvTime start_time])%list.
    rewrite Erun, Hl.
    assert (Hlast : In (listing None)
                      (new ++ [EvTime last_pulse_time; EvTime start_time])%list ->
                    o = Ret (inr false) /\
                    exists rest,
                      (new ++ [EvTime last_pulse_time; EvTime start_time])%list
                      = listing None :: rest /\ ~ In (listing None) rest).
    { intros Hin. apply in_app_or in Hin.
      destruct Hin as [Hin|Hin]; [|exfalso; no_such_event Hin].
      destruct (Hnone Hin) as (Hr & rest & -> & Hn). split; [exact Hr|].
      eexists. split; [reflexivity|].
      intros Hi. apply in_app_or in Hi.
      destruct Hi as [Hi|Hi]; [tauto|no_such_event Hi]. }
    destruct o as [[s|b]| |]; cbn [fst snd]; rewrite T, <- app_assoc;
      (split; [reflexivity|]); intros Hin; destruct (Hlast Hin) as (Hr & Hrest);
      try discriminate.
    injection Hr as ->. split; [reflexivity|exact Hrest].
  - intros n lp wn Hit Hf Hlate. rewrite Erun.
    rewrite (loop_iterates_return _ n _ _ lp wn false
               (mkWorld (S (ticks wn)) (EvTime (clock env (ticks wn)) :: trace wn))
               fuel Hit); [reflexivity| |exact Hf].
    subst body. unfold ForensicCollector.monitor_kape_body.
    unfold bind at 1. unfold time_time at 1. unfold interact at 1.
    cbv beta iota zeta. cbn [ticks trace].
    rewrite (proj2 (Qgt_bool_true _ _) Hlate). reflexivity.
Qed.

Lemma monitor_kape_execution_true_witness :
  exists w',
    ForensicCollector.monitor_kape_execution slow_kape_env 2
      (mkSession "s1" "aid1" 201) 7200 world0 = (Ret false, w') /\
    trace w' = EvTime 8000 :: EvSleep 60
               :: EvExec (mkSession "s1" "aid1" 201) (mkCmd "ps" "ps" true)
                    (Some (mkResult "kape.exe" "" 0 "req" true))
               :: EvTime 0 :: EvTime 0 :: EvTime 0 :: EvTime 0 :: [].
Proof.
  eexists. split.
  - apply (proj2 (proj2 (proj2
             (monitor_kape_execution_true slow_kape_env 2 (mkSession "s1" "aid1" 201)
                7200 world0))) 1%nat 0%Q
             (mkWorld 5 [EvSleep 60;
                         EvExec (mkSession "s1" "aid1" 201) (mkCmd "ps" "ps" true)
                           (Some (mkResult "kape.exe" "" 0 "req" true));
                         EvTime 0; EvTime 0; EvTime 0; EvTime 0])).
    + eapply iterates_next; [vm_compute; reflexivity|apply iterates_here].
    + lia.
    + reflexivity.
  - reflexivity.
Defined.

(** An unanswered listing ends the watch at once. *)
Example monitor_kape_execution_unanswered :
  let run := ForensicCollector.monitor_kape_execution quiet_env 5
               (mkSession "s1" "aid1" 201) 7200 in
  result run = Ret false /\
  events run = [EvTime 0; EvTime 0; EvTime 0; EvTime 0;
                EvExec (mkSession "s1" "aid1" 201) (mkCmd "ps" "ps" true) None].
Proof. vm_compute. split; reflexivity. Qed.

(** A listing without [kape.exe] ends it with [True]. *)
Example monitor_kape_execution_done :
  result (ForensicCollector.monitor_kape_execution silent_unix_env 1
            (mkSession "s1" "aid1" 201) 7200) = Ret true.
Proof. vm_compute. reflexivity. Qed.

Lemma lock_is_not_size file_path :
  String.eqb (stability_lock_command file_path) (stability_size_command file_path) = false.
Proof. reflexivity. Qed.

Lemma sleep_and_inv st w x w1 :
  ForensicCollector.sleep_and st w = (Ret x, w1) ->
  x = Continue st /\ w1 = mkWorld (ticks w) (EvSleep 10 :: trace w).
Proof.
  unfold ForensicCollector.sleep_and, bind, time_sleep, ret. intros H.
  inversion H. split; reflexivity.
Qed.

Lemma size_readings_lock file_path s b a o rest :
  size_readings file_path (EvExec s (mkCmd b (stability_lock_command file_path) a) o :: rest)
  = size_readings file_path rest.
Proof.
  destruct o as [r|]; [|reflexivity].
  cbn [size_readings command_string]. rewrite lock_is_not_size. reflexivity.
Qed.

Lemma size_readings_size file_path s b a r rest :
  size_readings file_path (EvExec s (mkCmd b (stability_size_command file_path) a) (Some r) :: rest)
  = match (if Py.truthy (Py.strip (stdout r)) then Py.int_opt (Py.strip (stdout r)) else None) with
    | Some n => n :: size_readings file_path rest
    | None => size_readings file_path rest
    end.
Proof.
  cbn [size_readings command_string]. rewrite String.eqb_refl. cbn [andb].
  destruct (Py.truthy _); [|reflexivity]. reflexivity.
Qed.

Lemma size_readings_sleep file_path secs rest :
  size_readings file_path (EvSleep secs :: rest) = size_readings file_path rest.
Proof. reflexivity. Qed.

Lemma size_readings_time file_path t rest :
  size_readings file_path (EvTime t :: rest) = size_readings file_path rest.
Proof. reflexivity. Qed.

Lemma size_readings_none file_path s c rest :
  size_readings file_path (EvExec s c None :: rest) = size_readings file_path rest.
Proof. reflexivity. Qed.

Section Stability.
Context (env : Env) (session : RTRSession) (file_path : string).
Context (start_time max_wait : Q) (w0 : World).

Ltac stab_world :=
  eexists; split;
  [ cbn [trace]; match goal with Hn : trace _ = _ |- _ => rewrite Hn end;
    rewrite ?app_comm_cons; reflexivity
  | cbn [fst snd]; split; [lia|]; intros Hpos;
    repeat first [ rewrite size_readings_sleep | rewrite size_readings_time
                 | rewrite size_readings_none | rewrite size_readings_lock
                 | rewrite size_readings_size ] ].

Lemma stability_body_keeps st w st1 w1 :
  stable_so_far file_path w0 st w ->
  ForensicCollector.stability_body env session file_path start_time max_wait st w
  = (Ret (Continue st1), w1) ->
  stable_so_far file_path w0 st1 w1.
Proof.
  intros (new & Hn & Hc & Hr). destruct st as [last cnt]. cbn [fst snd] in *.
  unfold ForensicCollector.stability_body.
  fold (stability_size_command file_path). fold (stability_lock_command file_path).
  intros H.
  apply bind_ret_inv in H. destruct H as (now & w2 & Hnow & H).
  destruct (negb _); [discriminate|].
  apply bind_ret_inv in H. destruct H as (now2 & w3 & Hnow2 & H).
  apply bind_ret_inv in H. destruct H as (size_result & w4 & Hsz & H).
  unfold time_time, interact in Hnow, Hnow2.
  injection Hnow as <- <-. injection Hnow2 as <- <-.
  unfold exec, interact in Hsz. cbn [ticks trace] in Hsz.
  injection Hsz as <- <-.
  destruct (exec_resp env (S (S (ticks w)))) as [r|] eqn:Er.
  - destruct (Py.truthy (Py.strip (stdout r))) eqn:Et; cbn [negb] in H.
    + destruct (Py.int_opt (Py.strip (stdout r))) as [current|] eqn:Ei.
      * destruct ((current =? last) && (current >? 0)) eqn:Eeq.
        -- apply andb_true_iff in Eeq. destruct Eeq as [E1 E2].
           apply Z.eqb_eq in E1. subst current. apply Z.gtb_lt in E2.
           destruct (cnt + 1 >=? 3) eqn:E3.
           ++ apply bind_ret_inv in H. destruct H as (lock & w5 & Hl & H).
              unfold exec, interact in Hl. cbn [ticks trace] in Hl.
              injection Hl as <- <-.
              destruct (stdout_contains _ _); [discriminate|].
              apply sleep_and_inv in H. destruct H as [H1 ->]. injection H1 as ->.
              stab_world. rewrite Et, Ei. reflexivity.
           ++ apply sleep_and_inv in H. destruct H as [H1 ->]. injection H1 as ->.
              stab_world. rewrite Et, Ei.
              replace (Z.to_nat (cnt + 1)) with (S (Z.to_nat cnt)) by lia.
              change (firstn (S (S (Z.to_nat cnt))) (last :: ?l))
                with (last :: firstn (S (Z.to_nat cnt)) l).
              rewrite (Hr Hpos). reflexivity.
        -- destruct (current =? last) eqn:E1; cbn [negb] in H.
           ++ apply Z.eqb_eq in E1. subst current. cbn [andb] in Eeq.
              apply sleep_and_inv in H. destruct H as [H1 ->]. injection H1 as ->.
              stab_world. rewrite Z.gtb_ltb in Eeq. apply Z.ltb_ge in Eeq. exfalso. lia.
           ++ apply sleep_and_inv in H. destruct H as [H1 ->]. injection H1 as ->.
              stab_world. rewrite Et, Ei. reflexivity.
      * apply sleep_and_inv in H. destruct H as [H1 ->]. injection H1 as ->.
        stab_world. rewrite Et, Ei. exact (Hr Hpos).
    + apply sleep_and_inv in H. destruct H as [H1 ->]. injection H1 as ->.
      stab_world. rewrite Et. exact (Hr Hpos).
  - apply sleep_and_inv in H. destruct H as [H1 ->]. injection H1 as ->.
    stab_world. exact (Hr Hpos).
Qed.

Lemma stability_body_true st w w1 :
  stable_so_far file_path w0 st w ->
  ForensicCollector.stability_body env session file_path start_time max_wait st w
  = (Ret (Return true), w1) ->
  exists new lock,
    trace w1 = (EvExec session (mkCmd "runscript" (stability_lock_command file_path) true)
                  (Some lock) :: new ++ trace w0)%list /\
    Py.contains "UNLOCKED" (stdout lock) = true /\
    0 < fst st /\
    firstn 4 (size_readings file_path new) = repeat (fst st) 4.
Proof.
  intros (new & Hn & Hc & Hr). destruct st as [last cnt]. cbn [fst snd] in *.
  unfold ForensicCollector.stability_body.
  fold (stability_size_command file_path). fold (stability_lock_command file_path).
  intros H.
  apply bind_ret_inv in H. destruct H as (now & w2 & Hnow & H).
  destruct (negb _); [discriminate|].
  apply bind_ret_inv in H. destruct H as (now2 & w3 & Hnow2 & H).
  apply bind_ret_inv in H. destruct H as (size_result & w4 & Hsz & H).
  unfold time_time, interact in Hnow, Hnow2.
  injection Hnow as <- <-. injection Hnow2 as <- <-.
  unfold exec, interact in Hsz. cbn [ticks trace] in Hsz.
  injection Hsz as <- <-.
  assert (Hno : forall st' w5 w6, ForensicCollector.sleep_and st' w5 <> (Ret (Return true), w6)).
  { intros st' w5 w6 F. apply sleep_and_inv in F. destruct F as [F _]. discriminate. }
  destruct (exec_resp env (S (S (ticks w)))) as [r|] eqn:Er; [|exfalso; exact (Hno _ _ _ H)].
  destruct (Py.truthy (Py.strip (stdout r))) eqn:Et; cbn [negb] in H;
    [|exfalso; exact (Hno _ _ _ H)].
  destruct (Py.int_opt (Py.strip (stdout r))) as [current|] eqn:Ei;
    [|exfalso; exact (Hno _ _ _ H)].
  destruct ((current =? last) && (current >? 0)) eqn:Eeq.
  - apply andb_true_iff in Eeq. destruct Eeq as [E1 E2].
    apply Z.eqb_eq in E1. subst current. apply Z.gtb_lt in E2.
    destruct (cnt + 1 >=? 3) eqn:E3; [|exfalso; exact (Hno _ _ _ H)].
    apply bind_ret_inv in H. destruct H as (lock & w5 & Hl & H).
    unfold exec, interact in Hl. cbn [ticks trace] in Hl.
    injection Hl as <- <-.
    destruct (exec_resp env (S (S (S (ticks w))))) as [lock|] eqn:El;
      cbn [stdout_contains] in H; [|exfalso; exact (Hno _ _ _ H)].
    destruct (Py.contains "UNLOCKED" (stdout lock)) eqn:Eu; [|exfalso; exact (Hno _ _ _ H)].
    injection H as <-.
    eexists. exists lock. split.
    { cbn [trace]. rewrite Hn. f_equal. rewrite ?app_comm_cons. reflexivity. }
    split; [exact Eu|]. split; [exact E2|].
    rewrite size_readings_size, !size_readings_time, Et, Ei.
    specialize (Hr E2).
    assert (Hk : (2 <= Z.to_nat cnt)%nat) by lia.
    destruct (Z.to_nat cnt) as [|[|k]]; [lia|lia|].
    destruct (size_readings file_path new) as [|a [|b [|c rest]]]; try discriminate.
    cbn in Hr. injection Hr as -> -> -> _. reflexivity.
  - destruct (negb (current =? last)); exfalso; exact (Hno _ _ _ H).
Qed.

End Stability.

(** [_wait_for_file_stability] answers [True] only right after a lock
    probe that printed [UNLOCKED], and only when the four latest readable
    size readings agree on one positive size, so that the last three checks
    found the size unchanged.  Probes without an answer or without a number
    between them do not count and do not reset the tally. *)
Theorem wait_for_file_stability_true env fuel session file_path max_wait w w' :
  ForensicCollector.wait_for_file_stability env fuel session file_path max_wait w
  = (Ret true, w') ->
  exists new lock size,
    trace w' = (EvExec session (mkCmd "runscript" (stability_lock_command file_path) true)
                  (Some lock) :: new ++ trace w)%list /\
    Py.contains "UNLOCKED" (stdout lock) = true /\
    0 < size /\
    firstn 4 (size_readings file_path new) = [size; size; size; size].
Proof.
  unfold ForensicCollector.wait_for_file_stability. intros H.
  apply bind_ret_inv in H. destruct H as (start & w1 & Hs & H).
  apply bind_ret_inv in H. destruct H as (r & w2 & Hl & H).
  destruct r as [s|b]; [discriminate|]. injection H as -> ->.
  unfold time_time, interact in Hs. injection Hs as <- <-.
  apply (loop_inr_inv (stable_so_far file_path w)) in Hl.
  - destruct Hl as (s0 & w0 & Hi & Hb).
    destruct (stability_body_true _ _ _ _ _ _ _ _ _ Hi Hb) as (new & lock & Ht & Hu & Hp & Hr).
    exists new, lock, (fst s0). repeat split; assumption.
  - exists [EvTime (clock env (ticks w))]. cbn. split; [reflexivity|]. split; [lia|lia].
  - intros s0 w0 s1 w1 Hi Hb. exact (stability_body_keeps _ _ _ _ _ _ _ _ _ _ Hi Hb).
Qed.

Lemma wait_for_file_stability_true_witness :
  exists new lock size,
    trace (snd (ForensicCollector.wait_for_file_stability stable_file_env 4
                  (mkSession "s1" "aid1" 201) "C:\0x4n6nerd\temp\t.zip" 600 world0))
    = (EvExec (mkSession "s1" "aid1" 201)
         (mkCmd "runscript" (stability_lock_command "C:\0x4n6nerd\temp\t.zip") true)
         (Some lock) :: new ++ trace world0)%list /\
    Py.contains "UNLOCKED" (stdout lock) = true /\
    0 < size /\
    firstn 4 (size_readings "C:\0x4n6nerd\temp\t.zip" new) = [size; size; size; size].
Proof.
  apply (wait_for_file_stability_true stable_file_env 4 (mkSession "s1" "aid1" 201)
           "C:\0x4n6nerd\temp\t.zip" 600 world0).
  vm_compute. reflexivity.
Defined.

(** Four probes of 100 bytes, then the lock probe. *)
Example wait_for_file_stability_ex :
  let run := ForensicCollector.wait_for_file_stability stable_file_env 4
               (mkSession "s1" "aid1" 201) "C:\0x4n6nerd\temp\t.zip" 600 in
  result run = Ret true /\
  size_readings "C:\0x4n6nerd\temp\t.zip" (trace (snd (run world0))) = [100; 100; 100; 100].
Proof. vm_compute. split; reflexivity. Qed.

Lemma wait_body_true env config session p start_time u w w' :
  PreCleanup.wait_body env config session p start_time u w = (Ret (Return true), w') ->
  exists w0, PreCleanup.check_running_processes env config session p w0 = (Ret [], w').
Proof.
  unfold PreCleanup.wait_body. intros H.
  apply bind_ret_inv in H. destruct H as (now & w1 & _ & H).
  destruct (negb _); [discriminate|].
  apply bind_ret_inv in H. destruct H as (remaining & w2 & Hc & H).
  destruct remaining as [|proc rest].
  - injection H as <-. exists w1. exact Hc.
  - apply bind_ret_inv in H. destruct H as (? & ? & _ & H). discriminate.
Qed.

(** [_wait_for_process_termination] answers [True] only right after a
    process sweep that found nothing. *)
Theorem wait_for_process_termination_true env config fuel session p w w' :
  PreCleanup.wait_for_process_termination env config fuel session p w = (Ret true, w') ->
  exists w0, PreCleanup.check_running_processes env config session p w0 = (Ret [], w').
Proof.
  unfold PreCleanup.wait_for_process_termination. intros H.
  apply bind_ret_inv in H. destruct H as (start & w1 & _ & H).
  apply bind_ret_inv in H. destruct H as (r & w2 & Hl & H).
  destruct r as [s|b]; [discriminate|]. injection H as -> ->.
  apply (loop_inr_inv (fun _ _ => True)) in Hl; [|exact I|auto].
  destruct Hl as (s0 & w0 & _ & Hb).
  exact (wait_body_true _ _ _ _ _ _ _ _ Hb).
Qed.

Lemma wait_for_process_termination_true_witness :
  exists w0,
    PreCleanup.check_running_processes silent_unix_env default_config
      (mkSession "s1" "aid1" 201) LINUX w0
    = (Ret [], snd (PreCleanup.wait_for_process_termination silent_unix_env default_config 1
                      (mkSession "s1" "aid1" 201) LINUX world0)).
Proof.
  apply (wait_for_process_termination_true silent_unix_env default_config 1
           (mkSession "s1" "aid1" 201) LINUX world0).
  vm_compute. reflexivity.
Defined.

(** ** The bounds of [execute_command] *)

Lemma poll_status_bounded env remaining admin request_id w :
  exists o new k,
    fst (SessionManager.poll_status env remaining admin request_id w) = Ret o /\
    trace (snd (SessionManager.poll_status env remaining admin request_id w))
    = (new ++ trace w)%list /\
    (ticks (snd (SessionManager.poll_status env remaining admin request_id w))
     <= ticks w + remaining)%nat /\
    (k <= remaining)%nat /\ sleeps new = repeat 2%Q k.
Proof.
  revert w. induction remaining as [|n IH]; intros w.
  - exists None, [], 0%nat. cbn. repeat split; lia.
  - cbn [SessionManager.poll_status].
    unfold bind, SessionManager.check_status, interact, time_sleep.
    cbv beta iota zeta. cbn [ticks trace].
    destruct (status_resp env (ticks w)) as [[resource|]|].
    + destruct (SessionManager.get_default (res_complete resource) false).
      * eexists _, [_], 0%nat. cbn. repeat split; lia.
      * cbv beta iota zeta. cbn [ticks trace].
        match goal with
        | |- context [SessionManager.poll_status env n admin request_id ?w1] =>
            destruct (IH w1) as (o & new & k & E & T & C & K & Hs)
        end.
        cbn [ticks trace] in T, C.
        exists o, (new ++ [EvSleep (inject_Z SessionManager.command_status_check);
                           EvStatus admin request_id (Some (Some resource))])%list, (S k).
        split; [exact E|]. split; [rewrite T, <- app_assoc; reflexivity|].
        split; [lia|]. split; [lia|].
        rewrite sleeps_app, Hs. cbn [sleeps app].
        change (inject_Z SessionManager.command_status_check) with 2%Q.
        rewrite <- repeat_cons. reflexivity.
    + cbv beta iota zeta. cbn [ticks trace].
      match goal with
      | |- context [SessionManager.poll_status env n admin request_id ?w1] =>
          destruct (IH w1) as (o & new & k & E & T & C & K & Hs)
      end.
      cbn [ticks trace] in T, C.
      exists o, (new ++ [EvSleep (inject_Z SessionManager.command_status_check);
                         EvStatus admin request_id (Some None)])%list, (S k).
      split; [exact E|]. split; [rewrite T, <- app_assoc; reflexivity|].
      split; [lia|]. split; [lia|].
      rewrite sleeps_app, Hs. cbn [sleeps app].
      change (inject_Z SessionManager.command_status_check) with 2%Q.
      rewrite <- repeat_cons. reflexivity.
    + eexists None, [_], 0%nat. cbn. repeat split; lia.
Qed.

(** [execute_command] always returns: it makes at most one submission
    and 300 status checks, pauses 2 s at a time, at most 301 times, and so
    sleeps no more than 602 s. *)
Theorem execute_command_bounded env session base_command command is_admin w :
  let r := SessionManager.execute_command env session base_command command is_admin w in
  exists o new k,
    fst r = Ret o /\
    trace (snd r) = (new ++ trace w)%list /\
    (ticks (snd r) <= ticks w + 301)%nat /\
    (k <= 301)%nat /\ sleeps new = repeat 2%Q k.
Proof.
  intros r. subst r. unfold SessionManager.execute_command.
  assert (Hnone : exists o new k,
             fst (ret (A:=option CommandResult) None w) = Ret o /\
             trace (snd (ret (A:=option CommandResult) None w)) = (new ++ trace w)%list /\
             (ticks (snd (ret (A:=option CommandResult) None w)) <= ticks w + 301)%nat /\
             (k <= 301)%nat /\ sleeps new = repeat 2%Q k).
  { exists None, [], 0%nat. cbn. repeat split; lia. }
  destruct session as [session|]; [|exact Hnone].
  destruct (negb (Py.truthy base_command) || negb (Py.truthy command)); [exact Hnone|].
  destruct (negb (status_code session =? 201)); [exact Hnone|].
  unfold bind, SessionManager.submit, interact. cbv beta iota zeta.
  destruct (submit_resp env (ticks w)) as [resp|];
    [|eexists None, [_], 0%nat; cbn; repeat split; lia].
  destruct (negb (submit_status resp =? 201));
    [eexists None, [_], 0%nat; cbn; repeat split; lia|].
  destruct (submit_request_id resp) as [rid|];
    [|eexists None, [_], 0%nat; cbn; repeat split; lia].
  unfold time_sleep. cbv beta iota zeta. cbn [ticks trace].
  match goal with
  | |- context [SessionManager.poll_status env ?n is_admin rid ?w1] =>
      destruct (poll_status_bounded env n is_admin rid w1) as (o & new & k & E & T & C & K & Hs)
  end.
  cbn [ticks trace] in T, C.
  change (Z.to_nat (SessionManager.command_execution / SessionManager.command_status_check))
    with 300%nat in *.
  exists o, (new ++ [EvSleep 2;
                     EvSubmit (mkCmd base_command command is_admin)
                       (Some resp)])%list, (S k).
  split; [exact E|]. split; [rewrite T, <- app_assoc; reflexivity|].
  split; [lia|]. split; [lia|].
  rewrite sleeps_app, Hs. cbn [sleeps app]. rewrite <- repeat_cons. reflexivity.
Qed.

(** A status that never completes: 300 checks, 301 pauses. *)
Example execute_command_gives_up :
  let run := SessionManager.execute_command
               (with_rtr (fun _ => Some (mkSubmit 201 (Some "req")))
                         (fun _ => Some (Some (mkStatus (Some false) None None)))
                         quiet_env)
               (Some (mkSession "s1" "aid1" 201)) "runscript" "ls" true in
  result run = Ret None /\ List.length (sleeps (events run)) = 301%nat.
Proof. vm_compute. split; reflexivity. Qed.

(** ** Host lookup *)

Lemma lower_char_idem c : Py.lower_char (Py.lower_char c) = Py.lower_char c.
Proof. destruct c as [[] [] [] [] [] [] [] []]; reflexivity. Qed.

Lemma lower_idem s : Py.lower (Py.lower s) = Py.lower s.
Proof.
  induction s as [|c s IH]; [reflexivity|].
  cbn [Py.lower]. rewrite lower_char_idem, IH. reflexivity.
Qed.

(** A host that [get_host_by_hostname] returns comes from the first
    resource of the details answer for the IDs that the wildcard query on the
    (non-empty) name gave; its [aid] and [cid] are not empty and its platform
    is the operating-system name in lower case, which lower-casing again
    leaves alone. *)
Theorem get_host_by_hostname_sound env name w h w' :
  HostManager.get_host_by_hostname env name w = (Ret (Some h), w') ->
  name <> "" /\ aid h <> "" /\ cid h <> "" /\
  platform h = Py.lower (os_name h) /\ Py.lower (platform h) = platform h /\
  exists ids resource rest,
    ids <> [] /\
    trace w' = EvHostDetails ids (HostBody (Some (resource :: rest)))
               :: EvQueryHosts ("hostname:*'*" ++ name ++ "*'") ids :: trace w /\
    hostname h = HostManager.field (r_hostname resource).
Proof.
  unfold HostManager.get_host_by_hostname. intros H.
  destruct (Py.truthy name) eqn:Eh; cbn [negb] in H; [|discriminate].
  split; [intros ->; discriminate|].
  unfold bind, HostManager.query_hosts, HostManager.get_host_details, interact in H.
  cbv beta iota zeta in H. cbn [ticks trace] in H.
  destruct (query_resp env (ticks w)) as [|id ids] eqn:Eq; [discriminate|].
  cbv beta iota zeta in H. cbn [ticks trace] in H.
  destruct (details_resp env (S (ticks w))) as [| |[[|resource rest]|]] eqn:Ed;
    try discriminate.
  unfold ret in H. injection H as Hx <-.
  unfold HostManager.extract_host_info in Hx.
  destruct (Py.truthy (if Py.truthy _ then _ else _)) eqn:Ea; cbn [negb] in Hx; [|discriminate].
  destruct (Py.truthy (HostManager.field (r_cid resource))) eqn:Ec; cbn [negb] in Hx;
    [|discriminate].
  injection Hx as <-. cbn [aid cid platform os_name hostname].
  split; [intros E; rewrite E in Ea; discriminate|].
  split; [intros E; rewrite E in Ec; discriminate|].
  split; [reflexivity|]. split; [apply lower_idem|].
  exists (id :: ids), resource, rest. cbn [trace]. repeat split. discriminate.
Qed.

Lemma get_host_by_hostname_sound_witness :
  Py.lower "android" = "android".
Proof.
  refine (proj1 (proj2 (proj2 (proj2 (proj2
            (get_host_by_hostname_sound android_env "phone01" world0
               (mkHost "phone01" "aid-phone" "cid-1" "Android" "14" "" "android")
               (snd (HostManager.get_host_by_hostname android_env "phone01" world0))
               _)))))).
  vm_compute. reflexivity.
Defined.

(** ** The put-file repository *)

(** [upload_to_cloud] answers [True] only when the file was read and the
    one [create_put_files] call, made under the base name of the path with
    the content read, was answered without errors and with
    [resources_affected] 1. *)
Theorem upload_to_cloud_true env cid file_path comments description w w' :
  PutFiles.upload_to_cloud env cid file_path comments description w = (Ret true, w') ->
  cid <> "" /\ file_path <> "" /\
  exists content r,
    trace w' = EvCreatePutFile (PosixPath.name (PosixPath.parse file_path)) content
                 comments description (Some r)
               :: EvReadLocal file_path (FileContent content) :: trace w /\
    wr_errors r = false /\ wr_affected r = Some 1.
Proof.
  unfold PutFiles.upload_to_cloud. intros H.
  destruct (Py.truthy cid) eqn:Ec; cbn [negb] in H; [|discriminate].
  destruct (Py.truthy file_path) eqn:Ef; cbn [negb] in H; [|discriminate].
  split; [intros ->; discriminate|]. split; [intros ->; discriminate|].
  unfold bind, PutFiles.read_local, PutFiles.create_put_files, interact in H.
  cbv beta iota zeta in H. cbn [ticks trace] in H.
  destruct (local_file_resp env (ticks w)) as [| |content] eqn:El; try discriminate.
  cbv beta iota zeta in H. cbn [ticks trace] in H.
  destruct (put_write_resp env (S (ticks w))) as [r|] eqn:Ew; [|discriminate].
  destruct (wr_errors r) eqn:Ee; [discriminate|].
  unfold ret in H. injection H as Ho <-.
  exists content, r. split; [reflexivity|]. split; [exact Ee|].
  unfold PutFiles.one_affected in Ho.
  destruct (wr_affected r) as [n|]; [|discriminate].
  apply Z.eqb_eq in Ho. subst n. reflexivity.
Qed.

Lemma upload_to_cloud_true_witness :
  "cid-1" <> "" /\ "/pkg/resources/uac/uac.zip" <> "" /\
  exists content r,
    trace (snd (PutFiles.upload_to_cloud silent_unix_env "cid-1" "/pkg/resources/uac/uac.zip"
                  "UAC" "UAC package" world0))
    = EvCreatePutFile (PosixPath.name (PosixPath.parse "/pkg/resources/uac/uac.zip")) content
        "UAC" "UAC package" (Some r)
      :: EvReadLocal "/pkg/resources/uac/uac.zip" (FileContent content) :: trace world0 /\
    wr_errors r = false /\ wr_affected r = Some 1.
Proof.
  apply (upload_to_cloud_true silent_unix_env "cid-1" "/pkg/resources/uac/uac.zip"
           "UAC" "UAC package" world0).
  vm_compute. reflexivity.
Defined.



Lemma deleted_app a b : deleted (a ++ b) = (deleted a ++ deleted b)%list.
Proof.
  induction a as [|e a IH]; [reflexivity|].
  destruct e; cbn [app deleted]; try exact IH. f_equal. exact IH.
Qed.



(** The listed file is deleted under its id. *)
Example delete_from_cloud_ex :
  events (PutFiles.delete_from_cloud silent_unix_env "cid-1" "uac.zip")
  = [EvListPutFiles (Some ["id1"]);
     EvGetPutFiles ["id1"] (Some [mkPutFile (Some "uac.zip") (Some "id1")]);
     EvDeletePutFile "id1" (Some (mkWrite false (Affected 1)))].
Proof. vm_compute. reflexivity. Qed.

(** An answer with [writes] but no counter: the next file of that name
    is deleted as well. *)
Example delete_from_cloud_twice :
  let run := PutFiles.delete_from_cloud twice_listed_env "cid-1" "uac.zip" in
  result run = Ret true /\
  deleted (events run)
  = [("id1", Some (mkWrite false WritesEmpty)); ("id2", Some (mkWrite false (Affected 1)))].
Proof. vm_compute. split; reflexivity. Qed.

(** ** The session of the emergency procedure *)

Lemma through_session_quiet s evs :
  Forall (through_session s) evs ->
  sessions_started evs = [] /\ sessions_ended evs = [] /\
  forall s' c o, In (EvExec s' c o) evs -> s' = s.
Proof.
  induction 1 as [|e evs He _ IH]; [repeat split; intros ? ? ? []|].
  destruct IH as (I1 & I2 & I3).
  destruct e; cbn in He; try contradiction; cbn [sessions_started sessions_ended].
  - repeat split; try assumption.
    intros s' c o [F|Hin]; [discriminate|exact (I3 _ _ _ Hin)].
  - subst. repeat split; try assumption.
    intros s' c' o [F|Hin]; [injection F as <- _ _; reflexivity|exact (I3 _ _ _ Hin)].
Qed.

Lemma run_all_through env session cmds pause :
  emits (through_session session) (WorkspaceCleanup.run_all env session cmds pause).
Proof.
  induction cmds as [|cmd rest IH]; cbn [WorkspaceCleanup.run_all]; [apply emits_ret|].
  apply emits_bind; [apply emits_interact; intros; reflexivity|]. intros _.
  apply emits_bind; [|intros _; exact IH].
  destruct pause; [apply emits_sleep; exact I|apply emits_ret].
Qed.

(** Without a session at hand, [emergency_cleanup] opens at most one,
    sends every command through it and ends it, once, before it returns. *)
Theorem emergency_cleanup_own_session env config platform aid w :
  let r := WorkspaceCleanup.emergency_cleanup env config None platform aid w in
  exists new,
    trace (snd r) = (new ++ trace w)%list /\
    sessions_ended new = sessions_started new /\
    (List.length (sessions_started new) <= 1)%nat /\
    forall s c o, In (EvExec s c o) new -> sessions_started new = [s].
Proof.
  intros r. subst r. unfold WorkspaceCleanup.emergency_cleanup.
  assert (Hnil : forall b, exists new,
             trace (snd (ret (A:=bool) b w)) = (new ++ trace w)%list /\
             sessions_ended new = sessions_started new /\
             (List.length (sessions_started new) <= 1)%nat /\
             forall s c o, In (EvExec s c o) new -> sessions_started new = [s]).
  { intros b. exists []. cbn. repeat split; [lia|intros ? ? ? []]. }
  destruct (Platform_of (Py.lower platform)) as [p|]; [|apply Hnil].
  destruct (negb _); [apply Hnil|].
  set (path := PreCleanup.workspace_path config p).
  unfold bind at 1. unfold bind at 1. unfold start_session, interact.
  cbv beta iota zeta.
  destruct (start_resp env (ticks w)) as [s|] eqn:Es.
  - cbv beta iota zeta. unfold ret at 1.
    set (w1 := mkWorld (S (ticks w)) (EvStartSession aid (Some s) :: trace w)).
    destruct (run_all_returns env s
                (WorkspaceCleanup.emergency_termination_commands path p) None w1)
      as ([] & w2 & E2).
    destruct (run_all_through env s
                (WorkspaceCleanup.emergency_termination_commands path p) None w1)
      as (n2 & T2 & F2).
    rewrite E2 in T2. cbn [snd] in T2.
    destruct (run_all_returns env s
                (WorkspaceCleanup.emergency_commands path p) (Some (1 # 2)%Q) w2)
      as ([] & w3 & E3).
    destruct (run_all_through env s
                (WorkspaceCleanup.emergency_commands path p) (Some (1 # 2)%Q) w2)
      as (n3 & T3 & F3).
    rewrite E3 in T3. cbn [snd] in T3.
    unfold bind. rewrite E2, E3. unfold end_session, interact, ret. cbn [snd fst trace].
    exists (EvEndSession s (end_resp env (ticks w3)) :: n3 ++ n2
            ++ [EvStartSession aid (Some s)])%list.
    split.
    { rewrite T3, T2. subst w1. cbn [trace app].
      rewrite <- !app_assoc. reflexivity. }
    destruct (through_session_quiet _ _ F2) as (A2 & B2 & C2).
    destruct (through_session_quiet _ _ F3) as (A3 & B3 & C3).
    cbn [sessions_ended sessions_started].
    rewrite !sessions_ended_app, !sessions_started_app, A2, A3, B2, B3. cbn.
    split; [reflexivity|]. split; [lia|].
    intros s' c o [F|Hin]; [discriminate|].
    apply in_app_or in Hin. destruct Hin as [Hin|Hin]; [rewrite (C3 _ _ _ Hin); reflexivity|].
    apply in_app_or in Hin. destruct Hin as [Hin|[F|[]]];
      [rewrite (C2 _ _ _ Hin); reflexivity|discriminate].
  - cbv beta iota zeta. unfold ret. cbn [snd trace].
    exists [EvStartSession aid None]. cbn. repeat split; [lia|].
    intros s c o [F|[]]. discriminate.
Qed.

(** The session is opened, used for the seven Unix commands, and
    ended. *)
Example emergency_cleanup_ex :
  let run := WorkspaceCleanup.emergency_cleanup silent_unix_env default_config None
               "Linux" "aid1" in
  result run = Ret true /\
  sessions_started (events run) = [mkSession "s1" "aid1" 201] /\
  sessions_ended (events run) = [mkSession "s1" "aid1" 201] /\
  List.length (events run) = 13%nat.
Proof. vm_compute. repeat split. Qed.

(** Neither [run_kape_collection] nor [run_uac_collection] lets an
    exception escape, the one re-raised by the package preparation
    included. *)
Theorem run_collection_noraise env config fuel host_info c :
  noraise (run_collection env config fuel host_info c).
Proof.
  rewrite run_collection_eq.
  apply noraise_bind.
  - destruct c; apply noraise_try_except; apply noraise_ret.
  - intros [session|]; [|apply noraise_ret].
    apply noraise_try_finally.
    + apply noraise_try_except. apply noraise_ret.
    + unfold ForensicCollector.close_session.
      apply noraise_bind; [apply noraise_interact|intros _; apply noraise_ret].
Qed.

(** ** The registry of active sessions *)

Lemma call_keeps_registered active c :
  map_Forall ActiveSessions.registered active ->
  map_Forall ActiveSessions.registered (ActiveSessions.call active c).
Proof.
  intros H. destruct c as [device_id r|session r]; cbn [ActiveSessions.call].
  - unfold ActiveSessions.start_session.
    destruct (Py.truthy device_id) eqn:Ed; cbn [negb]; [|exact H].
    destruct r as [response|]; [|exact H].
    destruct (ActiveSessions.init_status response =? 201) eqn:E; [|exact H].
    destruct (ActiveSessions.init_session_id response) as [sid|]; [|exact H].
    cbn [snd]. apply map_Forall_insert_2; [|exact H].
    apply Z.eqb_eq in E. repeat split; [exact E|].
    cbn. intros ->. discriminate.
  - unfold ActiveSessions.end_session.
    destruct r as [status|]; [|exact H].
    destruct (status =? 204); [|exact H].
    cbn [snd]. apply map_Forall_delete. exact H.
Qed.

(** Whatever calls were made and however they were answered, every
    session in the registry sits under its own session id, carries status
    201 -- the status that [execute_command] insists on -- and names a
    device. *)
Theorem active_sessions_registered cs :
  map_Forall ActiveSessions.registered (ActiveSessions.calls cs ∅).
Proof.
  unfold ActiveSessions.calls.
  assert (H : forall active, map_Forall ActiveSessions.registered active ->
                             map_Forall ActiveSessions.registered
                               (fold_left ActiveSessions.call cs active)).
  { induction cs as [|c cs IH]; intros active Ha; [exact Ha|].
    cbn [fold_left]. apply IH. apply call_keeps_registered. exact Ha. }
  apply H. apply map_Forall_empty.
Qed.

(** Ending a session that was started on a registry without its id, with
    a deletion answered 204, gives the registry back as it was; any other
    answer leaves the session registered. *)
Theorem start_end_session_round_trip active device_id response s active' :
  active !! session_id s = None ->
  ActiveSessions.start_session active device_id response = (Some s, active') ->
  ActiveSessions.end_session active' s (Some 204) = (true, active) /\
  forall status, status <> 204 ->
    ActiveSessions.end_session active' s (Some status) = (false, active') /\
    active' !! session_id s = Some s.
Proof.
  unfold ActiveSessions.start_session. intros Hfree H.
  destruct (negb (Py.truthy device_id)); [discriminate|].
  destruct response as [r|]; [|discriminate].
  destruct (ActiveSessions.init_status r =? 201); [|discriminate].
  destruct (ActiveSessions.init_session_id r) as [sid|]; [|discriminate].
  injection H as <- <-. cbn [session_id] in *. split.
  - unfold ActiveSessions.end_session. cbn [session_id].
    change (204 =? 204) with true. cbv iota.
    unfold ActiveSessions.Registry in *.
    rewrite delete_insert_id by exact Hfree. reflexivity.
  - intros status Hs. unfold ActiveSessions.end_session.
    apply Z.eqb_neq in Hs. rewrite Hs. split; [reflexivity|].
    unfold ActiveSessions.Registry in *. apply lookup_insert_eq.
Qed.

Lemma start_end_session_round_trip_witness :
  ActiveSessions.end_session
    (<["s1" := mkSession "s1" "aid1" 201]> (∅ : ActiveSessions.Registry))
    (mkSession "s1" "aid1" 201) (Some 204)
  = (true, ∅).
Proof.
  refine (proj1 (start_end_session_round_trip ∅ "aid1"
                   (Some (ActiveSessions.mkInit 201 (Some "s1")))
                   (mkSession "s1" "aid1" 201) _ _ _)).
  - apply lookup_empty.
  - reflexivity.
Defined.

(** A refused start registers nothing; a deletion answered 500 leaves
    the session where it was. *)
Example active_sessions_ex :
  ActiveSessions.calls
    [ActiveSessions.Start "aid1" (Some (ActiveSessions.mkInit 201 (Some "s1")));
     ActiveSessions.Start "aid2" (Some (ActiveSessions.mkInit 500 (Some "s2")));
     ActiveSessions.End (mkSession "s1" "aid1" 201) (Some 500)] ∅
  = {["s1" := mkSession "s1" "aid1" 201]}.
Proof. reflexivity. Qed.

(** ** Downloads of the results *)

(** *** The local path is one that the download keeps *)

Lemma split_on_slash_free sep s :
  Forall (fun x => Py.all_chars (fun c => negb (Ascii.eqb c sep)) x = true)
         (Py.split_on sep s).
Proof.
  induction s as [|c s IH]; cbn [Py.split_on].
  - constructor; [reflexivity|constructor].
  - destruct (Ascii.eqb c sep) eqn:E.
    + constructor; [reflexivity|exact IH].
    + destruct (Py.split_on sep s) as [|h t].
      * constructor; [cbn; rewrite E; reflexivity|constructor].
      * inversion IH; subst. constructor; [cbn; rewrite E; assumption|assumption].
Qed.

Lemma split_on_no_sep sep x :
  Py.all_chars (fun c => negb (Ascii.eqb c sep)) x = true ->
  Py.split_on sep x = [x].
Proof.
  induction x as [|c x IH]; cbn; [reflexivity|].
  intros H. apply andb_true_iff in H. destruct H as [Hc H].
  apply negb_true_iff in Hc. rewrite Hc, (IH H). reflexivity.
Qed.

Lemma split_on_app_sep sep x rest :
  Py.all_chars (fun c => negb (Ascii.eqb c sep)) x = true ->
  Py.split_on sep (x ++ String sep rest) = x :: Py.split_on sep rest.
Proof.
  induction x as [|c x IH]; cbn [String.append Py.split_on].
  - intros _. rewrite Ascii.eqb_refl. reflexivity.
  - intros H. cbn in H. apply andb_true_iff in H. destruct H as [Hc H].
    apply negb_true_iff in Hc. rewrite Hc, (IH H). reflexivity.
Qed.

Lemma split_on_join ps :
  ps <> [] ->
  Forall (fun x => slash_free x = true) ps ->
  Py.split_on PosixPath.slash (Py.join "/" ps) = ps.
Proof.
  induction ps as [|x ps IH]; [congruence|]. intros _ H.
  inversion H as [|? ? Hx Hps]; subst.
  destruct ps as [|y ps].
  - cbn [Py.join]. apply split_on_no_sep. exact Hx.
  - change (Py.join "/" (x :: y :: ps)) with (x ++ String PosixPath.slash (Py.join "/" (y :: ps))).
    rewrite split_on_app_sep by exact Hx.
    rewrite IH; [reflexivity|discriminate|exact Hps].
Qed.

Lemma filter_keep_all (ps : list string) :
  Forall (fun x => PosixPath.keep_part x = true) ps ->
  List.filter PosixPath.keep_part ps = ps.
Proof.
  induction 1 as [|x ps Hx _ IH]; [reflexivity|].
  cbn [List.filter]. rewrite Hx, IH. reflexivity.
Qed.

(** The parts of a parsed path hold no slash and pass the filter. *)
Lemma parse_parts_good s :
  Forall (fun x => slash_free x = true) (PosixPath.parts (PosixPath.parse s)) /\
  Forall (fun x => PosixPath.keep_part x = true) (PosixPath.parts (PosixPath.parse s)).
Proof.
  unfold PosixPath.parse. cbn [PosixPath.parts]. split.
  - apply List.Forall_forall. intros x Hx. apply List.filter_In in Hx.
    destruct Hx as [Hx _].
    pose proof (split_on_slash_free PosixPath.slash s) as H.
    rewrite List.Forall_forall in H. exact (H x Hx).
  - apply List.Forall_forall. intros x Hx. apply List.filter_In in Hx. exact (proj2 Hx).
Qed.

Lemma parse_root_cases s :
  PosixPath.parse_root s = "" \/ PosixPath.parse_root s = "/" \/ PosixPath.parse_root s = "//".
Proof.
  unfold PosixPath.parse_root.
  destruct (Py.startswith "///" s); [right; left; reflexivity|].
  destruct (Py.startswith "//" s); [right; right; reflexivity|].
  destruct (Py.startswith "/" s); [right; left; reflexivity|left; reflexivity].
Qed.

(** Printing a path and parsing the text gives its parts again. *)
Lemma parse_str_parts r ps :
  r = "" \/ r = "/" \/ r = "//" ->
  ps <> [] ->
  Forall (fun x => slash_free x = true) ps ->
  Forall (fun x => PosixPath.keep_part x = true) ps ->
  PosixPath.parts (PosixPath.parse (PosixPath.str (PosixPath.mk r ps))) = ps.
Proof.
  intros Hr Hne Hs Hk. rewrite str_parts by exact Hne.
  unfold PosixPath.parse. cbn [PosixPath.parts].
  destruct Hr as [->|[->| ->]].
  - cbn [String.append]. rewrite split_on_join by assumption. apply filter_keep_all. exact Hk.
  - change ("/" ++ Py.join "/" ps) with (String PosixPath.slash (Py.join "/" ps)).
    cbn [Py.split_on]. rewrite Ascii.eqb_refl. cbn [List.filter PosixPath.keep_part Py.truthy andb].
    rewrite split_on_join by assumption. apply filter_keep_all. exact Hk.
  - change ("//" ++ Py.join "/" ps)
      with (String PosixPath.slash (String PosixPath.slash (Py.join "/" ps))).
    cbn [Py.split_on]. rewrite Ascii.eqb_refl.
    cbn [List.filter PosixPath.keep_part Py.truthy andb].
    rewrite split_on_join by assumption. apply filter_keep_all. exact Hk.
Qed.

Lemma last_app_nonempty {A} (l1 l2 : list A) d :
  l2 <> [] -> List.last (l1 ++ l2) d = List.last l2 d.
Proof.
  intros H. destruct l2 as [|x l2]; [congruence|].
  induction l1 as [|a l1 IH]; [reflexivity|].
  cbn [app]. destruct (l1 ++ x :: l2)%list eqn:E; [destruct l1; discriminate|].
  cbn [List.last]. cbn [List.last] in IH. exact IH.
Qed.

(** A file name with the suffix [.7z], put under any directory, gives a
    path text that [download_file] leaves as it is. *)
Lemma joined_path_kept current_dir local_filename :
  PosixPath.suffix (PosixPath.parse local_filename) = ".7z" ->
  let target := PosixPath.str (Downloads.joinpath (PosixPath.parse current_dir) local_filename) in
  FileManager.local_path_7z target = Some target.
Proof.
  intros Hsuf target.
  assert (Hne : PosixPath.parts (PosixPath.parse local_filename) <> []).
  { intros E. unfold PosixPath.suffix, PosixPath.name in Hsuf. rewrite E in Hsuf.
    discriminate. }
  destruct (parse_parts_good local_filename) as [Hs Hk].
  destruct (parse_parts_good current_dir) as [Hs0 Hk0].
  assert (Hparts : exists r ps,
             Downloads.joinpath (PosixPath.parse current_dir) local_filename
             = PosixPath.mk r (ps ++ PosixPath.parts (PosixPath.parse local_filename)) /\
             (r = "" \/ r = "/" \/ r = "//") /\
             Forall (fun x => slash_free x = true) ps /\
             Forall (fun x => PosixPath.keep_part x = true) ps).
  { unfold Downloads.joinpath. destruct (Py.startswith "/" local_filename).
    - exists (PosixPath.parse_root local_filename), [].
      split; [reflexivity|]. split; [apply parse_root_cases|]. split; constructor.
    - exists (PosixPath.parse_root current_dir), (PosixPath.parts (PosixPath.parse current_dir)).
      split; [reflexivity|]. split; [apply parse_root_cases|]. split; assumption. }
  destruct Hparts as (r & ps & Ej & Hr & Hps & Hpk).
  unfold FileManager.local_path_7z.
  assert (Hsame : PosixPath.suffix (PosixPath.parse target) = ".7z").
  { unfold PosixPath.suffix, PosixPath.name. subst target. rewrite Ej.
    rewrite parse_str_parts.
    - rewrite last_app_nonempty by exact Hne. exact Hsuf.
    - exact Hr.
    - intros E. apply app_eq_nil in E. destruct E as [_ E]. exact (Hne E).
    - apply Forall_app. split; assumption.
    - apply Forall_app. split; assumption. }
  rewrite Hsame. reflexivity.
Qed.

(** *** What the downloads add to the trace *)

(** [download_file] starts and ends no session, and writes only to the
    adjusted local path. *)
Lemma download_file_emits P env fuel session device_id remote_path local_path file_size :
  (forall e, no_write e -> keeps_sessions e -> P e) ->
  (forall p content r,
      FileManager.local_path_7z local_path = Some p -> P (EvWriteFile p content r)) ->
  emits P (FileManager.download_file env fuel session device_id remote_path local_path
             file_size).
Proof.
  intros HP HW. unfold FileManager.download_file.
  apply emits_try_except; [|apply emits_ret].
  apply (emits_bind_val _
           (fun g => match g with
                     | inl (p, _) => FileManager.local_path_7z local_path = Some p
                     | inr _ => True
                     end)).
  - apply get_phase_emits. intros []; try exact I; apply HP; exact I.
  - intros w [[p rid]|r] w' H; [|exact I]. eapply get_phase_path. exact H.
  - intros [[p rid]|r] Hp; [|apply emits_ret].
    apply emits_bind; [apply sha_phase_emits; intros []; try exact I; apply HP; exact I|].
    intros [[lp sha]|r]; [|apply emits_ret].
    apply content_phase_emits; [intros []; try exact I; apply HP; exact I|].
    intros content r. apply HW. exact Hp.
Qed.

Section DownloadEvents.
Context (env : Env) (config : Config).
Context (path_exists : string -> M bool) (st_size : string -> M Z)
        (unlink : string -> M unit) (one_percent : Z -> Q).
Context (P : Event -> Prop).
Hypothesis exists_emits : forall p, emits P (path_exists p).
Hypothesis size_emits : forall p, emits P (st_size p).
Hypothesis unlink_emits : forall p, emits P (unlink p).
Hypothesis P_quiet : forall e, no_write e -> keeps_sessions e -> P e.

Lemma cleanup_workspace_after_download_emits session host_info :
  emits P (Downloads.cleanup_workspace_after_download env config session host_info).
Proof.
  unfold Downloads.cleanup_workspace_after_download, exec.
  repeat (first [ emits_step | apply P_quiet; exact I ]).
Qed.

Lemma cleanup_workspace_after_operation_emits session host_info :
  emits P (UACCollector.cleanup_workspace_after_operation env config session host_info).
Proof.
  unfold UACCollector.cleanup_workspace_after_operation, exec.
  repeat (first [ emits_step | apply P_quiet; exact I ]).
Qed.

Lemma check_local_copy_emits path expected cleanup :
  emits P cleanup ->
  emits P (Downloads.check_local_copy path_exists st_size one_percent path expected cleanup).
Proof.
  intros Hc. unfold Downloads.check_local_copy.
  repeat (first [ apply exists_emits | apply size_emits | exact Hc | emits_step ]).
Qed.

Lemma fetch_kape_emits fuel current_dir session host_info collection_file :
  (forall p content r,
      FileManager.local_path_7z
        (PosixPath.str (Downloads.kape_local_path current_dir collection_file)) = Some p ->
      P (EvWriteFile p content r)) ->
  emits P (Downloads.fetch_kape env config path_exists st_size one_percent fuel current_dir
             session host_info collection_file).
Proof.
  intros HW. unfold Downloads.fetch_kape, exec.
  apply emits_bind; [apply emits_interact; intros ?; apply P_quiet; exact I|]. intros _.
  apply emits_bind; [apply emits_interact; intros ?; apply P_quiet; exact I|]. intros r.
  apply emits_bind; [apply download_file_emits; [exact P_quiet|exact HW]|].
  intros [|]; [|apply emits_ret].
  apply check_local_copy_emits. apply cleanup_workspace_after_download_emits.
Qed.

Lemma fetch_uac_emits fuel current_dir session host_info collection_file evidence_path :
  (forall p content r,
      FileManager.local_path_7z
        (PosixPath.str (Downloads.uac_local_path current_dir collection_file)) = Some p ->
      P (EvWriteFile p content r)) ->
  emits P (Downloads.fetch_uac env config path_exists st_size unlink one_percent fuel
             current_dir session host_info collection_file evidence_path).
Proof.
  intros HW. unfold Downloads.fetch_uac, exec.
  apply emits_bind; [apply emits_interact; intros ?; apply P_quiet; exact I|].
  intros [r|]; [|apply emits_ret].
  destruct (Py.contains "FILE_NOT_FOUND" (stdout r)); [apply emits_ret|].
  apply emits_bind; [apply exists_emits|]. intros there.
  apply emits_bind; [destruct there; [apply unlink_emits|apply emits_ret]|]. intros _.
  apply emits_bind; [apply download_file_emits; [exact P_quiet|exact HW]|].
  intros [|]; [|apply emits_ret].
  apply check_local_copy_emits. apply cleanup_workspace_after_operation_emits.
Qed.

End DownloadEvents.

Lemma close_session_noraise env session :
  noraise (ForensicCollector.close_session env session).
Proof.
  unfold ForensicCollector.close_session.
  apply noraise_bind; [apply noraise_interact|intros _; apply noraise_ret].
Qed.

(** [download_kape_results] lets no exception escape; it opens at most
    one session and, unless it runs out of fuel, ends exactly the session it
    opened, once -- whatever the download and the look at the local copy come
    to. *)
Theorem download_kape_results_closes_its_session
    env config path_exists st_size one_percent fuel current_dir host_info
    collection_file w :
  (forall p, emits keeps_sessions (path_exists p)) ->
  (forall p, emits keeps_sessions (st_size p)) ->
  let r := Downloads.download_kape_results env config path_exists st_size one_percent
             fuel current_dir host_info collection_file w in
  fst r <> Raise /\
  (fst r <> OutOfFuel ->
   exists new,
     trace (snd r) = (new ++ trace w)%list /\
     sessions_ended new = sessions_started new /\
     (List.length (sessions_started new) <= 1)%nat).
Proof.
  intros He Hs r. subst r. unfold Downloads.download_kape_results.
  unfold bind, start_session, interact. cbv beta iota zeta.
  destruct (start_resp env (ticks w)) as [session|].
  - set (w1 := mkWorld (S (ticks w)) (EvStartSession (aid host_info) (Some session) :: trace w)).
    split.
    { apply noraise_try_finally; [apply noraise_try_except; apply noraise_ret|].
      apply close_session_noraise. }
    intros Hfuel.
    assert (Hb : emits keeps_sessions
                   (Downloads.fetch_kape env config path_exists st_size one_percent fuel
                      current_dir session host_info collection_file)).
    { apply fetch_kape_emits; try assumption; intros; try assumption; exact I. }
    destruct (guarded_body_closes env _ false session w1 Hb Hfuel) as (n & E & S1 & T1).
    exists (n ++ [EvStartSession (aid host_info) (Some session)])%list.
    split; [rewrite E; subst w1; cbn [trace]; rewrite <- app_assoc; reflexivity|].
    rewrite sessions_ended_app, sessions_started_app, S1, T1. cbn. split; [reflexivity|lia].
  - split; [discriminate|]. intros _.
    exists [EvStartSession (aid host_info) None]. cbn. repeat split. lia.
Qed.

(** [download_uac_results] lets no exception escape.  Given a session it
    neither opens nor ends one; without one it opens at most one and, unless
    it runs out of fuel, ends exactly that one, once. *)
Theorem download_uac_results_sessions
    env config path_exists st_size unlink one_percent fuel current_dir host_info
    collection_file evidence_path existing_session w :
  (forall p, emits keeps_sessions (path_exists p)) ->
  (forall p, emits keeps_sessions (st_size p)) ->
  (forall p, emits keeps_sessions (unlink p)) ->
  let r := Downloads.download_uac_results env config path_exists st_size unlink
             one_percent fuel current_dir host_info collection_file evidence_path
             existing_session w in
  fst r <> Raise /\
  (fst r <> OutOfFuel ->
   exists new,
     trace (snd r) = (new ++ trace w)%list /\
     match existing_session with
     | Some _ => sessions_started new = [] /\ sessions_ended new = []
     | None =>
         sessions_ended new = sessions_started new /\
         (List.length (sessions_started new) <= 1)%nat
     end).
Proof.
  intros He Hs Hu r. subst r.
  set (ev := SessionManager.get_default evidence_path (uac_evidence_path config)).
  assert (Hb : forall session,
             emits keeps_sessions
               (Downloads.fetch_uac env config path_exists st_size unlink one_percent fuel
                  current_dir session host_info collection_file ev)).
  { intros session. apply fetch_uac_emits; try assumption; intros; try assumption; exact I. }
  destruct existing_session as [session|].
  - assert (Erun : Downloads.download_uac_results env config path_exists st_size unlink
                     one_percent fuel current_dir host_info collection_file evidence_path
                     (Some session) w
                   = try_finally
                       (try_except
                          (Downloads.fetch_uac env config path_exists st_size unlink
                             one_percent fuel current_dir session host_info collection_file
                             ev)
                          (ret false))
                       (ret tt) w) by reflexivity.
    rewrite Erun. clear Erun. split.
    { apply noraise_try_finally; [apply noraise_try_except|]; apply noraise_ret. }
    intros _.
    assert (Hk : emits keeps_sessions
                   (try_finally
                      (try_except
                         (Downloads.fetch_uac env config path_exists st_size unlink
                            one_percent fuel current_dir session host_info collection_file
                            ev)
                         (ret false))
                      (ret tt))).
    { apply emits_try_finally; [apply emits_try_except; [apply Hb|apply emits_ret]|
                                 apply emits_ret]. }
    destruct (Hk w) as (new & E & F). exists new. split; [exact E|].
    exact (keeps_sessions_log _ F).
  - destruct (start_resp env (ticks w)) as [session|] eqn:Es.
    + set (w1 := mkWorld (S (ticks w))
                   (EvStartSession (aid host_info) (Some session) :: trace w)).
      assert (Erun : Downloads.download_uac_results env config path_exists st_size unlink
                       one_percent fuel current_dir host_info collection_file
                       evidence_path None w
                     = try_finally
                         (try_except
                            (Downloads.fetch_uac env config path_exists st_size unlink
                               one_percent fuel current_dir session host_info
                               collection_file ev)
                            (ret false))
                         (ForensicCollector.close_session env session) w1).
      { unfold Downloads.download_uac_results, bind, start_session, interact.
        cbv beta iota zeta. rewrite Es. reflexivity. }
      rewrite Erun. clear Erun. split.
      { apply noraise_try_finally; [apply noraise_try_except; apply noraise_ret|].
        apply close_session_noraise. }
      intros Hfuel.
      destruct (guarded_body_closes env _ false session w1 (Hb session) Hfuel)
        as (n & E & S1 & T1).
      exists (n ++ [EvStartSession (aid host_info) (Some session)])%list.
      split; [rewrite E; subst w1; cbn [trace]; rewrite <- app_assoc; reflexivity|].
      rewrite sessions_ended_app, sessions_started_app, S1, T1. cbn.
      split; [reflexivity|lia].
    + assert (Erun : Downloads.download_uac_results env config path_exists st_size unlink
                       one_percent fuel current_dir host_info collection_file
                       evidence_path None w
                     = (Ret false,
                        mkWorld (S (ticks w))
                          (EvStartSession (aid host_info) None :: trace w))).
      { unfold Downloads.download_uac_results, bind, start_session, interact.
        cbv beta iota zeta. rewrite Es. reflexivity. }
      rewrite Erun. clear Erun. cbn [fst snd trace].
      split; [discriminate|]. intros _.
      exists [EvStartSession (aid host_info) None]. cbn. repeat split. lia.
Qed.

Lemma download_kape_results_closes_its_session_witness :
  let run := Downloads.download_kape_results kape_download_env default_config
               disk_exists disk_size (fun _ => 0%Q) 5 "/home/op" windows_host
               "2025-01-01T120000_win01-triage" in
  fst (run world0) <> Raise /\
  (fst (run world0) <> OutOfFuel ->
   exists new,
     trace (snd (run world0)) = (new ++ trace world0)%list /\
     sessions_ended new = sessions_started new /\
     (List.length (sessions_started new) <= 1)%nat).
Proof.
  apply (download_kape_results_closes_its_session kape_download_env default_config
           disk_exists disk_size (fun _ => 0%Q) 5 "/home/op" windows_host
           "2025-01-01T120000_win01-triage" world0);
    intros p; apply emits_ret.
Defined.

(** The archive is fetched, found and kept; the session is ended. *)
Example download_kape_results_ex :
  let run := Downloads.download_kape_results kape_download_env default_config
               disk_exists disk_size (fun _ => 0%Q) 5 "/home/op" windows_host
               "2025-01-01T120000_win01-triage" in
  result run = Ret true /\
  sessions_started (events run) = [mkSession "s1" "aid1" 201] /\
  sessions_ended (events run) = [mkSession "s1" "aid1" 201].
Proof. vm_compute. repeat split. Qed.

Lemma download_uac_results_sessions_witness :
  let run := Downloads.download_uac_results uac_download_env default_config
               disk_exists disk_size disk_unlink (fun _ => 0%Q) 5 "/home/op" linux_host
               "uac-h-linux-20250101120000" None
               (Some (mkSession "s0" "aid1" 201)) in
  fst (run world0) <> Raise /\
  (fst (run world0) <> OutOfFuel ->
   exists new,
     trace (snd (run world0)) = (new ++ trace world0)%list /\
     sessions_started new = [] /\ sessions_ended new = []).
Proof.
  apply (download_uac_results_sessions uac_download_env default_config
           disk_exists disk_size disk_unlink (fun _ => 0%Q) 5 "/home/op" linux_host
           "uac-h-linux-20250101120000" None (Some (mkSession "s0" "aid1" 201)) world0);
    intros p; apply emits_ret.
Defined.

(** With the caller's session the archive is fetched and no session is
    touched; without one, a session is opened and ended. *)
Example download_uac_results_ex :
  let run := fun existing =>
               Downloads.download_uac_results uac_download_env default_config
                 disk_exists disk_size disk_unlink (fun _ => 0%Q) 5 "/home/op" linux_host
                 "uac-h-linux-20250101120000" None existing in
  result (run (Some (mkSession "s0" "aid1" 201))) = Ret true /\
  sessions_ended (events (run (Some (mkSession "s0" "aid1" 201)))) = [] /\
  result (run None) = Ret true /\
  sessions_ended (events (run None)) = [mkSession "s1" "aid1" 201].
Proof. vm_compute. repeat split. Qed.

Lemma no_write_writes_to target e : no_write e -> writes_to target e.
Proof. destruct e; intros H; try exact I. contradiction. Qed.

(** Every file written during [download_kape_results] or
    [download_uac_results] is the one at the path whose existence and size
    the function looks at afterwards, provided the local file name has the
    suffix [.7z], that is, a non-empty stem before it. *)
Theorem downloads_write_checked_path
    env config path_exists st_size unlink one_percent fuel current_dir host_info
    collection_file evidence_path existing_session :
  (forall p, emits no_write (path_exists p)) ->
  (forall p, emits no_write (st_size p)) ->
  (forall p, emits no_write (unlink p)) ->
  (PosixPath.suffix
     (PosixPath.parse (Py.replace ".zip" ".7z" (Downloads.kape_collection_file collection_file)))
   = ".7z" ->
   emits (writes_to (PosixPath.str (Downloads.kape_local_path current_dir collection_file)))
     (Downloads.download_kape_results env config path_exists st_size one_percent fuel
        current_dir host_info collection_file)) /\
  (PosixPath.suffix
     (PosixPath.parse (Py.replace ".tar.gz" ".7z" (Downloads.uac_actual_file collection_file)))
   = ".7z" ->
   emits (writes_to (PosixPath.str (Downloads.uac_local_path current_dir collection_file)))
     (Downloads.download_uac_results env config path_exists st_size unlink one_percent fuel
        current_dir host_info collection_file evidence_path existing_session)).
Proof.
  intros He Hs Hu.
  assert (Hq : forall target e, no_write e -> keeps_sessions e -> writes_to target e).
  { intros target e H _. apply no_write_writes_to. exact H. }
  split; intros Hsuf.
  - pose proof (joined_path_kept current_dir _ Hsuf) as Hkept. cbv zeta in Hkept.
    fold (Downloads.kape_local_path current_dir collection_file) in Hkept.
    unfold Downloads.download_kape_results, start_session.
    apply emits_bind; [apply emits_interact; intros ?; exact I|].
    intros [session|]; [|apply emits_ret].
    apply emits_try_finally.
    + apply emits_try_except; [|apply emits_ret].
      apply fetch_kape_emits.
      * intros p. eapply emits_weaken; [apply no_write_writes_to|apply He].
      * intros p. eapply emits_weaken; [apply no_write_writes_to|apply Hs].
      * apply Hq.
      * intros p content r Hp. rewrite Hkept in Hp. injection Hp as <-. reflexivity.
    + unfold ForensicCollector.close_session, end_session.
      apply emits_bind; [apply emits_interact; intros ?; exact I|intros _; apply emits_ret].
  - pose proof (joined_path_kept current_dir _ Hsuf) as Hkept. cbv zeta in Hkept.
    fold (Downloads.uac_local_path current_dir collection_file) in Hkept.
    unfold Downloads.download_uac_results, start_session.
    apply emits_bind.
    { destruct existing_session; [apply emits_ret|].
      apply emits_bind; [apply emits_interact; intros ?; exact I|].
      intros [s|]; apply emits_ret. }
    intros [[session created]|]; [|apply emits_ret].
    apply emits_try_finally.
    + apply emits_try_except; [|apply emits_ret].
      apply fetch_uac_emits.
      * intros p. eapply emits_weaken; [apply no_write_writes_to|apply He].
      * intros p. eapply emits_weaken; [apply no_write_writes_to|apply Hs].
      * intros p. eapply emits_weaken; [apply no_write_writes_to|apply Hu].
      * apply Hq.
      * intros p content r Hp. rewrite Hkept in Hp. injection Hp as <-. reflexivity.
    + destruct created; [|apply emits_ret].
      unfold ForensicCollector.close_session, end_session.
      apply emits_bind; [apply emits_interact; intros ?; exact I|intros _; apply emits_ret].
Qed.

Lemma downloads_write_checked_path_witness :
  emits (writes_to "/home/op/2025-01-01T120000_win01-triage.7z")
    (Downloads.download_kape_results kape_download_env default_config
       disk_exists disk_size (fun _ => 0%Q) 5 "/home/op" windows_host
       "2025-01-01T120000_win01-triage").
Proof.
  refine (proj1 (downloads_write_checked_path kape_download_env default_config
                   disk_exists disk_size disk_unlink (fun _ => 0%Q) 5 "/home/op"
                   windows_host "2025-01-01T120000_win01-triage" None None _ _ _) _);
    try (intros p; apply emits_ret).
  vm_compute. reflexivity.
Defined.

(** With an empty collection name the archive is written to [.7z.7z]
    while the function looks for [.7z]. *)
Example download_kape_results_empty_name :
  let run := Downloads.download_kape_results kape_download_env default_config
               disk_exists disk_size (fun _ => 0%Q) 5 "/home/op" windows_host "" in
  PosixPath.str (Downloads.kape_local_path "/home/op" "") = "/home/op/.7z" /\
  existsb (fun e => match e with
                    | EvWriteFile path _ _ => String.eqb path "/home/op/.7z.7z"
                    | _ => false
                    end) (events run) = true.
Proof. vm_compute. split; reflexivity. Qed.

(** ** Grouping of a batch by customer *)

Lemma of_customer_app c a b :
  of_customer c (a ++ b) = (of_customer c a ++ of_customer c b)%list.
Proof. unfold of_customer. apply List.filter_app. Qed.

Lemma of_customer_none c entries :
  (forall e, In e entries -> cid (snd e) <> c) -> of_customer c entries = [].
Proof.
  induction entries as [|e rest IH]; intros H; [reflexivity|].
  unfold of_customer. cbn [List.filter].
  destruct (String.eqb_spec (cid (snd e)) c) as [E|_].
  - exfalso. exact (H e (or_introl eq_refl) E).
  - apply IH. intros e' He'. apply H. right. exact He'.
Qed.

Lemma add_host_keys c e groups :
  map fst (Orchestrator.add_host c e groups)
  = if existsb (String.eqb c) (map fst groups) then map fst groups
    else (map fst groups ++ [c])%list.
Proof.
  induction groups as [|[c' l] rest IH]; cbn [Orchestrator.add_host map existsb fst].
  - reflexivity.
  - rewrite String.eqb_sym. destruct (String.eqb c c') eqn:E; cbn [orb map fst].
    + reflexivity.
    + rewrite IH. destruct (existsb _ _); reflexivity.
Qed.

Lemma existsb_eqb_in c (keys : list string) :
  existsb (String.eqb c) keys = true <-> In c keys.
Proof.
  rewrite existsb_exists. split.
  - intros (x & Hx & E). apply String.eqb_eq in E. subst. exact Hx.
  - intros H. exists c. split; [exact H|apply String.eqb_refl].
Qed.

Lemma add_host_in c e groups c' l' :
  List.NoDup (map fst groups) ->
  In (c', l') (Orchestrator.add_host c e groups) ->
  (c' <> c /\ In (c', l') groups) \/
  (c' = c /\ ((exists l, In (c, l) groups /\ l' = (l ++ [e])%list) \/
              (~ In c (map fst groups) /\ l' = [e]))).
Proof.
  induction groups as [|[c0 l0] rest IH]; cbn [Orchestrator.add_host]; intros Hnd.
  - intros [H|[]]. injection H as <- <-. right. split; [reflexivity|].
    right. split; [intros []|reflexivity].
  - cbn [map fst] in Hnd. inversion Hnd as [|? ? Hnot Hnd']; subst.
    destruct (String.eqb_spec c0 c) as [->|Hne].
    + intros [H|H].
      * injection H as <- <-. right. split; [reflexivity|]. left.
        exists l0. split; [left; reflexivity|reflexivity].
      * left. split; [|right; exact H].
        intros ->. apply Hnot. apply in_map_iff. exists (c, l'). split; [reflexivity|exact H].
    + intros [H|H].
      * injection H as <- <-. left. split; [exact Hne|left; reflexivity].
      * destruct (IH Hnd' H) as [[Hc Hin]|[-> [(l & Hin & ->)|[Hno ->]]]].
        -- left. split; [exact Hc|right; exact Hin].
        -- right. split; [reflexivity|]. left. exists l. split; [right; exact Hin|reflexivity].
        -- right. split; [reflexivity|]. right. split; [|reflexivity].
           cbn [map fst]. intros [F|F]; [exact (Hne F)|exact (Hno F)].
Qed.

Lemma grouped_add_host groups entries e :
  grouped groups entries ->
  grouped (Orchestrator.add_host (cid (snd e)) e groups) (entries ++ [e]).
Proof.
  intros (Hnd & Hg & Hc). set (c := cid (snd e)).
  assert (Hnd' : List.NoDup (map fst groups)) by (apply NoDup_ListNoDup; exact Hnd).
  assert (Hself : of_customer c [e] = [e]).
  { unfold of_customer. cbn [List.filter]. fold c. rewrite String.eqb_refl. reflexivity. }
  assert (Hother : forall c', c' <> c -> of_customer c' [e] = []).
  { intros c' Hne. apply of_customer_none. intros e' [<-|[]]. fold c. congruence. }
  split; [|split].
  - rewrite add_host_keys. destruct (existsb (String.eqb c) (map fst groups)) eqn:E.
    + exact Hnd.
    + apply NoDup_app. split; [exact Hnd|]. split; [|apply NoDup_singleton].
      intros x Hx Hin. apply list_elem_of_In in Hx, Hin. destruct Hin as [<-|[]].
      apply existsb_eqb_in in Hx. congruence.
  - intros c' l' Hin. apply (add_host_in _ _ _ _ _ Hnd') in Hin.
    rewrite of_customer_app.
    destruct Hin as [[Hne Hin]|[-> [(l & Hin & ->)|[Hno ->]]]].
    + destruct (Hg _ _ Hin) as [H1 H2]. split; [exact H1|].
      rewrite (Hother _ Hne), app_nil_r. exact H2.
    + destruct (Hg _ _ Hin) as [H1 H2]. split; [destruct l; discriminate|].
      rewrite Hself, <- H2. reflexivity.
    + split; [discriminate|]. rewrite Hself.
      rewrite of_customer_none; [reflexivity|].
      intros e' He' E. apply Hno. rewrite <- E. apply Hc. exact He'.
  - intros e' He'. rewrite add_host_keys. apply in_app_or in He'.
    destruct (existsb (String.eqb c) (map fst groups)) eqn:E.
    + destruct He' as [He'|[<-|[]]]; [apply Hc; exact He'|].
      apply existsb_eqb_in. exact E.
    + apply in_or_app. destruct He' as [He'|[<-|[]]]; [left; apply Hc; exact He'|].
      right. left. reflexivity.
Qed.

Lemma resolved_entries_cons host_details hostname target rest :
  resolved_entries host_details ((hostname, target) :: rest)
  = match host_details !! hostname with
    | Some h => (hostname, target, h) :: resolved_entries host_details rest
    | None => resolved_entries host_details rest
    end.
Proof.
  unfold resolved_entries. cbn [omap list_omap fst snd].
  destruct (host_details !! hostname); reflexivity.
Qed.

Lemma group_kape_cached_grouped host_details targets groups entries :
  grouped groups entries ->
  grouped (Orchestrator.group_kape_cached host_details targets groups)
          (entries ++ resolved_entries host_details targets).
Proof.
  revert groups entries. induction targets as [|[hostname target] rest IH];
    intros groups entries H.
  - cbn. rewrite app_nil_r. exact H.
  - cbn [Orchestrator.group_kape_cached]. rewrite resolved_entries_cons.
    destruct (host_details !! hostname) as [h|].
    + specialize (IH _ _ (grouped_add_host groups entries (hostname, target, h) H)).
      rewrite <- app_assoc in IH. exact IH.
    + apply IH. exact H.
Qed.

(** With cached lookups, [run_kape_batch] hands every target whose host
    is known to exactly one worker, that of the host's customer: the groups
    have distinct customers, none is empty, and each lists its customer's
    targets in the order given. *)
Theorem group_kape_cached_by_customer host_details targets :
  grouped (Orchestrator.group_kape_cached host_details targets [])
          (resolved_entries host_details targets).
Proof.
  apply (group_kape_cached_grouped host_details targets [] []).
  split; [constructor|]. split; [intros ? ? []|intros ? []].
Qed.

(** ** The upload watch of the Windows collector *)

Lemma actual_wait_time_range file_size :
  300 <= ForensicCollector.actual_wait_time file_size <= 1800.
Proof. unfold ForensicCollector.actual_wait_time. lia. Qed.

(** One round of the upload watch always completes.  Whatever the file
    size, a round that starts more than 30 minutes after the upload began
    ends the watch; a round that starts within the first 5 minutes ends it
    only when the count of upload processes was read as 0. *)
Theorem upload_watch_gives_way env session start_time file_size last_pulse_time w :
  let elapsed := (clock env (ticks w) - start_time)%Q in
  exists st w',
    ForensicCollector.upload_watch_body env session start_time
      (ForensicCollector.actual_wait_time file_size) last_pulse_time w = (Ret st, w') /\
    ((1800 < elapsed)%Q -> exists lp, st = Break lp) /\
    ((elapsed <= 300)%Q -> (exists lp, st = Break lp) ->
     exists r rest,
       trace w' = EvSleep 30 :: EvExec session
                                  (mkCmd "runscript" ForensicCollector.ps_upload_check true)
                                  (Some r) :: rest /\
       stdout_number (Some r) = Some 0).
Proof.
  intros elapsed.
  pose proof (actual_wait_time_range file_size) as [Hlo Hhi].
  set (wait := ForensicCollector.actual_wait_time file_size) in *.
  assert (Hlate : (1800 < elapsed)%Q ->
                  FileManager.Qgt_bool elapsed (inject_Z wait) = true).
  { intros H. apply Qgt_bool_true. eapply Qle_lt_trans; [|exact H].
    rewrite Zle_Qle in Hhi. exact Hhi. }
  assert (Hearly : (elapsed <= 300)%Q ->
                   FileManager.Qgt_bool elapsed (inject_Z wait) = false).
  { intros H. apply Qgt_bool_false. eapply Qle_trans; [exact H|].
    rewrite Zle_Qle in Hlo. exact Hlo. }
  unfold ForensicCollector.upload_watch_body.
  unfold bind, time_time, pulse_session, exec, interact, time_sleep, ret.
  cbv beta iota zeta. cbn [ticks trace]. fold elapsed.
  assert (Hbreak : forall lp : Q, exists lp' : Q, Break (R:=unit) lp = Break lp') by eauto.
  destruct (FileManager.Qge_bool _ 300); cbv beta iota zeta; cbn [ticks trace];
    try match goal with
        | |- context [if pulse_resp env ?t then _ else _] => destruct (pulse_resp env t)
        end;
    cbv beta iota zeta; cbn [ticks trace];
    (match goal with
     | |- context [stdout_number ?x] =>
         destruct (stdout_number x) as [n|] eqn:En; [destruct (n =? 0) eqn:E0|]
     end;
     [ eexists _, _; split; [reflexivity|]; split; [intros _; apply Hbreak|];
       intros _ _;
       match type of En with
       | stdout_number ?x = _ => destruct x as [r|]; [|discriminate]
       end;
       exists r; eexists; split; [reflexivity|];
       apply Z.eqb_eq in E0; subst n; exact En
     | destruct (FileManager.Qgt_bool elapsed (inject_Z wait)) eqn:Eg;
       eexists _, _; (split; [reflexivity|]); split;
       [ intros _; apply Hbreak
       | intros He; pose proof (Hearly He); congruence
       | intros Hl; pose proof (Hlate Hl); congruence
       | intros _ (lp' & F); discriminate ]
     | destruct (FileManager.Qgt_bool elapsed (inject_Z wait)) eqn:Eg;
       eexists _, _; (split; [reflexivity|]); split;
       [ intros _; apply Hbreak
       | intros He; pose proof (Hearly He); congruence
       | intros Hl; pose proof (Hlate Hl); congruence
       | intros _ (lp' & F); discriminate ] ]).
Qed.

(** Forty minutes in, with the upload process still there, the watch
    ends. *)
Example upload_watch_late :
  fst (ForensicCollector.upload_watch_body
         (with_clock (fun _ => 2400%Q)
            (with_exec (fun _ => Some (mkResult "1" "" 0 "req" true)) quiet_env))
         (mkSession "s1" "aid1" 201) 0
         (ForensicCollector.actual_wait_time (100 * 1024 * 1024 * 1024)) 2400 world0)
  = Ret (Break 2400%Q).
Proof. vm_compute. reflexivity. Qed.

(** Two hosts of one customer and one of another: two groups, in the
    order of first appearance. *)
Example group_kape_cached_ex :
  let h := fun name c => mkHost name ("aid-" ++ name) c "Windows" "10" "" "windows" in
  let details : gmap string HostInfo :=
    <["a" := h "a" "cid1"]> (<["b" := h "b" "cid2"]> (<["c" := h "c" "cid1"]> ∅)) in
  map (fun g => (fst g, map (fun e : Orchestrator.HostEntry => fst (fst e)) (snd g)))
      (Orchestrator.group_kape_cached details
         [("a", "t"); ("ghost", "t"); ("b", "t"); ("c", "t")] [])
  = [("cid1", ["a"; "c"]); ("cid2", ["b"])].
Proof. vm_compute. reflexivity. Qed.

(** ** What a successful cleanup has seen *)

Lemma verify_cleanup_inv env session path p w b w' :
  WorkspaceCleanup.verify_cleanup env session path p w = (Ret b, w') ->
  trace w' = EvExec session (mkCmd "runscript" (cleanup_verify_command path p) true)
               (exec_resp env (ticks w)) :: EvSleep 2 :: trace w /\
  b = reads_as_gone p (exec_resp env (ticks w)).
Proof.
  unfold WorkspaceCleanup.verify_cleanup, bind, time_sleep, exec, interact.
  cbv beta iota zeta. cbn [ticks trace].
  destruct p;
    (destruct (exec_resp env (ticks w)) as [r|];
     [destruct (Py.truthy (stdout r)) eqn:Et|]);
    unfold ret; intros H; injection H as <- <-;
    cbn [cleanup_verify_command reads_as_gone trace]; rewrite ?Et; split; reflexivity.
Qed.

(** [cleanup_workspace] answers [True] only right after a verification
    probe that got no answer, printed nothing, or printed the marker of an
    absent directory: a probe that is not answered counts as success. *)
Theorem cleanup_workspace_true env config session platform preserve_evidence w w' :
  WorkspaceCleanup.cleanup_workspace env config session platform preserve_evidence w
  = (Ret true, w') ->
  exists p rest,
    Platform_of (Py.lower platform) = Some p /\
    trace w' = EvExec session
                 (mkCmd "runscript"
                    (cleanup_verify_command (PreCleanup.workspace_path config p) p) true)
                 (exec_resp env (pred (ticks w'))) :: rest /\
    reads_as_gone p (exec_resp env (pred (ticks w'))) = true.
Proof.
  unfold WorkspaceCleanup.cleanup_workspace. intros H.
  destruct (Platform_of (Py.lower platform)) as [p|]; [|discriminate].
  rewrite workspace_path_truthy in H. cbn [negb] in H.
  apply bind_ret_inv in H. destruct H as (cleanup_success & w1 & _ & H).
  destruct cleanup_success; [|discriminate].
  apply bind_ret_inv in H. destruct H as (verification_result & w2 & Hv & H).
  assert (Hlast : forall w3 w4,
             WorkspaceCleanup.verify_cleanup env session
               (PreCleanup.workspace_path config p) p w3 = (Ret true, w4) ->
             exists rest,
               trace w4 = EvExec session
                            (mkCmd "runscript"
                               (cleanup_verify_command (PreCleanup.workspace_path config p) p)
                               true)
                            (exec_resp env (pred (ticks w4))) :: rest /\
               reads_as_gone p (exec_resp env (pred (ticks w4))) = true).
  { intros w3 w4 Hw. pose proof (verify_cleanup_inv _ _ _ _ _ _ _ Hw) as [Ht Hb].
    assert (Hticks : ticks w4 = S (ticks w3)).
    { revert Hw. unfold WorkspaceCleanup.verify_cleanup, bind, time_sleep, exec, interact.
      cbv beta iota zeta. cbn [ticks trace].
      destruct (exec_resp env (ticks w3)) as [r|];
        [destruct (Py.truthy (stdout r)); [destruct p|]|];
        unfold ret; intros Hw;
        first [ discriminate | injection Hw as <-; reflexivity
              | injection Hw as _ <-; reflexivity ]. }
    rewrite Hticks. cbn [pred]. eexists. split; [exact Ht|]. symmetry. exact Hb. }
  exists p. destruct verification_result.
  - injection H as <-. destruct (Hlast _ _ Hv) as (rest & Ht & Hg).
    exists rest. repeat split; assumption.
  - unfold WorkspaceCleanup.aggressive_cleanup in H.
    apply bind_ret_inv in H. destruct H as (? & w3 & _ & H).
    apply bind_ret_inv in H. destruct H as (? & w4 & _ & H).
    destruct (Hlast _ _ H) as (rest & Ht & Hg).
    exists rest. repeat split; assumption.
Qed.

Lemma cleanup_workspace_true_witness :
  exists p rest,
    Platform_of (Py.lower "Linux") = Some p /\
    trace (snd (WorkspaceCleanup.cleanup_workspace silent_unix_env default_config
                  (mkSession "s1" "aid1" 201) "Linux" false world0))
    = EvExec (mkSession "s1" "aid1" 201)
        (mkCmd "runscript"
           (cleanup_verify_command (PreCleanup.workspace_path default_config p) p) true)
        (exec_resp silent_unix_env
           (pred (ticks (snd (WorkspaceCleanup.cleanup_workspace silent_unix_env
                                default_config (mkSession "s1" "aid1" 201) "Linux" false
                                world0))))) :: rest /\
    reads_as_gone p
      (exec_resp silent_unix_env
         (pred (ticks (snd (WorkspaceCleanup.cleanup_workspace silent_unix_env
                              default_config (mkSession "s1" "aid1" 201) "Linux" false
                              world0))))) = true.
Proof.
  apply (cleanup_workspace_true silent_unix_env default_config
           (mkSession "s1" "aid1" 201) "Linux" false world0).
  vm_compute. reflexivity.
Defined.

(** The removal goes unanswered from the second probe on: the check is
    not answered either, and the cleanup is reported as done. *)
Example cleanup_workspace_unverified :
  result (WorkspaceCleanup.cleanup_workspace
            (with_exec (fun n => if Nat.eqb n 0
                                 then Some (mkResult "" "" 0 "req" true) else None)
               quiet_env)
            default_config (mkSession "s1" "aid1" 201) "linux" false)
  = Ret true.
Proof. vm_compute. reflexivity. Qed.

(** ** From the collection to its download *)

Lemma substring_prefix_all p s k :
  (k <= String.length (fst (Re.span p s)))%nat ->
  Py.all_chars p (String.substring 0 k s) = true.
Proof.
  revert k. induction s as [|c s IH]; intros k Hk.
  - destruct k; reflexivity.
  - destruct k as [|k]; [reflexivity|].
    cbn [Re.span] in Hk. cbn [String.substring].
    destruct (p c) eqn:Hc.
    + specialize (IH k). revert Hk IH.
      destruct (Re.span p s) as [a b]. cbn [fst String.length]. intros Hk IH.
      cbn [Py.all_chars]. rewrite Hc. cbn [andb]. apply IH. lia.
    + cbn in Hk. lia.
Qed.

Lemma longest_before_triage_prefix n s host rest :
  Re.longest_before_triage n s = Some (host, rest) ->
  exists k, (k <= n)%nat /\ host = String.substring 0 k s.
Proof.
  induction n as [|n IH]; cbn [Re.longest_before_triage]; [discriminate|].
  destruct (Py.startswith "-triage" (Py.drop (S n) s)).
  - intros H. injection H as <- _. exists (S n). split; [lia|reflexivity].
  - intros H. destruct (IH H) as (k & Hk & E). exists k. split; [lia|exact E].
Qed.

Lemma digit_literal c : Py.is_digit c = true -> Re.is_literal c = true.
Proof.
  intros H. unfold Re.is_literal, Py.is_alnum. rewrite H. reflexivity.
Qed.

Lemma host_char_literal c : Re.is_host_char c = true -> Re.is_literal c = true.
Proof.
  unfold Re.is_host_char, Re.is_literal. intros H.
  apply orb_true_iff in H. destruct H as [H|H]; rewrite H; [reflexivity|].
  rewrite orb_true_r. reflexivity.
Qed.

(** What the triage pattern finds is a word of letters, digits, [-] and
    [_] that ends in [-triage]. *)
Lemma match_triage_at_shape s m :
  Re.match_triage_at s = Some m ->
  exists stem, m = stem ++ "-triage" /\ Py.all_chars Re.is_literal stem = true.
Proof.
  unfold Re.match_triage_at.
  destruct (Re.take_class Py.is_digit 4 s) as [[y s1]|] eqn:Ey; [|discriminate].
  destruct (Re.strip_prefix "-" s1) as [s2|]; [|discriminate].
  destruct (Re.take_class Py.is_digit 2 s2) as [[mo s3]|] eqn:Em; [|discriminate].
  destruct (Re.strip_prefix "-" s3) as [s4|]; [|discriminate].
  destruct (Re.take_class Py.is_digit 2 s4) as [[d s5]|] eqn:Ed; [|discriminate].
  destruct (Re.strip_prefix "T" s5) as [s6|]; [|discriminate].
  destruct (Re.span Py.is_digit s6) as [t s7] eqn:Et.
  destruct (negb (Py.truthy t)); [discriminate|].
  destruct (Re.strip_prefix "_" s7) as [s8|]; [|discriminate].
  destruct (Re.span Re.is_host_char s8) as [run s9] eqn:Er.
  destruct (Re.longest_before_triage (String.length run) s8) as [[host rest]|] eqn:El;
    [|discriminate].
  intros H. injection H as <-.
  exists (y ++ "-" ++ mo ++ "-" ++ d ++ "T" ++ t ++ "_" ++ host). split.
  - rewrite !string_app_assoc. reflexivity.
  - destruct (longest_before_triage_prefix _ _ _ _ El) as (k & Hk & ->).
    rewrite !all_chars_app.
    rewrite (all_chars_impl _ _ _ digit_literal (take_class_all _ _ _ _ _ Ey)).
    rewrite (all_chars_impl _ _ _ digit_literal (take_class_all _ _ _ _ _ Em)).
    rewrite (all_chars_impl _ _ _ digit_literal (take_class_all _ _ _ _ _ Ed)).
    rewrite (all_chars_impl _ _ _ digit_literal (span_all _ _ _ _ Et)).
    rewrite (all_chars_impl _ _ _ host_char_literal
               (substring_prefix_all Re.is_host_char s8 k
                  ltac:(rewrite Er; exact Hk))).
    reflexivity.
Qed.

Lemma search_triage_shape text m :
  Re.search_triage text = Some m ->
  exists stem, m = stem ++ "-triage" /\ Py.all_chars Re.is_literal stem = true.
Proof.
  induction text as [|c text IH]; cbn [Re.search_triage].
  - destruct (Re.match_triage_at "") eqn:E; [|discriminate].
    intros H. injection H as <-. exact (match_triage_at_shape _ _ E).
  - destruct (Re.match_triage_at (String c text)) eqn:E; [|exact IH].
    intros H. injection H as <-. exact (match_triage_at_shape _ _ E).
Qed.

Lemma literal_not_slash c :
  Re.is_literal c = true -> negb (Ascii.eqb c PosixPath.slash) = true.
Proof.
  destruct (Ascii.eqb_spec c PosixPath.slash) as [->|]; [|reflexivity].
  vm_compute. discriminate.
Qed.

Lemma replace_zip_dot_free base :
  Py.all_chars not_dot base = true ->
  Py.replace ".zip" ".7z" (base ++ ".zip") = base ++ ".7z".
Proof.
  unfold Py.replace. induction base as [|c base IH]; intros H.
  - reflexivity.
  - cbn [Py.all_chars] in H. apply andb_true_iff in H. destruct H as [Hc H].
    unfold not_dot in Hc. apply negb_true_iff in Hc.
    cbn [String.append Py.replace_from Py.startswith].
    rewrite Ascii.eqb_sym in Hc.
    rewrite Hc. cbn. f_equal. apply IH. exact H.
Qed.

Lemma split_last_dot_dot_free base ext :
  Py.all_chars not_dot base = true ->
  Py.all_chars not_dot ext = true ->
  PosixPath.split_last_dot (base ++ String "." ext) = Some (base, String "." ext).
Proof.
  intros Hb He.
  assert (Hext : PosixPath.split_last_dot ext = None).
  { clear Hb. induction ext as [|c ext IH]; [reflexivity|].
    cbn [Py.all_chars] in He. apply andb_true_iff in He. destruct He as [Hc He].
    cbn [PosixPath.split_last_dot]. rewrite (IH He).
    unfold not_dot in Hc. apply negb_true_iff in Hc. rewrite Hc. reflexivity. }
  induction base as [|c base IH].
  - cbn [String.append PosixPath.split_last_dot]. rewrite Hext. reflexivity.
  - cbn [Py.all_chars] in Hb. apply andb_true_iff in Hb. destruct Hb as [_ Hb].
    cbn [String.append PosixPath.split_last_dot]. rewrite (IH Hb). reflexivity.
Qed.

(** A collection name found by the triage pattern gives a local file
    name with the suffix [.7z]. *)
Lemma triage_name_suffix text name :
  Re.search_triage text = Some name ->
  PosixPath.suffix
    (PosixPath.parse (Py.replace ".zip" ".7z" (Downloads.kape_collection_file name)))
  = ".7z".
Proof.
  intros H. destruct (search_triage_shape _ _ H) as (stem & -> & Hl).
  set (name := stem ++ "-triage").
  assert (Hlit : Py.all_chars Re.is_literal name = true).
  { unfold name. rewrite all_chars_app, Hl. reflexivity. }
  assert (Hdot : Py.all_chars not_dot name = true)
    by exact (all_chars_impl _ _ _ literal_not_dot Hlit).
  assert (Hslash : slash_free (name ++ ".7z") = true).
  { unfold slash_free. rewrite all_chars_app.
    rewrite (all_chars_impl _ _ _ literal_not_slash Hlit). reflexivity. }
  assert (Hzip : Py.endswith ".zip" name = false).
  { unfold Py.endswith, name. rewrite rev_app. reflexivity. }
  unfold Downloads.kape_collection_file. rewrite Hzip. cbn [negb].
  rewrite (replace_zip_dot_free _ Hdot).
  unfold PosixPath.suffix, PosixPath.name, PosixPath.parse. cbn [PosixPath.parts].
  rewrite (split_on_no_sep _ _ Hslash). cbn [List.filter].
  rewrite keep_part_7z. cbn [List.last].
  unfold PosixPath.suffix_of_name.
  change (name ++ ".7z") with (name ++ String "." "7z").
  rewrite (split_last_dot_dot_free name "7z" Hdot eq_refl).
  destruct name as [|c n] eqn:En; [destruct stem; discriminate|]. reflexivity.
Qed.

Lemma try_except_ret_inv {A} (body handler : M A) w a w' :
  try_except body handler w = (Ret a, w') ->
  body w = (Ret a, w') \/ exists w1, body w = (Raise, w1) /\ handler w1 = (Ret a, w').
Proof.
  unfold try_except. destruct (body w) as [[b| |] w1]; intros H.
  - left. exact H.
  - right. exists w1. split; [reflexivity|exact H].
  - discriminate.
Qed.

Lemma try_finally_ret_inv {A} (body : M A) (fin : M unit) w a w' :
  try_finally body fin w = (Ret a, w') -> exists w1, body w = (Ret a, w1).
Proof.
  unfold try_finally. destruct (body w) as [[b| |] w1]; intros H.
  - destruct (fin w1) as [[[]| |] w2]; try discriminate.
    injection H as -> _. exists w1. reflexivity.
  - destruct (fin w1) as [[[]| |] w2]; discriminate.
  - discriminate.
Qed.

Lemma deploy_kape_name env config fuel session w name w' :
  ForensicCollector.deploy_kape env config fuel session w = (Ret (Some name), w') ->
  exists text, Re.search_triage text = Some name.
Proof.
  unfold ForensicCollector.deploy_kape. intros H.
  repeat (apply bind_ret_inv in H; destruct H as (? & ? & _ & H)).
  destruct (negb (stdout_contains _ "kape.exe")).
  - repeat (apply bind_ret_inv in H; destruct H as (? & ? & _ & H)). discriminate.
  - apply bind_ret_inv in H. destruct H as (monitored & w1 & _ & H).
    destruct (negb monitored); [discriminate|].
    apply bind_ret_inv in H. destruct H as (ls_result & w2 & _ & H).
    destruct ls_result as [r|]; [|discriminate].
    injection H as H _. exists (stdout r). exact H.
Qed.

(** Every archive name that [run_kape_collection] returns is one that
    [download_kape_results] fetches in place: the local path it passes on is
    kept by [download_file], so the file is written where it is looked for
    afterwards, whatever the current directory. *)
Theorem kape_collection_downloads_in_place
    env config fuel host_info target w name w' current_dir :
  ForensicCollector.run_kape_collection env config fuel host_info target w
  = (Ret (Some name), w') ->
  let local_file_path := PosixPath.str (Downloads.kape_local_path current_dir name) in
  FileManager.local_path_7z local_file_path = Some local_file_path.
Proof.
  intros H local_file_path.
  assert (Hname : exists text, Re.search_triage text = Some name).
  { unfold ForensicCollector.run_kape_collection in H.
    apply bind_ret_inv in H. destruct H as (staged & w1 & _ & H).
    destruct staged as [session|]; [|discriminate].
    apply try_finally_ret_inv in H. destruct H as (w2 & H).
    apply try_except_ret_inv in H. destruct H as [H|(w3 & _ & H)]; [|discriminate].
    unfold ForensicCollector.collect_kape in H.
    apply bind_ret_inv in H. destruct H as (clean & w3 & _ & H).
    destruct (negb clean); [discriminate|].
    exact (deploy_kape_name _ _ _ _ _ _ _ H). }
  destruct Hname as (text & Hs).
  exact (joined_path_kept current_dir _ (triage_name_suffix _ _ Hs)).
Qed.

Lemma kape_collection_downloads_in_place_witness :
  FileManager.local_path_7z "/home/op/2025-01-01T120000_win01-triage.7z"
  = Some "/home/op/2025-01-01T120000_win01-triage.7z".
Proof.
  apply (kape_collection_downloads_in_place kape_run_env default_config 5 windows_host
           "!SANS_Triage" world0 "2025-01-01T120000_win01-triage"
           (snd (ForensicCollector.run_kape_collection kape_run_env default_config 5
                   windows_host "!SANS_Triage" world0))
           "/home/op").
  vm_compute. reflexivity.
Defined.
